(** * Knot Resolver cache core (lib/cache/api.c): a shallow embedding

    The development follows [lib/cache/api.c].  C integers are [Z] with the
    wrap-around of their width written out, byte strings are lists of [Z]
    in [0, 256), the backend behind [cache_op] is a record of functions
    (the C vtable [struct kr_cdb_api]) and the functions that api.c calls
    but that live in other translation units are gathered in the interface
    [cache_impl] (the counterpart of lib/cache/impl.h).  Assertions are
    compiled out, as in a release build (NDEBUG): the code after a failed
    [assert] is what the model runs. *)

From Stdlib Require Import ZArith List Bool Lia.
From stdpp Require Import base option list gmap.

Open Scope Z_scope.

(** * Part I: the model *)

(** ** Machine integers *)

Module Int.

Definition u8 (z : Z) : Z := z mod 2 ^ 8.
Definition u16 (z : Z) : Z := z mod 2 ^ 16.
Definition u32 (z : Z) : Z := z mod 2 ^ 32.

(** Conversion of a 32-bit pattern to [int32_t] (two's complement). *)
Definition to_int32 (z : Z) : Z :=
  let m := z mod 2 ^ 32 in
  if m <? 2 ^ 31 then m else m - 2 ^ 32.

Definition in_u8 (z : Z) : Prop := 0 <= z < 2 ^ 8.
Definition in_u16 (z : Z) : Prop := 0 <= z < 2 ^ 16.
Definition in_u32 (z : Z) : Prop := 0 <= z < 2 ^ 32.
Definition in_int32 (z : Z) : Prop := - 2 ^ 31 <= z < 2 ^ 31.

End Int.

(** ** Byte strings and byte order *)

Module Bytes.

(** [n] bytes of [v], least significant first. *)
Fixpoint le_bytes (n : nat) (v : Z) : list Z :=
  match n with
  | O => []
  | S n' => v mod 256 :: le_bytes n' (v / 256)
  end.

Fixpoint le_value (bs : list Z) : Z :=
  match bs with
  | [] => 0
  | b :: r => b + 256 * le_value r
  end.

Definition is_byte (b : Z) : Prop := 0 <= b < 256.

(** Byte at a C index; the model reads 0 outside the buffer. *)
Definition byte_at (l : list Z) (i : Z) : Z :=
  if i <? 0 then 0 else default 0 (l !! Z.to_nat i).

(** [buf[i] = b] on a buffer of fixed size. *)
Definition poke (i : Z) (b : Z) (l : list Z) : list Z :=
  if i <? 0 then l else <[Z.to_nat i := b]> l.

(** [memcpy(buf + i, src, |src|)] on a buffer of fixed size. *)
Fixpoint poke_all (i : Z) (src : list Z) (l : list Z) : list Z :=
  match src with
  | [] => l
  | b :: r => poke_all (i + 1) r (poke i b l)
  end.

(** The [len] bytes from offset [off]. *)
Definition slice (off len : Z) (l : list Z) : list Z :=
  take (Z.to_nat len) (drop (Z.to_nat off) l).

End Bytes.

(** The byte order of the machine: [memcpy] of an integer object copies its
    host representation. *)
Class host := { big_endian : bool }.

Definition host_bytes {H : host} (n : nat) (v : Z) : list Z :=
  if big_endian then rev (Bytes.le_bytes n v) else Bytes.le_bytes n v.

Definition host_value {H : host} (bs : list Z) : Z :=
  Bytes.le_value (if big_endian then rev bs else bs).

Definition little_endian_host : host := {| big_endian := false |}.
Definition big_endian_host : host := {| big_endian := true |}.

(** ** Constants of libc and libknot *)

Definition kr_ok : Z := 0.
Definition kr_error (x : Z) : Z := if x <=? 0 then x else - x.

Definition ENOENT : Z := 2.
Definition EEXIST : Z := 17.
Definition EINVAL : Z := 22.
Definition ENOSPC : Z := 28.
Definition ENOTSUP : Z := 95.
Definition ESTALE : Z := 116.

Definition KNOT_CLASS_IN : Z := 1.

Definition KNOT_RRTYPE_NS : Z := 2.
Definition KNOT_RRTYPE_CNAME : Z := 5.
Definition KNOT_RRTYPE_SOA : Z := 6.
Definition KNOT_RRTYPE_SIG : Z := 24.
Definition KNOT_RRTYPE_DNAME : Z := 39.
Definition KNOT_RRTYPE_OPT : Z := 41.
Definition KNOT_RRTYPE_DS : Z := 43.
Definition KNOT_RRTYPE_RRSIG : Z := 46.
Definition KNOT_RRTYPE_NSEC : Z := 47.
Definition KNOT_RRTYPE_NSEC3 : Z := 50.
Definition KNOT_RRTYPE_TKEY : Z := 249.
Definition KNOT_RRTYPE_TSIG : Z := 250.
Definition KNOT_RRTYPE_IXFR : Z := 251.
Definition KNOT_RRTYPE_AXFR : Z := 252.
Definition KNOT_RRTYPE_ANY : Z := 255.

Definition KNOT_RCODE_NOERROR : Z := 0.
Definition KNOT_RCODE_NXDOMAIN : Z := 3.

Definition KNOT_ANSWER : Z := 0.
Definition KNOT_AUTHORITY : Z := 1.
Definition KNOT_ADDITIONAL : Z := 2.

Definition KNOT_DNAME_MAXLEN : Z := 255.

(** libknot's [knot_rrtype_is_metatype]. *)
Definition knot_rrtype_is_metatype (type : Z) : bool :=
  (type =? KNOT_RRTYPE_SIG) || (type =? KNOT_RRTYPE_OPT)
  || (type =? KNOT_RRTYPE_TKEY) || (type =? KNOT_RRTYPE_TSIG)
  || (type =? KNOT_RRTYPE_IXFR) || (type =? KNOT_RRTYPE_AXFR)
  || (type =? KNOT_RRTYPE_ANY).

(** Layer states of lib/layer.h. *)
Definition KR_STATE_CONSUME : Z := 1.
Definition KR_STATE_PRODUCE : Z := 2.
Definition KR_STATE_DONE : Z := 4.
Definition KR_STATE_FAIL : Z := 8.
Definition KR_STATE_YIELD : Z := 16.

(** ** Domain names in wire format

    A [knot_dname_t] is the uncompressed wire form: labels, each preceded by
    its length, closed by the zero length of the root.  A C pointer into a
    name is the suffix that starts there. *)

Definition knot_dname_t := list Z.

(** libc's [strlen]: the bytes before the first zero. *)
Fixpoint strlen (s : list Z) : Z :=
  match s with
  | [] => 0
  | c :: r => if c =? 0 then 0 else 1 + strlen r
  end.

(** libknot's [knot_wire_next_label] without compression pointers. *)
Definition knot_wire_next_label (n : knot_dname_t) : knot_dname_t :=
  drop (Z.to_nat (Bytes.byte_at n 0 + 1)) n.

(** The label walk shared by [knot_dname_size] and [knot_dname_labels]:
    while the length octet under the pointer is not zero, account for the
    label and advance past it. *)
Fixpoint dname_walk (fuel : nat) (step : Z -> Z) (n : knot_dname_t) : Z :=
  match fuel with
  | O => 0
  | S f =>
      if Bytes.byte_at n 0 =? 0 then 0
      else step (Bytes.byte_at n 0) + dname_walk f step (knot_wire_next_label n)
  end.

(** libknot's [knot_dname_size]: the wire length, the closing zero included. *)
Definition knot_dname_size (n : knot_dname_t) : Z :=
  dname_walk (length n) (fun l => l + 1) n + 1.

(** libknot's [knot_dname_labels]: the number of labels, the root excluded. *)
Definition knot_dname_labels (n : knot_dname_t) : Z :=
  dname_walk (length n) (fun _ => 1) n.

(** libknot's [knot_dname_is_equal] on uncompressed names. *)
Definition knot_dname_is_equal (a b : knot_dname_t) : bool :=
  bool_decide (Bytes.slice 0 (knot_dname_size a) a = Bytes.slice 0 (knot_dname_size b) b).

(** The wire form of a list of labels. *)
Definition dname_of_labels (ls : list (list Z)) : knot_dname_t :=
  concat (map (fun l => Z.of_nat (length l) :: l) ls) ++ [0].

(** Labels as they occur in names: 1 to 63 octets. *)
Definition wf_label (l : list Z) : Prop :=
  (0 < length l <= 63)%nat /\ Forall Bytes.is_byte l.

(** ** Resource records (libknot 2.6: every RDATA carries its TTL) *)

Record knot_rdata_t := { rd_ttl : Z; rd_data : list Z }.

Definition knot_rdataset_t := list knot_rdata_t.

Definition rr_count (rds : knot_rdataset_t) : Z := Z.of_nat (length rds).

Record knot_rrset_t := {
  owner : knot_dname_t;
  rr_type : Z;
  rclass : Z;
  rrs : knot_rdataset_t
}.

Definition knot_rdata_ttl (rd : knot_rdata_t) : Z := rd_ttl rd.

(** RRSIG RDATA (RFC 4034, 3.1): type covered (2, network order),
    algorithm (1), labels (1), original TTL (4), expiration (4),
    inception (4), key tag (2), signer's name. *)
Definition rdata_at (rds : knot_rdataset_t) (pos : nat) : list Z :=
  match rds !! pos with
  | Some rd => rd_data rd
  | None => []
  end.

Definition knot_rrsig_type_covered (rds : knot_rdataset_t) (pos : nat) : Z :=
  256 * Bytes.byte_at (rdata_at rds pos) 0 + Bytes.byte_at (rdata_at rds pos) 1.

Definition knot_rrsig_labels (rds : knot_rdataset_t) (pos : nat) : Z :=
  Bytes.byte_at (rdata_at rds pos) 3.

Definition knot_rrsig_signer_name (rds : knot_rdataset_t) (pos : nat) : knot_dname_t :=
  drop 18 (rdata_at rds pos).

(** ** Ranks (lib/resolve.h)

    [enum kr_rank] and [kr_rank_test] are declared outside lib/cache/api.c;
    the model takes the encoding as an interface. *)

Class kr_rank_enc := {
  KR_RANK_INITIAL : Z;
  KR_RANK_INSECURE : Z;
  KR_RANK_SECURE : Z;
  KR_RANK_BOGUS : Z;
  KR_RANK_AUTH : Z;
  kr_rank_test : Z -> Z -> bool
}.

(** ** Queries (lib/rplan.h) *)

Record kr_qflags := {
  NO_CACHE : bool;
  CACHE_TRIED : bool;
  CACHED : bool;
  NO_MINIMIZE : bool;
  EXPIRING : bool;
  DNSSEC_INSECURE : bool;
  DNSSEC_WANT : bool;
  STUB : bool;
  NONAUTH : bool
}.

(** [stale_cb] is the C callback [(ttl, owner, type, qry) -> int]; its last
    argument is the query that holds it, which a closure already knows.
    [timestamp] is [qry->timestamp.tv_sec]. *)
Record kr_query := {
  flags : kr_qflags;
  stype : Z;
  sclass : Z;
  sname : knot_dname_t;
  stale_cb : option (Z -> knot_dname_t -> Z -> Z);
  timestamp : Z;
  uid : Z
}.

(** ** Entry headers (lib/cache/impl.h) *)

(** Modelled from the spec: [struct entry_h] of lib/cache/impl.h, which is
    not part of the sources at hand.  The spec gives the fixed layout
    time (uint32), ttl (uint32), rank (uint8), flags (uint8: is_packet,
    has_optout, has_ns, has_cname, has_dname, has_nsec_params from bit 0
    up), data[]; integers little-endian. *)
Record entry_h := {
  eh_time : Z;
  eh_ttl : Z;
  eh_rank : Z;
  is_packet : bool;
  has_optout : bool;
  has_ns : bool;
  has_cname : bool;
  has_dname : bool;
  has_nsec_params : bool;
  eh_data : list Z
}.

(** [offsetof(struct entry_h, data)] in that layout. *)
Definition ENTRY_H_DATA : Z := 10.

(** The struct overlaid on the bytes of a value ([eh = data.data]). *)
Definition entry_h_view (v : list Z) : entry_h :=
  {| eh_time := Bytes.le_value (Bytes.slice 0 4 v);
     eh_ttl := Bytes.le_value (Bytes.slice 4 4 v);
     eh_rank := Bytes.byte_at v 8;
     is_packet := Z.testbit (Bytes.byte_at v 9) 0;
     has_optout := Z.testbit (Bytes.byte_at v 9) 1;
     has_ns := Z.testbit (Bytes.byte_at v 9) 2;
     has_cname := Z.testbit (Bytes.byte_at v 9) 3;
     has_dname := Z.testbit (Bytes.byte_at v 9) 4;
     has_nsec_params := Z.testbit (Bytes.byte_at v 9) 5;
     eh_data := drop (Z.to_nat ENTRY_H_DATA) v |}.

Definition len (v : list Z) : Z := Z.of_nat (length v).

Section EntryHeader.
Context {H : host} {R : kr_rank_enc}.

(** [entry_h_consistent], api.c:196.  The result is the header when the
    value is accepted and [None] for the C NULL. *)
Definition entry_h_consistent (data : list Z) (type : Z) : option entry_h :=
  (* Length checks. *)
  if len data <? ENTRY_H_DATA then None
  else
    let eh := entry_h_view data in
    let rank_checks :=
      let ok := true in
      let ok := ok && (negb (kr_rank_test (eh_rank eh) KR_RANK_BOGUS)
                       || is_packet eh) in
      let ok := ok && (is_packet eh || negb (has_optout eh)) in
      if ok then Some eh else None in
    if is_packet eh then
      if len data <? ENTRY_H_DATA + 2 then None
      else
        let pkt_len := host_value (Bytes.slice 0 2 (eh_data eh)) in
        if len data <? ENTRY_H_DATA + 2 + pkt_len then None
        else rank_checks
    else rank_checks.

End EntryHeader.

(** [get_new_ttl], api.c:229.  [now] and the header fields are [uint32_t];
    [diff] and [res] are [int32_t], so both subtractions wrap. *)
Definition get_new_ttl (entry : entry_h) (qry : option kr_query)
    (owner : option knot_dname_t) (type : Z) (now : Z) : Z :=
  let diff := Int.to_int32 (Int.u32 now - eh_time entry) in
  let diff := if diff <? 0 then 0 else diff in
  let res := Int.to_int32 (eh_ttl entry - diff) in
  match owner, qry with
  | Some owner, Some qry =>
      match stale_cb qry with
      | Some cb =>
          if res <? 0 then
            (* Stale-serving decision. *)
            let res_stale := cb res owner type in
            if res_stale >=? 0 then res_stale else res
          else res
      | None => res
      end
  | _, _ => res
  end.

(** [check_dname_for_lf], api.c:260. *)
Definition check_dname_for_lf (n : knot_dname_t) : bool :=
  knot_dname_size n =? strlen n + 1.

(** [check_rrtype], api.c:271. *)
Definition check_rrtype (type : Z) : bool :=
  negb (knot_rrtype_is_metatype type) && negb (type =? KNOT_RRTYPE_RRSIG).

(** ** Keys *)

(** Modelled from the spec: [KR_CACHE_KEY_MAXLEN] of lib/cache/impl.h; the
    spec sizes the key buffer as 2 + MAX_DNAME + tag + type. *)
Definition KR_CACHE_KEY_MAXLEN : Z := 2 + KNOT_DNAME_MAXLEN + 1 + 2.

(** [struct key] of lib/cache/impl.h as api.c uses it. *)
Record key := {
  zname : knot_dname_t;
  zlf_len : Z;
  k_type : Z;
  buf : list Z
}.

(** A [struct key k_storage] on the stack before anything is written. *)
Definition k_storage : key :=
  {| zname := []; zlf_len := 0; k_type := 0;
     buf := replicate (Z.to_nat KR_CACHE_KEY_MAXLEN) 0 |}.

Definition set_buf (k : key) (b : list Z) : key :=
  {| zname := zname k; zlf_len := zlf_len k; k_type := k_type k; buf := b |}.
Definition set_k_type (k : key) (t : Z) : key :=
  {| zname := zname k; zlf_len := zlf_len k; k_type := t; buf := buf k |}.
Definition set_zlf_len (k : key) (l : Z) : key :=
  {| zname := zname k; zlf_len := l; k_type := k_type k; buf := buf k |}.
Definition set_zname (k : key) (n : knot_dname_t) : key :=
  {| zname := n; zlf_len := zlf_len k; k_type := k_type k; buf := buf k |}.

Section Keys.
Context {H : host}.

(** [key_exact_type_maypkt], api.c:283.  The result is the key
    ([k->buf + 1], [name_len + 4] bytes) and the updated [*k]; the NULL key
    is the empty list. *)
Definition key_exact_type_maypkt (k : key) (type : Z) : list Z * key :=
  if type =? KNOT_RRTYPE_RRSIG then ([], k)
  else
    (* xNAME lumped into NS. *)
    let type :=
      if (type =? KNOT_RRTYPE_CNAME) || (type =? KNOT_RRTYPE_DNAME)
      then KNOT_RRTYPE_NS else type in
    let name_len := Bytes.byte_at (buf k) 0 in
    let b := Bytes.poke (name_len + 1) 0 (buf k) in
    let b := Bytes.poke (name_len + 2) 69 (* 'E' *) b in
    let b := Bytes.poke_all (name_len + 3) (host_bytes 2 type) b in
    let k := set_k_type (set_buf k b) type in
    (Bytes.slice 1 (name_len + 4) b, k).

(** [key_exact_type], api.c:308. *)
Definition key_exact_type (k : key) (type : Z) : list Z * key :=
  if (type =? KNOT_RRTYPE_NSEC) || (type =? KNOT_RRTYPE_NSEC3) then ([], k)
  else key_exact_type_maypkt k type.

End Keys.

(** ** The backend behind [cache_op] (lib/cache/cdb_api.h) *)

(** What the cache asked of its backend, oldest first.  The log is ghost
    state: no function of the model reads it. *)
Inductive cdb_event :=
  | EvCount
  | EvClear
  | EvSync
  | EvRead (k : list Z)
  | EvWrite (k v : list Z).

Section Cache.
Context {DB : Type}.

(** [struct kr_cdb_api]: the operations api.c uses.  Every operation
    returns the C [int] first (0 for success, a negative errno otherwise).
    - [cdb_open] takes the store as it lies on disk and gives the handle;
    - [cdb_read] gives the value found;
    - [cdb_write] with [None] for the data reserves [n] bytes under the key
      and with [Some v] writes [v];
    - [cdb_store] is not a call of the backend: it stands for the C stores
      through the pointer that a reserving write returned, at an offset
      into the value under the key;
    - [cdb_sync] may be missing (the C field may be NULL). *)
Record kr_cdb_api := {
  cdb_open : DB -> Z * DB;
  cdb_count : DB -> Z;
  cdb_clear : DB -> Z * DB;
  cdb_sync : option (DB -> Z * DB);
  cdb_read : DB -> list Z -> Z * list Z;
  cdb_write : DB -> list Z -> option (list Z) -> Z -> Z * DB;
  cdb_store : DB -> list Z -> Z -> list Z -> DB
}.

Record kr_cache_stats := {
  stat_hit : Z;
  stat_miss : Z;
  stat_insert : Z;
  stat_delete : Z
}.

(** [struct kr_cache] (lib/cache/api.h).  The checkpoint fields hold
    wall-clock readings and are left out. *)
Record kr_cache := {
  db : DB;
  api : kr_cdb_api;
  stats : kr_cache_stats;
  ttl_min : Z;
  ttl_max : Z;
  oplog : list cdb_event
}.

Definition set_db (c : kr_cache) (d : DB) (ev : list cdb_event) : kr_cache :=
  {| db := d; api := api c; stats := stats c; ttl_min := ttl_min c;
     ttl_max := ttl_max c; oplog := oplog c ++ ev |}.

Definition set_stats (c : kr_cache) (s : kr_cache_stats) : kr_cache :=
  {| db := db c; api := api c; stats := s; ttl_min := ttl_min c;
     ttl_max := ttl_max c; oplog := oplog c |}.

(** The macro [cache_op(cache, op, ...)], one definition per operation. *)
Definition cache_op_count (c : kr_cache) : Z * kr_cache :=
  (cdb_count (api c) (db c), set_db c (db c) [EvCount]).

Definition cache_op_clear (c : kr_cache) : Z * kr_cache :=
  let '(ret, d) := cdb_clear (api c) (db c) in
  (ret, set_db c d [EvClear]).

Definition cache_op_read (c : kr_cache) (k : list Z) : Z * list Z * kr_cache :=
  let '(ret, val) := cdb_read (api c) (db c) k in
  (ret, val, set_db c (db c) [EvRead k]).

Definition cache_op_write (c : kr_cache) (k : list Z) (v : list Z) : Z * kr_cache :=
  let '(ret, d) := cdb_write (api c) (db c) k (Some v) (len v) in
  (ret, set_db c d [EvWrite k v]).

(** [cache_clear], api.c:66. *)
Definition cache_clear (c : kr_cache) : Z * kr_cache :=
  let s := stats c in
  let c := set_stats c {| stat_hit := stat_hit s; stat_miss := stat_miss s;
                          stat_insert := stat_insert s;
                          stat_delete := Int.u32 (stat_delete s + 1) |} in
  cache_op_clear c.

(** [kr_cache_sync], api.c:146.  A [kr_cache] of the model is always valid
    (it has its [api] and [db]), so the EINVAL branch has no counterpart. *)
Definition kr_cache_sync (c : kr_cache) : Z * kr_cache :=
  match cdb_sync (api c) with
  | Some sync =>
      let '(ret, d) := sync (db c) in
      (ret, set_db c d [EvSync])
  | None => (kr_ok, c)
  end.

End Cache.

Arguments kr_cdb_api : clear implicits.
Arguments kr_cache : clear implicits.

(** [CACHE_VERSION], api.c:54. *)
Definition CACHE_VERSION : Z := 3.

(** The array [key_str[] = "\x00\x00V"] of api.c:76 with its terminator:
    the key length is [sizeof(key_str)]. *)
Definition version_key : list Z := [0; 0; 86; 0].

(** Modelled from the spec: [KR_CACHE_DEFAULT_TTL_MIN] and
    [KR_CACHE_DEFAULT_TTL_MAX] of lib/cache/api.h: 5 seconds and 6 days. *)
Definition KR_CACHE_DEFAULT_TTL_MIN : Z := 5.
Definition KR_CACHE_DEFAULT_TTL_MAX : Z := 6 * 24 * 3600.

Section Lifecycle.
Context {DB : Type} {H : host}.

(** [assert_right_version], api.c:73. *)
Definition assert_right_version (c : kr_cache DB) : Z * kr_cache DB :=
  (* Check cache ABI version *)
  let key := version_key in
  let '(ret, val, c) := cache_op_read c key in
  let '(ret, c) :=
    if (ret =? 0) && (len val =? 2)
       && bool_decide (Bytes.slice 0 2 val = host_bytes 2 CACHE_VERSION)
    then (kr_error EEXIST, c)
    else
      (* Version doesn't match. Recreate cache and write version key. *)
      let '(ret, c) := cache_op_count c in
      let '(ret, c) :=
        if negb (ret =? 0) then (* Non-empty cache, purge it. *) cache_clear c
        else (ret, c) in
      (* Either purged or empty. *)
      if ret =? 0 then cache_op_write c key (host_bytes 2 CACHE_VERSION)
      else (ret, c) in
  let '(_, c) := kr_cache_sync c in
  (ret, c).

(** [kr_cache_open], api.c:112, for a non-NULL [cache] and a given [api];
    [store] is what the backend finds on disk.  On a failed open there is
    no usable cache. *)
Definition kr_cache_open (a : kr_cdb_api DB) (store : DB) : Z * option (kr_cache DB) :=
  let '(ret, d) := cdb_open a store in
  if negb (ret =? 0) then (ret, None)
  else
    let c := {| db := d; api := a;
                stats := {| stat_hit := 0; stat_miss := 0;
                            stat_insert := 0; stat_delete := 0 |};
                ttl_min := KR_CACHE_DEFAULT_TTL_MIN;
                ttl_max := KR_CACHE_DEFAULT_TTL_MAX;
                oplog := [] |} in
    (* Check cache ABI version *)
    let '(_, c) := assert_right_version c in
    (0, Some c).

(** [kr_cache_clear], api.c:171. *)
Definition kr_cache_clear (c : kr_cache DB) : Z * kr_cache DB :=
  let '(ret, c) := cache_clear c in
  if ret =? 0 then assert_right_version c else (ret, c).

End Lifecycle.

(** ** Packets, answers, requests *)

(** A [knot_pkt_t] as the cache sees it: the question, the TC bit and the
    RCODE of the wire, the section being written, the records appended so
    far (section, record set), and the wire image when the packet was
    copied from a stored one. *)
Record knot_pkt_t := {
  pkt_qname : knot_dname_t;
  pkt_qtype : Z;
  wire_tc : bool;
  wire_rcode : Z;
  pkt_current : Z;
  pkt_rr : list (Z * knot_rrset_t);
  pkt_wire : list Z
}.

Definition knot_pkt_qtype (pkt : knot_pkt_t) : Z := pkt_qtype pkt.
Definition knot_wire_get_tc (pkt : knot_pkt_t) : bool := wire_tc pkt.

(** libknot's [knot_pkt_begin]: the section becomes the current one. *)
Definition knot_pkt_begin (pkt : knot_pkt_t) (section : Z) : Z * knot_pkt_t :=
  (0, {| pkt_qname := pkt_qname pkt; pkt_qtype := pkt_qtype pkt;
         wire_tc := wire_tc pkt; wire_rcode := wire_rcode pkt;
         pkt_current := section; pkt_rr := pkt_rr pkt;
         pkt_wire := pkt_wire pkt |}).

Definition knot_wire_set_rcode (pkt : knot_pkt_t) (rcode : Z) : knot_pkt_t :=
  {| pkt_qname := pkt_qname pkt; pkt_qtype := pkt_qtype pkt;
     wire_tc := wire_tc pkt; wire_rcode := rcode;
     pkt_current := pkt_current pkt; pkt_rr := pkt_rr pkt;
     pkt_wire := pkt_wire pkt |}.

(** One slot of [struct answer] (lib/cache/impl.h). *)
Record answer_rrset := {
  set_rr : option knot_rrset_t;
  set_rank : Z;
  set_expiring : bool;
  sig_rds : knot_rdataset_t
}.

Record answer := {
  rcode : Z;
  nsec_v : Z;
  rrsets : list answer_rrset
}.

(** Modelled from the spec: the answer accumulator of lib/cache/impl.h has
    three RR-set slots, ANSWER, AUTHORITY-NSEC and SOA. *)
Definition AR_ANSWER : Z := 0.
Definition AR_NSEC : Z := 1.
Definition AR_SOA : Z := 2.

Definition answer_slot_zero : answer_rrset :=
  {| set_rr := None; set_rank := 0; set_expiring := false; sig_rds := [] |}.

(** [memset(&ans, 0, sizeof(ans))]. *)
Definition answer_zero : answer :=
  {| rcode := 0; nsec_v := 0; rrsets := replicate 3 answer_slot_zero |}.

(** [ranked_rr_array_entry_t] (lib/utils.h), the fields the cache uses. *)
Record ranked_rr_array_entry_t := {
  qry_uid : Z;
  e_rank : Z;
  cached : bool;
  entry_rr : option knot_rrset_t
}.

Definition set_cached (e : ranked_rr_array_entry_t) : ranked_rr_array_entry_t :=
  {| qry_uid := qry_uid e; e_rank := e_rank e; cached := true;
     entry_rr := entry_rr e |}.

(** A pointer into a value of the store: the key and the offset. *)
Record db_ref := { ref_key : list Z; ref_off : Z }.

Section Requests.
Context {DB : Type}.

(** [struct kr_context]: the cache and the trust anchors. *)
Record kr_context := {
  ctx_cache : kr_cache DB;
  trust_anchors : list knot_dname_t
}.

(** [struct kr_request]; [answer_cd] is the CD bit of [req->answer->wire]
    and the three arrays are [kr_request_selected(req)]. *)
Record kr_request := {
  req_ctx : kr_context;
  current_query : option kr_query;
  answer_cd : bool;
  answ_selected : list ranked_rr_array_entry_t;
  auth_selected : list ranked_rr_array_entry_t;
  add_selected : list ranked_rr_array_entry_t
}.

(** [kr_layer_t]. *)
Record kr_layer_t := {
  state : Z;
  ctx_req : kr_request
}.

Definition set_cache (r : kr_request) (c : kr_cache DB) : kr_request :=
  {| req_ctx := {| ctx_cache := c; trust_anchors := trust_anchors (req_ctx r) |};
     current_query := current_query r; answer_cd := answer_cd r;
     answ_selected := answ_selected r; auth_selected := auth_selected r;
     add_selected := add_selected r |}.

Definition set_current_query (r : kr_request) (q : kr_query) : kr_request :=
  {| req_ctx := req_ctx r; current_query := Some q; answer_cd := answer_cd r;
     answ_selected := answ_selected r; auth_selected := auth_selected r;
     add_selected := add_selected r |}.

Definition selected (r : kr_request) (psec : Z) : list ranked_rr_array_entry_t :=
  if psec =? KNOT_ANSWER then answ_selected r
  else if psec =? KNOT_AUTHORITY then auth_selected r
  else add_selected r.

Definition set_selected (r : kr_request) (psec : Z)
    (arr : list ranked_rr_array_entry_t) : kr_request :=
  {| req_ctx := req_ctx r; current_query := current_query r; answer_cd := answer_cd r;
     answ_selected := if psec =? KNOT_ANSWER then arr else answ_selected r;
     auth_selected := if psec =? KNOT_AUTHORITY then arr else auth_selected r;
     add_selected :=
       if (psec =? KNOT_ANSWER) || (psec =? KNOT_AUTHORITY) then add_selected r
       else arr |}.

Definition set_req (l : kr_layer_t) (r : kr_request) : kr_layer_t :=
  {| state := state l; ctx_req := r |}.

(** ** The rest of the cache (lib/cache/impl.h, lib/utils.h, lib/dnssec/ta.h)

    Functions and constants that api.c uses and other files define.  Every
    function returns its C [int] first and then the objects it may have
    written through its pointer arguments.
    - [kr_dname_lf buf name add_wildcard]: the lookup format of [name] in
      [buf], its length in [buf[0]];
    - [key_NSEC1 k name add_wild]: the key of an NSEC and the new [*k];
    - [entry_h_seek val type]: [val] moved to the sub-entry for [type];
    - [entry_h_splice len rank key ktype type owner qry cache timestamp]:
      room for a new entry of [len] bytes, as a pointer into the store;
    - [rdataset_dematerialize rds]: the bytes written at the destination;
    - [entry2answer ans id val owner type new_ttl]: [val] runs from the
      entry header to [eh_bound];
    - [nsec1_encloser k ans sname_labels clencl_labels cover_low cover_hi
      qry cache] and [nsec1_src_synth] give back [*k], [*ans] and the
      out-parameters in the order of the arguments. *)
Class cache_impl := {
  kr_dname_lf : list Z -> knot_dname_t -> bool -> Z * list Z;
  key_NSEC1 : key -> knot_dname_t -> bool -> list Z * key;
  entry_h_seek : list Z -> Z -> Z * list Z;
  entry_h_splice :
    Z -> Z -> list Z -> Z -> Z -> knot_dname_t -> option kr_query ->
    kr_cache DB -> Z -> Z * db_ref * kr_cache DB;
  rdataset_dematerialize_size : option knot_rdataset_t -> Z;
  rdataset_dematerialize : option knot_rdataset_t -> Z * list Z;
  is_expiring : Z -> Z -> bool;
  pkt_renew : knot_pkt_t -> knot_dname_t -> Z -> Z * knot_pkt_t;
  pkt_append : knot_pkt_t -> answer_rrset -> Z -> Z * knot_pkt_t;
  entry2answer : answer -> Z -> list Z -> knot_dname_t -> Z -> Z -> Z * answer;
  answer_from_pkt :
    kr_layer_t -> kr_query -> knot_pkt_t -> Z -> list Z -> Z ->
    Z * kr_query * knot_pkt_t;
  stash_pkt : knot_pkt_t -> kr_query -> kr_request -> kr_request;
  nsec1_encloser :
    key -> answer -> Z -> Z -> list Z -> list Z -> kr_query -> kr_cache DB ->
    Z * key * answer * Z * list Z * list Z * kr_cache DB;
  nsec1_src_synth :
    key -> answer -> knot_dname_t -> list Z -> list Z -> kr_query ->
    kr_cache DB -> Z * key * answer * kr_cache DB;
  kr_ta_covers_qry : kr_context -> knot_dname_t -> Z -> bool;
  PKT_NOERROR : Z;
  PKT_NODATA : Z;
  PKT_NXDOMAIN : Z
}.

End Requests.

Arguments kr_context : clear implicits.
Arguments kr_request : clear implicits.
Arguments kr_layer_t : clear implicits.
Arguments cache_impl : clear implicits.

(** ** The stash path *)

Definition set_flags (q : kr_query) (f : kr_qflags) : kr_query :=
  {| flags := f; stype := stype q; sclass := sclass q; sname := sname q;
     stale_cb := stale_cb q; timestamp := timestamp q; uid := uid q |}.

(** [stash_rrset_precond], api.c:695; [None] is the NULL pointer. *)
Definition stash_rrset_precond (rr : option knot_rrset_t) : Z :=
  match rr with
  | None => kr_error EINVAL
  | Some rr =>
      if negb (rclass rr =? KNOT_CLASS_IN) then kr_error EINVAL
      else if negb (check_rrtype (rr_type rr))
              || (rr_type rr =? KNOT_RRTYPE_NSEC3) then kr_ok
      else if negb (check_dname_for_lf (owner rr)) then kr_ok
      else 1 (* proceed *)
  end.

(** The TTL loop of [stash_rrset], api.c:778: the minimum over the records
    of one set, from the running minimum [ttl]. *)
Definition min_ttl (ttl : Z) (rds : knot_rdataset_t) : Z :=
  fold_left (fun ttl rd => Z.min ttl (Int.u32 (knot_rdata_ttl rd))) rds ttl.

Section Stash.
Context {DB : Type} {H : host} {R : kr_rank_enc} {I : cache_impl DB}.

(** [stash_rrset], api.c:716, for a non-NULL [cache] and the [rr] that
    passed [stash_rrset_precond].  The result is the [ssize_t] and the
    cache. *)
Definition stash_rrset (cache : kr_cache DB) (qry : option kr_query)
    (rr : knot_rrset_t) (rr_sigs : option knot_rrset_t)
    (timestamp rank : Z) : Z * kr_cache DB :=
  let wild_labels :=
    match rr_sigs with
    | None => 0
    | Some sigs => knot_dname_labels (owner rr) - knot_rrsig_labels (rrs sigs) 0
    end in
  if wild_labels <? 0 then (kr_ok, cache)
  else
    let encloser := Nat.iter (Z.to_nat wild_labels) knot_wire_next_label (owner rr) in
    (* Construct the key under which RRs will be stored. *)
    let k := k_storage in
    let keyed : Z + (list Z * key) :=
      if rr_type rr =? KNOT_RRTYPE_NSEC then
        if negb (kr_rank_test rank KR_RANK_SECURE) then
          (* Skip any NSECs that aren't validated. *)
          inl kr_ok
        else
          match rr_sigs with
          | None => inl (kr_error EINVAL)
          | Some sigs =>
              if rr_count (rrs sigs) =? 0 then inl (kr_error EINVAL)
              else
                let k := set_zlf_len k
                  (Int.u8 (knot_dname_size (knot_rrsig_signer_name (rrs sigs) 0) - 1)) in
                inr (key_NSEC1 k encloser (negb (wild_labels =? 0)))
          end
      else
        let '(ret, b) := kr_dname_lf (buf k) encloser (negb (wild_labels =? 0)) in
        if negb (ret =? 0) then inl (kr_error ret)
        else inr (key_exact_type (set_buf k b) (rr_type rr)) in
    match keyed with
    | inl ret => (ret, cache)
    | inr (key, k) =>
        (* Compute materialized sizes of the new data. *)
        let rds_sigs := rrs <$> rr_sigs in
        let rr_ssize := rdataset_dematerialize_size (Some (rrs rr)) in
        let val_new_entry_len :=
          ENTRY_H_DATA + rr_ssize + rdataset_dematerialize_size rds_sigs in
        (* Prepare raw memory for the new entry. *)
        let '(ret, eh, cache) :=
          entry_h_splice val_new_entry_len rank key (k_type k) (rr_type rr)
            (owner rr) qry cache timestamp in
        if negb (ret =? 0) then (kr_ok, cache) (* some aren't really errors *)
        else
          (* Compute TTL, just in case they weren't equal. *)
          let ttl := Int.u32 (-1) in
          let ttl := min_ttl ttl (rrs rr) in
          let ttl := match rds_sigs with Some s => min_ttl ttl s | None => ttl end in
          (* Write the entry itself. *)
          let store off bytes d :=
            cdb_store (api cache) d (ref_key eh) (ref_off eh + off) bytes in
          let d := store 0 (Bytes.le_bytes 4 (Int.u32 timestamp)) (db cache) in
          let d := store 4
            (Bytes.le_bytes 4 (Z.max (Z.min ttl (ttl_max cache)) (ttl_min cache))) d in
          let d := store 8 [Int.u8 rank] d in
          let '(ret1, bytes1) := rdataset_dematerialize (Some (rrs rr)) in
          let d := store ENTRY_H_DATA bytes1 d in
          let '(ret2, d) :=
            if negb (ret1 =? 0) then (ret1, d)
            else
              let '(ret2, bytes2) := rdataset_dematerialize rds_sigs in
              (ret2, store (ENTRY_H_DATA + rr_ssize) bytes2 d) in
          let d :=
            if negb (ret2 =? 0) then
              (* minimize the damage from incomplete write *)
              store 8 [0] (store 4 (Bytes.le_bytes 4 0) d)
            else d in
          let cache := set_db cache d [] in
          (* Update metrics *)
          let s := stats cache in
          let cache := set_stats cache
            {| stat_hit := stat_hit s; stat_miss := stat_miss s;
               stat_insert := Int.u32 (stat_insert s + 1);
               stat_delete := stat_delete s |} in
          (val_new_entry_len, cache)
    end.

(** [kr_cache_insert_rr], api.c:157. *)
Definition kr_cache_insert_rr (cache : kr_cache DB) (rr rrsig : option knot_rrset_t)
    (rank timestamp : Z) : Z * kr_cache DB :=
  let err := stash_rrset_precond rr in
  if err <=? 0 then (kr_ok, cache)
  else
    match rr with
    | None => (kr_ok, cache)
    | Some r =>
        let '(written, cache) := stash_rrset cache None r rrsig timestamp rank in
        if written >=? 0 then (kr_ok, cache)
        else (Int.to_int32 written, cache)
    end.

(** The search for the signatures in [stash_rrarray_entry], api.c:841:
    [j] counts down from [arr->len]; the result is the index found. *)
Fixpoint find_rrsigs (arr : list ranked_rr_array_entry_t) (qry : kr_query)
    (rr : knot_rrset_t) (j : nat) : option nat :=
  match j with
  | O => None
  | S j' =>
      let ok :=
        match arr !! j' with
        | Some e =>
            (qry_uid e =? uid qry) && negb (cached e)
            && match entry_rr e with
               | Some err =>
                   (rr_type err =? KNOT_RRTYPE_RRSIG)
                   && (knot_rrsig_type_covered (rrs err) 0 =? rr_type rr)
                   && knot_dname_is_equal (owner rr) (owner err)
               | None => false
               end
        | None => false
        end in
      if ok then Some j' else find_rrsigs arr qry rr j'
  end.

(** [stash_rrarray_entry], api.c:824.  The result is the error code, the
    array, the cache and [*unauth_cnt]. *)
Definition stash_rrarray_entry (arr : list ranked_rr_array_entry_t) (arr_i : nat)
    (qry : kr_query) (cache : kr_cache DB) (unauth_cnt : Z)
    : Z * list ranked_rr_array_entry_t * kr_cache DB * Z :=
  match arr !! arr_i with
  | None => (kr_ok, arr, cache, unauth_cnt)
  | Some entry =>
      if cached entry then (kr_ok, arr, cache, unauth_cnt)
      else
        let ret := stash_rrset_precond (entry_rr entry) in
        match entry_rr entry with
        | Some rr =>
            if ret <=? 0 then (ret, arr, cache, unauth_cnt)
            else
              (* Try to find corresponding signatures, always. *)
              let entry_rrsigs := find_rrsigs arr qry rr (length arr) in
              let rr_sigs :=
                match entry_rrsigs with
                | Some j =>
                    match arr !! j with
                    | Some e => entry_rr e
                    | None => None
                    end
                | None => None
                end in
              let '(written, cache) :=
                stash_rrset cache (Some qry) rr rr_sigs (timestamp qry) (e_rank entry) in
              if written <? 0 then (Int.to_int32 written, arr, cache, unauth_cnt)
              else if written >? 0 then
                (* Mark entry as cached for the rest of the query processing *)
                let arr := alter set_cached arr_i arr in
                let arr :=
                  match entry_rrsigs with
                  | Some j => alter set_cached j arr
                  | None => arr
                  end in
                let unauth_cnt :=
                  if negb (kr_rank_test (e_rank entry) KR_RANK_AUTH)
                     && negb (rr_type rr =? KNOT_RRTYPE_NS)
                  then unauth_cnt + 1 else unauth_cnt in
                (kr_ok, arr, cache, unauth_cnt)
              else (kr_ok, arr, cache, unauth_cnt)
        | None => (ret, arr, cache, unauth_cnt)
        end
  end.

(** The inner loop of [cache_stash], api.c:668: [i] counts down from
    [arr->len]; a non-zero code stops the loop (the [goto finally]). *)
Fixpoint stash_rrarray (arr : list ranked_rr_array_entry_t) (i : nat)
    (qry : kr_query) (cache : kr_cache DB) (unauth_cnt : Z)
    : Z * list ranked_rr_array_entry_t * kr_cache DB * Z :=
  match i with
  | O => (0, arr, cache, unauth_cnt)
  | S i' =>
      let skip :=
        match arr !! i' with
        | Some entry => negb (qry_uid entry =? uid qry)
        | None => true
        end in
      if skip then stash_rrarray arr i' qry cache unauth_cnt
      else
        let '(ret, arr, cache, unauth_cnt) :=
          stash_rrarray_entry arr i' qry cache unauth_cnt in
        if negb (ret =? 0) then (ret, arr, cache, unauth_cnt)
        else stash_rrarray arr i' qry cache unauth_cnt
  end.

(** The outer loop of [cache_stash], api.c:665, over the sections
    [psecs]. *)
Fixpoint stash_sections (psecs : list Z) (req : kr_request DB) (qry : kr_query)
    (unauth_cnt : Z) : Z * kr_request DB * Z :=
  match psecs with
  | [] => (0, req, unauth_cnt)
  | psec :: rest =>
      let arr := selected req psec in
      let '(ret, arr, cache, unauth_cnt) :=
        stash_rrarray arr (length arr) qry (ctx_cache (req_ctx req)) unauth_cnt in
      let req := set_cache (set_selected req psec arr) cache in
      if negb (ret =? 0) then (ret, req, unauth_cnt)
      else stash_sections rest req qry unauth_cnt
  end.

(** [cache_stash], api.c:645.  The result is the state returned and the
    layer context with what the call changed behind [ctx->req]. *)
Definition cache_stash (ctx : kr_layer_t DB) (pkt : knot_pkt_t) : Z * kr_layer_t DB :=
  let req := ctx_req ctx in
  match current_query req with
  | None => (state ctx, ctx)
  | Some qry =>
      if CACHED (flags qry) || negb (check_rrtype (knot_pkt_qtype pkt))
         || negb (sclass qry =? KNOT_CLASS_IN)
      then (state ctx, ctx)
      (* Do not cache truncated answers, at least for now. *)
      else if knot_wire_get_tc pkt then (state ctx, ctx)
      else
        (* Stash individual records. *)
        let '(ret, req, unauth_cnt) :=
          stash_sections [KNOT_ANSWER; KNOT_AUTHORITY; KNOT_ADDITIONAL] req qry 0 in
        let req := if ret =? 0 then stash_pkt pkt qry req else req in
        (* finally: *)
        let '(_, cache) := kr_cache_sync (ctx_cache (req_ctx req)) in
        let req := set_cache req cache in
        (state ctx, set_req ctx req) (* we ignore cache-stashing errors *)
  end.

End Stash.

(** ** The peek path *)

(** What the scan of one NS-keyed entry in [closest_NS] ends with: the
    type that fits and its sub-entry, [goto next_label], the
    [return VAL_EMPTY] of the switch's default case, or no more fuel. *)
Inductive scan_result :=
  | ScanFound (type : Z) (val : list Z)
  | ScanNextLabel
  | ScanAbort
  | ScanOutOfFuel.

Definition slot (ans : answer) (i : Z) : answer_rrset :=
  default answer_slot_zero (rrsets ans !! Z.to_nat i).

Section Peek.
Context {DB : Type} {H : host} {R : kr_rank_enc} {I : cache_impl DB}.

(** [get_lowest_rank], api.c:1172. *)
Definition get_lowest_rank (req : kr_request DB) (qry : kr_query) : Z :=
  let allow_unverified := answer_cd req || STUB (flags qry) in
  let fallthrough := Z.lor KR_RANK_INITIAL KR_RANK_AUTH in
  if NONAUTH (flags qry) then KR_RANK_INITIAL
  else if negb allow_unverified then
    let ta_covers := kr_ta_covers_qry (req_ctx req) (sname qry) (stype qry) in
    if ta_covers then Z.lor KR_RANK_INSECURE KR_RANK_AUTH
    else fallthrough
  else fallthrough.

(** [answer_simple_hit], api.c:874.  [val] runs from [eh] to [eh_bound];
    the result is the code, the query and the packet. *)
Definition answer_simple_hit (ctx : kr_layer_t DB) (qry : kr_query) (pkt : knot_pkt_t)
    (type : Z) (val : list Z) (new_ttl : Z) : Z * kr_query * knot_pkt_t :=
  let eh := entry_h_view val in
  let new_ttl := Int.u32 new_ttl in
  (* All OK, so start constructing the (pseudo-)packet. *)
  let '(ret, pkt) := pkt_renew pkt (sname qry) (stype qry) in
  if ret <? 0 then (kr_error ret, qry, pkt)
  else
    (* Materialize the sets for the answer in (pseudo-)packet. *)
    let ans := answer_zero in
    let '(ret, ans) := entry2answer ans AR_ANSWER val (sname qry) type new_ttl in
    if ret <? 0 then (kr_error ret, qry, pkt)
    else
      (* Put links to the materialized data into the pkt. *)
      let '(ret, pkt) := pkt_append pkt (slot ans AR_ANSWER) (eh_rank eh) in
      if ret <? 0 then (kr_error ret, qry, pkt)
      else
        (* Finishing touches. *)
        let f := flags qry in
        let insecure := kr_rank_test (eh_rank eh) KR_RANK_INSECURE in
        let f :=
          {| NO_CACHE := NO_CACHE f; CACHE_TRIED := CACHE_TRIED f;
             CACHED := true; NO_MINIMIZE := true;
             EXPIRING := is_expiring (eh_ttl eh) new_ttl;
             DNSSEC_INSECURE := insecure;
             DNSSEC_WANT := if insecure then false else DNSSEC_WANT f;
             STUB := STUB f; NONAUTH := NONAUTH f |} in
        (kr_ok, set_flags qry f, pkt).

(** [found_exact_hit], api.c:913. *)
Definition found_exact_hit (ctx : kr_layer_t DB) (qry : kr_query) (pkt : knot_pkt_t)
    (val : list Z) (lowest_rank : Z) : Z * kr_query * knot_pkt_t :=
  let '(ret, val) := entry_h_seek val (stype qry) in
  if negb (ret =? 0) then (ret, qry, pkt)
  else
    match entry_h_consistent val (stype qry) with
    | None => (kr_error ENOENT, qry, pkt)
    | Some eh =>
        let new_ttl :=
          get_new_ttl eh (Some qry) (Some (sname qry)) (stype qry) (timestamp qry) in
        if (new_ttl <? 0) || (eh_rank eh <? lowest_rank) then
          (* Positive record with stale TTL or bad rank. *)
          (kr_error ENOENT, qry, pkt)
        else if is_packet eh then
          answer_from_pkt ctx qry pkt (stype qry) val new_ttl
        else
          answer_simple_hit ctx qry pkt (stype qry) val new_ttl
    end.

(** The inner loop of [closest_NS], api.c:1092: [type] runs through
    0, NS, CNAME, DNAME.  Next to the outcome the function gives the types
    whose sub-entry was looked at (the code from "Find the entry for the
    type" on), in that order; this list is ghost state. *)
Fixpoint closest_NS_types (fuel : nat) (type : Z) (exact_match : bool)
    (qry : kr_query) (zname : knot_dname_t) (eh_orig : entry_h)
    (val_orig : list Z) (examined : list Z) : scan_result * list Z :=
  let rank_min := Z.lor KR_RANK_INSECURE KR_RANK_AUTH in
  if type =? KNOT_RRTYPE_DNAME then (ScanNextLabel, examined)
  else
    match fuel with
    | O => (ScanOutOfFuel, examined)
    | S fuel =>
        (* Determine the next type to try: the new [type], and whether the
           switch leaves by [continue]. *)
        let next : option (Z * bool) :=
          if type =? 0 then
            Some (KNOT_RRTYPE_NS,
                  negb (has_ns eh_orig)
                  (* On a zone cut we want DS from the parent zone. *)
                  || (exact_match && (stype qry =? KNOT_RRTYPE_DS)))
          else if type =? KNOT_RRTYPE_NS then
            (* CNAME is interesting only if we directly hit the name that
               was asked.  Note that we want it even in the DS case. *)
            Some (KNOT_RRTYPE_CNAME, negb (has_cname eh_orig) || negb exact_match)
          else if type =? KNOT_RRTYPE_CNAME then
            (* DNAME is interesting only if we did NOT directly hit the
               name that was asked. *)
            Some (KNOT_RRTYPE_DNAME, negb (has_dname eh_orig) || exact_match)
          else None in
        match next with
        | None => (ScanAbort, examined)
        | Some (type, true) =>
            closest_NS_types fuel type exact_match qry zname eh_orig val_orig examined
        | Some (type, false) =>
            (* Find the entry for the type, check positivity, TTL *)
            let examined := examined ++ [type] in
            let '(ret, val) := entry_h_seek val_orig type in
            match (if ret =? 0 then entry_h_consistent val type else None) with
            | None => (ScanNextLabel, examined)
            | Some eh =>
                let new_ttl :=
                  get_new_ttl eh (Some qry) (Some zname) type (timestamp qry) in
                if (new_ttl <? 0)
                   (* Not interested in negative or bogus. *)
                   || is_packet eh
                   (* For NS any kr_rank is accepted,
                      as insecure or even nonauth is OK *)
                   || (negb (type =? KNOT_RRTYPE_NS) && (eh_rank eh <? rank_min))
                then
                  closest_NS_types fuel type exact_match qry zname eh_orig val_orig
                    examined
                else
                  (* We found our match. *)
                  (ScanFound type val, examined)
            end
        end
    end.

(** The outer loop of [closest_NS], api.c:1071.  One step of the trace is
    the value of [exact_match] and the types looked at in that step. *)
Fixpoint closest_NS_loop (fuel : nat) (cache : kr_cache DB) (qry : kr_query)
    (k : key) (zlf_len : Z) (exact_match : bool) (trace : list (bool * list Z))
    : option (option (list Z) * key * kr_cache DB * list (bool * list Z)) :=
  match fuel with
  | O => None
  | S fuel =>
      let k := set_buf k (Bytes.poke 0 (Int.u8 zlf_len) (buf k)) in
      let '(key, k) := key_exact_type k KNOT_RRTYPE_NS in
      let '(ret, val, cache) := cache_op_read cache key in
      let scan :=
        if ret =? - Z.abs ENOENT then (ScanNextLabel, [])
        else if negb (ret =? 0) then (ScanAbort, [])
        else
          (* Check consistency, find any type *)
          match entry_h_consistent val KNOT_RRTYPE_NS with
          | None => (ScanNextLabel, [])
          | Some eh_orig =>
              (* More types are possible; try in order. *)
              closest_NS_types 3 0 exact_match qry (zname k) eh_orig val []
          end in
      let trace := trace ++ [(exact_match, snd scan)] in
      match fst scan with
      | ScanFound type val =>
          (* We found our match. *)
          Some (Some val, set_zlf_len (set_k_type k type) (Int.u8 zlf_len), cache, trace)
      | ScanAbort | ScanOutOfFuel => Some (None, k, cache, trace)
      | ScanNextLabel =>
          (* remove one more label *)
          if Bytes.byte_at (zname k) 0 =? 0 then
            (* We miss root NS in cache, but let's at least assume it exists. *)
            Some (None, set_zlf_len (set_k_type k KNOT_RRTYPE_NS) (Int.u8 zlf_len),
                  cache, trace)
          else
            let zlf_len := zlf_len - (Bytes.byte_at (zname k) 0 + 1) in
            let k := set_zname k (knot_wire_next_label (zname k)) in
            let k := set_buf k (Bytes.poke (zlf_len + 1) 0 (buf k)) in
            closest_NS_loop fuel cache qry k zlf_len false trace
      end
  end.

(** [closest_NS], api.c:1058: the value found ([None] for VAL_EMPTY), the
    key, the cache and the trace.  The loop drops a label of [k->zname] in
    every round, so the length of the name bounds the rounds. *)
Definition closest_NS (cache : kr_cache DB) (qry : kr_query) (k : key)
    : option (option (list Z) * key * kr_cache DB * list (bool * list Z)) :=
  closest_NS_loop (S (length (zname k))) cache qry k (Bytes.byte_at (buf k) 0) true [].

(** [try_wild], api.c:953. *)
Definition try_wild (k : key) (ans : answer) (clencl_name : knot_dname_t) (type : Z)
    (lowest_rank : Z) (qry : kr_query) (cache : kr_cache DB)
    : Z * key * answer * kr_cache DB :=
  let '(key, k) := key_exact_type k type in
  (* Find the record. *)
  let '(ret, val, cache) := cache_op_read cache key in
  let '(ret, val) := if ret =? 0 then entry_h_seek val type else (ret, val) in
  if negb (ret =? 0) then (ret, k, ans, cache)
  else
    (* Check if the record is OK. *)
    match entry_h_consistent val type with
    | None => (kr_error ret, k, ans, cache)
    | Some eh =>
        let new_ttl :=
          get_new_ttl eh (Some qry) (Some (sname qry)) type (timestamp qry) in
        (* ^^ here we use the *expanded* wildcard name *)
        if (new_ttl <? 0) || (eh_rank eh <? lowest_rank) || is_packet eh then
          (* Wildcard record with stale TTL, bad rank or packet. *)
          (- Z.abs ESTALE, k, ans, cache)
        else
          (* Add the RR into the answer. *)
          let '(ret, ans) :=
            entry2answer ans AR_ANSWER val (sname qry) type (Int.u32 new_ttl) in
          if negb (ret =? 0) then (kr_error ret, k, ans, cache)
          else
            let ans := {| rcode := PKT_NOERROR; nsec_v := nsec_v ans;
                          rrsets := rrsets ans |} in
            (kr_ok, k, ans, cache)
    end.

(** The loop over [types] in step 3b of [cache_peek_real], api.c:543; it
    stops at the first success and at the first error other than ENOENT and
    ESTALE, and gives the last code. *)
Fixpoint try_wild_types (types : list Z) (ret : Z) (k : key) (ans : answer)
    (clencl_name : knot_dname_t) (lowest_rank : Z) (qry : kr_query)
    (cache : kr_cache DB) : Z * key * answer * kr_cache DB :=
  match types with
  | [] => (ret, k, ans, cache)
  | type :: types =>
      let '(ret, k, ans, cache) :=
        try_wild k ans clencl_name type lowest_rank qry cache in
      if ret =? kr_ok then (ret, k, ans, cache)
      else if negb (ret =? - Z.abs ENOENT) && negb (ret =? - Z.abs ESTALE)
      then (ret, k, ans, cache)
      else try_wild_types types ret k ans clencl_name lowest_rank qry cache
  end.

(** The loop that writes the record sets in [cache_peek_real], api.c:619,
    from slot [i] on. *)
Fixpoint write_rrsets (slots : list answer_rrset) (i : Z) (pkt : knot_pkt_t)
    (expiring : bool) : Z * knot_pkt_t * bool :=
  match slots with
  | [] => (0, pkt, expiring)
  | s :: slots =>
      let pkt := if i =? 1 then snd (knot_pkt_begin pkt KNOT_AUTHORITY) else pkt in
      match set_rr s with
      | None => write_rrsets slots (i + 1) pkt expiring
      | Some _ =>
          let expiring := expiring || set_expiring s in
          let '(ret, pkt) := pkt_append pkt s (set_rank s) in
          if negb (ret =? 0) then (ret, pkt, expiring)
          else write_rrsets slots (i + 1) pkt expiring
      end
  end.

End Peek.

Definition set_CACHE_TRIED (q : kr_query) : kr_query :=
  let f := flags q in
  set_flags q
    {| NO_CACHE := NO_CACHE f; CACHE_TRIED := true; CACHED := CACHED f;
       NO_MINIMIZE := NO_MINIMIZE f; EXPIRING := EXPIRING f;
       DNSSEC_INSECURE := DNSSEC_INSECURE f; DNSSEC_WANT := DNSSEC_WANT f;
       STUB := STUB f; NONAUTH := NONAUTH f |}.

Definition set_answered (q : kr_query) (expiring : bool) : kr_query :=
  let f := flags q in
  set_flags q
    {| NO_CACHE := NO_CACHE f; CACHE_TRIED := CACHE_TRIED f; CACHED := true;
       NO_MINIMIZE := true; EXPIRING := expiring;
       DNSSEC_INSECURE := DNSSEC_INSECURE f; DNSSEC_WANT := DNSSEC_WANT f;
       STUB := STUB f; NONAUTH := NONAUTH f |}.

Section PeekReal.
Context {DB : Type} {H : host} {R : kr_rank_enc} {I : cache_impl DB}.

(** Steps 2 to 4 of [cache_peek_real], api.c:458-637: the closest
    encloser, the source of synthesis, the SOA and the answer.  [k] is the
    key after [closest_NS]. *)
Definition cache_peek_negative (ctx : kr_layer_t DB) (qry : kr_query)
    (pkt : knot_pkt_t) (cache : kr_cache DB) (k : key) (lowest_rank : Z)
    : Z * kr_query * knot_pkt_t * kr_cache DB :=
  let miss pkt cache := (state ctx, qry, pkt, cache) in
  let ans := answer_zero in
  (* Start and end of NSEC* covering the sname *)
  let cover_low_kwz : list Z := [] in
  let cover_hi_kwz := replicate (Z.to_nat KNOT_DNAME_MAXLEN) 0 in
  (* 2. Find a closest (provable) encloser (of sname). *)
  let clencl_labels := -1 in
  let sname_labels := knot_dname_labels (sname qry) in
  let ans := {| rcode := rcode ans; nsec_v := 1; rrsets := rrsets ans |} in
  let '(ret, k, ans, clencl_labels, cover_low_kwz, cover_hi_kwz, cache) :=
    nsec1_encloser k ans sname_labels clencl_labels cover_low_kwz cover_hi_kwz
      qry cache in
  if ret <? 0 then miss pkt cache
  else if negb (rcode ans =? PKT_NODATA) && negb (rcode ans =? PKT_NXDOMAIN) then
    (* Nothing suitable found. *)
    miss pkt cache
  else
    (* At this point, sname was either covered or matched. *)
    let sname_covered := rcode ans =? PKT_NXDOMAIN in
    (* Name of the closest (provable) encloser. *)
    let clencl_name :=
      Nat.iter (Z.to_nat (sname_labels - clencl_labels)) knot_wire_next_label
        (sname qry) in
    (* 3a. source of synthesis checks, in case sname was covered. *)
    let '(ret, k, ans, cache) :=
      if negb sname_covered then (0, k, ans, cache)
      else if (nsec_v ans =? 1) && sname_covered then
        nsec1_src_synth k ans clencl_name cover_low_kwz cover_hi_kwz qry cache
      else (0, k, ans, cache) in
    if ret <? 0 then miss pkt cache
    else
      let do_soa := sname_covered && (nsec_v ans =? 1) && (ret =? AR_SOA) in
      (* 3b. We need to find wildcarded answer, if sname was covered
         and we don't have a full proof yet. *)
      let '(ret, k, ans, cache) :=
        if sname_covered && negb do_soa then
          (* Construct key for exact qry->stype + source of synthesis. *)
          let '(ret, b) := kr_dname_lf (buf k) clencl_name true in
          let k := set_buf k b in
          if negb (ret =? 0) then (ret, k, ans, cache)
          else
            let types := [stype qry; KNOT_RRTYPE_CNAME] in
            let n := 2 - (if stype qry =? KNOT_RRTYPE_CNAME then 1 else 0) in
            try_wild_types (take (Z.to_nat n) types) ret k ans clencl_name
              lowest_rank qry cache
        else (0, k, ans, cache) in
      if negb (ret =? 0) then miss pkt cache (* neither attempt succeeded *)
      else
        (* 4. add SOA iff needed *)
        let soa : (answer * key * kr_cache DB) + kr_cache DB :=
          if negb (rcode ans =? PKT_NOERROR) then
            (* Assuming k->buf still starts with zone's prefix,
               look up the SOA in cache. *)
            let k := set_buf k (Bytes.poke 0 (zlf_len k) (buf k)) in
            let '(key, k) := key_exact_type k KNOT_RRTYPE_SOA in
            let '(ret, val, cache) := cache_op_read cache key in
            match (if ret =? 0 then entry_h_consistent val KNOT_RRTYPE_SOA else None) with
            | None => inr cache
            | Some eh =>
                (* Check if the record is OK. *)
                let new_ttl :=
                  get_new_ttl eh (Some qry) (Some (zname k)) KNOT_RRTYPE_SOA
                    (timestamp qry) in
                if (new_ttl <? 0) || (eh_rank eh <? lowest_rank) || is_packet eh
                then inr cache
                else
                  (* Add the SOA into the answer. *)
                  let '(ret, ans) :=
                    entry2answer ans AR_SOA val (zname k) KNOT_RRTYPE_SOA
                      (Int.u32 new_ttl) in
                  if negb (ret =? 0) then inr cache else inl (ans, k, cache)
            end
          else inl (ans, k, cache) in
        match soa with
        | inr cache => miss pkt cache
        | inl (ans, k, cache) =>
            (* Find our target RCODE. *)
            let real_rcode : option Z :=
              if (rcode ans =? PKT_NODATA) || (rcode ans =? PKT_NOERROR)
              then Some KNOT_RCODE_NOERROR
              else if rcode ans =? PKT_NXDOMAIN then Some KNOT_RCODE_NXDOMAIN
              else None in
            match real_rcode with
            | None => miss pkt cache
            | Some real_rcode =>
                let '(ret, pkt) := pkt_renew pkt (sname qry) (stype qry) in
                let '(ret, pkt) :=
                  if negb (ret =? 0) then (ret, pkt)
                  else knot_pkt_begin pkt KNOT_ANSWER in
                if negb (ret =? 0) then miss pkt cache
                else
                  let pkt := knot_wire_set_rcode pkt real_rcode in
                  let '(ret, pkt, expiring) :=
                    write_rrsets (rrsets ans) 0 pkt false in
                  if negb (ret =? 0) then miss pkt cache
                  else
                    (* Finishing touches. *)
                    (KR_STATE_DONE, set_answered qry expiring, pkt, cache)
            end
        end.

(** [cache_peek_real], api.c:355.  The result is the state returned, the
    query, the packet and the cache. *)
Definition cache_peek_real (ctx : kr_layer_t DB) (qry : kr_query) (pkt : knot_pkt_t)
    : Z * kr_query * knot_pkt_t * kr_cache DB :=
  let req := ctx_req ctx in
  let cache := ctx_cache (req_ctx req) in
  (* ATM cache only peeks for qry->sname and that would be useless
     to repeat on every iteration, so disable it from now on. *)
  let qry := set_CACHE_TRIED qry in
  let k := k_storage in
  if stype qry =? KNOT_RRTYPE_NSEC then (state ctx, qry, pkt, cache)
  else if negb (check_dname_for_lf (sname qry)) then (state ctx, qry, pkt, cache)
  else
    let '(ret, b) := kr_dname_lf (buf k) (sname qry) false in
    let k := set_buf k b in
    if negb (ret =? 0) then (state ctx, qry, pkt, cache)
    else
      let lowest_rank := get_lowest_rank req qry in
      (* 1. find the name or the closest (available) zone, not considering
         wildcards
         1a. exact name+type match (can be negative answer in insecure
         zones) *)
      let '(key, k) := key_exact_type_maypkt k (stype qry) in
      let '(ret, val, cache) := cache_op_read cache key in
      let '(ret, qry, pkt) :=
        if ret =? 0 then
          (* found an entry: test conditions, materialize into pkt, etc. *)
          found_exact_hit ctx qry pkt val lowest_rank
        else (ret, qry, pkt) in
      if negb (ret =? 0) && negb (ret =? - Z.abs ENOENT) then
        (state ctx, qry, pkt, cache)
      else if ret =? 0 then (KR_STATE_DONE, qry, pkt, cache)
      else
        (* 1b. otherwise, find the longest prefix NS/xNAME (with OK
           time+rank). *)
        let k := set_zname k (sname qry) in
        let k := set_buf k (snd (kr_dname_lf (buf k) (zname k) false)) in
        match closest_NS cache qry k with
        | None => (state ctx, qry, pkt, cache)
        | Some (val_cut, k, cache, _) =>
            if k_type k =? KNOT_RRTYPE_CNAME then
              let val := default [] val_cut in
              let new_ttl :=
                get_new_ttl (entry_h_view val) (Some qry) (Some (sname qry))
                  KNOT_RRTYPE_CNAME (timestamp qry) in
              let '(ret, qry, pkt) :=
                answer_simple_hit ctx qry pkt KNOT_RRTYPE_CNAME val new_ttl in
              (if ret =? kr_ok then KR_STATE_DONE else state ctx, qry, pkt, cache)
            else if k_type k =? KNOT_RRTYPE_DNAME then
              (state ctx, qry, pkt, cache)
            else cache_peek_negative ctx qry pkt cache k lowest_rank
        end.

(** [cache_peek], api.c:335: the function for the produce phase.  The
    result is the state returned, the layer context with what the call
    changed behind [ctx->req], and the packet.  The C code reads
    [req->current_query] without a check; a request without a current
    query is left alone here. *)
Definition cache_peek (ctx : kr_layer_t DB) (pkt : knot_pkt_t)
    : Z * kr_layer_t DB * knot_pkt_t :=
  let req := ctx_req ctx in
  match current_query req with
  | None => (state ctx, ctx, pkt)
  | Some qry =>
      if negb (Z.land (state ctx) (Z.lor KR_STATE_FAIL KR_STATE_DONE) =? 0)
         || NO_CACHE (flags qry)
         || (CACHE_TRIED (flags qry) && negb (bool_decide (is_Some (stale_cb qry))))
         || negb (check_rrtype (stype qry))
         || negb (sclass qry =? KNOT_CLASS_IN)
      then (state ctx, ctx, pkt) (* Already resolved/failed or already tried, etc. *)
      else
        let '(ret, qry, pkt, cache) := cache_peek_real ctx qry pkt in
        let '(_, cache) := kr_cache_sync cache in
        (ret, set_req ctx (set_cache (set_current_query req qry) cache), pkt)
  end.

End PeekReal.

(** ** The parts outside api.c, modelled from the spec *)

(** Modelled from the spec: the concrete backend (lib/cache/cdb_lmdb.c is
    not part of the sources at hand).  Section 4.1 of the spec gives the
    contract of an ordered key/value store: open, count, clear, read (value
    or NOT_FOUND), write (with reserve), sync.  The store is a finite map
    from key bytes to value bytes and no operation fails. *)
Abbreviation store := (gmap (list Z) (list Z)).

Definition cdb_map : kr_cdb_api store :=
  {| cdb_open := fun d => (0, d);
     cdb_count := fun d => Z.of_nat (size d);
     cdb_clear := fun _ => (0, ∅);
     cdb_sync := Some (fun d => (0, d));
     cdb_read := fun d k =>
       match d !! k with
       | Some v => (0, v)
       | None => (- ENOENT, [])
       end;
     cdb_write := fun d k v n =>
       (0, <[k := default (replicate (Z.to_nat n) 0) v]> d);
     cdb_store := fun d k off bytes => alter (Bytes.poke_all off bytes) k d |}.

(** Modelled from the spec: [enum kr_rank] and [kr_rank_test] of
    lib/resolve.h.  The spec puts the base level in the two low bits,
    INITIAL < INSECURE < SECURE < BOGUS, and makes AUTH a flag; the flag is
    given the next bit here. *)
Definition spec_ranks : kr_rank_enc :=
  {| KR_RANK_INITIAL := 0;
     KR_RANK_INSECURE := 1;
     KR_RANK_SECURE := 2;
     KR_RANK_BOGUS := 3;
     KR_RANK_AUTH := 4;
     kr_rank_test := fun rank kr_flag =>
       if kr_flag =? 4 then Z.testbit rank 2
       else Z.land rank 3 =? kr_flag |}.

(** The labels of a name in wire format, leftmost first. *)
Fixpoint dname_labels (fuel : nat) (n : knot_dname_t) : list (list Z) :=
  match fuel with
  | O => []
  | S f =>
      let l := Bytes.byte_at n 0 in
      if l =? 0 then []
      else take (Z.to_nat l) (drop 1 n) :: dname_labels f (knot_wire_next_label n)
  end.

(** Modelled from the spec: [kr_dname_lf] of lib/utils.h.  The spec's
    label format is the labels concatenated in reverse, each preceded by
    its length; a wildcard label is the leftmost one, so it comes last.
    The length goes to [buf[0]] and the bytes follow. *)
Definition lf_of_labels (ls : list (list Z)) : list Z :=
  concat (map (fun l => len l :: l) (rev ls)).

Definition kr_dname_lf_spec (b : list Z) (src : knot_dname_t) (add_wildcard : bool)
    : Z * list Z :=
  let lf := lf_of_labels (dname_labels (length src) src)
            ++ (if add_wildcard then [1; 42] else []) in
  if len lf >? KNOT_DNAME_MAXLEN then (kr_error ENOSPC, b)
  else (0, Bytes.poke_all 0 (len lf :: lf) b).

Section SpecCodec.
Context {H : host}.

(** Modelled from the spec: [key_NSEC1] of lib/cache/nsec1.c.  The spec's
    key is [<dname_lf> 0x00 <tag>] with the tag '1' for an NSEC entry
    indexed by its interval; the zone's part of the label format comes
    before the separator and the rest of the name after the tag. *)
Definition key_NSEC1_spec (k : key) (name : knot_dname_t) (add_wild : bool)
    : list Z * key :=
  let '(ret, b) := kr_dname_lf_spec (buf k) name add_wild in
  let lf := Bytes.slice 1 (Bytes.byte_at b 0) b in
  let z := Z.to_nat (zlf_len k) in
  (take z lf ++ [0; 49] ++ drop z lf,
   set_k_type (set_buf k b) KNOT_RRTYPE_NSEC).

(** Modelled from the spec: the entry codec of lib/cache/entry_rr.c,
    dematerialize(rdataset) -> byte count, write into the buffer.  The
    stored form is the record count (uint16) and, for each record, its
    length (uint16) and its data; the TTLs live in the entry header. *)
Fixpoint dematerialize_rdata (rds : knot_rdataset_t) : list Z :=
  match rds with
  | [] => []
  | rd :: r => host_bytes 2 (len (rd_data rd)) ++ rd_data rd ++ dematerialize_rdata r
  end.

Definition rdataset_dematerialize_spec (rds : option knot_rdataset_t) : Z * list Z :=
  match rds with
  | None => (0, host_bytes 2 0)
  | Some rds => (0, host_bytes 2 (rr_count rds) ++ dematerialize_rdata rds)
  end.

Definition rdataset_dematerialize_size_spec (rds : option knot_rdataset_t) : Z :=
  len (snd (rdataset_dematerialize_spec rds)).

(** Modelled from the spec: materialize(buf, bound) of
    lib/cache/entry_rr.c, which refuses to read past the bound.  The result
    is the record set, every record with the TTL given, and the bytes that
    follow it. *)
Fixpoint materialize_rdata (n : nat) (bs : list Z) (ttl : Z)
    : option (knot_rdataset_t * list Z) :=
  match n with
  | O => Some ([], bs)
  | S n' =>
      if len bs <? 2 then None
      else
        let l := host_value (take 2 bs) in
        if len bs <? 2 + l then None
        else
          match materialize_rdata n' (drop (2 + Z.to_nat l) bs) ttl with
          | None => None
          | Some (rds, rest) =>
              Some ({| rd_ttl := ttl; rd_data := Bytes.slice 2 l bs |} :: rds, rest)
          end
  end.

Definition rdataset_materialize (bs : list Z) (ttl : Z)
    : option (knot_rdataset_t * list Z) :=
  if len bs <? 2 then None
  else materialize_rdata (Z.to_nat (host_value (take 2 bs))) (drop 2 bs) ttl.

(** The length of the entry that starts [v]: the header and either the
    stored packet or the two record sets. *)
Definition entry_span (v : list Z) : option Z :=
  if len v <? ENTRY_H_DATA then None
  else
    let eh := entry_h_view v in
    if is_packet eh then
      if len v <? ENTRY_H_DATA + 2 then None
      else
        let n := ENTRY_H_DATA + 2 + host_value (Bytes.slice 0 2 (eh_data eh)) in
        if len v <? n then None else Some n
    else
      match rdataset_materialize (eh_data eh) 0 with
      | None => None
      | Some (_, rest) =>
          match rdataset_materialize rest 0 with
          | None => None
          | Some (_, rest) => Some (len v - len rest)
          end
      end.

(** Modelled from the spec: the value under an NS key chains the
    sub-entries for NS, CNAME and DNAME, in this order, and the header that
    starts the value flags which of them are there (design note "xNAME
    tunneled under NS").  The three parts of a value, [[]] for a part that
    is absent. *)
Definition entry_list_parse (v : list Z) : option (list Z * list Z * list Z) :=
  if len v <? ENTRY_H_DATA then None
  else
    let f := entry_h_view v in
    let part (present : bool) (v : list Z) : option (list Z * list Z) :=
      if present then
        match entry_span v with
        | Some n => Some (take (Z.to_nat n) v, drop (Z.to_nat n) v)
        | None => None
        end
      else Some ([], v) in
    if is_packet f then None
    else
      match part (has_ns f) v with
      | None => None
      | Some (ns, v) =>
          match part (has_cname f) v with
          | None => None
          | Some (cn, v) =>
              match part (has_dname f) v with
              | None => None
              | Some (dn, _) => Some (ns, cn, dn)
              end
          end
      end.

(** Modelled from the spec: [entry_h_seek] of lib/cache/entry_list.c,
    seek(value, type), which advances inside an entry to the sub-entry for
    the requested type.  Other types have the whole value. *)
Definition entry_h_seek_spec (val : list Z) (type : Z) : Z * list Z :=
  if (type =? KNOT_RRTYPE_NS) || (type =? KNOT_RRTYPE_CNAME)
     || (type =? KNOT_RRTYPE_DNAME) then
    match entry_list_parse val with
    | None => (- ENOENT, val)
    | Some (ns, cn, dn) =>
        let sub :=
          if type =? KNOT_RRTYPE_NS then ns
          else if type =? KNOT_RRTYPE_CNAME then cn else dn in
        if len sub =? 0 then (- ENOENT, val) else (0, sub)
    end
  else (0, val).

(** The flags octet of the header that starts [v] with the three presence
    bits set as given. *)
Definition set_presence (ns cn dn : bool) (v : list Z) : list Z :=
  let f := Bytes.byte_at v 9 in
  let f := Z.land f 227 (* all but bits 2, 3, 4 *) in
  let f := Z.lor f ((if ns then 4 else 0) + (if cn then 8 else 0)
                    + (if dn then 16 else 0)) in
  Bytes.poke 9 f v.

End SpecCodec.

Section SpecSplice.
Context {H : host} {R : kr_rank_enc}.

(** Modelled from the spec: [entry_h_splice] of lib/cache/entry_list.c
    (4.5, steps 4 and 5).  It reads the existing entry; when the sub-entry
    for the type is there and is strictly better, the new one is skipped;
    otherwise the sub-entries of the other types are merged with room for
    the new one, zero-filled, and the whole is written to the backend.
    The spec's comparison uses the TTL of the new record, which the call
    in api.c does not pass, so the comparison [keep_old] (existing header,
    new rank, residual TTL of the existing entry) is left open. *)
Definition entry_h_splice_spec (keep_old : entry_h -> Z -> Z -> bool)
    (val_new_entry_len : Z) (rank : Z) (key : list Z) (ktype type : Z)
    (owner : knot_dname_t) (qry : option kr_query) (cache : kr_cache store)
    (timestamp : Z) : Z * db_ref * kr_cache store :=
  let null := {| ref_key := []; ref_off := 0 |} in
  if val_new_entry_len <=? 0 then (kr_error EINVAL, null, cache)
  else
    let '(ret, val, cache) := cache_op_read cache key in
    let xname := ktype =? KNOT_RRTYPE_NS in
    let '(ns, cn, dn) :=
      if xname && (ret =? 0) then default ([], [], []) (entry_list_parse val)
      else ([], [], []) in
    let old :=
      if negb (ret =? 0) then []
      else if xname then
        if type =? KNOT_RRTYPE_NS then ns
        else if type =? KNOT_RRTYPE_CNAME then cn else dn
      else val in
    let skip :=
      match (if len old =? 0 then None else entry_h_consistent old type) with
      | Some eh_orig =>
          keep_old eh_orig rank (get_new_ttl eh_orig qry None 0 timestamp)
      | None => false
      end in
    if skip then (kr_error EEXIST, null, cache)
    else
      let hole := replicate (Z.to_nat val_new_entry_len) 0 in
      let '(v, off) :=
        if xname then
          let ns := if type =? KNOT_RRTYPE_NS then hole else ns in
          let cn := if type =? KNOT_RRTYPE_CNAME then hole else cn in
          let dn :=
            if (type =? KNOT_RRTYPE_NS) || (type =? KNOT_RRTYPE_CNAME) then dn
            else hole in
          (set_presence (negb (len ns =? 0)) (negb (len cn =? 0))
             (negb (len dn =? 0)) (ns ++ cn ++ dn),
           if type =? KNOT_RRTYPE_NS then 0
           else if type =? KNOT_RRTYPE_CNAME then len ns
           else len ns + len cn)
        else (hole, 0) in
      let '(ret, cache) := cache_op_write cache key v in
      if negb (ret =? 0) then (ret, null, cache)
      else (0, {| ref_key := key; ref_off := off |}, cache).

End SpecSplice.

(** Modelled from the spec: [is_expiring] of lib/cache/impl.h; a record is
    expiring when its remaining TTL is at most 5 seconds (4.6, step 6). *)
Definition is_expiring_spec (orig_ttl new_ttl : Z) : bool := new_ttl <=? 5.

(** Modelled from the spec: [pkt_renew] of lib/cache/entry_pkt.c (4.6.a):
    the packet is renewed with the question (qname, qtype). *)
Definition pkt_renew_spec (pkt : knot_pkt_t) (name : knot_dname_t) (type : Z)
    : Z * knot_pkt_t :=
  (0, {| pkt_qname := name; pkt_qtype := type; wire_tc := false;
         wire_rcode := KNOT_RCODE_NOERROR; pkt_current := KNOT_ANSWER;
         pkt_rr := []; pkt_wire := [] |}).

(** Modelled from the spec: [pkt_append] of lib/cache/entry_pkt.c (4.6.a):
    the record set of the slot goes into the current section of the
    packet, and its signatures after it when there are any. *)
Definition pkt_append_spec (pkt : knot_pkt_t) (rrset : answer_rrset) (rank : Z)
    : Z * knot_pkt_t :=
  match set_rr rrset with
  | None => (0, pkt)
  | Some rr =>
      let sigs :=
        match sig_rds rrset with
        | [] => []
        | rds => [(pkt_current pkt,
                   {| owner := owner rr; rr_type := KNOT_RRTYPE_RRSIG;
                      rclass := rclass rr; rrs := rds |})]
        end in
      (0, {| pkt_qname := pkt_qname pkt; pkt_qtype := pkt_qtype pkt;
             wire_tc := wire_tc pkt; wire_rcode := wire_rcode pkt;
             pkt_current := pkt_current pkt;
             pkt_rr := pkt_rr pkt ++ [(pkt_current pkt, rr)] ++ sigs;
             pkt_wire := pkt_wire pkt |})
  end.

Section SpecAnswer.
Context {H : host}.

(** Modelled from the spec: [entry2answer] of lib/cache/entry_rr.c (4.3
    and 4.6.a): the record set and its signatures are materialized from
    the entry into the slot [id] of the accumulator, with the owner, the
    type and the TTL given; an entry that does not hold them within its
    bounds is reported and nothing is truncated. *)
Definition entry2answer_spec (ans : answer) (id : Z) (val : list Z)
    (owner : knot_dname_t) (type : Z) (new_ttl : Z) : Z * answer :=
  let eh := entry_h_view val in
  match rdataset_materialize (eh_data eh) new_ttl with
  | None => (kr_error ENOENT, ans)
  | Some (rds, rest) =>
      match rdataset_materialize rest new_ttl with
      | None => (kr_error ENOENT, ans)
      | Some (sigs, _) =>
          let s :=
            {| set_rr := Some {| owner := owner; rr_type := type;
                                 rclass := KNOT_CLASS_IN; rrs := rds |};
               set_rank := eh_rank eh;
               set_expiring := is_expiring_spec (eh_ttl eh) new_ttl;
               sig_rds := sigs |} in
          (0, {| rcode := rcode ans; nsec_v := nsec_v ans;
                 rrsets := <[Z.to_nat id := s]> (rrsets ans) |})
      end
  end.

End SpecAnswer.

(** [ta] is [n] or an ancestor of [n]: it is met when labels are dropped
    from [n] one by one. *)
Fixpoint dname_under (fuel : nat) (ta n : knot_dname_t) : bool :=
  match fuel with
  | O => false
  | S f =>
      knot_dname_is_equal ta n
      || (if Bytes.byte_at n 0 =? 0 then false
          else dname_under f ta (knot_wire_next_label n))
  end.

(** Modelled from the spec: [kr_ta_covers_qry] of lib/dnssec/ta.c (4.4):
    a trust anchor covers the name when it is the name or one of its
    ancestors. *)
Definition kr_ta_covers_qry_spec {DB : Type} (ctx : kr_context DB)
    (name : knot_dname_t) (type : Z) : bool :=
  existsb (fun ta => dname_under (S (length name)) ta name) (trust_anchors ctx).

(** The implementation of the interface from the definitions above.  The
    negative-proof assembler, the packet cache and the constants of the
    answer's RCODE are not modelled: they are taken from [other], which may
    be any implementation. *)
Definition spec_impl {H : host} {R : kr_rank_enc}
    (keep_old : entry_h -> Z -> Z -> bool) (other : cache_impl store)
    : cache_impl store :=
  {| kr_dname_lf := kr_dname_lf_spec;
     key_NSEC1 := key_NSEC1_spec;
     entry_h_seek := entry_h_seek_spec;
     entry_h_splice := entry_h_splice_spec keep_old;
     rdataset_dematerialize_size := rdataset_dematerialize_size_spec;
     rdataset_dematerialize := rdataset_dematerialize_spec;
     is_expiring := is_expiring_spec;
     pkt_renew := pkt_renew_spec;
     pkt_append := pkt_append_spec;
     entry2answer := entry2answer_spec;
     answer_from_pkt := @answer_from_pkt _ other;
     stash_pkt := @stash_pkt _ other;
     nsec1_encloser := @nsec1_encloser _ other;
     nsec1_src_synth := @nsec1_src_synth _ other;
     kr_ta_covers_qry := kr_ta_covers_qry_spec;
     PKT_NOERROR := @PKT_NOERROR _ other;
     PKT_NODATA := @PKT_NODATA _ other;
     PKT_NXDOMAIN := @PKT_NXDOMAIN _ other |}.

(** An implementation that finds nothing and stores nothing, for the
    parts that the examples below do not reach. *)
Definition null_impl {DB : Type} : cache_impl DB :=
  {| kr_dname_lf := fun b _ _ => (kr_error ENOTSUP, b);
     key_NSEC1 := fun k _ _ => ([], k);
     entry_h_seek := fun v _ => (kr_error ENOENT, v);
     entry_h_splice := fun _ _ _ _ _ _ _ c _ =>
       (kr_error ENOTSUP, {| ref_key := []; ref_off := 0 |}, c);
     rdataset_dematerialize_size := fun _ => 0;
     rdataset_dematerialize := fun _ => (kr_error ENOTSUP, []);
     is_expiring := fun _ _ => false;
     pkt_renew := fun p _ _ => (kr_error ENOTSUP, p);
     pkt_append := fun p _ _ => (kr_error ENOTSUP, p);
     entry2answer := fun a _ _ _ _ _ => (kr_error ENOTSUP, a);
     answer_from_pkt := fun _ q p _ _ _ => (kr_error ENOTSUP, q, p);
     stash_pkt := fun _ _ r => r;
     nsec1_encloser := fun k a _ cl lo hi _ c => (kr_error ENOENT, k, a, cl, lo, hi, c);
     nsec1_src_synth := fun k a _ _ _ _ c => (kr_error ENOENT, k, a, c);
     kr_ta_covers_qry := fun _ _ _ => false;
     PKT_NOERROR := 1;
     PKT_NODATA := 2;
     PKT_NXDOMAIN := 3 |}.

(** ** Vocabulary of the statements *)

Section EntryAccepted.
Context {H : host} {R : kr_rank_enc}.

(** The length of the packet that a packet entry announces. *)
Definition pkt_len_of (data : list Z) : Z :=
  host_value (Bytes.slice 0 2 (eh_data (entry_h_view data))).

(** The checks of [entry_h_consistent] as one condition. *)
Definition entry_h_accepted (data : list Z) : bool :=
  let eh := entry_h_view data in
  (ENTRY_H_DATA <=? len data)
  && (negb (is_packet eh)
      || ((ENTRY_H_DATA + 2 <=? len data)
          && (ENTRY_H_DATA + 2 + pkt_len_of data <=? len data)))
  && (negb (kr_rank_test (eh_rank eh) KR_RANK_BOGUS) || is_packet eh)
  && (is_packet eh || negb (has_optout eh)).

End EntryAccepted.

(** A name that holds a zero octet inside one of its labels. *)
Definition zero_in_label (n : knot_dname_t) : Prop :=
  exists ls : list (list Z),
    n = dname_of_labels ls /\ Forall wf_label ls /\ Exists (fun l => In 0 l) ls.

(** The type under which a record set is keyed: xNAME lumped into NS. *)
Definition key_type (type : Z) : Z :=
  if (type =? KNOT_RRTYPE_CNAME) || (type =? KNOT_RRTYPE_DNAME)
  then KNOT_RRTYPE_NS else type.

(** The key that [cache_peek_real] and [stash_rrset] compute for a name
    and a type: [kr_dname_lf] into a fresh [struct key], then
    [key_exact_type_maypkt]. *)
Definition exact_key {H : host} (name : knot_dname_t) (type : Z) : list Z :=
  let k := k_storage in
  let '(_, b) := kr_dname_lf_spec (buf k) name false in
  fst (key_exact_type_maypkt (set_buf k b) type).

(** A name that [kr_dname_lf] accepts: labels of 1 to 63 octets and at most
    255 octets of wire form. *)
Definition wf_labels (ls : list (list Z)) : Prop :=
  Forall wf_label ls /\ len (dname_of_labels ls) <= KNOT_DNAME_MAXLEN.


(** ** Examples: a resolver on a little-endian machine *)

(** The implementation modelled from the spec, where a new entry always
    replaces the old one, and the rest declines. *)
Definition ex_impl : cache_impl store :=
  @spec_impl little_endian_host spec_ranks (fun _ _ _ => false) null_impl.

Definition ex_cache : kr_cache store :=
  {| db := ∅; api := cdb_map;
     stats := {| stat_hit := 0; stat_miss := 0; stat_insert := 0; stat_delete := 0 |};
     ttl_min := 5; ttl_max := 3600; oplog := [] |}.

(** example.com. *)
Definition ex_name : knot_dname_t :=
  dname_of_labels [[101; 120; 97; 109; 112; 108; 101]; [99; 111; 109]].

Definition ex_rrset (type ttl : Z) (rdata : list Z) : knot_rrset_t :=
  {| owner := ex_name; rr_type := type; rclass := KNOT_CLASS_IN;
     rrs := [{| rd_ttl := ttl; rd_data := rdata |}] |}.

Definition ex_flags : kr_qflags :=
  {| NO_CACHE := false; CACHE_TRIED := false; CACHED := false;
     NO_MINIMIZE := false; EXPIRING := false; DNSSEC_INSECURE := false;
     DNSSEC_WANT := true; STUB := false; NONAUTH := false |}.

Definition ex_query (type now : Z) : kr_query :=
  {| flags := ex_flags; stype := type; sclass := KNOT_CLASS_IN; sname := ex_name;
     stale_cb := None; timestamp := now; uid := 1 |}.

Definition ex_ctx (c : kr_cache store) (q : kr_query) : kr_layer_t store :=
  {| state := KR_STATE_PRODUCE;
     ctx_req := {| req_ctx := {| ctx_cache := c; trust_anchors := [] |};
                   current_query := Some q; answer_cd := false;
                   answ_selected := []; auth_selected := []; add_selected := [] |} |}.

Definition ex_pkt : knot_pkt_t :=
  {| pkt_qname := []; pkt_qtype := 0; wire_tc := false; wire_rcode := 0;
     pkt_current := 0; pkt_rr := []; pkt_wire := [] |}.

(** The key in which [cache_peek_real] starts [closest_NS] for a name. *)
Definition ex_key (name : knot_dname_t) : key :=
  let k := set_zname k_storage name in
  set_buf k (snd (kr_dname_lf_spec (buf k) (zname k) false)).

(** The cache after a CNAME for example.com of rank INSECURE|AUTH was
    stashed at time 100. *)
Definition ex_cache_cname : kr_cache store :=
  snd (@stash_rrset _ little_endian_host spec_ranks ex_impl ex_cache None
         (ex_rrset KNOT_RRTYPE_CNAME 300 [3; 119; 119; 119; 0]) None 100 5).

(** ** Vocabulary of the round trip *)

(** The presence bits that [entry_h_splice] leaves in the flags of a new
    entry for a type. *)
Definition presence_flags (type : Z) : Z :=
  if type =? KNOT_RRTYPE_NS then 4
  else if type =? KNOT_RRTYPE_CNAME then 8
  else if type =? KNOT_RRTYPE_DNAME then 16
  else 0.

(** The bytes of an entry: the header in its layout and the payload. *)
Definition entry_bytes (time ttl rank flags : Z) (payload : list Z) : list Z :=
  Bytes.le_bytes 4 time ++ Bytes.le_bytes 4 ttl ++ [rank; flags] ++ payload.

(** The TTL of a record set with its signatures: the minimum over all the
    records, as the loop of [stash_rrset] computes it. *)
Definition rrset_ttl (rr : knot_rrset_t) (rr_sigs : option knot_rrset_t) : Z :=
  let ttl := min_ttl (Int.u32 (-1)) (rrs rr) in
  match rr_sigs with
  | Some s => min_ttl ttl (rrs s)
  | None => ttl
  end.

(** The TTL clamped to the bounds of the cache. *)
Definition clamp_ttl {DB : Type} (c : kr_cache DB) (ttl : Z) : Z :=
  Z.max (Z.min ttl (ttl_max c)) (ttl_min c).

(** A record set with the TTL of every record replaced. *)
Definition with_ttl (ttl : Z) (rds : knot_rdataset_t) : knot_rdataset_t :=
  map (fun rd => {| rd_ttl := ttl; rd_data := rd_data rd |}) rds.

(** A record set within the bounds of its C type: the count and the length
    of every record fit [uint16_t]. *)
Definition storable (rds : knot_rdataset_t) : Prop :=
  rr_count rds < 2 ^ 16 /\ Forall (fun rd => len (rd_data rd) < 2 ^ 16) rds.

(** The packet that answers a query from one record set and its
    signatures, both with the TTL given. *)
Definition answer_pkt (rr : knot_rrset_t) (sigs : knot_rdataset_t) (ttl : Z)
    : knot_pkt_t :=
  {| pkt_qname := owner rr; pkt_qtype := rr_type rr; wire_tc := false;
     wire_rcode := KNOT_RCODE_NOERROR; pkt_current := KNOT_ANSWER;
     pkt_rr :=
       [(KNOT_ANSWER,
         {| owner := owner rr; rr_type := rr_type rr; rclass := rclass rr;
            rrs := with_ttl ttl (rrs rr) |})]
       ++ match with_ttl ttl sigs with
          | [] => []
          | rds => [(KNOT_ANSWER,
                     {| owner := owner rr; rr_type := KNOT_RRTYPE_RRSIG;
                        rclass := rclass rr; rrs := rds |})]
          end;
     pkt_wire := [] |}.

(** The room that [entry_h_splice] makes for an entry of [n] bytes: zeroes,
    and the presence bits in the flags. *)
Definition hole (n flags : Z) : list Z :=
  replicate 9 0 ++ [flags] ++ replicate (Z.to_nat n - 10) 0.

(** The record sets of an entry as [stash_rrset] lays them out. *)
Definition rr_payload {H : host} (rr : knot_rrset_t) (rr_sigs : option knot_rrset_t)
    : list Z :=
  snd (rdataset_dematerialize_spec (Some (rrs rr)))
  ++ snd (rdataset_dematerialize_spec (rrs <$> rr_sigs)).

(** The signatures, when there are any, are over a name of as many labels
    as the owner has: the record set is not the expansion of a wildcard. *)
Definition not_wildcard (rr : knot_rrset_t) (rr_sigs : option knot_rrset_t) : Prop :=
  match rr_sigs with
  | None => True
  | Some s => knot_rrsig_labels (rrs s) 0 = knot_dname_labels (owner rr)
  end.

(** The cache after the entry for a record set was stored under its key. *)
Definition stashed {H : host} (c : kr_cache store) (rr : knot_rrset_t)
    (rr_sigs : option knot_rrset_t) (now rank : Z) : kr_cache store :=
  let key := exact_key (owner rr) (rr_type rr) in
  let n := ENTRY_H_DATA + len (rr_payload rr rr_sigs) in
  {| db := <[key := entry_bytes (Int.u32 now) (clamp_ttl c (rrset_ttl rr rr_sigs))
                       (Int.u8 rank) (presence_flags (rr_type rr))
                       (rr_payload rr rr_sigs)]> (db c);
     api := cdb_map;
     stats := {| stat_hit := stat_hit (stats c); stat_miss := stat_miss (stats c);
                 stat_insert := Int.u32 (stat_insert (stats c) + 1);
                 stat_delete := stat_delete (stats c) |};
     ttl_min := ttl_min c; ttl_max := ttl_max c;
     oplog := oplog c ++ [EvRead key;
                          EvWrite key (hole n (presence_flags (rr_type rr)))] |}.

(** ** Inputs and vocabulary of the properties *)

Definition C5_entry (ttl time : Z) : entry_h :=
  {| eh_time := time; eh_ttl := ttl; eh_rank := 0; is_packet := false;
     has_optout := false; has_ns := false; has_cname := false;
     has_dname := false; has_nsec_params := false; eh_data := [] |}.

Definition C5_query (cb : option (Z -> knot_dname_t -> Z -> Z)) : kr_query :=
  {| flags := {| NO_CACHE := false; CACHE_TRIED := false; CACHED := false;
                 NO_MINIMIZE := false; EXPIRING := false;
                 DNSSEC_INSECURE := false; DNSSEC_WANT := false;
                 STUB := false; NONAUTH := false |};
     stype := 1; sclass := 1; sname := [0]; stale_cb := cb;
     timestamp := 100; uid := 0 |}.

Definition C5_stale_30 : Z -> knot_dname_t -> Z -> Z := fun _ _ _ => 30.

Definition C5_stale_refuse : Z -> knot_dname_t -> Z -> Z := fun _ _ _ => -5.

(** A packet entry that announces 4 octets and holds 3: rejected. *)
Definition C6_short_packet : list Z := [0; 0; 0; 0; 60; 0; 0; 0; 0; 1; 4; 0; 1; 2; 3].

Definition C2_com : list (list Z) := [[99; 111; 109]].

Definition C2_net : list (list Z) := [[110; 101; 116]].

(** The two bytes under the version key: [CACHE_VERSION] as the host
    stores a [uint16_t]. *)
Definition version_val {H : host} : list Z := host_bytes 2 CACHE_VERSION.

(** A cache over the map backend. *)
Definition on_map (c : kr_cache store) : Prop := api c = cdb_map.

Definition C7_old_store : store :=
  {[ version_key := [2; 0]; [1; 97; 0; 69; 1; 0] := [1; 2; 3]; [1; 98; 0; 69; 1; 0] := [4] ]}.

(** The name a\000b. with a zero octet inside its label. *)
Definition C10_owner : knot_dname_t := dname_of_labels [[97; 0; 98]].

Definition C10_rrset : knot_rrset_t :=
  {| owner := C10_owner; rr_type := 1; rclass := KNOT_CLASS_IN;
     rrs := [{| rd_ttl := 300; rd_data := [192; 0; 2; 1] |}] |}.

(** A request whose answer section holds one record of class CH. *)
Definition C8_ctx : kr_layer_t store :=
  {| state := KR_STATE_DONE;
     ctx_req := {| req_ctx := {| ctx_cache := ex_cache; trust_anchors := [] |};
                   current_query := Some (ex_query 1 100); answer_cd := false;
                   answ_selected :=
                     [{| qry_uid := 1; e_rank := 6; cached := false;
                         entry_rr := Some {| owner := ex_name; rr_type := 1;
                                             rclass := 3; rrs := [] |} |}];
                   auth_selected := []; add_selected := [] |} |}.

(** ** Direct access to the cache: [kr_cache_peek_exact], [kr_cache_ttl] *)

(** [struct kr_cache_p] (lib/cache/api.h) with the fields that api.c
    fills; [raw] is the bytes from [raw_data] to [raw_bound]. *)
Record kr_cache_p := {
  p_time : Z;
  p_ttl : Z;
  p_rank : Z;
  raw : list Z
}.

Section PeekExact.
Context {DB : Type} {H : host} {R : kr_rank_enc} {I : cache_impl DB}.

(** [peek_exact_real], api.c:1004.  The result is the code, [*peek] (as
    it was, unless the call succeeds) and the cache. *)
Definition peek_exact_real (cache : kr_cache DB) (name : knot_dname_t) (type : Z)
    (peek : kr_cache_p) : Z * kr_cache_p * kr_cache DB :=
  if negb (check_rrtype type) || negb (check_dname_for_lf name)
  then (kr_error ENOTSUP, peek, cache)
  else
    let k := k_storage in
    let '(ret, b) := kr_dname_lf (buf k) name false in
    let k := set_buf k b in
    if negb (ret =? 0) then (kr_error ret, peek, cache)
    else
      let '(key, k) := key_exact_type k type in
      let '(ret, val, cache) := cache_op_read cache key in
      let '(ret, val) := if ret =? 0 then entry_h_seek val type else (ret, val) in
      if negb (ret =? 0) then (kr_error ret, peek, cache)
      else
        match entry_h_consistent val type with
        | None => (kr_error ENOENT, peek, cache)
        | Some eh =>
            if is_packet eh then (kr_error ENOENT, peek, cache)
            else
              (kr_ok,
               {| p_time := eh_time eh; p_ttl := eh_ttl eh; p_rank := eh_rank eh;
                  raw := val |},
               cache)
        end.

(** [kr_cache_peek_exact], api.c:1035: the wrapper, whose logging is
    disabled in the source ([if (false && VERBOSE_STATUS)]). *)
Definition kr_cache_peek_exact (cache : kr_cache DB) (name : knot_dname_t) (type : Z)
    (peek : kr_cache_p) : Z * kr_cache_p * kr_cache DB :=
  peek_exact_real cache name type peek.

End PeekExact.

(** [kr_cache_ttl], api.c:247: the header is read at [peek->raw_data] and
    the time is [qry->timestamp.tv_sec]; [name] may be NULL. *)
Definition kr_cache_ttl (peek : kr_cache_p) (qry : kr_query)
    (name : option knot_dname_t) (type : Z) : Z :=
  get_new_ttl (entry_h_view (raw peek)) (Some qry) name type (timestamp qry).

(** ** Vocabulary of the stash loops *)

(** What [cache_stash] may do to an entry of the selected records while it
    works for [qry]: nothing, or set [cached] on an entry of that query
    that was not cached. *)
Definition marked_by (qry : kr_query) (e e' : ranked_rr_array_entry_t) : Prop :=
  e' = e \/ (e' = set_cached e /\ qry_uid e = uid qry /\ cached e = false).

(** The test of the search for signatures in [stash_rrarray_entry],
    api.c:845: an entry of the query that is not cached and holds the RRSIG
    set that covers the type of [rr] at the owner of [rr]. *)
Definition is_rrsig_of (qry : kr_query) (rr : knot_rrset_t)
    (e : ranked_rr_array_entry_t) : bool :=
  (qry_uid e =? uid qry) && negb (cached e)
  && match entry_rr e with
     | Some err =>
         (rr_type err =? KNOT_RRTYPE_RRSIG)
         && (knot_rrsig_type_covered (rrs err) 0 =? rr_type rr)
         && knot_dname_is_equal (owner rr) (owner err)
     | None => false
     end.

(** Two states of a cache with the same backend vtable and TTL bounds. *)
Definition same_setup {DB : Type} (c c' : kr_cache DB) : Prop :=
  api c' = api c /\ ttl_min c' = ttl_min c /\ ttl_max c' = ttl_max c.

(** The flags of a query that [answer_simple_hit] served from an entry of
    the rank given: CACHED and NO_MINIMIZE are set, DNSSEC_INSECURE says
    whether the rank is INSECURE and DNSSEC_WANT is dropped when it is;
    [expiring] is what [is_expiring] answered. *)
Definition served_flags {R : kr_rank_enc} (f : kr_qflags) (rank : Z) (expiring : bool)
    : kr_qflags :=
  {| NO_CACHE := NO_CACHE f; CACHE_TRIED := CACHE_TRIED f;
     CACHED := true; NO_MINIMIZE := true;
     EXPIRING := expiring;
     DNSSEC_INSECURE := kr_rank_test rank KR_RANK_INSECURE;
     DNSSEC_WANT := if kr_rank_test rank KR_RANK_INSECURE then false else DNSSEC_WANT f;
     STUB := STUB f; NONAUTH := NONAUTH f |}.

(** A query for example.com whose stale callback grants 30 seconds. *)
Definition ex_query_stale (type now : Z) : kr_query :=
  {| flags := ex_flags; stype := type; sclass := KNOT_CLASS_IN; sname := ex_name;
     stale_cb := Some (fun _ _ _ => 30); timestamp := now; uid := 1 |}.

(** The cache after example.com. 300 IN A 192.0.2.1 of rank INSECURE|AUTH
    was stashed at time 100. *)
Definition ex_cache_a : kr_cache store :=
  snd (@stash_rrset _ little_endian_host spec_ranks ex_impl ex_cache None
         (ex_rrset 1 300 [192; 0; 2; 1]) None 100 5).



(** ** Vocabulary of the walk of [closest_NS] *)

(** The key buffer during the walk of [closest_NS]: [k->zname] is at the
    name with the labels [ls], [zl] is the length of its label format and
    the buffer of 260 octets holds that label format from [buf[1]] on. *)
Definition key_at (k : key) (zl : Z) (ls : list (list Z)) : Prop :=
  zname k = dname_of_labels ls /\ zl = len (lf_of_labels ls)
  /\ length (buf k) = 260%nat
  /\ exists (b0 : Z) (rest : list Z), buf k = b0 :: lf_of_labels ls ++ rest.

(** The key with which [cache_peek_real] enters [closest_NS] for a name:
    [k->zname] at the name and its label format in the buffer. *)
Definition peek_key (name : knot_dname_t) : key :=
  let k := set_zname k_storage name in
  set_buf k (snd (kr_dname_lf_spec (buf k) (zname k) false)).

(** com. *)
Definition ex_zone : knot_dname_t := dname_of_labels [[99; 111; 109]].

(** com. 300 IN NS a. *)
Definition ex_ns_rrset : knot_rrset_t :=
  {| owner := ex_zone; rr_type := KNOT_RRTYPE_NS; rclass := KNOT_CLASS_IN;
     rrs := [{| rd_ttl := 300; rd_data := [1; 97; 0] |}] |}.

(** The cache after the NS set of com. of rank INSECURE|AUTH was stashed
    at time 100. *)
Definition ex_cache_ns : kr_cache store :=
  snd (@stash_rrset _ little_endian_host spec_ranks ex_impl ex_cache None
         ex_ns_rrset None 100 5).

(** A packet with the type of its question replaced. *)
Definition asked_for (qtype : Z) (pkt : knot_pkt_t) : knot_pkt_t :=
  {| pkt_qname := pkt_qname pkt; pkt_qtype := qtype; wire_tc := wire_tc pkt;
     wire_rcode := wire_rcode pkt; pkt_current := pkt_current pkt;
     pkt_rr := pkt_rr pkt; pkt_wire := pkt_wire pkt |}.

(** The start of an RRSIG for example.com whose labels field is 1: a
    signature made for *.com. *)
Definition ex_wild_sigs : knot_rrset_t :=
  {| owner := ex_name; rr_type := KNOT_RRTYPE_RRSIG; rclass := KNOT_CLASS_IN;
     rrs := [{| rd_ttl := 300; rd_data := [0; 1; 8; 1] |}] |}.

(** The cache after example.com. 300 IN A 192.0.2.1 with that signature
    was stashed at time 100. *)
Definition ex_cache_wild : kr_cache store :=
  snd (@stash_rrset _ little_endian_host spec_ranks ex_impl ex_cache None
         (ex_rrset 1 300 [192; 0; 2; 1]) (Some ex_wild_sigs) 100 5).

(** ** Vocabulary of the scan, in the words of the claim *)


Section ScanInOrder.
Context {DB : Type} {H : host} {R : kr_rank_enc} {I : cache_impl DB}.



End ScanInOrder.

(** ** Vocabulary of the merge under an NS key *)

(** A sub-entry that stands on its own: it has a header, and the length
    that [entry_span] reads at its start is its own, whatever follows it
    and whatever the presence bits of its header are. *)
Definition spanned {H : host} (p : list Z) : Prop :=
  ENTRY_H_DATA <= len p
  /\ forall (f : Z) (tail : list Z),
       Z.testbit f 0 = Z.testbit (Bytes.byte_at p 9) 0 ->
       entry_span (Bytes.poke 9 f p ++ tail) = Some (len p).

(** A part of the value under an NS key: absent, or a sub-entry. *)
Definition part_ok {H : host} (p : list Z) : Prop := p = [] \/ spanned p.

(** One part of the value under an NS key, as [entry_list_parse] reads
    it: the sub-entry at the start of [v] when its presence bit is set,
    and what follows it. *)
Definition parse_part {H : host} (present : bool) (v : list Z)
    : option (list Z * list Z) :=
  if present then
    match entry_span v with
    | Some n => Some (take (Z.to_nat n) v, drop (Z.to_nat n) v)
    | None => None
    end
  else Some ([], v).

(** * Part II: properties *)

(** ** Integers and bytes *)

Lemma to_int32_range z : Int.in_int32 (Int.to_int32 z).
Proof.
  unfold Int.in_int32, Int.to_int32.
  pose proof (Z.mod_pos_bound z (2 ^ 32) ltac:(lia)) as Hm.
  destruct (Z.ltb_spec (z mod 2 ^ 32) (2 ^ 31)); lia.
Qed.

Lemma to_int32_id z : Int.in_int32 z -> Int.to_int32 z = z.
Proof.
  unfold Int.in_int32, Int.to_int32. intros Hz.
  destruct (Z_lt_le_dec z 0) as [Hneg|Hpos].
  - replace (z mod 2 ^ 32) with (z + 2 ^ 32).
    + destruct (Z.ltb_spec (z + 2 ^ 32) (2 ^ 31)); lia.
    + apply Z.mod_unique with (q := -1); lia.
  - rewrite Z.mod_small by lia.
    destruct (Z.ltb_spec z (2 ^ 31)); lia.
Qed.

Lemma u32_id z : Int.in_u32 z -> Int.u32 z = z.
Proof. unfold Int.in_u32, Int.u32. intros Hz. apply Z.mod_small. lia. Qed.

Lemma le_bytes_length n v : length (Bytes.le_bytes n v) = n.
Proof. revert v. induction n as [|n IH]; intros v; simpl; [done|]. by rewrite IH. Qed.

Lemma le_bytes_is_byte n v : Forall Bytes.is_byte (Bytes.le_bytes n v).
Proof.
  revert v. induction n as [|n IH]; intros v; simpl; constructor; [|apply IH].
  unfold Bytes.is_byte. apply Z.mod_pos_bound. lia.
Qed.

Lemma le_value_bytes n v : Bytes.le_value (Bytes.le_bytes n v) = v mod 256 ^ Z.of_nat n.
Proof.
  revert v. induction n as [|n IH]; intros v.
  - simpl. by rewrite Z.mod_1_r.
  - cbn [Bytes.le_bytes Bytes.le_value]. rewrite IH.
    replace (256 ^ Z.of_nat (S n)) with (256 * 256 ^ Z.of_nat n)
      by (rewrite Nat2Z.inj_succ, Z.pow_succ_r; lia).
    rewrite Z.rem_mul_r by lia. lia.
Qed.

Lemma le_value_nonneg bs : Forall Bytes.is_byte bs -> 0 <= Bytes.le_value bs.
Proof.
  induction 1 as [|b bs Hb _ IH]; simpl; [lia|]. unfold Bytes.is_byte in Hb. lia.
Qed.

Section HostBytesFacts.
Context {H : host}.

Lemma host_bytes_length n v : length (host_bytes n v) = n.
Proof.
  unfold host_bytes. destruct big_endian;
    rewrite ?length_rev; apply le_bytes_length.
Qed.

Lemma host_bytes_is_byte n v : Forall Bytes.is_byte (host_bytes n v).
Proof.
  unfold host_bytes. destruct big_endian; [apply Forall_rev|]; apply le_bytes_is_byte.
Qed.

Lemma host_value_bytes n v : host_value (host_bytes n v) = v mod 256 ^ Z.of_nat n.
Proof.
  unfold host_value, host_bytes. destruct big_endian;
    rewrite ?rev_involutive; apply le_value_bytes.
Qed.

Lemma host_value_nonneg bs : Forall Bytes.is_byte bs -> 0 <= host_value bs.
Proof.
  intros Hb. unfold host_value. apply le_value_nonneg.
  destruct big_endian; [by apply Forall_rev|done].
Qed.

End HostBytesFacts.

Lemma slice_is_byte off n l :
  Forall Bytes.is_byte l -> Forall Bytes.is_byte (Bytes.slice off n l).
Proof. intros Hl. unfold Bytes.slice. by apply Forall_take, Forall_drop. Qed.

(** ** TTL arithmetic: [get_new_ttl] *)

(** Within the ranges where the 32-bit subtractions do not wrap, the value
    computed before the callback is consulted is [ttl - max 0 (now - time)]. *)
Lemma get_new_ttl_res entry now :
  Int.in_u32 now -> Int.in_u32 (eh_time entry) ->
  0 <= eh_ttl entry < 2 ^ 31 ->
  - 2 ^ 31 <= now - eh_time entry < 2 ^ 31 ->
  Int.to_int32
    (eh_ttl entry
     - (if Int.to_int32 (Int.u32 now - eh_time entry) <? 0 then 0
        else Int.to_int32 (Int.u32 now - eh_time entry)))
  = eh_ttl entry - Z.max 0 (now - eh_time entry).
Proof.
  intros Hnow Ht Httl Hd.
  rewrite (u32_id now) by done.
  rewrite (to_int32_id (now - eh_time entry)) by (unfold Int.in_int32; lia).
  destruct (Z.ltb_spec (now - eh_time entry) 0);
    rewrite to_int32_id; unfold Int.in_int32; lia.
Qed.

(** C5, as amended.  For an entry whose TTL is below 2^31 and a time
    difference that fits [int32_t], [get_new_ttl] computes
    [res = ttl - max 0 (now - time)].  When [res] is negative, the owner
    and the query are not NULL, the stale callback is set and its value is
    non-negative, that value is returned; in every other case, also when
    the callback gives a negative value, [res] itself is returned. *)
Theorem get_new_ttl_spec entry qry owner type now :
  Int.in_u32 now -> Int.in_u32 (eh_time entry) ->
  0 <= eh_ttl entry < 2 ^ 31 ->
  - 2 ^ 31 <= now - eh_time entry < 2 ^ 31 ->
  let res := eh_ttl entry - Z.max 0 (now - eh_time entry) in
  get_new_ttl entry qry owner type now =
    match owner, qry ≫= stale_cb with
    | Some o, Some cb =>
        if (res <? 0) && (cb res o type >=? 0) then cb res o type else res
    | _, _ => res
    end.
Proof.
  intros Hnow Ht Httl Hd res.
  unfold get_new_ttl. cbv zeta.
  rewrite (get_new_ttl_res entry now Hnow Ht Httl Hd). fold res.
  destruct owner as [o|], qry as [q|]; simpl; try reflexivity.
  destruct (stale_cb q) as [cb|]; [|reflexivity].
  by destruct (res <? 0), (cb res o type >=? 0).
Qed.

Lemma get_new_ttl_spec_witness :
  Int.in_u32 401 /\ Int.in_u32 100 /\ 0 <= 300 < 2 ^ 31
  /\ - 2 ^ 31 <= 401 - 100 < 2 ^ 31
  /\ get_new_ttl (C5_entry 300 100) (Some (C5_query (Some C5_stale_30)))
       (Some [0]) 1 401 = 30.
Proof.
  assert (H1 : Int.in_u32 401) by (unfold Int.in_u32; lia).
  assert (H2 : Int.in_u32 100) by (unfold Int.in_u32; lia).
  assert (H3 : 0 <= 300 < 2 ^ 31) by lia.
  assert (H4 : - 2 ^ 31 <= 401 - 100 < 2 ^ 31) by lia.
  refine (conj H1 (conj H2 (conj H3 (conj H4 _)))).
  exact (get_new_ttl_spec (C5_entry 300 100)
           (Some (C5_query (Some C5_stale_30))) (Some [0]) 1 401 H1 H2 H3 H4).
Defined.

(** C5, as stated, fails.  (1) An entry of TTL 10 stored at time 0 and read
    at time 100 by a query whose callback answers -5: the difference is
    -90, the callback is set, and the function returns -90, not the -5
    that the callback provides.  (2) With a NULL owner the callback, which
    would answer 30, is not consulted.  (3) A TTL of 2^31 read at once
    comes back as -2^31. *)
Lemma get_new_ttl_counterexample :
  (10 - Z.max 0 (100 - 0) < 0
   /\ get_new_ttl (C5_entry 10 0) (Some (C5_query (Some C5_stale_refuse)))
        (Some [0]) 1 100 = -90
   /\ C5_stale_refuse (-90) [0] 1 = -5)
  /\ get_new_ttl (C5_entry 10 0) (Some (C5_query (Some C5_stale_30)))
       None 1 100 = -90
  /\ get_new_ttl (C5_entry (2 ^ 31) 0) None None 1 0 = - 2 ^ 31.
Proof. repeat split; reflexivity. Qed.

(** ** Entry consistency: [entry_h_consistent] *)

Section EntryConsistency.
Context {H : host} {R : kr_rank_enc}.

Lemma pkt_len_of_nonneg data : Forall Bytes.is_byte data -> 0 <= pkt_len_of data.
Proof.
  intros Hb. apply host_value_nonneg, slice_is_byte. simpl. by apply Forall_drop.
Qed.

Lemma entry_h_consistent_accepted data type :
  entry_h_consistent data type
  = if entry_h_accepted data then Some (entry_h_view data) else None.
Proof.
  unfold entry_h_consistent, entry_h_accepted. cbv zeta. fold (pkt_len_of data).
  set (p := is_packet (entry_h_view data)).
  set (b := kr_rank_test (eh_rank (entry_h_view data)) KR_RANK_BOGUS).
  set (o := has_optout (entry_h_view data)).
  clearbody p b o.
  destruct (Z.ltb_spec (len data) ENTRY_H_DATA),
           (Z.leb_spec ENTRY_H_DATA (len data)); try lia; [done|].
  destruct p; cbn [andb orb negb]; [|done].
  destruct (Z.ltb_spec (len data) (ENTRY_H_DATA + 2)),
           (Z.leb_spec (ENTRY_H_DATA + 2) (len data)); try lia; [done|].
  destruct (Z.ltb_spec (len data) (ENTRY_H_DATA + 2 + pkt_len_of data)),
           (Z.leb_spec (ENTRY_H_DATA + 2 + pkt_len_of data) (len data));
    try lia; done.
Qed.

Lemma entry_h_consistent_view data type eh :
  entry_h_consistent data type = Some eh -> eh = entry_h_view data.
Proof.
  rewrite entry_h_consistent_accepted. destruct (entry_h_accepted data); congruence.
Qed.

(** C6.  A value of bytes is accepted by [entry_h_consistent] (the header
    overlaid on it is returned) exactly when it is at least as long as the
    header, a packet entry is at least as long as the header, the two
    octets of the packet length and the packet it announces, the rank BOGUS
    occurs only on a packet entry, and [has_optout] occurs only on a packet
    entry.  Every other value is rejected with NULL ([None]). *)
Theorem entry_h_consistent_spec data type :
  Forall Bytes.is_byte data ->
  let eh := entry_h_view data in
  let accepted :=
    ENTRY_H_DATA <= len data
    /\ (is_packet eh = true -> ENTRY_H_DATA + 2 + pkt_len_of data <= len data)
    /\ (kr_rank_test (eh_rank eh) KR_RANK_BOGUS = true -> is_packet eh = true)
    /\ (has_optout eh = true -> is_packet eh = true) in
  (entry_h_consistent data type = Some eh <-> accepted)
  /\ (entry_h_consistent data type = None <-> ~ accepted).
Proof.
  intros Hb eh accepted.
  pose proof (pkt_len_of_nonneg data Hb) as Hp.
  assert (Hacc : entry_h_accepted data = true <-> accepted).
  { unfold entry_h_accepted, accepted. fold eh. cbv zeta.
    rewrite !andb_true_iff, !orb_true_iff, !andb_true_iff, !negb_true_iff, !Z.leb_le.
    destruct (is_packet eh), (kr_rank_test (eh_rank eh) KR_RANK_BOGUS),
      (has_optout eh); intuition (try congruence; try lia). }
  rewrite entry_h_consistent_accepted. fold eh.
  destruct (entry_h_accepted data).
  - assert (Ha : accepted) by (by apply Hacc).
    split; split; [by intros _|done|discriminate|by intros Hn].
  - assert (Hn : ~ accepted) by (intros Ha; by apply Hacc in Ha).
    split; split; [discriminate|by intros Ha|by intros _|done].
Qed.

End EntryConsistency.

Lemma entry_h_consistent_spec_witness :
  Forall Bytes.is_byte C6_short_packet
  /\ @entry_h_consistent little_endian_host spec_ranks C6_short_packet 1 = None.
Proof.
  assert (Hb : Forall Bytes.is_byte C6_short_packet).
  { unfold C6_short_packet, Bytes.is_byte. repeat constructor; lia. }
  refine (conj Hb _).
  apply (proj2 (@entry_h_consistent_spec little_endian_host spec_ranks
                  C6_short_packet 1 Hb)).
  intros (_ & Hp & _). specialize (Hp eq_refl). vm_compute in Hp. by apply Hp.
Defined.

(** ** The stash path never fails its caller: [cache_stash] *)

Section StashFacts.
Context {DB : Type} {H : host} {R : kr_rank_enc} {I : cache_impl DB}.

(** C8.  For every layer context and packet, [cache_stash] returns the
    state it was called with, [ctx->state], and leaves that state in the
    context: whatever the preconditions, the records, the backend and the
    rest of the cache do (refusals, errors of [stash_rrarray_entry], failed
    writes, a truncated packet), no error reaches the caller. *)
Theorem cache_stash_returns_state (ctx : kr_layer_t DB) (pkt : knot_pkt_t) :
  fst (cache_stash ctx pkt) = state ctx
  /\ state (snd (cache_stash ctx pkt)) = state ctx.
Proof.
  unfold cache_stash.
  destruct (current_query (ctx_req ctx)) as [qry|]; [|done].
  destruct (CACHED (flags qry) || negb (check_rrtype (knot_pkt_qtype pkt))
            || negb (sclass qry =? KNOT_CLASS_IN)); [done|].
  destruct (knot_wire_get_tc pkt); [done|].
  destruct (stash_sections _ _ _ _) as [[ret req] unauth_cnt].
  destruct (kr_cache_sync _) as [? cache]. done.
Qed.

End StashFacts.

(** ** Peeking for NSEC: [cache_peek] *)

Section PeekNSEC.
Context {DB : Type} {H : host} {R : kr_rank_enc} {I : cache_impl DB}.

Lemma kr_cache_sync_log (c : kr_cache DB) :
  oplog (snd (kr_cache_sync c)) = oplog c
  \/ oplog (snd (kr_cache_sync c)) = oplog c ++ [EvSync].
Proof.
  unfold kr_cache_sync. destruct (cdb_sync (api c)) as [sync|]; [|by left].
  destruct (sync (db c)). by right.
Qed.

(** What [cache_peek_real] does for the type NSEC: the query is marked as
    tried and nothing else happens. *)
Lemma cache_peek_real_NSEC (ctx : kr_layer_t DB) (qry : kr_query) (pkt : knot_pkt_t) :
  stype qry = KNOT_RRTYPE_NSEC ->
  cache_peek_real ctx qry pkt
  = (state ctx, set_CACHE_TRIED qry, pkt, ctx_cache (req_ctx (ctx_req ctx))).
Proof. intros E. unfold cache_peek_real. simpl. by rewrite E. Qed.

(** C9.  A peek whose query type is NSEC returns the state it was called
    with and the packet as it was.  The backend is asked nothing but, at
    most, one sync: no read and no write.  When one of the checks of
    [cache_peek] turns the call away (the state is FAIL or DONE, NO_CACHE,
    CACHE_TRIED without a stale callback, a class other than IN) the
    context is untouched; otherwise the query left behind has CACHE_TRIED
    set and is the query given in everything else. *)
Theorem cache_peek_NSEC (ctx : kr_layer_t DB) (pkt : knot_pkt_t) (qry : kr_query) :
  current_query (ctx_req ctx) = Some qry ->
  stype qry = KNOT_RRTYPE_NSEC ->
  exists ctx',
    cache_peek ctx pkt = (state ctx, ctx', pkt)
    /\ state ctx' = state ctx
    /\ (let log := oplog (ctx_cache (req_ctx (ctx_req ctx))) in
        let log' := oplog (ctx_cache (req_ctx (ctx_req ctx'))) in
        log' = log \/ log' = log ++ [EvSync])
    /\ (if negb (Z.land (state ctx) (Z.lor KR_STATE_FAIL KR_STATE_DONE) =? 0)
           || NO_CACHE (flags qry)
           || (CACHE_TRIED (flags qry) && negb (bool_decide (is_Some (stale_cb qry))))
           || negb (sclass qry =? KNOT_CLASS_IN)
        then ctx' = ctx
        else
          exists qry' : kr_query,
            current_query (ctx_req ctx') = Some qry'
            /\ CACHE_TRIED (flags qry') = true
            /\ qry'
               = {| flags :=
                      {| NO_CACHE := NO_CACHE (flags qry); CACHE_TRIED := true;
                         CACHED := CACHED (flags qry);
                         NO_MINIMIZE := NO_MINIMIZE (flags qry);
                         EXPIRING := EXPIRING (flags qry);
                         DNSSEC_INSECURE := DNSSEC_INSECURE (flags qry);
                         DNSSEC_WANT := DNSSEC_WANT (flags qry);
                         STUB := STUB (flags qry); NONAUTH := NONAUTH (flags qry) |};
                    stype := stype qry; sclass := sclass qry; sname := sname qry;
                    stale_cb := stale_cb qry; timestamp := timestamp qry;
                    uid := uid qry |}).
Proof.
  intros Eq Et. unfold cache_peek. rewrite Eq, Et.
  change (check_rrtype KNOT_RRTYPE_NSEC) with true. cbn [negb]. rewrite orb_false_r.
  match goal with |- context [if ?c then (_, _, _) else _] => destruct c end.
  { exists ctx. repeat split; auto. }
  rewrite cache_peek_real_NSEC by done.
  pose proof (kr_cache_sync_log (ctx_cache (req_ctx (ctx_req ctx)))) as Hlog.
  destruct (kr_cache_sync _) as [? cache]. simpl in Hlog.
  eexists. split; [reflexivity|]. simpl. repeat split; auto.
  eexists. repeat split. unfold set_CACHE_TRIED, set_flags. by rewrite Et.
Qed.

End PeekNSEC.

(** ** Names in wire format *)

Lemma len_nonneg (v : list Z) : 0 <= len v.
Proof. unfold len. lia. Qed.

Lemma len_app (a b : list Z) : len (a ++ b) = len a + len b.
Proof. unfold len. rewrite length_app. lia. Qed.

Lemma len_cons (x : Z) (a : list Z) : len (x :: a) = 1 + len a.
Proof. unfold len. simpl. lia. Qed.

Lemma dname_of_labels_cons l ls :
  dname_of_labels (l :: ls) = (len l :: l) ++ dname_of_labels ls.
Proof. unfold dname_of_labels. simpl. by rewrite <- !app_assoc. Qed.

Lemma next_label_cons l ls :
  knot_wire_next_label (dname_of_labels (l :: ls)) = dname_of_labels ls.
Proof.
  rewrite dname_of_labels_cons. unfold knot_wire_next_label, Bytes.byte_at. simpl.
  replace (Z.to_nat (len l + 1)) with (S (length l)) by (unfold len; lia).
  simpl. by rewrite drop_app_length.
Qed.

Lemma dname_walk_labels step ls fuel :
  Forall wf_label ls -> (length ls < fuel)%nat ->
  dname_walk fuel step (dname_of_labels ls)
  = fold_right (fun l acc => step (len l) + acc) 0 ls.
Proof.
  revert fuel. induction ls as [|l ls IH]; intros fuel Hwf Hf;
    (destruct fuel as [|fuel]; [simpl in Hf; lia|]).
  - reflexivity.
  - inversion Hwf as [|? ? [Hl _] Hwf']; subst.
    cbn [dname_walk fold_right]. rewrite next_label_cons.
    rewrite dname_of_labels_cons. unfold Bytes.byte_at at 1 2. simpl.
    destruct (Z.eqb_spec (len l) 0) as [E|_]; [unfold len in E; lia|].
    rewrite IH; [done|done|simpl in Hf; lia].
Qed.

Lemma dname_of_labels_length ls :
  len (dname_of_labels ls) = fold_right (fun l acc => (len l + 1) + acc) 0 ls + 1.
Proof.
  induction ls as [|l ls IH]; [reflexivity|].
  rewrite dname_of_labels_cons, len_app, len_cons, IH. simpl. lia.
Qed.

Lemma labels_shorter ls : (length ls < length (dname_of_labels ls))%nat.
Proof.
  induction ls as [|l ls IH]; [simpl; lia|].
  rewrite dname_of_labels_cons, length_app. simpl. lia.
Qed.

(** [knot_dname_size] of a well-formed name is the length of its wire form. *)
Lemma knot_dname_size_labels ls :
  Forall wf_label ls -> knot_dname_size (dname_of_labels ls) = len (dname_of_labels ls).
Proof.
  intros Hwf. unfold knot_dname_size.
  rewrite dname_walk_labels by (done || apply labels_shorter).
  by rewrite dname_of_labels_length.
Qed.

Lemma knot_dname_labels_labels ls :
  Forall wf_label ls -> knot_dname_labels (dname_of_labels ls) = len (map len ls).
Proof.
  intros Hwf. unfold knot_dname_labels.
  rewrite dname_walk_labels by (done || apply labels_shorter).
  clear Hwf. induction ls as [|l ls IH]; [done|]. simpl. rewrite IH.
  unfold len. simpl. lia.
Qed.

Lemma strlen_le s : 0 <= strlen s <= len s.
Proof.
  induction s as [|c s IH]; simpl; [unfold len; simpl; lia|].
  rewrite len_cons. destruct (c =? 0); lia.
Qed.

Lemma strlen_zero_at a b : strlen (a ++ 0 :: b) <= len a.
Proof.
  induction a as [|c a IH]; simpl; [unfold len; simpl; lia|].
  rewrite len_cons. destruct (c =? 0); [pose proof (len_nonneg a)|]; lia.
Qed.

(** A zero octet inside a label makes [check_dname_for_lf] refuse the name. *)
Lemma check_dname_for_lf_zero n : zero_in_label n -> check_dname_for_lf n = false.
Proof.
  intros (ls & -> & Hwf & Hz). unfold check_dname_for_lf.
  rewrite knot_dname_size_labels by done.
  assert (Hin : In 0 (concat (map (fun l => Z.of_nat (length l) :: l) ls))).
  { apply Exists_exists in Hz as (l & Hl & H0).
    apply in_concat. exists (Z.of_nat (length l) :: l). split; [|by right].
    apply in_map_iff. exists l. split; [done|by apply list_elem_of_In]. }
  apply in_split in Hin as (pre & post & E).
  unfold dname_of_labels. rewrite E, <- app_assoc. simpl.
  pose proof (strlen_zero_at pre (post ++ [0])) as Hs.
  rewrite !len_app, len_cons, len_app in *. change (len [0]) with 1.
  pose proof (len_nonneg post).
  apply Z.eqb_neq. lia.
Qed.

(** ** Inserting a record that fails the preconditions *)

Section InsertFacts.
Context {DB : Type} {H : host} {R : kr_rank_enc} {I : cache_impl DB}.

(** C10.  [kr_cache_insert_rr] returns [kr_ok] and the cache as it was
    whenever the record fails [stash_rrset_precond]: the pointer is NULL,
    the class is not IN, the type is a metatype, RRSIG or NSEC3, or the
    owner holds a zero octet inside a label.  (Assertions compiled out;
    with them, the first two cases stop the program at [assert(!EINVAL)].) *)
Theorem kr_cache_insert_rr_refused (cache : kr_cache DB) (rr rrsig : option knot_rrset_t)
    (rank timestamp : Z) :
  (rr = None
   \/ exists r, rr = Some r
        /\ (rclass r <> KNOT_CLASS_IN
            \/ knot_rrtype_is_metatype (rr_type r) = true
            \/ rr_type r = KNOT_RRTYPE_RRSIG
            \/ rr_type r = KNOT_RRTYPE_NSEC3
            \/ zero_in_label (owner r))) ->
  stash_rrset_precond rr <= 0
  /\ kr_cache_insert_rr cache rr rrsig rank timestamp = (kr_ok, cache).
Proof.
  intros Hrr.
  assert (Hp : stash_rrset_precond rr <= 0).
  { destruct Hrr as [->|(r & -> & Hr)]; [done|]. unfold stash_rrset_precond.
    destruct (Z.eqb_spec (rclass r) KNOT_CLASS_IN) as [Ec|Ec]; [|done]. simpl.
    unfold check_rrtype.
    destruct Hr as [Hr|[Hr|[Hr|[Hr|Hr]]]]; [done|by rewrite Hr|..].
    - rewrite Hr. by rewrite Z.eqb_refl, andb_false_r.
    - rewrite Hr. by rewrite Z.eqb_refl, orb_true_r.
    - rewrite (check_dname_for_lf_zero _ Hr).
      by destruct (_ || _). }
  split; [done|]. unfold kr_cache_insert_rr.
  by destruct (Z.leb_spec (stash_rrset_precond rr) 0); [|lia].
Qed.

End InsertFacts.

(** ** Keys: [kr_dname_lf] and [key_exact_type_maypkt] *)

Lemma poke_all_spec src : forall i l,
  0 <= i -> i + len src <= len l ->
  Bytes.poke_all i src l
  = take (Z.to_nat i) l ++ src ++ drop (Z.to_nat (i + len src)) l.
Proof.
  induction src as [|b src IH]; intros i l Hi Hl.
  - simpl. change (len []) with 0. rewrite Z.add_0_r. by rewrite take_drop.
  - rewrite len_cons in Hl. cbn [Bytes.poke_all].
    assert (Hlt : (Z.to_nat i < length l)%nat) by (unfold len in Hl; lia).
    rewrite IH; [|lia|].
    2:{ unfold Bytes.poke. destruct (Z.ltb_spec i 0); [lia|].
        unfold len in *. rewrite length_insert. lia. }
    unfold Bytes.poke. destruct (Z.ltb_spec i 0); [lia|].
    replace (Z.to_nat (i + 1)) with (S (Z.to_nat i)) by lia.
    rewrite take_S_r with (x := b) by (by apply list_lookup_insert_eq).
    rewrite take_insert_ge by lia.
    rewrite drop_insert_lt by (pose proof (len_nonneg src); lia).
    rewrite <- app_assoc. simpl.
    by replace (i + len (b :: src)) with (i + 1 + len src) by (rewrite len_cons; lia).
Qed.

Lemma poke_as_poke_all i b l : Bytes.poke i b l = Bytes.poke_all i [b] l.
Proof. reflexivity. Qed.

Lemma poke_all_app a b : forall i l,
  Bytes.poke_all i (a ++ b) l = Bytes.poke_all (i + len a) b (Bytes.poke_all i a l).
Proof.
  induction a as [|x a IH]; intros i l; simpl.
  - change (len []) with 0. by rewrite Z.add_0_r.
  - rewrite IH, len_cons. f_equal. lia.
Qed.

Lemma slice_app_mid (a m r : list Z) :
  Bytes.slice (len a) (len m) (a ++ m ++ r) = m.
Proof.
  unfold Bytes.slice, len. rewrite !Nat2Z.id.
  by rewrite drop_app_length, take_app_length.
Qed.

Lemma lf_of_labels_cons l ls :
  lf_of_labels (l :: ls) = lf_of_labels ls ++ len l :: l.
Proof.
  unfold lf_of_labels. simpl rev. rewrite map_app, concat_app. simpl.
  by rewrite app_nil_r.
Qed.

Lemma lf_of_labels_length ls : len (lf_of_labels ls) = len (dname_of_labels ls) - 1.
Proof.
  induction ls as [|l ls IH]; [done|].
  rewrite lf_of_labels_cons, dname_of_labels_cons, !len_app, !len_cons, IH. lia.
Qed.

Lemma dname_labels_of ls fuel :
  Forall wf_label ls -> (length ls < fuel)%nat ->
  dname_labels fuel (dname_of_labels ls) = ls.
Proof.
  revert fuel. induction ls as [|l ls IH]; intros fuel Hwf Hf;
    (destruct fuel as [|fuel]; [simpl in Hf; lia|]).
  - reflexivity.
  - inversion Hwf as [|? ? [Hl _] Hwf']; subst.
    cbn [dname_labels]. rewrite next_label_cons.
    rewrite dname_of_labels_cons. unfold Bytes.byte_at. simpl.
    destruct (Z.eqb_spec (len l) 0) as [E|_]; [unfold len in E; lia|].
    rewrite IH; [|done|simpl in Hf; lia].
    f_equal. unfold len. rewrite Nat2Z.id. rewrite drop_0. by rewrite take_app_length.
Qed.

Lemma concat_prefixed_inj (l l' : list (list Z)) :
  concat (map (fun x => len x :: x) l) = concat (map (fun x => len x :: x) l') ->
  l = l'.
Proof.
  revert l'. induction l as [|x l IH]; intros [|y l'] E; simpl in E;
    try discriminate; [done|].
  injection E as El E.
  assert (length x = length y) as Hxy by (unfold len in El; lia).
  apply app_inj_1 in E as [-> E]; [|done].
  by rewrite (IH l' E).
Qed.

Lemma lf_of_labels_inj ls1 ls2 : lf_of_labels ls1 = lf_of_labels ls2 -> ls1 = ls2.
Proof.
  unfold lf_of_labels. intros E. apply concat_prefixed_inj in E.
  by rewrite <- (rev_involutive ls1), E, rev_involutive.
Qed.

Section KeyFacts.
Context {H : host}.

Lemma k_storage_buf : buf k_storage = replicate 260 0.
Proof. reflexivity. Qed.

(** The bytes of the key of a label format [lf] in a fresh buffer. *)
Lemma key_exact_type_maypkt_bytes (k : key) (lf : list Z) (type : Z) :
  len lf <= KNOT_DNAME_MAXLEN ->
  type <> KNOT_RRTYPE_RRSIG ->
  fst (key_exact_type_maypkt
         (set_buf k (Bytes.poke_all 0 (len lf :: lf) (buf k_storage))) type)
  = lf ++ [0; 69] ++ host_bytes 2 (key_type type).
Proof.
  intros Hlen Ht. unfold key_exact_type_maypkt.
  destruct (Z.eqb_spec type KNOT_RRTYPE_RRSIG); [done|].
  fold (key_type type). cbn [fst set_buf buf].
  pose proof (len_nonneg lf) as Hnn.
  change KNOT_DNAME_MAXLEN with 255 in Hlen.
  rewrite k_storage_buf.
  set (pad := replicate (259 - length lf) 0).
  assert (Hpad : len pad = 259 - len lf).
  { unfold pad, len. rewrite length_replicate. unfold len in Hlen. lia. }
  assert (Hb : Bytes.poke_all 0 (len lf :: lf) (replicate 260 0)
               = (len lf :: lf) ++ pad).
  { rewrite poke_all_spec; [|lia|].
    2:{ rewrite len_cons. unfold len at 2. rewrite length_replicate. lia. }
    rewrite take_0. cbn [app]. do 2 f_equal.
    rewrite drop_replicate. unfold pad. f_equal.
    rewrite len_cons. unfold len. lia. }
  rewrite Hb.
  assert (Hn : Bytes.byte_at ((len lf :: lf) ++ pad) 0 = len lf) by reflexivity.
  rewrite Hn.
  rewrite !poke_as_poke_all.
  replace (len lf + 2) with (len lf + 1 + len [0]) by (change (len [0]) with 1; lia).
  rewrite <- poke_all_app.
  replace (len lf + 3) with (len lf + 1 + len ([0] ++ [69]))
    by (change (len ([0] ++ [69])) with 2; lia).
  rewrite <- poke_all_app.
  pose proof (host_bytes_length 2 (key_type type)) as Hh.
  set (hb := host_bytes 2 (key_type type)) in *.
  assert (Hhb : len hb = 2) by (unfold len; lia).
  rewrite poke_all_spec; [|lia|].
  2:{ rewrite !len_app, !len_cons, Hpad, Hhb. change (len []) with 0. lia. }
  replace (Z.to_nat (len lf + 1)) with (length (len lf :: lf))
    by (unfold len; simpl; lia).
  rewrite take_app_length.
  set (tail := drop _ _).
  set (m := lf ++ [0; 69] ++ hb).
  assert (Hm : len m = len lf + 4).
  { unfold m. rewrite !len_app, Hhb. change (len [0; 69]) with 2. lia. }
  rewrite <- Hm.
  replace ((len lf :: lf) ++ (([0] ++ [69]) ++ hb) ++ tail)
    with ([len lf] ++ m ++ tail)
    by (unfold m; simpl; by rewrite <- !app_assoc).
  change 1 with (len [len lf]) at 1.
  apply slice_app_mid.
Qed.

Lemma exact_key_bytes ls type :
  wf_labels ls -> type <> KNOT_RRTYPE_RRSIG ->
  exact_key (dname_of_labels ls) type
  = lf_of_labels ls ++ [0; 69] ++ host_bytes 2 (key_type type).
Proof.
  intros [Hwf Hlen] Ht. unfold exact_key, kr_dname_lf_spec.
  rewrite dname_labels_of by (done || apply labels_shorter).
  rewrite app_nil_r.
  pose proof (lf_of_labels_length ls) as Hl.
  destruct (Z.gtb_spec (len (lf_of_labels ls)) KNOT_DNAME_MAXLEN); [lia|].
  apply key_exact_type_maypkt_bytes; [lia|done].
Qed.

Lemma key_type_u16 t : Int.in_u16 t -> Int.in_u16 (key_type t).
Proof.
  unfold key_type, Int.in_u16. intros Ht.
  destruct (_ || _); [unfold KNOT_RRTYPE_NS; lia|done].
Qed.

Lemma check_rrtype_not_RRSIG t : check_rrtype t = true -> t <> KNOT_RRTYPE_RRSIG.
Proof.
  unfold check_rrtype. intros E ->. by rewrite Z.eqb_refl, andb_false_r in E.
Qed.

(** C2, as amended.  For two cacheable pairs (well-formed names of at most
    255 octets; types that [check_rrtype] accepts) the keys are equal
    exactly when the names are equal and the types are equal after CNAME
    and DNAME are mapped to NS.  So two distinct pairs have distinct keys
    unless they share the name and both types are among NS, CNAME and
    DNAME. *)
Theorem exact_key_inj ls1 ls2 t1 t2 :
  wf_labels ls1 -> wf_labels ls2 ->
  Int.in_u16 t1 -> Int.in_u16 t2 ->
  check_rrtype t1 = true -> check_rrtype t2 = true ->
  exact_key (dname_of_labels ls1) t1 = exact_key (dname_of_labels ls2) t2
  <-> ls1 = ls2 /\ key_type t1 = key_type t2.
Proof.
  intros W1 W2 U1 U2 C1 C2.
  rewrite !exact_key_bytes by (done || by apply check_rrtype_not_RRSIG).
  split.
  - intros E.
    assert (Hl : length (lf_of_labels ls1) = length (lf_of_labels ls2)).
    { apply (f_equal (@length _)) in E. rewrite !length_app in E.
      simpl in E. rewrite !host_bytes_length in E. lia. }
    apply app_inj_1 in E as [E1 E2]; [|done].
    split; [by apply lf_of_labels_inj|].
    injection E2 as E2. apply (f_equal host_value) in E2.
    rewrite !host_value_bytes in E2.
    apply key_type_u16 in U1, U2. unfold Int.in_u16 in *.
    rewrite !Z.mod_small in E2; [done|simpl; lia..].
  - by intros [-> ->].
Qed.

End KeyFacts.

Lemma wf_labels_C2_com : wf_labels C2_com.
Proof.
  split; [|vm_compute; discriminate].
  repeat constructor; unfold Bytes.is_byte; simpl; lia.
Qed.

Lemma wf_labels_C2_net : wf_labels C2_net.
Proof.
  split; [|vm_compute; discriminate].
  repeat constructor; unfold Bytes.is_byte; simpl; lia.
Qed.

Lemma exact_key_inj_witness :
  wf_labels C2_com /\ wf_labels C2_net /\ Int.in_u16 1 /\ check_rrtype 1 = true
  /\ @exact_key little_endian_host (dname_of_labels C2_com) 1
     <> @exact_key little_endian_host (dname_of_labels C2_net) 1.
Proof.
  assert (U : Int.in_u16 1) by (unfold Int.in_u16; lia).
  refine (conj wf_labels_C2_com (conj wf_labels_C2_net (conj U (conj eq_refl _)))).
  intros E.
  apply (@exact_key_inj little_endian_host C2_com C2_net 1 1
           wf_labels_C2_com wf_labels_C2_net U U eq_refl eq_refl) in E.
  destruct E as [E _]. discriminate E.
Defined.

(** C2, as stated, fails: the name com with the types CNAME and NS are two
    distinct cacheable pairs with one key. *)
Lemma exact_key_counterexample :
  wf_labels C2_com
  /\ check_rrtype KNOT_RRTYPE_CNAME = true /\ check_rrtype KNOT_RRTYPE_NS = true
  /\ (dname_of_labels C2_com, KNOT_RRTYPE_CNAME) <> (dname_of_labels C2_com, KNOT_RRTYPE_NS)
  /\ @exact_key little_endian_host (dname_of_labels C2_com) KNOT_RRTYPE_CNAME
     = @exact_key little_endian_host (dname_of_labels C2_com) KNOT_RRTYPE_NS.
Proof.
  refine (conj wf_labels_C2_com (conj eq_refl (conj eq_refl (conj _ eq_refl)))).
  discriminate.
Qed.

(** ** The version check: [assert_right_version] and [kr_cache_open] *)

Section VersionFacts.
Context {H : host}.

Lemma version_matches (v : list Z) :
  (len v =? 2) && bool_decide (Bytes.slice 0 2 v = version_val) = true <-> v = version_val.
Proof.
  rewrite andb_true_iff, Z.eqb_eq, bool_decide_eq_true. split.
  - intros [Hl E]. rewrite <- E. unfold Bytes.slice. simpl drop.
    rewrite drop_0, take_ge; [done|unfold len in Hl; lia].
  - intros ->. split; [unfold version_val, len; by rewrite host_bytes_length|].
    unfold Bytes.slice. rewrite drop_0, take_ge; [done|].
    unfold version_val. rewrite host_bytes_length. simpl. lia.
Qed.

(** The version check over the map backend when the stored version does
    not match: the store that is left holds the version key and nothing
    else, and the backend was asked to read, to count, to clear when the
    count was not zero, to write the version, and to sync, in this order. *)
Lemma assert_right_version_mismatch (c : kr_cache store) :
  on_map c ->
  db c !! version_key <> Some version_val ->
  exists c',
    assert_right_version c = (0, c')
    /\ db c' = {[ version_key := version_val ]}
    /\ api c' = cdb_map /\ ttl_min c' = ttl_min c /\ ttl_max c' = ttl_max c
    /\ oplog c' = oplog c ++ [EvRead version_key; EvCount]
                   ++ (if Z.of_nat (size (db c)) =? 0 then [] else [EvClear])
                   ++ [EvWrite version_key version_val; EvSync].
Proof.
  intros Hc Hv. destruct c as [d a st tmin tmax log].
  unfold on_map in Hc. cbn in Hc, Hv |- *. subst a.
  unfold assert_right_version, cache_op_read. cbn [cdb_read cdb_map api db].
  assert (Hcond : forall ret v, d !! version_key = Some v \/ ret <> 0 ->
            (ret =? 0) && (len v =? 2)
            && bool_decide (Bytes.slice 0 2 v = host_bytes 2 CACHE_VERSION) = false).
  { intros ret v [Hs|Hr].
    - rewrite <- andb_assoc. apply andb_false_intro2.
      apply not_true_is_false. rewrite version_matches. intros ->. by apply Hv.
    - rewrite <- andb_assoc. apply andb_false_intro1. by apply Z.eqb_neq. }
  assert (Hempty : Z.of_nat (size d) = 0 -> d = ∅).
  { intros E. apply map_size_empty_iff. lia. }
  assert (Hc : (let '(ret, val) :=
                  match d !! version_key with
                  | Some v => (0, v)
                  | None => (- ENOENT, [])
                  end in
                (ret =? 0) && (len val =? 2)
                && bool_decide (Bytes.slice 0 2 val = host_bytes 2 CACHE_VERSION))
               = false).
  { destruct (d !! version_key) as [v|] eqn:Ev; apply Hcond; [by left|by right]. }
  destruct (match d !! version_key with Some v => (0, v) | None => (- ENOENT, []) end)
    as [ret val].
  cbn [set_db db api stats ttl_min ttl_max oplog]. rewrite Hc.
  unfold cache_op_count, cache_clear, cache_op_clear, cache_op_write, kr_cache_sync.
  cbn [set_db set_stats db api stats ttl_min ttl_max oplog cdb_count cdb_clear
       cdb_write cdb_sync cdb_map fst snd].
  destruct (Z.eqb_spec (Z.of_nat (size d)) 0) as [E|E];
    [rewrite (Hempty E); change (Z.of_nat (size (∅ : store))) with 0|];
    cbn [negb set_db set_stats db api stats ttl_min ttl_max oplog cdb_count
         cdb_clear cdb_write cdb_sync cdb_map fst snd Z.eqb default];
    (eexists; split; [reflexivity|]);
    cbn [db api ttl_min ttl_max oplog];
    rewrite <- ?app_assoc; repeat split; try done;
    unfold set_db, set_stats; cbn [oplog app]; by rewrite <- ?app_assoc.
Qed.

(** The version check when the stored version matches: nothing is written. *)
Lemma assert_right_version_match (c : kr_cache store) :
  on_map c ->
  db c !! version_key = Some version_val ->
  exists c',
    assert_right_version c = (kr_error EEXIST, c')
    /\ db c' = db c
    /\ oplog c' = oplog c ++ [EvRead version_key; EvSync].
Proof.
  intros Hc Hv. destruct c as [d a st tmin tmax log].
  unfold on_map in Hc. cbn in Hc, Hv |- *. subst a.
  unfold assert_right_version, cache_op_read. cbn [cdb_read cdb_map api db].
  rewrite Hv. change (host_bytes 2 CACHE_VERSION) with version_val.
  change (0 =? 0) with true. cbn [andb].
  rewrite (proj2 (version_matches version_val) eq_refl).
  unfold kr_cache_sync, set_db.
  cbn [db api stats ttl_min ttl_max oplog cdb_sync cdb_map].
  eexists. split; [reflexivity|]. cbn [db oplog]. split; [done|].
  by rewrite <- app_assoc.
Qed.

End VersionFacts.

Section OpenFacts.
Context {H : host}.

(** C7.  Opening the cache over a store that is not empty and whose
    version entry does not match (missing, of another length, or of another
    value) clears the store and then writes the version: the backend sees a
    read, a count, a clear, the write of the version key and a sync, and
    the store after the open holds the version key and nothing else. *)
Theorem kr_cache_open_purges (d : store) :
  d <> ∅ ->
  d !! version_key <> Some version_val ->
  exists c,
    kr_cache_open cdb_map d = (0, Some c)
    /\ db c = {[ version_key := version_val ]}
    /\ (forall k, k <> version_key -> db c !! k = None)
    /\ oplog c = [EvRead version_key; EvCount; EvClear;
                  EvWrite version_key version_val; EvSync].
Proof.
  intros Hne Hv. unfold kr_cache_open. cbn [cdb_open cdb_map]. cbn [Z.eqb negb].
  set (c0 := {| db := d |}).
  destruct (assert_right_version_mismatch c0 eq_refl Hv)
    as (c' & E & Hdb & _ & _ & _ & Hlog).
  rewrite E. exists c'. split; [done|]. split; [done|]. split.
  - intros k Hk. rewrite Hdb. by apply lookup_singleton_ne.
  - rewrite Hlog. cbn [c0 db oplog app].
    destruct (Z.eqb_spec (Z.of_nat (size d)) 0) as [E0|_]; [|done].
    exfalso. apply Hne, map_size_empty_iff. lia.
Qed.

(** C4, as amended.  After every open over the map backend the store holds,
    under the four-byte key "\x00\x00V\x00" (the array [key_str] with its
    terminator), the two bytes of the [uint16_t] 3 in the byte order of the
    host; when the stored version did not match, the version check wrote
    them there. *)
Theorem kr_cache_open_version (d : store) :
  exists c,
    kr_cache_open cdb_map d = (0, Some c)
    /\ db c !! version_key = Some version_val
    /\ version_key = [0; 0; 86; 0]
    /\ version_val = (if big_endian then [0; 3] else [3; 0])
    /\ (d !! version_key <> Some version_val ->
        In (EvWrite version_key version_val) (oplog c)).
Proof.
  unfold kr_cache_open. cbn [cdb_open cdb_map]. cbn [Z.eqb negb].
  set (c0 := {| db := d |}).
  assert (Hval : version_val = (if big_endian then [0; 3] else [3; 0])).
  { unfold version_val, host_bytes. by destruct big_endian. }
  destruct (decide (d !! version_key = Some version_val)) as [Hv|Hv].
  - destruct (assert_right_version_match c0 eq_refl Hv) as (c' & E & Hdb & _).
    rewrite E. exists c'. repeat split; try done. by rewrite Hdb.
  - destruct (assert_right_version_mismatch c0 eq_refl Hv)
      as (c' & E & Hdb & _ & _ & _ & Hlog).
    rewrite E. exists c'. repeat split; try done.
    + rewrite Hdb. apply lookup_singleton_eq.
    + intros _. rewrite Hlog. rewrite !in_app_iff. right. right. right. by left.
Qed.

End OpenFacts.

Lemma kr_cache_open_purges_witness :
  C7_old_store <> ∅
  /\ C7_old_store !! version_key <> Some (@version_val little_endian_host)
  /\ (fun c => map_to_list (db c))
       <$> snd (@kr_cache_open _ little_endian_host cdb_map C7_old_store)
     = Some [(version_key, [3; 0])].
Proof.
  assert (H1 : C7_old_store <> ∅) by (intros E; by apply (f_equal (lookup version_key)) in E).
  assert (H2 : C7_old_store !! version_key <> Some (@version_val little_endian_host))
    by (vm_compute; discriminate).
  refine (conj H1 (conj H2 _)).
  destruct (@kr_cache_open_purges little_endian_host C7_old_store H1 H2)
    as (c & E & Hdb & _).
  rewrite E. simpl. rewrite Hdb. by rewrite map_to_list_singleton.
Defined.

(** C4, as stated, fails: after an open over the empty store on a
    little-endian host there is nothing under the three-byte key
    "\x00\x00V", and the value under the four-byte key is 03 00, which is
    not the big-endian form 00 03; on a big-endian host the three-byte key
    is absent as well. *)
Lemma kr_cache_open_version_counterexample :
  ((fun c => db c !! [0; 0; 86])
     <$> snd (@kr_cache_open _ little_endian_host cdb_map ∅) = Some None
   /\ (fun c => db c !! [0; 0; 86; 0])
        <$> snd (@kr_cache_open _ little_endian_host cdb_map ∅) = Some (Some [3; 0]))
  /\ (fun c => db c !! [0; 0; 86])
       <$> snd (@kr_cache_open _ big_endian_host cdb_map ∅) = Some None.
Proof. repeat split; vm_compute; reflexivity. Qed.

(** ** The scan of one entry in [closest_NS] *)

Section ScanFacts.
Context {DB : Type} {H : host} {R : kr_rank_enc} {I : cache_impl DB}.






End ScanFacts.


(** ** [closest_NS] returns *)

Section ClosestNSFacts.
Context {DB : Type} {H : host} {R : kr_rank_enc} {I : cache_impl DB}.

Lemma key_exact_type_zname (k : key) (type : Z) :
  zname (snd (key_exact_type k type)) = zname k.
Proof.
  unfold key_exact_type, key_exact_type_maypkt.
  destruct (_ || _); [done|]. by destruct (type =? KNOT_RRTYPE_RRSIG).
Qed.

Lemma next_label_shorter (n : knot_dname_t) :
  Forall Bytes.is_byte n -> Bytes.byte_at n 0 <> 0 ->
  (length (knot_wire_next_label n) < length n)%nat
  /\ Forall Bytes.is_byte (knot_wire_next_label n).
Proof.
  intros Hb Hn. unfold knot_wire_next_label. split; [|by apply Forall_drop].
  destruct n as [|b n]; [done|]. unfold Bytes.byte_at in *. simpl in *.
  inversion Hb as [|? ? Hb0 _]; subst. unfold Bytes.is_byte in Hb0.
  rewrite length_drop. simpl. lia.
Qed.

(** The loop of [closest_NS] ends within the fuel it is given: every round
    drops a label of [k->zname]. *)
Lemma closest_NS_loop_total fuel : forall cache qry k zlf_len exact_match trace,
  Forall Bytes.is_byte (zname k) ->
  (length (zname k) < fuel)%nat ->
  is_Some (closest_NS_loop fuel cache qry k zlf_len exact_match trace).
Proof.
  induction fuel as [|fuel IH]; intros cache qry k zlf_len exact_match trace Hb Hf;
    [lia|].
  cbn [closest_NS_loop].
  pose proof (key_exact_type_zname
                (set_buf k (Bytes.poke 0 (Int.u8 zlf_len) (buf k))) KNOT_RRTYPE_NS) as Hz.
  destruct (key_exact_type _ KNOT_RRTYPE_NS) as [key k1]. cbn [snd set_buf zname] in Hz.
  destruct (cache_op_read cache key) as [[ret val] cache1].
  match goal with |- is_Some (match fst ?s with _ => _ end) => destruct (fst s) end;
    try done.
  rewrite Hz.
  destruct (Z.eqb_spec (Bytes.byte_at (zname k) 0) 0) as [E|E]; [done|].
  destruct (next_label_shorter (zname k) Hb E) as [Hlen Hb'].
  apply IH; cbn [set_buf set_zname zname]; [done|lia].
Qed.

Lemma closest_NS_total (cache : kr_cache DB) (qry : kr_query) (k : key) :
  Forall Bytes.is_byte (zname k) -> is_Some (closest_NS cache qry k).
Proof. intros Hb. apply closest_NS_loop_total; [done|lia]. Qed.

End ClosestNSFacts.

(** ** The entry codec *)

Lemma take_len_app (a b : list Z) n : n = len a -> take (Z.to_nat n) (a ++ b) = a.
Proof. intros ->. unfold len. rewrite Nat2Z.id. apply take_app_length. Qed.

Lemma drop_len_app (a b : list Z) n : n = len a -> drop (Z.to_nat n) (a ++ b) = b.
Proof. intros ->. unfold len. rewrite Nat2Z.id. apply drop_app_length. Qed.

(** Goals on the lengths of byte strings. *)
Ltac len_lia :=
  unfold len in *;
  repeat rewrite ?length_app, ?length_cons, ?host_bytes_length, ?le_bytes_length,
    ?length_replicate in *;
  simpl length in *; lia.

Section CodecFacts.
Context {H : host}.

Lemma host_bytes_len n v : len (host_bytes n v) = Z.of_nat n.
Proof. unfold len. by rewrite host_bytes_length. Qed.

Lemma materialize_dematerialize rds rest ttl :
  Forall (fun rd => len (rd_data rd) < 2 ^ 16) rds ->
  materialize_rdata (length rds) (dematerialize_rdata rds ++ rest) ttl
  = Some (with_ttl ttl rds, rest).
Proof.
  induction 1 as [|rd rds Hrd _ IH]; [done|].
  cbn [length materialize_rdata dematerialize_rdata].
  set (d := rd_data rd) in *.
  set (hb := host_bytes 2 (len d)).
  set (tl := dematerialize_rdata rds ++ rest) in *.
  assert (Hhb : length hb = 2%nat) by apply host_bytes_length.
  replace ((hb ++ d ++ dematerialize_rdata rds) ++ rest) with (hb ++ d ++ tl)
    by (unfold tl; by rewrite <- !app_assoc).
  assert (Hl : host_value (take 2 (hb ++ d ++ tl)) = len d).
  { rewrite (take_app_length' hb) by done. unfold hb.
    rewrite host_value_bytes. apply Z.mod_small. unfold len in *. simpl. lia. }
  rewrite Hl.
  destruct (Z.ltb_spec (len (hb ++ d ++ tl)) 2) as [Hlt|_]; [len_lia|].
  destruct (Z.ltb_spec (len (hb ++ d ++ tl)) (2 + len d)) as [Hlt|_]; [len_lia|].
  replace (drop (2 + Z.to_nat (len d)) (hb ++ d ++ tl)) with tl.
  2:{ rewrite app_assoc. symmetry. apply drop_app_length'. len_lia. }
  rewrite IH. cbn [with_ttl map]. fold d.
  unfold Bytes.slice. rewrite (drop_app_length' hb) by done.
  rewrite (take_app_length' d) by len_lia. done.
Qed.

Lemma rdataset_materialize_dematerialize rds rest ttl :
  match rds with Some r => storable r | None => True end ->
  rdataset_materialize (snd (rdataset_dematerialize_spec rds) ++ rest) ttl
  = Some (with_ttl ttl (default [] rds), rest).
Proof.
  intros Hs. unfold rdataset_materialize, rdataset_dematerialize_spec.
  assert (G : forall n (r : knot_rdataset_t), n = rr_count r -> storable r ->
            (if len ((host_bytes 2 n ++ dematerialize_rdata r) ++ rest) <? 2 then None
             else materialize_rdata
                    (Z.to_nat (host_value
                       (take 2 ((host_bytes 2 n ++ dematerialize_rdata r) ++ rest))))
                    (drop 2 ((host_bytes 2 n ++ dematerialize_rdata r) ++ rest)) ttl)
            = Some (with_ttl ttl r, rest)).
  { intros n r -> [Hc Hd].
    pose proof (host_bytes_length 2 (rr_count r)) as Hhb.
    rewrite <- app_assoc.
    destruct (Z.ltb_spec (len (host_bytes 2 (rr_count r) ++ dematerialize_rdata r ++ rest)) 2);
      [len_lia|].
    rewrite (take_app_length' (host_bytes 2 (rr_count r))) by done.
    rewrite (drop_app_length' (host_bytes 2 (rr_count r))) by done.
    rewrite host_value_bytes, Z.mod_small by (unfold rr_count in *; simpl; lia).
    unfold rr_count. rewrite Nat2Z.id. by apply materialize_dematerialize. }
  destruct rds as [r|]; cbn [snd default].
  - by apply G.
  - specialize (G 0 [] eq_refl). cbn [dematerialize_rdata] in G.
    rewrite app_nil_r in G. apply G. split; [done|constructor].
Qed.

Lemma rdataset_dematerialize_ok rds : fst (rdataset_dematerialize_spec rds) = 0.
Proof. by destruct rds. Qed.

End CodecFacts.

(** ** Headers *)

Lemma entry_h_view_bytes time ttl rank flags payload :
  Int.in_u32 time -> Int.in_u32 ttl ->
  entry_h_view (entry_bytes time ttl rank flags payload)
  = {| eh_time := time; eh_ttl := ttl; eh_rank := rank;
       is_packet := Z.testbit flags 0; has_optout := Z.testbit flags 1;
       has_ns := Z.testbit flags 2; has_cname := Z.testbit flags 3;
       has_dname := Z.testbit flags 4; has_nsec_params := Z.testbit flags 5;
       eh_data := payload |}.
Proof.
  intros Ht Hl. unfold entry_h_view, entry_bytes.
  assert (E1 : Bytes.slice 0 4 (Bytes.le_bytes 4 time ++ Bytes.le_bytes 4 ttl
                                ++ [rank; flags] ++ payload) = Bytes.le_bytes 4 time)
    by reflexivity.
  assert (E2 : Bytes.slice 4 4 (Bytes.le_bytes 4 time ++ Bytes.le_bytes 4 ttl
                                ++ [rank; flags] ++ payload) = Bytes.le_bytes 4 ttl)
    by reflexivity.
  rewrite E1, E2, !le_value_bytes.
  unfold Int.in_u32 in *.
  rewrite !Z.mod_small by (simpl; lia).
  reflexivity.
Qed.

Lemma entry_bytes_len time ttl rank flags payload :
  len (entry_bytes time ttl rank flags payload) = ENTRY_H_DATA + len payload.
Proof. unfold entry_bytes, ENTRY_H_DATA. len_lia. Qed.

(** ** The stash of a record set into a free slot *)

Lemma poke_length (i b : Z) (l : list Z) : length (Bytes.poke i b l) = length l.
Proof. unfold Bytes.poke. destruct (i <? 0); [done|]. apply length_insert. Qed.

Lemma poke_all_length (src : list Z) : forall (i : Z) (l : list Z),
  length (Bytes.poke_all i src l) = length l.
Proof.
  induction src as [|b src IH]; intros i l; [done|].
  cbn [Bytes.poke_all]. by rewrite IH, poke_length.
Qed.

Lemma poke_all_head (src a b : list Z) :
  length src = length a -> Bytes.poke_all 0 src (a ++ b) = src ++ b.
Proof.
  intros Hl. rewrite poke_all_spec; [|lia|len_lia].
  rewrite take_0, Z.add_0_l. cbn [app]. f_equal.
  apply drop_app_length'. len_lia.
Qed.

Lemma poke_all_skip (src a b : list Z) i :
  0 <= i -> i + len src <= len b ->
  Bytes.poke_all (len a + i) src (a ++ b) = a ++ Bytes.poke_all i src b.
Proof.
  intros Hi Hl. rewrite !poke_all_spec; [|lia|lia|len_lia|len_lia].
  replace (Z.to_nat (len a + i)) with (length a + Z.to_nat i)%nat by len_lia.
  replace (Z.to_nat (len a + i + len src)) with (length a + Z.to_nat (i + len src))%nat
    by len_lia.
  rewrite take_app_add, drop_app_add. by rewrite <- app_assoc.
Qed.

Lemma hole_zero n : 10 <= n -> replicate (Z.to_nat n) 0 = hole n 0.
Proof.
  intros Hn. unfold hole.
  replace (Z.to_nat n) with (9 + (1 + (Z.to_nat n - 10)))%nat at 1 by lia.
  rewrite !replicate_add. reflexivity.
Qed.

Lemma set_presence_hole ns cn dn n :
  10 <= n ->
  set_presence ns cn dn (replicate (Z.to_nat n) 0)
  = hole n ((if ns then 4 else 0) + (if cn then 8 else 0) + (if dn then 16 else 0)).
Proof.
  intros Hn. rewrite hole_zero by done. unfold set_presence, hole.
  change (replicate 9 0) with [0; 0; 0; 0; 0; 0; 0; 0; 0].
  unfold Bytes.poke, Bytes.byte_at. cbn [app].
  by destruct ns, cn, dn.
Qed.

Lemma hole_len n f : 10 <= n -> len (hole n f) = n.
Proof. intros Hn. unfold hole. len_lia. Qed.

Lemma poke_all_at (pre src a b : list Z) i :
  i = len pre -> length src = length a ->
  Bytes.poke_all i src (pre ++ a ++ b) = pre ++ src ++ b.
Proof.
  intros -> Hl. rewrite poke_all_spec; [|len_lia|len_lia].
  rewrite (take_len_app pre) by done. do 2 f_equal.
  rewrite app_assoc. apply drop_app_length'. len_lia.
Qed.

(** The five stores of [stash_rrset] into the room: the header fields but
    the flags, and the two record sets. *)
Lemma hole_filled n f time ttl rank p1 p2 :
  n = ENTRY_H_DATA + len p1 + len p2 ->
  Bytes.poke_all (ENTRY_H_DATA + len p1) p2
    (Bytes.poke_all ENTRY_H_DATA p1
       (Bytes.poke_all 8 [rank]
          (Bytes.poke_all 4 (Bytes.le_bytes 4 ttl)
             (Bytes.poke_all 0 (Bytes.le_bytes 4 time) (hole n f)))))
  = entry_bytes time ttl rank f (p1 ++ p2).
Proof.
  intros ->. unfold hole, entry_bytes, ENTRY_H_DATA.
  replace (Z.to_nat (10 + len p1 + len p2) - 10)%nat with (length p1 + length p2)%nat
    by len_lia.
  rewrite replicate_add.
  set (z1 := replicate (length p1) 0). set (z2 := replicate (length p2) 0).
  set (t4 := Bytes.le_bytes 4 time). set (l4 := Bytes.le_bytes 4 ttl).
  assert (Ht4 : length t4 = 4%nat) by apply le_bytes_length.
  assert (Hl4 : length l4 = 4%nat) by apply le_bytes_length.
  assert (Hz1 : length z1 = length p1) by apply length_replicate.
  assert (Hz2 : length z2 = length p2) by apply length_replicate.
  change (replicate 9 0 ++ [f] ++ z1 ++ z2)
    with ([] ++ [0; 0; 0; 0] ++ ([0; 0; 0; 0] ++ [0] ++ [f] ++ z1 ++ z2)).
  rewrite (poke_all_at [] t4) by done. rewrite app_nil_l.
  rewrite (poke_all_at t4 l4 [0; 0; 0; 0]) by (done || len_lia).
  rewrite (app_assoc t4 l4).
  rewrite (poke_all_at (t4 ++ l4) [rank] [0]) by (done || len_lia).
  replace ((t4 ++ l4) ++ [rank] ++ [f] ++ z1 ++ z2)
    with (((t4 ++ l4) ++ [rank] ++ [f]) ++ z1 ++ z2) by (by rewrite <- !app_assoc).
  rewrite (poke_all_at _ p1 z1) by (done || len_lia).
  replace (((t4 ++ l4) ++ [rank] ++ [f]) ++ p1 ++ z2)
    with ((((t4 ++ l4) ++ [rank] ++ [f]) ++ p1) ++ z2 ++ [])
    by (by rewrite app_nil_r, <- !app_assoc).
  rewrite (poke_all_at _ p2 z2) by (done || len_lia).
  rewrite app_nil_r. by rewrite <- !app_assoc.
Qed.

Section SpliceFacts.
Context {H : host} {R : kr_rank_enc}.

(** [entry_h_splice] when nothing is stored under the key: the room for
    the new entry is written and is the whole value. *)
Lemma entry_h_splice_spec_fresh (keep_old : entry_h -> Z -> Z -> bool)
    (n rank : Z) (key : list Z) (type : Z) (owner : knot_dname_t)
    (qry : option kr_query) (c : kr_cache store) (now : Z) :
  api c = cdb_map -> db c !! key = None -> 10 <= n ->
  entry_h_splice_spec keep_old n rank key (key_type type) type owner qry c now
  = (0, {| ref_key := key; ref_off := 0 |},
     {| db := <[key := hole n (presence_flags type)]> (db c);
        api := cdb_map; stats := stats c; ttl_min := ttl_min c;
        ttl_max := ttl_max c;
        oplog := oplog c ++ [EvRead key; EvWrite key (hole n (presence_flags type))] |}).
Proof.
  intros Ha Hk Hn. destruct c as [d a st tmin tmax log]. cbn in Ha, Hk |- *. subst a.
  unfold entry_h_splice_spec, cache_op_read, cache_op_write.
  cbn [cdb_read cdb_write cdb_map api db set_db stats ttl_min ttl_max oplog].
  rewrite Hk.
  destruct (Z.leb_spec n 0); [lia|].
  change (- ENOENT =? 0) with false. rewrite andb_false_r. cbn [negb].
  change (len [] =? 0) with true. cbv iota.
  assert (Hlen : (len (replicate (Z.to_nat n) 0) =? 0) = false).
  { apply Z.eqb_neq. len_lia. }
  assert (Hfin : forall f,
    (let '(ret, cache) :=
       let '(ret, d0) := (0, <[key := default (replicate (Z.to_nat (len (hole n f))) 0)
                                        (Some (hole n f))]> d) in
       (ret, {| db := d0; api := cdb_map; stats := st; ttl_min := tmin;
                ttl_max := tmax;
                oplog := (log ++ [EvRead key]) ++ [EvWrite key (hole n f)] |}) in
     if negb (ret =? 0) then (ret, {| ref_key := []; ref_off := 0 |}, cache)
     else (0, {| ref_key := key; ref_off := 0 |}, cache))
    = (0, {| ref_key := key; ref_off := 0 |},
       {| db := <[key := hole n f]> d; api := cdb_map; stats := st;
          ttl_min := tmin; ttl_max := tmax;
          oplog := log ++ [EvRead key; EvWrite key (hole n f)] |})).
  { intros f. cbn. by rewrite <- app_assoc. }
  unfold key_type, presence_flags.
  destruct (Z.eqb_spec type KNOT_RRTYPE_NS) as [->|Hns].
  { change (KNOT_RRTYPE_NS =? KNOT_RRTYPE_CNAME) with false.
    change (KNOT_RRTYPE_NS =? KNOT_RRTYPE_DNAME) with false.
    change (KNOT_RRTYPE_NS =? KNOT_RRTYPE_NS) with true.
    cbn [orb]. cbv iota. rewrite !app_nil_r, Hlen.
    change (len [] =? 0) with true. cbn [negb default].
    rewrite set_presence_hole by done. apply (Hfin 4). }
  destruct (Z.eqb_spec type KNOT_RRTYPE_CNAME) as [->|Hcn].
  { change (KNOT_RRTYPE_CNAME =? KNOT_RRTYPE_DNAME) with false.
    change (KNOT_RRTYPE_CNAME =? KNOT_RRTYPE_NS) with false.
    change (KNOT_RRTYPE_NS =? KNOT_RRTYPE_NS) with true.
    cbn [orb]. cbv iota. rewrite !app_nil_r, Hlen.
    change (len [] =? 0) with true. cbn [negb default app].
    rewrite set_presence_hole by done. apply (Hfin 8). }
  destruct (Z.eqb_spec type KNOT_RRTYPE_DNAME) as [->|Hdn].
  { change (KNOT_RRTYPE_NS =? KNOT_RRTYPE_NS) with true.
    cbn [orb]. cbv iota. rewrite Hlen.
    change (len [] =? 0) with true. cbn [negb default app].
    rewrite set_presence_hole by done. apply (Hfin 16). }
  cbn [orb]. destruct (Z.eqb_spec type KNOT_RRTYPE_NS); [done|].
  cbn [default]. rewrite hole_zero by done. apply (Hfin 0).
Qed.

End SpliceFacts.

Section StashFresh.
Context {H : host} {R : kr_rank_enc}.

Lemma kr_dname_lf_spec_labels (b : list Z) (ls : list (list Z)) :
  wf_labels ls ->
  kr_dname_lf_spec b (dname_of_labels ls) false
  = (0, Bytes.poke_all 0 (len (lf_of_labels ls) :: lf_of_labels ls) b).
Proof.
  intros [Hwf Hlen]. unfold kr_dname_lf_spec.
  rewrite dname_labels_of by (done || apply labels_shorter).
  rewrite app_nil_r. pose proof (lf_of_labels_length ls).
  by destruct (Z.gtb_spec (len (lf_of_labels ls)) KNOT_DNAME_MAXLEN); [lia|].
Qed.

Lemma key_exact_type_k_type (k : key) (type : Z) :
  type <> KNOT_RRTYPE_RRSIG -> type <> KNOT_RRTYPE_NSEC -> type <> KNOT_RRTYPE_NSEC3 ->
  key_exact_type k type = key_exact_type_maypkt k type
  /\ k_type (snd (key_exact_type_maypkt k type)) = key_type type
  /\ zname (snd (key_exact_type_maypkt k type)) = zname k.
Proof.
  intros H1 H2 H3. unfold key_exact_type, key_exact_type_maypkt.
  destruct (Z.eqb_spec type KNOT_RRTYPE_NSEC); [done|].
  destruct (Z.eqb_spec type KNOT_RRTYPE_NSEC3); [done|].
  destruct (Z.eqb_spec type KNOT_RRTYPE_RRSIG); [done|]. done.
Qed.

Lemma payload_len_nonneg rr rr_sigs : 0 <= len (rr_payload rr rr_sigs).
Proof. apply len_nonneg. Qed.

(** [stash_rrset] of a record set that is not the expansion of a wildcard
    into a cache that holds nothing under its key. *)
Lemma stash_rrset_fresh (keep_old : entry_h -> Z -> Z -> bool) (other : cache_impl store)
    (c : kr_cache store) (qs : option kr_query) (rr : knot_rrset_t)
    (rr_sigs : option knot_rrset_t) (now rank : Z) (ls : list (list Z)) :
  api c = cdb_map ->
  owner rr = dname_of_labels ls -> wf_labels ls ->
  rr_type rr <> KNOT_RRTYPE_RRSIG -> rr_type rr <> KNOT_RRTYPE_NSEC ->
  rr_type rr <> KNOT_RRTYPE_NSEC3 ->
  not_wildcard rr rr_sigs ->
  db c !! exact_key (owner rr) (rr_type rr) = None ->
  @stash_rrset _ H R (spec_impl keep_old other) c qs rr rr_sigs now rank
  = (ENTRY_H_DATA + len (rr_payload rr rr_sigs), stashed c rr rr_sigs now rank).
Proof.
  intros Ha Ho Hwf Ht1 Ht2 Ht3 Hw Hk.
  unfold stash_rrset.
  assert (Hw0 : match rr_sigs with
                | Some sigs => knot_dname_labels (owner rr) - knot_rrsig_labels (rrs sigs) 0
                | None => 0
                end = 0).
  { destruct rr_sigs as [s|]; [|done]. simpl in Hw. lia. }
  rewrite Hw0. cbv zeta. change (0 <? 0) with false. change (0 =? 0) with true.
  cbn [negb Nat.iter Z.to_nat nat_rect].
  destruct (Z.eqb_spec (rr_type rr) KNOT_RRTYPE_NSEC) as [|_]; [done|].
  cbn [kr_dname_lf spec_impl].
  unfold exact_key in Hk. rewrite Ho in Hk |- *.
  change (Z.to_nat 0) with 0%nat. cbn [Nat.iter nat_rect].
  rewrite kr_dname_lf_spec_labels in Hk |- * by done.
  change (0 =? 0) with true. cbn [negb].
  destruct (key_exact_type_k_type
              (set_buf k_storage
                 (Bytes.poke_all 0 (len (lf_of_labels ls) :: lf_of_labels ls)
                    (buf k_storage))) (rr_type rr) Ht1 Ht2 Ht3) as (-> & Hkt & _).
  destruct (key_exact_type_maypkt _ (rr_type rr)) as [key k] eqn:Ekey.
  cbn [fst snd] in Hk, Hkt. rewrite Hkt.
  cbn [entry_h_splice rdataset_dematerialize_size rdataset_dematerialize spec_impl].
  unfold rdataset_dematerialize_size_spec.
  set (p1 := snd (rdataset_dematerialize_spec (Some (rrs rr)))).
  set (p2 := snd (rdataset_dematerialize_spec (rrs <$> rr_sigs))).
  rewrite entry_h_splice_spec_fresh; [|done|done|pose proof (len_nonneg p1); pose proof (len_nonneg p2); unfold ENTRY_H_DATA; lia].
  change (0 =? 0) with true. cbn [negb ref_key ref_off api db set_db stats set_stats oplog ttl_min ttl_max].
  subst p1 p2.
  pose proof (rdataset_dematerialize_ok (Some (rrs rr))) as Hr1.
  pose proof (rdataset_dematerialize_ok (rrs <$> rr_sigs)) as Hr2.
  destruct (rdataset_dematerialize_spec (Some (rrs rr))) as [ret1 p1] eqn:E1.
  destruct (rdataset_dematerialize_spec (rrs <$> rr_sigs)) as [ret2 p2] eqn:E2.
  cbn [fst snd] in Hr1, Hr2 |- *. subst ret1 ret2.
  change (0 =? 0) with true. cbn [negb].
  cbn [cdb_store cdb_map]. rewrite !alter_insert_eq.
  rewrite !Z.add_0_l.
  rewrite hole_filled by done.
  unfold stashed, rr_payload, set_stats, set_db, clamp_ttl, rrset_ttl.
  cbn [db api stats ttl_min ttl_max oplog].
  rewrite app_nil_r.
  assert (Ep : exact_key (owner rr) (rr_type rr) = key).
  { unfold exact_key. rewrite Ho, kr_dname_lf_spec_labels by done. by rewrite Ekey. }
  rewrite Ep, E1, E2. cbn [snd].
  change (0 =? 0) with true. cbn [negb].
  rewrite len_app, Z.add_assoc.
  by destruct rr_sigs.
Qed.

End StashFresh.

(** ** The peek of an entry that holds one record set *)

Lemma presence_flags_bits type :
  Z.testbit (presence_flags type) 0 = false
  /\ Z.testbit (presence_flags type) 1 = false
  /\ Z.testbit (presence_flags type) 2 = (type =? KNOT_RRTYPE_NS)
  /\ Z.testbit (presence_flags type) 3
     = negb (type =? KNOT_RRTYPE_NS) && (type =? KNOT_RRTYPE_CNAME)
  /\ Z.testbit (presence_flags type) 4
     = negb (type =? KNOT_RRTYPE_NS) && negb (type =? KNOT_RRTYPE_CNAME)
       && (type =? KNOT_RRTYPE_DNAME).
Proof.
  unfold presence_flags.
  by destruct (type =? KNOT_RRTYPE_NS), (type =? KNOT_RRTYPE_CNAME),
    (type =? KNOT_RRTYPE_DNAME).
Qed.

Section PeekEntry.
Context {H : host} {R : kr_rank_enc}.

(** The two record sets of the payload of an entry, read back. *)
Lemma payload_materialize (rds : knot_rdataset_t) (sigs : option knot_rdataset_t)
    (ttl : Z) :
  storable rds -> match sigs with Some s => storable s | None => True end ->
  rdataset_materialize
    (snd (rdataset_dematerialize_spec (Some rds))
     ++ snd (rdataset_dematerialize_spec sigs)) ttl
  = Some (with_ttl ttl rds, snd (rdataset_dematerialize_spec sigs))
  /\ rdataset_materialize (snd (rdataset_dematerialize_spec sigs)) ttl
     = Some (with_ttl ttl (default [] sigs), []).
Proof.
  intros Hr Hs. split.
  - by apply (rdataset_materialize_dematerialize (Some rds)).
  - rewrite <- (app_nil_r (snd (rdataset_dematerialize_spec sigs))) at 1.
    by apply rdataset_materialize_dematerialize.
Qed.

Lemma entry_span_bytes time ttl rank type (rds : knot_rdataset_t)
    (sigs : option knot_rdataset_t) :
  Int.in_u32 time -> Int.in_u32 ttl ->
  storable rds -> match sigs with Some s => storable s | None => True end ->
  let val := entry_bytes time ttl rank (presence_flags type)
               (snd (rdataset_dematerialize_spec (Some rds))
                ++ snd (rdataset_dematerialize_spec sigs)) in
  entry_span val = Some (len val).
Proof.
  intros Ht Hl Hr Hs val. unfold entry_span.
  pose proof (entry_bytes_len time ttl rank (presence_flags type)
                (snd (rdataset_dematerialize_spec (Some rds))
                 ++ snd (rdataset_dematerialize_spec sigs))) as Hlen.
  fold val in Hlen.
  destruct (Z.ltb_spec (len val) ENTRY_H_DATA) as [Hlt|_].
  { pose proof (len_nonneg (snd (rdataset_dematerialize_spec (Some rds))
                            ++ snd (rdataset_dematerialize_spec sigs))). lia. }
  unfold val. rewrite entry_h_view_bytes by done.
  cbn [is_packet eh_data].
  destruct (presence_flags_bits type) as (-> & _).
  destruct (payload_materialize rds sigs 0 Hr Hs) as [-> ->].
  change (len []) with 0. by rewrite Z.sub_0_r.
Qed.

Lemma entry_h_seek_spec_single time ttl rank type (rds : knot_rdataset_t)
    (sigs : option knot_rdataset_t) :
  Int.in_u32 time -> Int.in_u32 ttl ->
  storable rds -> match sigs with Some s => storable s | None => True end ->
  let val := entry_bytes time ttl rank (presence_flags type)
               (snd (rdataset_dematerialize_spec (Some rds))
                ++ snd (rdataset_dematerialize_spec sigs)) in
  entry_h_seek_spec val type = (0, val).
Proof.
  intros Ht Hl Hr Hs val. unfold entry_h_seek_spec.
  destruct ((type =? KNOT_RRTYPE_NS) || (type =? KNOT_RRTYPE_CNAME)
            || (type =? KNOT_RRTYPE_DNAME)) eqn:Ex; [|done].
  pose proof (entry_span_bytes time ttl rank type rds sigs Ht Hl Hr Hs) as Hspan.
  cbv zeta in Hspan. fold val in Hspan.
  pose proof (entry_bytes_len time ttl rank (presence_flags type)
                (snd (rdataset_dematerialize_spec (Some rds))
                 ++ snd (rdataset_dematerialize_spec sigs))) as Hlen.
  fold val in Hlen.
  assert (Hpos : ENTRY_H_DATA <= len val).
  { pose proof (len_nonneg (snd (rdataset_dematerialize_spec (Some rds))
                            ++ snd (rdataset_dematerialize_spec sigs))). lia. }
  assert (Hnz : (len val =? 0) = false).
  { apply Z.eqb_neq. unfold ENTRY_H_DATA in Hpos. lia. }
  unfold entry_list_parse.
  destruct (Z.ltb_spec (len val) ENTRY_H_DATA) as [Hlt|_]; [lia|].
  assert (Hview : entry_h_view val
            = {| eh_time := time; eh_ttl := ttl; eh_rank := rank;
                 is_packet := Z.testbit (presence_flags type) 0;
                 has_optout := Z.testbit (presence_flags type) 1;
                 has_ns := Z.testbit (presence_flags type) 2;
                 has_cname := Z.testbit (presence_flags type) 3;
                 has_dname := Z.testbit (presence_flags type) 4;
                 has_nsec_params := Z.testbit (presence_flags type) 5;
                 eh_data := snd (rdataset_dematerialize_spec (Some rds))
                            ++ snd (rdataset_dematerialize_spec sigs) |})
    by (by apply entry_h_view_bytes).
  rewrite Hview. cbn [is_packet has_ns has_cname has_dname].
  destruct (presence_flags_bits type) as (-> & _ & -> & -> & ->).
  assert (Htake : take (Z.to_nat (len val)) val = val).
  { apply take_ge. unfold len. lia. }
  assert (Hdrop : drop (Z.to_nat (len val)) val = []).
  { apply drop_ge. unfold len. lia. }
  destruct (Z.eqb_spec type KNOT_RRTYPE_NS) as [_|_]; cbn [negb andb].
  { by rewrite Hspan, Htake, ?Hdrop, Hnz. }
  destruct (Z.eqb_spec type KNOT_RRTYPE_CNAME) as [_|_]; cbn [negb andb].
  { by rewrite Hspan, Htake, ?Hdrop, Hnz. }
  destruct (Z.eqb_spec type KNOT_RRTYPE_DNAME) as [_|_]; cbn [negb andb]; [|done].
  by rewrite Hspan, Htake, ?Hdrop, Hnz.
Qed.

Lemma entry_h_consistent_bytes time ttl rank type payload :
  Int.in_u32 time -> Int.in_u32 ttl ->
  kr_rank_test rank KR_RANK_BOGUS = false ->
  let val := entry_bytes time ttl rank (presence_flags type) payload in
  entry_h_consistent val type = Some (entry_h_view val).
Proof.
  intros Ht Hl Hb val. rewrite entry_h_consistent_accepted.
  replace (entry_h_accepted val) with true; [done|].
  unfold entry_h_accepted. cbv zeta. unfold val.
  rewrite entry_h_view_bytes by done.
  cbn [is_packet has_optout eh_rank].
  destruct (presence_flags_bits type) as (E0 & E1 & _).
  rewrite E0, E1, Hb. cbn [negb orb andb]. rewrite ?andb_true_r.
  rewrite entry_bytes_len.
  pose proof (len_nonneg payload).
  by destruct (Z.leb_spec ENTRY_H_DATA (ENTRY_H_DATA + len payload)); [|lia].
Qed.

End PeekEntry.

Section PeekHit0.
Context {H : host} {R : kr_rank_enc}.

Lemma get_lowest_rank_tried (I : cache_impl store) (req : kr_request store) (qry : kr_query) :
  @get_lowest_rank _ R I req (set_CACHE_TRIED qry) = @get_lowest_rank _ R I req qry.
Proof. reflexivity. Qed.

End PeekHit0.

Lemma get_new_ttl_u32 entry qry owner type now :
  get_new_ttl entry qry owner type now
  = get_new_ttl entry qry owner type (Int.u32 now).
Proof.
  unfold get_new_ttl. replace (Int.u32 (Int.u32 now)) with (Int.u32 now); [done|].
  unfold Int.u32. by rewrite Z.mod_mod.
Qed.

Lemma u32_range z : Int.in_u32 (Int.u32 z).
Proof. unfold Int.in_u32, Int.u32. apply Z.mod_pos_bound. lia. Qed.

(** The TTL of a fresh entry, whatever the stale callback. *)
Lemma get_new_ttl_fresh entry qry owner type now :
  Int.in_u32 (eh_time entry) -> 0 <= eh_ttl entry < 2 ^ 31 ->
  - 2 ^ 31 <= Int.u32 now - eh_time entry < 2 ^ 31 ->
  Z.max 0 (Int.u32 now - eh_time entry) <= eh_ttl entry ->
  get_new_ttl entry qry owner type now
  = eh_ttl entry - Z.max 0 (Int.u32 now - eh_time entry).
Proof.
  intros Ht Hl Hd Hf. rewrite get_new_ttl_u32.
  unfold get_new_ttl. cbv zeta.
  rewrite (get_new_ttl_res entry (Int.u32 now) (u32_range now) Ht Hl Hd).
  destruct (Z.ltb_spec (eh_ttl entry - Z.max 0 (Int.u32 now - eh_time entry)) 0);
    [lia|].
  destruct owner as [o|], qry as [q|]; try done. by destruct (stale_cb q).
Qed.

Section PeekHit.
Context {H : host} {R : kr_rank_enc}.

(** [found_exact_hit] on the entry of a record set that is fresh and of a
    rank at or above the floor. *)
Lemma found_exact_hit_entry (keep_old : entry_h -> Z -> Z -> bool)
    (other : cache_impl store) (ctx : kr_layer_t store) (pkt : knot_pkt_t)
    (qry : kr_query) (rr : knot_rrset_t) (rr_sigs : option knot_rrset_t)
    (time ttl rank lowest_rank : Z) :
  sname qry = owner rr -> stype qry = rr_type rr ->
  rclass rr = KNOT_CLASS_IN ->
  storable (rrs rr) ->
  match rr_sigs with Some s => storable (rrs s) | None => True end ->
  Int.in_u32 time -> 0 <= ttl < 2 ^ 31 ->
  kr_rank_test rank KR_RANK_BOGUS = false ->
  lowest_rank <= rank ->
  - 2 ^ 31 <= Int.u32 (timestamp qry) - time < 2 ^ 31 ->
  Z.max 0 (Int.u32 (timestamp qry) - time) <= ttl ->
  exists qry',
    @found_exact_hit _ H R (spec_impl keep_old other) ctx qry pkt
      (entry_bytes time ttl rank (presence_flags (rr_type rr)) (rr_payload rr rr_sigs))
      lowest_rank
    = (0, qry',
       answer_pkt rr (default [] (rrs <$> rr_sigs))
         (ttl - Z.max 0 (Int.u32 (timestamp qry) - time))).
Proof.
  intros Hn Ht Hcl Hsr Hss Htime Httl Hbog Hrank Hd Hfresh.
  assert (Hss' : match rrs <$> rr_sigs with Some s => storable s | None => True end)
    by (by destruct rr_sigs).
  assert (Httl' : Int.in_u32 ttl) by (unfold Int.in_u32; lia).
  unfold found_exact_hit. cbn [entry_h_seek spec_impl]. rewrite Ht.
  unfold rr_payload.
  rewrite (entry_h_seek_spec_single time ttl rank (rr_type rr) (rrs rr) (rrs <$> rr_sigs))
    by done.
  change (0 =? 0) with true. cbn [negb].
  rewrite entry_h_consistent_bytes by done.
  rewrite entry_h_view_bytes by done.
  set (new_ttl := ttl - Z.max 0 (Int.u32 (timestamp qry) - time)).
  rewrite get_new_ttl_fresh by done. cbn [eh_ttl eh_time eh_rank is_packet].
  fold new_ttl.
  assert (Hnew : 0 <= new_ttl < 2 ^ 31) by (unfold new_ttl; lia).
  destruct (Z.ltb_spec new_ttl 0); [lia|].
  destruct (Z.ltb_spec rank lowest_rank); [lia|]. cbn [orb].
  destruct (presence_flags_bits (rr_type rr)) as (-> & _).
  unfold answer_simple_hit.
  cbn [pkt_renew entry2answer pkt_append is_expiring spec_impl].
  unfold pkt_renew_spec. change (0 <? 0) with false. cbv iota.
  unfold entry2answer_spec. rewrite entry_h_view_bytes by done.
  cbn [eh_data eh_rank eh_ttl].
  assert (Hu : Int.u32 new_ttl = new_ttl) by (apply u32_id; unfold Int.in_u32; lia).
  rewrite Hu.
  destruct (payload_materialize (rrs rr) (rrs <$> rr_sigs) new_ttl Hsr Hss') as [-> ->].
  change (0 <? 0) with false. cbv iota.
  eexists. unfold pkt_append_spec, slot, answer_zero, answer_pkt. cbn.
  rewrite Hn, Ht, Hcl. reflexivity.
Qed.

(** A peek for the name and the type of an entry that holds a record set:
    when the entry is fresh and its rank is at or above the floor, the
    answer is the record set with the residual TTL. *)
Lemma cache_peek_hit (keep_old : entry_h -> Z -> Z -> bool) (other : cache_impl store)
    (ctx : kr_layer_t store) (pkt : knot_pkt_t) (qry : kr_query)
    (rr : knot_rrset_t) (rr_sigs : option knot_rrset_t) (time ttl rank : Z)
    (ls : list (list Z)) :
  current_query (ctx_req ctx) = Some qry ->
  api (ctx_cache (req_ctx (ctx_req ctx))) = cdb_map ->
  db (ctx_cache (req_ctx (ctx_req ctx))) !! exact_key (owner rr) (rr_type rr)
  = Some (entry_bytes time ttl rank (presence_flags (rr_type rr)) (rr_payload rr rr_sigs)) ->
  sname qry = owner rr -> stype qry = rr_type rr -> sclass qry = KNOT_CLASS_IN ->
  Z.land (state ctx) (Z.lor KR_STATE_FAIL KR_STATE_DONE) = 0 ->
  NO_CACHE (flags qry) = false -> CACHE_TRIED (flags qry) = false ->
  owner rr = dname_of_labels ls -> wf_labels ls ->
  check_dname_for_lf (owner rr) = true -> rclass rr = KNOT_CLASS_IN ->
  check_rrtype (rr_type rr) = true -> rr_type rr <> KNOT_RRTYPE_NSEC ->
  storable (rrs rr) ->
  match rr_sigs with Some s => storable (rrs s) | None => True end ->
  Int.in_u32 time -> 0 <= ttl < 2 ^ 31 ->
  kr_rank_test rank KR_RANK_BOGUS = false ->
  @get_lowest_rank _ R (spec_impl keep_old other) (ctx_req ctx) qry <= rank ->
  - 2 ^ 31 <= Int.u32 (timestamp qry) - time < 2 ^ 31 ->
  Z.max 0 (Int.u32 (timestamp qry) - time) <= ttl ->
  exists ctx',
    @cache_peek _ H R (spec_impl keep_old other) ctx pkt
    = (KR_STATE_DONE, ctx',
       answer_pkt rr (default [] (rrs <$> rr_sigs))
         (ttl - Z.max 0 (Int.u32 (timestamp qry) - time))).
Proof.
  intros Hq Ha Hdb Hn Ht Hc Hst Hnc Htr Ho Hwf Hlf Hcl Hty Hns Hsr Hss Htime Httl
    Hbog Hrank Hd Hfresh.
  unfold cache_peek. rewrite Hq, Hst, Hnc, Htr, Hc, Ht, Hty.
  change (0 =? 0) with true. change (KNOT_CLASS_IN =? KNOT_CLASS_IN) with true.
  cbn [negb orb andb].
  unfold cache_peek_real.
  cbn [stype sname timestamp set_CACHE_TRIED set_flags].
  rewrite Ht, Hn, Hlf.
  destruct (Z.eqb_spec (rr_type rr) KNOT_RRTYPE_NSEC) as [|_]; [done|].
  cbn [negb kr_dname_lf spec_impl].
  pose proof Hdb as Hdb'. unfold exact_key in Hdb'.
  rewrite Ho in Hdb' |- *. rewrite kr_dname_lf_spec_labels in Hdb' |- * by done.
  change (0 =? 0) with true. cbn [negb].
  destruct (key_exact_type_maypkt _ (rr_type rr)) as [key k] eqn:Ekey.
  cbn [fst] in Hdb'.
  unfold cache_op_read. rewrite Ha. cbn [cdb_read cdb_map]. rewrite Hdb'.
  change (0 =? 0) with true. cbv iota.
  rewrite get_lowest_rank_tried.
  destruct (found_exact_hit_entry keep_old other ctx pkt (set_CACHE_TRIED qry) rr
              rr_sigs time ttl rank
              (@get_lowest_rank _ R (spec_impl keep_old other) (ctx_req ctx) qry))
    as [qry' Ehit]; try done.
  cbn [timestamp set_CACHE_TRIED set_flags] in Ehit.
  fold (set_CACHE_TRIED qry) in Ehit. rewrite Ehit.
  change (0 =? 0) with true. cbn [negb andb].
  destruct (kr_cache_sync _) as [? cache']. by eexists.
Qed.

End PeekHit.

(** ** The stash of a record set over what the store holds *)

(** ** Sub-entries under an NS key *)

Section SpanFacts.
Context {H : host}.

Lemma materialize_rdata_local (n : nat) : forall (bs : list Z) (ttl : Z)
    (rds : knot_rdataset_t) (rest : list Z),
  materialize_rdata n bs ttl = Some (rds, rest) ->
  exists used : list Z,
    bs = used ++ rest
    /\ forall tail : list Z, materialize_rdata n (used ++ tail) ttl = Some (rds, tail).
Proof.
  induction n as [|n IH]; intros bs ttl rds rest E; cbn [materialize_rdata] in E |- *.
  - injection E as <- <-. by exists [].
  - destruct (Z.ltb_spec (len bs) 2) as [|H2]; [done|].
    set (l := host_value (take 2 bs)) in *.
    destruct (Z.ltb_spec (len bs) (2 + l)) as [|Hl]; [done|].
    destruct (materialize_rdata n (drop (2 + Z.to_nat l) bs) ttl) as [[rds' rest']|] eqn:E';
      [|done].
    injection E as <- <-.
    destruct (IH _ _ _ _ E') as (used' & Hu & Hloc).
    set (k := (2 + Z.to_nat l)%nat) in *.
    assert (Hk : (k <= length bs)%nat) by (unfold k, len in *; lia).
    exists (take k bs ++ used'). split.
    { rewrite <- app_assoc, <- Hu. by rewrite take_drop. }
    intros tail.
    assert (Htk : length (take k bs) = k) by (rewrite length_take; lia).
    assert (Ht2 : take 2 ((take k bs ++ used') ++ tail) = take 2 bs).
    { rewrite <- app_assoc, take_app_le by (rewrite Htk; unfold k; lia).
      rewrite take_take. reflexivity. }
    cbn [materialize_rdata]. rewrite Ht2. fold l.
    destruct (Z.ltb_spec (len ((take k bs ++ used') ++ tail)) 2) as [Hlt|_].
    { unfold len in Hlt. rewrite !length_app, Htk in Hlt. unfold k in Hlt. lia. }
    destruct (Z.ltb_spec (len ((take k bs ++ used') ++ tail)) (2 + l)) as [Hlt|_].
    { unfold len in Hlt. rewrite !length_app, Htk in Hlt. unfold k in Hlt. lia. }
    fold k.
    assert (Hd : drop k ((take k bs ++ used') ++ tail) = used' ++ tail).
    { rewrite <- app_assoc. rewrite drop_app_length'; done. }
    rewrite Hd, Hloc. do 3 f_equal.
    unfold Bytes.slice. change (Z.to_nat 2) with 2%nat.
    rewrite <- app_assoc, drop_app_le by (rewrite Htk; unfold k; lia).
    rewrite take_app_le by (rewrite length_drop, Htk; unfold k; lia).
    rewrite (take_drop_commute bs). fold k.
    rewrite take_ge; [done|]. rewrite length_drop, Htk. unfold k. lia.
Qed.

Lemma rdataset_materialize_local (bs : list Z) (ttl : Z) (rds : knot_rdataset_t)
    (rest : list Z) :
  rdataset_materialize bs ttl = Some (rds, rest) ->
  exists used : list Z,
    bs = used ++ rest
    /\ forall tail : list Z, rdataset_materialize (used ++ tail) ttl = Some (rds, tail).
Proof.
  unfold rdataset_materialize. intros E.
  destruct (Z.ltb_spec (len bs) 2) as [|H2]; [done|].
  destruct (materialize_rdata_local _ _ _ _ _ E) as (used' & Hu & Hloc).
  assert (Ht : length (take 2 bs) = 2%nat) by (rewrite length_take; unfold len in *; lia).
  exists (take 2 bs ++ used'). split.
  { rewrite <- app_assoc, <- Hu. by rewrite take_drop. }
  intros tail.
  destruct (Z.ltb_spec (len ((take 2 bs ++ used') ++ tail)) 2) as [Hlt|_].
  { unfold len in Hlt. rewrite !length_app, Ht in Hlt. lia. }
  rewrite <- app_assoc.
  rewrite take_app_length' by done. rewrite drop_app_length' by done.
  apply Hloc.
Qed.

(** [entry_span] in terms of the flags octet and the data. *)
Lemma entry_span_eq (v : list Z) :
  entry_span v
  = if len v <? 10 then None
    else if Z.testbit (Bytes.byte_at v 9) 0 then
      if len v <? 12 then None
      else
        let n := 12 + host_value (Bytes.slice 0 2 (drop 10 v)) in
        if len v <? n then None else Some n
    else
      match rdataset_materialize (drop 10 v) 0 with
      | None => None
      | Some (_, rest) =>
          match rdataset_materialize rest 0 with
          | None => None
          | Some (_, rest) => Some (len v - len rest)
          end
      end.
Proof. reflexivity. Qed.

Lemma byte_at_poke_9 (f : Z) (p tail : list Z) :
  10 <= len p -> Bytes.byte_at (Bytes.poke 9 f p ++ tail) 9 = f.
Proof.
  intros Hp. unfold Bytes.byte_at, Bytes.poke. cbn [Z.ltb Z.compare].
  change (Z.to_nat 9) with 9%nat.
  rewrite lookup_app_l by (rewrite length_insert; unfold len in Hp; lia).
  rewrite list_lookup_insert_eq by (unfold len in Hp; lia). done.
Qed.

Lemma drop_poke_9 (f : Z) (p tail : list Z) :
  10 <= len p -> drop 10 (Bytes.poke 9 f p ++ tail) = drop 10 p ++ tail.
Proof.
  intros Hp. unfold Bytes.poke. cbn [Z.ltb Z.compare]. change (Z.to_nat 9) with 9%nat.
  rewrite drop_app_le by (rewrite length_insert; unfold len in Hp; lia).
  by rewrite drop_insert_lt by lia.
Qed.

Lemma poke_9_app (f : Z) (p tail : list Z) :
  10 <= len p -> Bytes.poke 9 f (p ++ tail) = Bytes.poke 9 f p ++ tail.
Proof.
  intros Hp. unfold Bytes.poke. cbn [Z.ltb Z.compare]. change (Z.to_nat 9) with 9%nat.
  apply insert_app_l. unfold len in Hp. lia.
Qed.

Lemma poke_9_same (p : list Z) :
  10 <= len p -> Bytes.poke 9 (Bytes.byte_at p 9) p = p.
Proof.
  intros Hp. unfold Bytes.poke, Bytes.byte_at. cbn [Z.ltb Z.compare].
  change (Z.to_nat 9) with 9%nat.
  destruct (p !! 9%nat) as [b|] eqn:E.
  - by apply list_insert_id.
  - apply lookup_ge_None in E. unfold len in Hp. lia.
Qed.

Lemma byte_at_app_9 (p tail : list Z) :
  10 <= len p -> Bytes.byte_at (p ++ tail) 9 = Bytes.byte_at p 9.
Proof.
  intros Hp. unfold Bytes.byte_at. cbn [Z.ltb Z.compare]. change (Z.to_nat 9) with 9%nat.
  by rewrite lookup_app_l by (unfold len in Hp; lia).
Qed.

(** What [entry_span] measures at the start of a string of octets is a
    sub-entry that stands on its own. *)
Lemma entry_span_spanned (v : list Z) (n : Z) :
  Forall Bytes.is_byte v -> entry_span v = Some n ->
  0 <= n <= len v /\ spanned (take (Z.to_nat n) v).
Proof.
  intros Hb E. rewrite entry_span_eq in E.
  destruct (Z.ltb_spec (len v) 10) as [|H10]; [done|].
  destruct (Z.testbit (Bytes.byte_at v 9) 0) eqn:Epk.
  - destruct (Z.ltb_spec (len v) 12) as [|H12]; [done|]. cbv zeta in E.
    set (hv := host_value (Bytes.slice 0 2 (drop 10 v))) in *.
    assert (Hhv : 0 <= hv).
    { apply host_value_nonneg. apply slice_is_byte. by apply Forall_drop. }
    destruct (Z.ltb_spec (len v) (12 + hv)) as [|Hn]; [done|].
    injection E as <-. split; [lia|].
    set (p := take (Z.to_nat (12 + hv)) v).
    assert (Hp : len p = 12 + hv).
    { unfold p, len in *. rewrite length_take. lia. }
    assert (Hp9 : Bytes.byte_at p 9 = Bytes.byte_at v 9).
    { transitivity (Bytes.byte_at (p ++ drop (Z.to_nat (12 + hv)) v) 9).
      - symmetry. apply byte_at_app_9. lia.
      - unfold p. by rewrite take_drop. }
    split; [unfold ENTRY_H_DATA; lia|].
    intros f tail Hf. rewrite entry_span_eq.
    assert (Hlen : len (Bytes.poke 9 f p ++ tail) = len p + len tail).
    { unfold len. rewrite length_app, poke_length. lia. }
    pose proof (len_nonneg tail) as Ht.
    rewrite Hlen, byte_at_poke_9, drop_poke_9 by lia.
    rewrite Hf, Hp9, Epk.
    destruct (Z.ltb_spec (len p + len tail) 10); [lia|].
    destruct (Z.ltb_spec (len p + len tail) 12); [lia|]. cbv zeta.
    assert (Hs : Bytes.slice 0 2 (drop 10 p ++ tail) = Bytes.slice 0 2 (drop 10 v)).
    { unfold Bytes.slice. change (Z.to_nat 0) with 0%nat. rewrite !drop_0.
      change (Z.to_nat 2) with 2%nat.
      rewrite take_app_le by (rewrite length_drop; unfold len in Hp; lia).
      unfold p.
      replace (Z.to_nat (12 + hv)) with (10 + (Z.to_nat (12 + hv) - 10))%nat by lia.
      rewrite <- take_drop_commute, take_take. f_equal. lia. }
    rewrite Hs. fold hv.
    destruct (Z.ltb_spec (len p + len tail) (12 + hv)); [lia|]. by rewrite Hp.
  - destruct (rdataset_materialize (drop 10 v) 0) as [[r1 rest1]|] eqn:E1; [|done].
    destruct (rdataset_materialize rest1 0) as [[r2 rest2]|] eqn:E2; [|done].
    injection E as <-.
    destruct (rdataset_materialize_local _ _ _ _ E1) as (u1 & Hu1 & Hl1).
    destruct (rdataset_materialize_local _ _ _ _ E2) as (u2 & Hu2 & Hl2).
    assert (Hv : v = take 10 v ++ u1 ++ u2 ++ rest2).
    { rewrite <- Hu2, <- Hu1. by rewrite take_drop. }
    assert (Ht10 : length (take 10 v) = 10%nat)
      by (rewrite length_take; unfold len in H10; lia).
    assert (Hlv : len v = 10 + len u1 + len u2 + len rest2).
    { rewrite Hv at 1. unfold len. rewrite !length_app, Ht10. lia. }
    pose proof (len_nonneg u1). pose proof (len_nonneg u2). pose proof (len_nonneg rest2).
    split; [lia|].
    set (p := take (Z.to_nat (len v - len rest2)) v).
    assert (Hpe : p = take 10 v ++ u1 ++ u2).
    { unfold p. rewrite Hv at 2.
      replace (take 10 v ++ u1 ++ u2 ++ rest2) with ((take 10 v ++ u1 ++ u2) ++ rest2)
        by (by rewrite <- !app_assoc).
      apply take_len_app. rewrite Hlv. unfold len. rewrite !length_app, Ht10. lia. }
    assert (Hp : len p = 10 + len u1 + len u2).
    { rewrite Hpe. unfold len. rewrite !length_app, Ht10. lia. }
    assert (Hp9 : Bytes.byte_at p 9 = Bytes.byte_at v 9).
    { transitivity (Bytes.byte_at (p ++ drop (Z.to_nat (len v - len rest2)) v) 9).
      - symmetry. apply byte_at_app_9. lia.
      - unfold p. by rewrite take_drop. }
    split; [unfold ENTRY_H_DATA; lia|].
    intros f tail Hf. rewrite entry_span_eq.
    assert (Hlen : len (Bytes.poke 9 f p ++ tail) = len p + len tail).
    { unfold len. rewrite length_app, poke_length. lia. }
    pose proof (len_nonneg tail) as Ht.
    rewrite Hlen, byte_at_poke_9, drop_poke_9 by lia.
    rewrite Hf, Hp9, Epk.
    destruct (Z.ltb_spec (len p + len tail) 10); [lia|].
    assert (Hd : drop 10 p = u1 ++ u2).
    { rewrite Hpe. by rewrite drop_app_length'. }
    rewrite Hd, <- app_assoc, Hl1, Hl2. f_equal. lia.
Qed.

End SpanFacts.

Section ParseFacts.
Context {H : host}.

Lemma entry_list_parse_eq (v : list Z) :
  entry_list_parse v
  = if len v <? 10 then None
    else if Z.testbit (Bytes.byte_at v 9) 0 then None
    else
      match parse_part (Z.testbit (Bytes.byte_at v 9) 2) v with
      | None => None
      | Some (ns, v1) =>
          match parse_part (Z.testbit (Bytes.byte_at v 9) 3) v1 with
          | None => None
          | Some (cn, v2) =>
              match parse_part (Z.testbit (Bytes.byte_at v 9) 4) v2 with
              | None => None
              | Some (dn, _) => Some (ns, cn, dn)
              end
          end
      end.
Proof. reflexivity. Qed.

Lemma entry_bytes_flags time ttl rank fl payload :
  Bytes.byte_at (entry_bytes time ttl rank fl payload) 9 = fl.
Proof. reflexivity. Qed.

Lemma entry_bytes_data time ttl rank fl payload :
  drop 10 (entry_bytes time ttl rank fl payload) = payload.
Proof. reflexivity. Qed.

Lemma entry_bytes_poke time ttl rank fl f payload :
  Bytes.poke 9 f (entry_bytes time ttl rank fl payload)
  = entry_bytes time ttl rank f payload.
Proof. reflexivity. Qed.

(** The entry of a record set stands on its own. *)
Lemma spanned_entry_bytes time ttl rank fl (rds : knot_rdataset_t)
    (sigs : option knot_rdataset_t) :
  storable rds -> match sigs with Some s => storable s | None => True end ->
  Z.testbit fl 0 = false ->
  spanned (entry_bytes time ttl rank fl
             (snd (rdataset_dematerialize_spec (Some rds))
              ++ snd (rdataset_dematerialize_spec sigs))).
Proof.
  intros Hr Hs Hfl.
  set (d1 := snd (rdataset_dematerialize_spec (Some rds))).
  set (d2 := snd (rdataset_dematerialize_spec sigs)).
  pose proof (entry_bytes_len time ttl rank fl (d1 ++ d2)) as Hlen.
  pose proof (len_nonneg (d1 ++ d2)) as Hnn.
  split; [unfold ENTRY_H_DATA in *; lia|].
  intros f tail Hf. rewrite entry_bytes_flags, Hfl in Hf.
  rewrite entry_span_eq.
  assert (Hl : len (Bytes.poke 9 f (entry_bytes time ttl rank fl (d1 ++ d2)) ++ tail)
               = len (entry_bytes time ttl rank fl (d1 ++ d2)) + len tail).
  { unfold len. rewrite length_app, poke_length. lia. }
  pose proof (len_nonneg tail) as Ht.
  rewrite Hl, byte_at_poke_9, drop_poke_9, Hf by (unfold ENTRY_H_DATA in *; lia).
  rewrite entry_bytes_data.
  destruct (Z.ltb_spec (len (entry_bytes time ttl rank fl (d1 ++ d2)) + len tail) 10);
    [unfold ENTRY_H_DATA in *; lia|].
  rewrite <- app_assoc. unfold d1 at 1.
  rewrite (rdataset_materialize_dematerialize (Some rds) (d2 ++ tail) 0) by done.
  unfold d2 at 1.
  rewrite (rdataset_materialize_dematerialize sigs tail 0) by done.
  f_equal. lia.
Qed.

Lemma parse_part_ok (p rest : list Z) :
  part_ok p -> parse_part (negb (len p =? 0)) (p ++ rest) = Some (p, rest).
Proof.
  intros [->|[Hp Hs]]; [done|].
  destruct (Z.eqb_spec (len p) 0) as [E|_]; [unfold ENTRY_H_DATA in *; lia|].
  cbn [negb parse_part].
  pose proof (Hs (Bytes.byte_at p 9) rest eq_refl) as E.
  rewrite poke_9_same in E by (unfold ENTRY_H_DATA in *; lia).
  rewrite E. by rewrite take_len_app, drop_len_app.
Qed.

Lemma parse_part_poked (p rest : list Z) (F : Z) :
  spanned p -> Z.testbit F 0 = Z.testbit (Bytes.byte_at p 9) 0 ->
  parse_part true (Bytes.poke 9 F p ++ rest) = Some (Bytes.poke 9 F p, rest).
Proof.
  intros [Hp Hs] HF. cbn [parse_part]. rewrite (Hs F rest HF).
  assert (Hl : len p = len (Bytes.poke 9 F p)) by (unfold len; by rewrite poke_length).
  by rewrite take_len_app, drop_len_app.
Qed.

Lemma part_ok_len (p : list Z) : part_ok p -> p = [] \/ 10 <= len p.
Proof. intros [->|[Hp _]]; [by left|right; exact Hp]. Qed.

(** What [entry_list_parse] gives for a string of octets: its parts are
    sub-entries that stand on their own, and the first header is not
    that of a packet. *)
Lemma entry_list_parse_parts (v ns cn dn : list Z) :
  Forall Bytes.is_byte v -> entry_list_parse v = Some (ns, cn, dn) ->
  part_ok ns /\ part_ok cn /\ part_ok dn
  /\ Z.testbit (Bytes.byte_at (ns ++ cn ++ dn) 9) 0 = false.
Proof.
  intros Hb E. rewrite entry_list_parse_eq in E.
  destruct (Z.ltb_spec (len v) 10) as [|H10]; [done|].
  destruct (Z.testbit (Bytes.byte_at v 9) 0) eqn:Epk; [done|].
  assert (G : forall (b : bool) (w p rest : list Z),
            Forall Bytes.is_byte w -> parse_part b w = Some (p, rest) ->
            w = p ++ rest /\ part_ok p /\ Forall Bytes.is_byte rest).
  { intros b w p rest Hw Ep. destruct b; cbn [parse_part] in Ep.
    - destruct (entry_span w) as [n|] eqn:En; [|done]. injection Ep as <- <-.
      destruct (entry_span_spanned w n Hw En) as [_ Hsp].
      split; [by rewrite take_drop|]. split; [by right|by apply Forall_drop].
    - injection Ep as <- <-. split; [done|]. split; [by left|done]. }
  destruct (parse_part _ v) as [[ns' v1]|] eqn:E1; [|done].
  destruct (parse_part _ v1) as [[cn' v2]|] eqn:E2; [|done].
  destruct (parse_part _ v2) as [[dn' v3]|] eqn:E3; [|done].
  injection E as <- <- <-.
  destruct (G _ _ _ _ Hb E1) as (Hv & Hns & Hb1).
  destruct (G _ _ _ _ Hb1 E2) as (Hv1 & Hcn & Hb2).
  destruct (G _ _ _ _ Hb2 E3) as (Hv2 & Hdn & _).
  repeat split; try done.
  assert (Hv' : v = (ns' ++ cn' ++ dn') ++ v3).
  { rewrite Hv, Hv1, Hv2 at 1. by rewrite <- !app_assoc. }
  destruct (Z.le_gt_cases 10 (len (ns' ++ cn' ++ dn'))) as [Hl|Hl].
  - rewrite Hv' in Epk. by rewrite byte_at_app_9 in Epk.
  - destruct (part_ok_len _ Hns) as [->|Hl1];
      [|unfold len in *; rewrite !length_app in Hl; lia].
    destruct (part_ok_len _ Hcn) as [->|Hl2];
      [|unfold len in *; rewrite !length_app in Hl; simpl in Hl; lia].
    destruct (part_ok_len _ Hdn) as [->|Hl3]; [done|].
    cbn [app] in Hl. lia.
Qed.

(** [entry_list_parse] of a value built from three parts, with the
    presence bits in the first header. *)
Lemma entry_list_parse_built (p1 p2 p3 : list Z) (F : Z) :
  part_ok p1 -> part_ok p2 -> part_ok p3 -> 10 <= len (p1 ++ p2 ++ p3) ->
  Z.testbit (Bytes.byte_at (p1 ++ p2 ++ p3) 9) 0 = false ->
  Z.testbit F 0 = false ->
  Z.testbit F 2 = negb (len p1 =? 0) ->
  Z.testbit F 3 = negb (len p2 =? 0) ->
  Z.testbit F 4 = negb (len p3 =? 0) ->
  entry_list_parse (Bytes.poke 9 F (p1 ++ p2 ++ p3))
  = Some (if len p1 =? 0 then [] else Bytes.poke 9 F p1,
          if len p1 =? 0 then (if len p2 =? 0 then [] else Bytes.poke 9 F p2) else p2,
          if (len p1 =? 0) && (len p2 =? 0) then Bytes.poke 9 F p3 else p3).
Proof.
  intros H1 H2 H3 Hlen Hpk F0 F2 F3 F4.
  rewrite entry_list_parse_eq.
  assert (Hl : len (Bytes.poke 9 F (p1 ++ p2 ++ p3)) = len (p1 ++ p2 ++ p3))
    by (unfold len; by rewrite poke_length).
  rewrite Hl.
  destruct (Z.ltb_spec (len (p1 ++ p2 ++ p3)) 10); [lia|].
  assert (H9 : Bytes.byte_at (Bytes.poke 9 F (p1 ++ p2 ++ p3)) 9 = F).
  { rewrite <- (app_nil_r (Bytes.poke 9 F _)). by apply byte_at_poke_9. }
  rewrite H9, F0, F2, F3, F4.
  destruct H1 as [->|Hs1].
  - change (len [] =? 0) with true. cbn [negb andb app parse_part] in *.
    destruct H2 as [->|Hs2].
    + change (len [] =? 0) with true. cbn [negb andb app parse_part] in *.
      destruct H3 as [->|Hs3]; [change (len []) with 0 in Hlen; lia|].
      destruct (Z.eqb_spec (len p3) 0) as [E|_];
        [destruct Hs3; unfold ENTRY_H_DATA in *; lia|].
      cbn [negb].
      rewrite <- (app_nil_r (Bytes.poke 9 F p3)).
      rewrite parse_part_poked by (done || by rewrite F0, Hpk).
      by rewrite app_nil_r.
    + pose proof Hs2 as [Hl2 _].
      destruct (Z.eqb_spec (len p2) 0) as [E|_]; [unfold ENTRY_H_DATA in *; lia|].
      cbn [negb].
      rewrite poke_9_app by exact Hl2.
      rewrite parse_part_poked.
      2: done.
      2:{ rewrite F0. rewrite byte_at_app_9 in Hpk by exact Hl2. by rewrite Hpk. }
      pose proof (parse_part_ok p3 [] H3) as E3. rewrite app_nil_r in E3.
      by rewrite E3.
  - pose proof Hs1 as [Hl1 _].
    destruct (Z.eqb_spec (len p1) 0) as [E|_]; [unfold ENTRY_H_DATA in *; lia|].
    cbn [negb andb].
    rewrite poke_9_app by exact Hl1.
    rewrite parse_part_poked.
    2: done.
    2:{ rewrite F0. rewrite byte_at_app_9 in Hpk by exact Hl1. by rewrite Hpk. }
    rewrite parse_part_ok by done.
    pose proof (parse_part_ok p3 [] H3) as E3. rewrite app_nil_r in E3.
    by rewrite E3.
Qed.

End ParseFacts.

Section FillFacts.

Lemma poke_all_app_l (src a b : list Z) (i : Z) :
  0 <= i -> i + len src <= len a ->
  Bytes.poke_all i src (a ++ b) = Bytes.poke_all i src a ++ b.
Proof.
  intros Hi Hl. rewrite !poke_all_spec; [|lia|lia|lia|len_lia].
  rewrite take_app_le by (unfold len in *; lia).
  rewrite drop_app_le by (unfold len in *; lia).
  by rewrite <- !app_assoc.
Qed.

Lemma poke_9_hole (n F : Z) :
  10 <= n -> Bytes.poke 9 F (replicate (Z.to_nat n) 0) = hole n F.
Proof.
  intros Hn. rewrite hole_zero by done. unfold hole.
  change (replicate 9 0) with [0; 0; 0; 0; 0; 0; 0; 0; 0]. reflexivity.
Qed.

(** The five stores of [stash_rrset] into the room, with something after
    it. *)
Lemma hole_filled_app n f time ttl rank p1 p2 (B : list Z) :
  n = ENTRY_H_DATA + len p1 + len p2 ->
  Bytes.poke_all (ENTRY_H_DATA + len p1) p2
    (Bytes.poke_all ENTRY_H_DATA p1
       (Bytes.poke_all 8 [rank]
          (Bytes.poke_all 4 (Bytes.le_bytes 4 ttl)
             (Bytes.poke_all 0 (Bytes.le_bytes 4 time) (hole n f ++ B)))))
  = entry_bytes time ttl rank f (p1 ++ p2) ++ B.
Proof.
  intros Hn.
  pose proof (len_nonneg p1) as H1. pose proof (len_nonneg p2) as H2.
  assert (Hh : len (hole n f) = n) by (apply hole_len; unfold ENTRY_H_DATA in *; lia).
  assert (Ht4 : len (Bytes.le_bytes 4 time) = 4) by (unfold len; by rewrite le_bytes_length).
  assert (Hl4 : len (Bytes.le_bytes 4 ttl) = 4) by (unfold len; by rewrite le_bytes_length).
  assert (Hr : len [rank] = 1) by reflexivity.
  assert (L : forall i src l, len (Bytes.poke_all i src l) = len l)
    by (intros; unfold len; by rewrite poke_all_length).
  rewrite (poke_all_app_l _ (hole n f)) by (unfold ENTRY_H_DATA in *; lia).
  rewrite (poke_all_app_l (Bytes.le_bytes 4 ttl))
    by (rewrite ?L; unfold ENTRY_H_DATA in *; lia).
  rewrite (poke_all_app_l [rank]) by (rewrite ?L; unfold ENTRY_H_DATA in *; lia).
  rewrite (poke_all_app_l p1) by (rewrite ?L; unfold ENTRY_H_DATA in *; lia).
  rewrite (poke_all_app_l p2) by (rewrite ?L; unfold ENTRY_H_DATA in *; lia).
  by rewrite hole_filled.
Qed.

(** The stores of [stash_rrset] after [entry_h_splice] made room between
    the parts [A] and [B] of the value. *)
Lemma stores_fill (A B : list Z) (n F time ttl rank : Z) (p1 p2 : list Z) :
  n = ENTRY_H_DATA + len p1 + len p2 -> A = [] \/ 10 <= len A ->
  Bytes.poke_all (len A + (ENTRY_H_DATA + len p1)) p2
    (Bytes.poke_all (len A + ENTRY_H_DATA) p1
       (Bytes.poke_all (len A + 8) [rank]
          (Bytes.poke_all (len A + 4) (Bytes.le_bytes 4 ttl)
             (Bytes.poke_all (len A + 0) (Bytes.le_bytes 4 time)
                (Bytes.poke 9 F (A ++ replicate (Z.to_nat n) 0 ++ B))))))
  = Bytes.poke 9 F (A ++ entry_bytes time ttl rank 0 (p1 ++ p2) ++ B).
Proof.
  intros Hn HA.
  pose proof (len_nonneg p1) as H1. pose proof (len_nonneg p2) as H2.
  assert (Hn10 : 10 <= n) by (unfold ENTRY_H_DATA in *; lia).
  assert (L : forall i src l, len (Bytes.poke_all i src l) = len l)
    by (intros; unfold len; by rewrite poke_all_length).
  destruct HA as [->|HA].
  - change (len []) with 0. rewrite !Z.add_0_l. cbn [app].
    rewrite poke_9_app by (unfold len; rewrite length_replicate; lia).
    rewrite poke_9_hole by done.
    rewrite hole_filled_app by done.
    pose proof (len_nonneg (p1 ++ p2)) as H12.
    rewrite poke_9_app by (rewrite entry_bytes_len; unfold ENTRY_H_DATA; lia).
    reflexivity.
  - rewrite !poke_9_app by done.
    set (A' := Bytes.poke 9 F A).
    assert (HA' : len A = len A') by (unfold A', len; by rewrite poke_length).
    rewrite !HA'.
    rewrite hole_zero by done.
    assert (Hx : len (hole n 0 ++ B) = n + len B).
    { rewrite len_app. by rewrite hole_len. }
    pose proof (len_nonneg B) as HB.
    assert (Ht4 : len (Bytes.le_bytes 4 time) = 4)
      by (unfold len; by rewrite le_bytes_length).
    assert (Hl4 : len (Bytes.le_bytes 4 ttl) = 4)
      by (unfold len; by rewrite le_bytes_length).
    assert (Hr : len [rank] = 1) by reflexivity.
    rewrite (poke_all_skip (Bytes.le_bytes 4 time))
      by (rewrite ?L, ?Hx; unfold ENTRY_H_DATA in *; lia).
    rewrite (poke_all_skip (Bytes.le_bytes 4 ttl))
      by (rewrite ?L, ?Hx; unfold ENTRY_H_DATA in *; lia).
    rewrite (poke_all_skip [rank]) by (rewrite ?L, ?Hx; unfold ENTRY_H_DATA in *; lia).
    rewrite (poke_all_skip p1) by (rewrite ?L, ?Hx; unfold ENTRY_H_DATA in *; lia).
    rewrite (poke_all_skip p2) by (rewrite ?L, ?Hx; unfold ENTRY_H_DATA in *; lia).
    by rewrite hole_filled_app.
Qed.

Lemma set_presence_eq (a b c : bool) (v : list Z) :
  set_presence a b c v
  = Bytes.poke 9
      (Z.lor (Z.land (Bytes.byte_at v 9) 227)
         ((if a then 4 else 0) + (if b then 8 else 0) + (if c then 16 else 0))) v.
Proof. reflexivity. Qed.

(** The bits of the flags octet that [set_presence] writes. *)
Lemma presence_bits (f0 : Z) (a b c : bool) :
  let F := Z.lor (Z.land f0 227)
             ((if a then 4 else 0) + (if b then 8 else 0) + (if c then 16 else 0)) in
  Z.testbit F 0 = Z.testbit f0 0 /\ Z.testbit F 1 = Z.testbit f0 1
  /\ Z.testbit F 2 = a /\ Z.testbit F 3 = b /\ Z.testbit F 4 = c.
Proof.
  intros F. unfold F. rewrite !Z.lor_spec, !Z.land_spec.
  destruct a, b, c; cbn [Z.add Pos.add Pos.succ]; cbn [Z.testbit Pos.testbit Z.pred_double Pos.pred_N Z.to_N N.pred Pos.pred_double];
    rewrite ?andb_true_r, ?andb_false_r, ?orb_false_r, ?orb_true_r; done.
Qed.

End FillFacts.

Section SeekMerged.
Context {H : host}.

Lemma byte_at_hole_app (n : Z) (B : list Z) :
  10 <= n -> Bytes.byte_at (replicate (Z.to_nat n) 0 ++ B) 9 = 0.
Proof.
  intros Hn. rewrite byte_at_app_9 by (unfold len; rewrite length_replicate; lia).
  rewrite hole_zero by done. reflexivity.
Qed.

Lemma len_hole (n : Z) : 10 <= n -> len (replicate (Z.to_nat n) 0) = n.
Proof. intros Hn. unfold len. rewrite length_replicate. lia. Qed.

(** [entry_h_seek] on the value that [entry_h_splice] and the stores of
    [stash_rrset] leave under an NS key: the sub-entry for the type is
    the entry written. *)
Lemma seek_merged (type : Z) (ns cn dn : list Z) (n time ttl rank : Z)
    (rds : knot_rdataset_t) (sigs : option knot_rdataset_t) :
  type = KNOT_RRTYPE_NS \/ type = KNOT_RRTYPE_CNAME \/ type = KNOT_RRTYPE_DNAME ->
  part_ok ns -> part_ok cn -> part_ok dn ->
  Z.testbit (Bytes.byte_at (ns ++ cn ++ dn) 9) 0 = false ->
  storable rds -> match sigs with Some s => storable s | None => True end ->
  let payload := snd (rdataset_dematerialize_spec (Some rds))
                 ++ snd (rdataset_dematerialize_spec sigs) in
  n = ENTRY_H_DATA + len payload ->
  let hole := replicate (Z.to_nat n) 0 in
  let E0 := entry_bytes time ttl rank 0 payload in
  let h1 := if type =? KNOT_RRTYPE_NS then hole else ns in
  let h2 := if type =? KNOT_RRTYPE_CNAME then hole else cn in
  let h3 := if (type =? KNOT_RRTYPE_NS) || (type =? KNOT_RRTYPE_CNAME) then dn else hole in
  let q1 := if type =? KNOT_RRTYPE_NS then E0 else ns in
  let q2 := if type =? KNOT_RRTYPE_CNAME then E0 else cn in
  let q3 := if (type =? KNOT_RRTYPE_NS) || (type =? KNOT_RRTYPE_CNAME) then dn else E0 in
  let F := Z.lor (Z.land (Bytes.byte_at (h1 ++ h2 ++ h3) 9) 227)
             ((if negb (len h1 =? 0) then 4 else 0)
              + (if negb (len h2 =? 0) then 8 else 0)
              + (if negb (len h3 =? 0) then 16 else 0)) in
  exists fl : Z,
    entry_h_seek_spec (Bytes.poke 9 F (q1 ++ q2 ++ q3)) type
    = (0, entry_bytes time ttl rank fl payload)
    /\ Z.testbit fl 0 = false /\ Z.testbit fl 1 = false.
Proof.
  intros Hty Hns Hcn Hdn Hfirst Hr Hs payload Hn hole E0 h1 h2 h3 q1 q2 q3 F.
  pose proof (len_nonneg payload) as Hpl.
  assert (Hn10 : 10 <= n) by (unfold ENTRY_H_DATA in *; lia).
  assert (HlenE : forall f, len (entry_bytes time ttl rank f payload) = n)
    by (intros f; rewrite entry_bytes_len; lia).
  assert (HlenH : len hole = n) by (by apply len_hole).
  assert (HE0 : spanned E0) by (by apply spanned_entry_bytes).
  assert (HokE : part_ok E0) by (by right).
  (* the lengths of the parts do not change when the room is filled *)
  assert (HlenE0 : len E0 = len hole) by (unfold E0; by rewrite HlenE, HlenH).
  assert (Hl1 : len q1 = len h1)
    by (unfold q1, h1; by destruct (type =? KNOT_RRTYPE_NS)).
  assert (Hl2 : len q2 = len h2)
    by (unfold q2, h2; by destruct (type =? KNOT_RRTYPE_CNAME)).
  assert (Hl3 : len q3 = len h3)
    by (unfold q3, h3;
        by destruct ((type =? KNOT_RRTYPE_NS) || (type =? KNOT_RRTYPE_CNAME))).
  assert (Hq1 : part_ok q1) by (unfold q1; by destruct (type =? KNOT_RRTYPE_NS)).
  assert (Hq2 : part_ok q2) by (unfold q2; by destruct (type =? KNOT_RRTYPE_CNAME)).
  assert (Hq3 : part_ok q3)
    by (unfold q3; by destruct ((type =? KNOT_RRTYPE_NS) || (type =? KNOT_RRTYPE_CNAME))).
  (* the flags octet before the presence bits are set *)
  set (f0 := Bytes.byte_at (h1 ++ h2 ++ h3) 9) in *.
  destruct (presence_bits f0 (negb (len h1 =? 0)) (negb (len h2 =? 0))
              (negb (len h3 =? 0))) as (F0 & F1 & F2 & F3 & F4).
  fold F in F0, F1, F2, F3, F4.
  assert (Hf0 : Z.testbit f0 0 = false
                /\ Bytes.byte_at (q1 ++ q2 ++ q3) 9
                   = Bytes.byte_at (h1 ++ h2 ++ h3) 9
                /\ ((len ((if type =? KNOT_RRTYPE_NS then [] else ns)
                          ++ (if type =? KNOT_RRTYPE_NS then []
                              else if type =? KNOT_RRTYPE_CNAME then [] else cn)) =? 0)
                    = true -> f0 = 0)).
  { unfold f0, h1, h2, h3, q1, q2, q3.
    destruct Hty as [->|[->| ->]].
    - change (KNOT_RRTYPE_NS =? KNOT_RRTYPE_NS) with true.
      change (KNOT_RRTYPE_NS =? KNOT_RRTYPE_CNAME) with false. cbn [orb app].
      rewrite !byte_at_app_9 by (rewrite ?HlenE, ?HlenH; lia).
      unfold hole. rewrite hole_zero by done. by repeat split.
    - change (KNOT_RRTYPE_CNAME =? KNOT_RRTYPE_NS) with false.
      change (KNOT_RRTYPE_CNAME =? KNOT_RRTYPE_CNAME) with true. cbn [orb app].
      destruct (part_ok_len _ Hns) as [->|Hl]; cbn [app].
      + rewrite !byte_at_app_9 by (rewrite ?HlenE, ?HlenH; lia).
        unfold hole. rewrite hole_zero by done. by repeat split.
      + rewrite !byte_at_app_9 by done. rewrite byte_at_app_9 in Hfirst by done.
        repeat split; try done. intros E. apply Z.eqb_eq in E.
        rewrite app_nil_r in E. lia.
    - change (KNOT_RRTYPE_DNAME =? KNOT_RRTYPE_NS) with false.
      change (KNOT_RRTYPE_DNAME =? KNOT_RRTYPE_CNAME) with false. cbn [orb app].
      destruct (part_ok_len _ Hns) as [->|Hl]; cbn [app].
      + destruct (part_ok_len _ Hcn) as [->|Hl']; cbn [app].
        * unfold hole. rewrite hole_zero by done. by repeat split.
        * rewrite !byte_at_app_9 by done. cbn [app] in Hfirst.
          rewrite byte_at_app_9 in Hfirst by done.
          repeat split; try done. intros E. apply Z.eqb_eq in E. lia.
      + rewrite !byte_at_app_9 by done. rewrite byte_at_app_9 in Hfirst by done.
        repeat split; try done. intros E. apply Z.eqb_eq in E.
        rewrite len_app in E. pose proof (len_nonneg cn). lia. }
  destruct Hf0 as (Hf00 & Hq9 & Hfirst0).
  assert (Hlenq : 10 <= len (q1 ++ q2 ++ q3)).
  { rewrite !len_app, Hl1, Hl2, Hl3.
    pose proof (len_nonneg h1). pose proof (len_nonneg h2). pose proof (len_nonneg h3).
    unfold h1, h2, h3 in *.
    destruct Hty as [->|[->| ->]]; cbn in *; rewrite ?HlenH in *; lia. }
  rewrite <- Hl1 in F2. rewrite <- Hl2 in F3. rewrite <- Hl3 in F4.
  pose proof (entry_list_parse_built q1 q2 q3 F Hq1 Hq2 Hq3 Hlenq) as Hparse.
  rewrite Hq9 in Hparse. fold f0 in Hparse.
  specialize (Hparse Hf00 ltac:(by rewrite F0) F2 F3 F4).
  unfold entry_h_seek_spec. rewrite Hparse.
  assert (HFE : forall f, Z.testbit f 0 = false -> Z.testbit f 1 = false ->
            forall q, q = entry_bytes time ttl rank f payload ->
            exists fl : Z,
              (if len q =? 0 then (- ENOENT, Bytes.poke 9 F (q1 ++ q2 ++ q3)) else (0, q))
              = (0, entry_bytes time ttl rank fl payload)
              /\ Z.testbit fl 0 = false /\ Z.testbit fl 1 = false).
  { intros f Hb0 Hb1 q ->. exists f. rewrite HlenE.
    destruct (Z.eqb_spec n 0); [lia|]. done. }
  assert (HF01 : f0 = 0 -> Z.testbit F 0 = false /\ Z.testbit F 1 = false).
  { intros E. rewrite F0, F1, E. done. }
  unfold q1, q2, q3 in *.
  assert (HE0n : (len E0 =? 0) = false)
    by (rewrite HlenE0, HlenH; apply Z.eqb_neq; lia).
  destruct Hty as [->|[->| ->]].
  - change (KNOT_RRTYPE_NS =? KNOT_RRTYPE_NS) with true in *.
    change (KNOT_RRTYPE_NS =? KNOT_RRTYPE_CNAME) with false in *.
    change (KNOT_RRTYPE_NS =? KNOT_RRTYPE_DNAME) with false in *.
    cbn [orb app] in *. rewrite HE0n.
    destruct (HF01 (Hfirst0 eq_refl)) as [Hb0 Hb1].
    apply (HFE F Hb0 Hb1). unfold E0. by rewrite entry_bytes_poke.
  - change (KNOT_RRTYPE_CNAME =? KNOT_RRTYPE_NS) with false in *.
    change (KNOT_RRTYPE_CNAME =? KNOT_RRTYPE_CNAME) with true in *.
    cbn [orb app] in *.
    destruct (Z.eqb_spec (len ns) 0) as [E|E].
    + rewrite HE0n.
      assert (Hz : f0 = 0).
      { apply Hfirst0. rewrite app_nil_r. by apply Z.eqb_eq. }
      destruct (HF01 Hz) as [Hb0 Hb1].
      apply (HFE F Hb0 Hb1). unfold E0. by rewrite entry_bytes_poke.
    + by apply (HFE 0).
  - change (KNOT_RRTYPE_DNAME =? KNOT_RRTYPE_NS) with false in *.
    change (KNOT_RRTYPE_DNAME =? KNOT_RRTYPE_CNAME) with false in *.
    change (KNOT_RRTYPE_DNAME =? KNOT_RRTYPE_DNAME) with true in *.
    cbn [orb app] in *.
    destruct (Z.eqb_spec (len ns) 0) as [E|E]; cbn [andb].
    + destruct (Z.eqb_spec (len cn) 0) as [E'|E'].
      * assert (Hz : f0 = 0).
        { apply Hfirst0. apply Z.eqb_eq. rewrite len_app. lia. }
        destruct (HF01 Hz) as [Hb0 Hb1].
        apply (HFE F Hb0 Hb1). unfold E0. by rewrite entry_bytes_poke.
      * by apply (HFE 0).
    + by apply (HFE 0).
Qed.

(** The room that [entry_h_splice] makes for a type under an NS key lies
    between the parts that come before and after it. *)
Lemma parts_around (type : Z) (ns cn dn x : list Z) :
  type = KNOT_RRTYPE_NS \/ type = KNOT_RRTYPE_CNAME \/ type = KNOT_RRTYPE_DNAME ->
  part_ok ns -> part_ok cn ->
  exists A B : list Z,
    (A = [] \/ 10 <= len A)
    /\ (if type =? KNOT_RRTYPE_NS then 0
        else if type =? KNOT_RRTYPE_CNAME
             then len (if type =? KNOT_RRTYPE_NS then x else ns)
             else len (if type =? KNOT_RRTYPE_NS then x else ns)
                  + len (if type =? KNOT_RRTYPE_CNAME then x else cn)) = len A
    /\ forall y : list Z,
         (if type =? KNOT_RRTYPE_NS then y else ns)
         ++ (if type =? KNOT_RRTYPE_CNAME then y else cn)
         ++ (if (type =? KNOT_RRTYPE_NS) || (type =? KNOT_RRTYPE_CNAME) then dn else y)
         = A ++ y ++ B.
Proof.
  intros Hty Hns Hcn.
  destruct Hty as [->|[->| ->]].
  - exists [], (cn ++ dn). split; [by left|]. split; [done|]. intros y. done.
  - exists ns, dn. split; [by apply part_ok_len|]. split; [done|]. intros y. done.
  - exists (ns ++ cn), []. split.
    + destruct (part_ok_len _ Hns) as [->|Hl]; [by apply part_ok_len|].
      right. rewrite len_app. pose proof (len_nonneg cn). lia.
    + split; [by rewrite len_app|]. intros y. cbn [orb].
      change (KNOT_RRTYPE_DNAME =? KNOT_RRTYPE_NS) with false.
      change (KNOT_RRTYPE_DNAME =? KNOT_RRTYPE_CNAME) with false. cbv iota.
      by rewrite app_nil_r, app_assoc.
Qed.

End SeekMerged.

Section StashOver.
Context {H : host} {R : kr_rank_enc}.

Lemma key_type_NS_cases (type : Z) :
  (key_type type =? KNOT_RRTYPE_NS) = true ->
  type = KNOT_RRTYPE_NS \/ type = KNOT_RRTYPE_CNAME \/ type = KNOT_RRTYPE_DNAME.
Proof.
  unfold key_type.
  destruct (Z.eqb_spec type KNOT_RRTYPE_CNAME) as [->|_]; [by right; left|].
  destruct (Z.eqb_spec type KNOT_RRTYPE_DNAME) as [->|_]; [by right; right|].
  cbn [orb]. intros E. apply Z.eqb_eq in E. by left.
Qed.

Lemma key_type_not_NS (type : Z) :
  (key_type type =? KNOT_RRTYPE_NS) = false ->
  (type =? KNOT_RRTYPE_NS) || (type =? KNOT_RRTYPE_CNAME) || (type =? KNOT_RRTYPE_DNAME)
  = false.
Proof.
  unfold key_type.
  destruct (Z.eqb_spec type KNOT_RRTYPE_CNAME) as [->|_]; [done|].
  destruct (Z.eqb_spec type KNOT_RRTYPE_DNAME) as [->|_]; [done|].
  cbn [orb]. intros ->. done.
Qed.

(** [stash_rrset] of a record set that is not the expansion of a
    wildcard, whatever the store holds under its key: the entry is not
    written when [entry_h_splice] keeps the one that is there, and
    otherwise the value under the key is such that [entry_h_seek] for the
    type finds the entry of the record set. *)
Lemma stash_rrset_over (keep_old : entry_h -> Z -> Z -> bool) (other : cache_impl store)
    (c : kr_cache store) (qs : option kr_query) (rr : knot_rrset_t)
    (rr_sigs : option knot_rrset_t) (now rank : Z) (ls : list (list Z)) :
  api c = cdb_map ->
  0 <= ttl_min c < 2 ^ 31 -> 0 <= ttl_max c < 2 ^ 31 ->
  (forall v : list Z,
     db c !! exact_key (owner rr) (rr_type rr) = Some v -> Forall Bytes.is_byte v) ->
  owner rr = dname_of_labels ls -> wf_labels ls ->
  rr_type rr <> KNOT_RRTYPE_RRSIG -> rr_type rr <> KNOT_RRTYPE_NSEC ->
  rr_type rr <> KNOT_RRTYPE_NSEC3 ->
  storable (rrs rr) ->
  match rr_sigs with Some s => storable (rrs s) | None => True end ->
  not_wildcard rr rr_sigs ->
  let r := @stash_rrset _ H R (spec_impl keep_old other) c qs rr rr_sigs now rank in
  (fst r = 0 \/ fst r = ENTRY_H_DATA + len (rr_payload rr rr_sigs))
  /\ (db c !! exact_key (owner rr) (rr_type rr) = None
      \/ (forall (eh : entry_h) (r t : Z), keep_old eh r t = false) ->
      fst r <> 0)
  /\ (fst r <> 0 ->
      api (snd r) = cdb_map
      /\ exists (V : list Z) (fl : Z),
           db (snd r) !! exact_key (owner rr) (rr_type rr) = Some V
           /\ entry_h_seek_spec V (rr_type rr)
              = (0, entry_bytes (Int.u32 now) (clamp_ttl c (rrset_ttl rr rr_sigs))
                      (Int.u8 rank) fl (rr_payload rr rr_sigs))
           /\ Z.testbit fl 0 = false /\ Z.testbit fl 1 = false).
Proof.
  intros Ha Hmin Hmax Hbytes Ho Hwf Ht1 Ht2 Ht3 Hsr Hss Hw r.
  assert (Hclamp : Int.in_u32 (clamp_ttl c (rrset_ttl rr rr_sigs)))
    by (unfold Int.in_u32, clamp_ttl; lia).
  assert (Hss' : match rrs <$> rr_sigs with Some s => storable s | None => True end)
    by (by destruct rr_sigs).
  pose proof (payload_len_nonneg rr rr_sigs) as Hpl.
  destruct (db c !! exact_key (owner rr) (rr_type rr)) as [vold|] eqn:Eold.
  2:{ (* nothing under the key *)
      unfold r.
      rewrite (stash_rrset_fresh keep_old other c qs rr rr_sigs now rank ls) by done.
      cbn [fst snd]. split; [by right|].
      split; [intros _; unfold ENTRY_H_DATA; lia|]. intros _. split; [done|].
      exists (entry_bytes (Int.u32 now) (clamp_ttl c (rrset_ttl rr rr_sigs)) (Int.u8 rank)
                (presence_flags (rr_type rr)) (rr_payload rr rr_sigs)),
        (presence_flags (rr_type rr)).
      unfold stashed. cbn [db]. rewrite lookup_insert_eq. split; [done|].
      destruct (presence_flags_bits (rr_type rr)) as (E0 & E1 & _).
      split; [|done]. unfold rr_payload.
      apply entry_h_seek_spec_single; try done. apply u32_range. }
  specialize (Hbytes vold eq_refl).
  unfold r, stash_rrset.
  assert (Hw0 : match rr_sigs with
                | Some sigs => knot_dname_labels (owner rr) - knot_rrsig_labels (rrs sigs) 0
                | None => 0
                end = 0).
  { destruct rr_sigs as [s|]; [|done]. simpl in Hw. lia. }
  rewrite Hw0. cbv zeta. change (0 <? 0) with false. change (0 =? 0) with true.
  cbn [negb Nat.iter Z.to_nat nat_rect].
  destruct (Z.eqb_spec (rr_type rr) KNOT_RRTYPE_NSEC) as [|_]; [done|].
  cbn [kr_dname_lf spec_impl].
  unfold exact_key in Eold |- *. rewrite Ho in Eold |- *.
  change (Z.to_nat 0) with 0%nat. cbn [Nat.iter nat_rect].
  rewrite kr_dname_lf_spec_labels in Eold |- * by done.
  change (0 =? 0) with true. cbn [negb].
  destruct (key_exact_type_k_type
              (set_buf k_storage
                 (Bytes.poke_all 0 (len (lf_of_labels ls) :: lf_of_labels ls)
                    (buf k_storage))) (rr_type rr) Ht1 Ht2 Ht3) as (-> & Hkt & _).
  destruct (key_exact_type_maypkt _ (rr_type rr)) as [key k] eqn:Ekey.
  cbn [fst snd] in Eold, Hkt |- *. rewrite Hkt.
  cbn [entry_h_splice rdataset_dematerialize_size rdataset_dematerialize spec_impl].
  unfold rdataset_dematerialize_size_spec.
  pose proof (rdataset_dematerialize_ok (Some (rrs rr))) as Hr1.
  pose proof (rdataset_dematerialize_ok (rrs <$> rr_sigs)) as Hr2.
  unfold rr_payload in *.
  destruct (rdataset_dematerialize_spec (Some (rrs rr))) as [ret1 p1] eqn:E1.
  destruct (rdataset_dematerialize_spec (rrs <$> rr_sigs)) as [ret2 p2] eqn:E2.
  cbn [fst snd] in Hr1, Hr2, Hpl |- *. subst ret1 ret2.
  pose proof (len_nonneg p1) as Hp1. pose proof (len_nonneg p2) as Hp2.
  set (n := ENTRY_H_DATA + len p1 + len p2).
  assert (Hn : 10 <= n) by (unfold n, ENTRY_H_DATA; lia).
  unfold entry_h_splice_spec.
  destruct (Z.leb_spec n 0) as [|_]; [lia|].
  unfold cache_op_read. rewrite Ha. cbn [cdb_read cdb_map]. rewrite Eold.
  change (0 =? 0) with true. cbn [negb andb].
  destruct (key_type (rr_type rr) =? KNOT_RRTYPE_NS) eqn:Ex; cbn [andb].
  - (* the key is shared by NS, CNAME and DNAME *)
    pose proof (key_type_NS_cases _ Ex) as Hty.
    assert (Hparts : let '(ns, cn, dn) := default ([], [], []) (entry_list_parse vold) in
              part_ok ns /\ part_ok cn /\ part_ok dn
              /\ Z.testbit (Bytes.byte_at (ns ++ cn ++ dn) 9) 0 = false).
    { destruct (entry_list_parse vold) as [[[ns cn] dn]|] eqn:Ep; cbn [default].
      - by apply (entry_list_parse_parts vold).
      - repeat split; by left. }
    destruct (default ([], [], []) (entry_list_parse vold)) as [[ns cn] dn].
    destruct Hparts as (Hns & Hcn & Hdn & Hfirst).
    match goal with
    | |- context [if ?s then (kr_error EEXIST, _, _) else _] => set (skip := s)
    end.
    assert (Hskip : (forall (eh : entry_h) (r t : Z), keep_old eh r t = false) ->
              skip = false).
    { intros Hk. unfold skip.
      match goal with |- match ?m with _ => _ end = _ => destruct m end; [apply Hk|done]. }
    destruct skip eqn:Eskip.
    + change (negb (kr_error EEXIST =? 0)) with true. cbv iota. cbn [fst snd].
      split; [by left|]. split; [|intros Hne; by contradict Hne].
      intros [Hno|Hk]; [done|]. specialize (Hskip Hk). congruence.
    + set (hole := replicate (Z.to_nat n) 0).
      rewrite set_presence_eq.
      match goal with
      | |- context [Bytes.poke 9 ?f (_ ++ _ ++ _)] => set (F := f)
      end.
      destruct (parts_around (rr_type rr) ns cn dn hole Hty Hns Hcn)
        as (A & B & HA & Hoff & Happ).
      rewrite Hoff, (Happ hole).
      destruct (seek_merged (rr_type rr) ns cn dn n (Int.u32 now)
                  (clamp_ttl c (rrset_ttl rr rr_sigs)) (Int.u8 rank) (rrs rr)
                  (rrs <$> rr_sigs) Hty Hns Hcn Hdn Hfirst Hsr Hss')
        as (fl & Hseek & Hb0 & Hb1).
      { rewrite E1, E2. cbn [snd]. unfold n. rewrite len_app. lia. }
      rewrite E1, E2 in Hseek. cbn [snd] in Hseek. fold hole F in Hseek.
      rewrite (Happ (entry_bytes _ _ _ 0 (p1 ++ p2))) in Hseek.
      unfold cache_op_write. cbn [api db set_db]. rewrite Ha. cbn [cdb_write cdb_map].
      change (0 =? 0) with true. cbn [negb].
      cbn [ref_key ref_off api db set_db set_stats stats ttl_min ttl_max oplog].
      rewrite Ha. cbn [cdb_store cdb_map]. rewrite !alter_insert_eq.
      change (0 =? 0) with true. cbn [negb default].
      cbn [fst snd api db set_db set_stats].
      split; [right; unfold n; rewrite len_app; lia|].
      split; [intros _; lia|]. intros _. split; [done|].
      eexists _, fl. rewrite lookup_insert_eq. split; [reflexivity|].
      split; [|done]. rewrite <- Hseek. f_equal.
      rewrite <- (stores_fill A B n F (Int.u32 now) (clamp_ttl c (rrset_ttl rr rr_sigs))
                    (Int.u8 rank) p1 p2) by done.
      unfold clamp_ttl, rrset_ttl. by destruct rr_sigs.
  - (* the key is of the type alone *)
    pose proof (key_type_not_NS _ Ex) as Hty.
    match goal with
    | |- context [if ?s then (kr_error EEXIST, _, _) else _] => set (skip := s)
    end.
    assert (Hskip : (forall (eh : entry_h) (r t : Z), keep_old eh r t = false) ->
              skip = false).
    { intros Hk. unfold skip.
      match goal with |- match ?m with _ => _ end = _ => destruct m end; [apply Hk|done]. }
    destruct skip eqn:Eskip.
    + change (negb (kr_error EEXIST =? 0)) with true. cbv iota. cbn [fst snd].
      split; [by left|]. split; [|intros Hne; by contradict Hne].
      intros [Hno|Hk]; [done|]. specialize (Hskip Hk). congruence.
    + unfold cache_op_write. cbn [api db set_db]. rewrite Ha. cbn [cdb_write cdb_map].
      change (0 =? 0) with true. cbn [negb].
      cbn [ref_key ref_off api db set_db set_stats stats ttl_min ttl_max oplog].
      rewrite Ha. cbn [cdb_store cdb_map]. rewrite !alter_insert_eq.
      change (0 =? 0) with true. cbn [negb default].
      cbn [fst snd api db set_db set_stats].
      split; [right; unfold n; rewrite len_app; lia|].
      split; [intros _; lia|]. intros _. split; [done|].
      eexists _, 0. rewrite lookup_insert_eq. split; [reflexivity|].
      split; [|done].
      rewrite !Z.add_0_l. rewrite hole_zero by done. unfold id.
      rewrite hole_filled by done.
      unfold entry_h_seek_spec. rewrite Hty.
      unfold clamp_ttl, rrset_ttl. by destruct rr_sigs.
Qed.

End StashOver.

Section PeekSeek.
Context {H : host} {R : kr_rank_enc}.

Lemma entry_h_consistent_entry time ttl rank fl type payload :
  Int.in_u32 time -> Int.in_u32 ttl ->
  kr_rank_test rank KR_RANK_BOGUS = false ->
  Z.testbit fl 0 = false -> Z.testbit fl 1 = false ->
  let val := entry_bytes time ttl rank fl payload in
  entry_h_consistent val type = Some (entry_h_view val).
Proof.
  intros Ht Hl Hb E0 E1 val. rewrite entry_h_consistent_accepted.
  replace (entry_h_accepted val) with true; [done|].
  unfold entry_h_accepted. cbv zeta. unfold val.
  rewrite entry_h_view_bytes by done.
  cbn [is_packet has_optout eh_rank].
  rewrite E0, E1, Hb. cbn [negb orb andb]. rewrite ?andb_true_r.
  rewrite entry_bytes_len.
  pose proof (len_nonneg payload).
  by destruct (Z.leb_spec ENTRY_H_DATA (ENTRY_H_DATA + len payload)); [|lia].
Qed.

(** [found_exact_hit] on a value in which [entry_h_seek] finds the entry
    of a record set that is fresh and of a rank at or above the floor. *)
Lemma found_exact_hit_seek (keep_old : entry_h -> Z -> Z -> bool)
    (other : cache_impl store) (ctx : kr_layer_t store) (pkt : knot_pkt_t)
    (qry : kr_query) (rr : knot_rrset_t) (rr_sigs : option knot_rrset_t)
    (V : list Z) (time ttl rank fl lowest_rank : Z) :
  sname qry = owner rr -> stype qry = rr_type rr ->
  rclass rr = KNOT_CLASS_IN ->
  storable (rrs rr) ->
  match rr_sigs with Some s => storable (rrs s) | None => True end ->
  entry_h_seek_spec V (rr_type rr)
  = (0, entry_bytes time ttl rank fl (rr_payload rr rr_sigs)) ->
  Z.testbit fl 0 = false -> Z.testbit fl 1 = false ->
  Int.in_u32 time -> 0 <= ttl < 2 ^ 31 ->
  kr_rank_test rank KR_RANK_BOGUS = false ->
  lowest_rank <= rank ->
  - 2 ^ 31 <= Int.u32 (timestamp qry) - time < 2 ^ 31 ->
  Z.max 0 (Int.u32 (timestamp qry) - time) <= ttl ->
  exists qry',
    @found_exact_hit _ H R (spec_impl keep_old other) ctx qry pkt V lowest_rank
    = (0, qry',
       answer_pkt rr (default [] (rrs <$> rr_sigs))
         (ttl - Z.max 0 (Int.u32 (timestamp qry) - time))).
Proof.
  intros Hn Ht Hcl Hsr Hss Hseek Hb0 Hb1 Htime Httl Hbog Hrank Hd Hfresh.
  assert (Hss' : match rrs <$> rr_sigs with Some s => storable s | None => True end)
    by (by destruct rr_sigs).
  assert (Httl' : Int.in_u32 ttl) by (unfold Int.in_u32; lia).
  unfold found_exact_hit. cbn [entry_h_seek spec_impl]. rewrite Ht, Hseek.
  unfold rr_payload.
  change (0 =? 0) with true. cbn [negb].
  rewrite entry_h_consistent_entry by done.
  rewrite entry_h_view_bytes by done.
  set (new_ttl := ttl - Z.max 0 (Int.u32 (timestamp qry) - time)).
  rewrite get_new_ttl_fresh by done. cbn [eh_ttl eh_time eh_rank is_packet].
  fold new_ttl.
  assert (Hnew : 0 <= new_ttl < 2 ^ 31) by (unfold new_ttl; lia).
  destruct (Z.ltb_spec new_ttl 0); [lia|].
  destruct (Z.ltb_spec rank lowest_rank); [lia|]. cbn [orb].
  rewrite Hb0.
  unfold answer_simple_hit.
  cbn [pkt_renew entry2answer pkt_append is_expiring spec_impl].
  unfold pkt_renew_spec. change (0 <? 0) with false. cbv iota.
  unfold entry2answer_spec. rewrite entry_h_view_bytes by done.
  cbn [eh_data eh_rank eh_ttl].
  assert (Hu : Int.u32 new_ttl = new_ttl) by (apply u32_id; unfold Int.in_u32; lia).
  rewrite Hu.
  destruct (payload_materialize (rrs rr) (rrs <$> rr_sigs) new_ttl Hsr Hss') as [-> ->].
  change (0 <? 0) with false. cbv iota.
  eexists. unfold pkt_append_spec, slot, answer_zero, answer_pkt. cbn.
  rewrite Hn, Ht, Hcl. reflexivity.
Qed.

(** A peek for the name and the type of a record set whose entry
    [entry_h_seek] finds in the value under the key: when the entry is
    fresh and its rank is at or above the floor, the answer is the record
    set with the residual TTL. *)
Lemma cache_peek_seek (keep_old : entry_h -> Z -> Z -> bool) (other : cache_impl store)
    (ctx : kr_layer_t store) (pkt : knot_pkt_t) (qry : kr_query)
    (rr : knot_rrset_t) (rr_sigs : option knot_rrset_t) (V : list Z)
    (time ttl rank fl : Z) (ls : list (list Z)) :
  current_query (ctx_req ctx) = Some qry ->
  api (ctx_cache (req_ctx (ctx_req ctx))) = cdb_map ->
  db (ctx_cache (req_ctx (ctx_req ctx))) !! exact_key (owner rr) (rr_type rr) = Some V ->
  entry_h_seek_spec V (rr_type rr)
  = (0, entry_bytes time ttl rank fl (rr_payload rr rr_sigs)) ->
  Z.testbit fl 0 = false -> Z.testbit fl 1 = false ->
  sname qry = owner rr -> stype qry = rr_type rr -> sclass qry = KNOT_CLASS_IN ->
  Z.land (state ctx) (Z.lor KR_STATE_FAIL KR_STATE_DONE) = 0 ->
  NO_CACHE (flags qry) = false -> CACHE_TRIED (flags qry) = false ->
  owner rr = dname_of_labels ls -> wf_labels ls ->
  check_dname_for_lf (owner rr) = true -> rclass rr = KNOT_CLASS_IN ->
  check_rrtype (rr_type rr) = true -> rr_type rr <> KNOT_RRTYPE_NSEC ->
  storable (rrs rr) ->
  match rr_sigs with Some s => storable (rrs s) | None => True end ->
  Int.in_u32 time -> 0 <= ttl < 2 ^ 31 ->
  kr_rank_test rank KR_RANK_BOGUS = false ->
  @get_lowest_rank _ R (spec_impl keep_old other) (ctx_req ctx) qry <= rank ->
  - 2 ^ 31 <= Int.u32 (timestamp qry) - time < 2 ^ 31 ->
  Z.max 0 (Int.u32 (timestamp qry) - time) <= ttl ->
  exists ctx',
    @cache_peek _ H R (spec_impl keep_old other) ctx pkt
    = (KR_STATE_DONE, ctx',
       answer_pkt rr (default [] (rrs <$> rr_sigs))
         (ttl - Z.max 0 (Int.u32 (timestamp qry) - time))).
Proof.
  intros Hq Ha Hdb Hseek Hb0 Hb1 Hn Ht Hc Hst Hnc Htr Ho Hwf Hlf Hcl Hty Hns Hsr Hss
    Htime Httl Hbog Hrank Hd Hfresh.
  unfold cache_peek. rewrite Hq, Hst, Hnc, Htr, Hc, Ht, Hty.
  change (0 =? 0) with true. change (KNOT_CLASS_IN =? KNOT_CLASS_IN) with true.
  cbn [negb orb andb].
  unfold cache_peek_real.
  cbn [stype sname timestamp set_CACHE_TRIED set_flags].
  rewrite Ht, Hn, Hlf.
  destruct (Z.eqb_spec (rr_type rr) KNOT_RRTYPE_NSEC) as [|_]; [done|].
  cbn [negb kr_dname_lf spec_impl].
  pose proof Hdb as Hdb'. unfold exact_key in Hdb'.
  rewrite Ho in Hdb' |- *. rewrite kr_dname_lf_spec_labels in Hdb' |- * by done.
  change (0 =? 0) with true. cbn [negb].
  destruct (key_exact_type_maypkt _ (rr_type rr)) as [key k] eqn:Ekey.
  cbn [fst] in Hdb'.
  unfold cache_op_read. rewrite Ha. cbn [cdb_read cdb_map]. rewrite Hdb'.
  change (0 =? 0) with true. cbv iota.
  rewrite get_lowest_rank_tried.
  destruct (found_exact_hit_seek keep_old other ctx pkt (set_CACHE_TRIED qry) rr
              rr_sigs V time ttl rank fl
              (@get_lowest_rank _ R (spec_impl keep_old other) (ctx_req ctx) qry))
    as [qry' Ehit]; try done.
  cbn [timestamp set_CACHE_TRIED set_flags] in Ehit.
  fold (set_CACHE_TRIED qry) in Ehit. rewrite Ehit.
  change (0 =? 0) with true. cbn [negb andb].
  destruct (kr_cache_sync _) as [? cache']. by eexists.
Qed.

End PeekSeek.

(** ** Round trip: stash, then peek *)

Lemma u8_id z : 0 <= z < 2 ^ 8 -> Int.u8 z = z.
Proof. intros Hz. unfold Int.u8. by apply Z.mod_small. Qed.

Section RoundTrip.
Context {H : host} {R : kr_rank_enc}.

(** C1, as amended.  Let R be a cacheable record set (class IN, a type
    that [check_rrtype] accepts other than NSEC and NSEC3, a well-formed
    owner without zero octets, a count of records and lengths of RDATA
    that fit 16 bits, not the expansion of a wildcard), with or without
    signatures, of a rank in 0..255 that is not BOGUS.  R is
    stashed at time [now] into a cache over the map backend whose TTL
    bounds lie in 0..2^31-1, whatever octets the cache holds under the key
    of R: nothing, an older entry for R, or, under an NS key, the entries
    of the other types kept there.  [stash_rrset] returns 0, having
    written nothing, or the length of the entry it wrote; it writes when
    nothing is under the key, and also when the policy of [entry_h_splice]
    keeps no entry.  Whenever it writes, a peek for the owner and the type
    of R at the same time [now], by a query of class IN in a state that is
    neither FAIL nor DONE, with NO_CACHE and CACHE_TRIED clear and a rank
    floor not above the rank of R, returns DONE and answers with R (and
    its signatures), every record with the TTL
    [max (min ttl ttl_max) ttl_min], where [ttl] is the least TTL of R and
    its signatures; that is the TTL of R when it lies within the bounds. *)
Theorem stash_peek_roundtrip (keep_old : entry_h -> Z -> Z -> bool)
    (other : cache_impl store) (c : kr_cache store) (qs : option kr_query)
    (rr : knot_rrset_t) (rr_sigs : option knot_rrset_t) (now rank : Z)
    (ls : list (list Z)) (ctx : kr_layer_t store) (pkt : knot_pkt_t) (qry : kr_query) :
  api c = cdb_map ->
  0 <= ttl_min c < 2 ^ 31 -> 0 <= ttl_max c < 2 ^ 31 ->
  (forall v : list Z,
     db c !! exact_key (owner rr) (rr_type rr) = Some v -> Forall Bytes.is_byte v) ->
  owner rr = dname_of_labels ls -> wf_labels ls ->
  check_dname_for_lf (owner rr) = true -> rclass rr = KNOT_CLASS_IN ->
  check_rrtype (rr_type rr) = true ->
  rr_type rr <> KNOT_RRTYPE_NSEC -> rr_type rr <> KNOT_RRTYPE_NSEC3 ->
  storable (rrs rr) ->
  match rr_sigs with Some s => storable (rrs s) | None => True end ->
  not_wildcard rr rr_sigs ->
  0 <= rank < 2 ^ 8 -> kr_rank_test rank KR_RANK_BOGUS = false ->
  ctx_cache (req_ctx (ctx_req ctx))
  = snd (@stash_rrset _ H R (spec_impl keep_old other) c qs rr rr_sigs now rank) ->
  current_query (ctx_req ctx) = Some qry ->
  sname qry = owner rr -> stype qry = rr_type rr -> sclass qry = KNOT_CLASS_IN ->
  timestamp qry = now ->
  Z.land (state ctx) (Z.lor KR_STATE_FAIL KR_STATE_DONE) = 0 ->
  NO_CACHE (flags qry) = false -> CACHE_TRIED (flags qry) = false ->
  @get_lowest_rank _ R (spec_impl keep_old other) (ctx_req ctx) qry <= rank ->
  let written :=
    fst (@stash_rrset _ H R (spec_impl keep_old other) c qs rr rr_sigs now rank) in
  let new_ttl := clamp_ttl c (rrset_ttl rr rr_sigs) in
  (written = 0 \/ written = ENTRY_H_DATA + len (rr_payload rr rr_sigs))
  /\ (db c !! exact_key (owner rr) (rr_type rr) = None
      \/ (forall (eh : entry_h) (r t : Z), keep_old eh r t = false) ->
      written = ENTRY_H_DATA + len (rr_payload rr rr_sigs))
  /\ (written <> 0 ->
      exists ctx',
        @cache_peek _ H R (spec_impl keep_old other) ctx pkt
        = (KR_STATE_DONE, ctx', answer_pkt rr (default [] (rrs <$> rr_sigs)) new_ttl))
  /\ (ttl_min c <= rrset_ttl rr rr_sigs <= ttl_max c -> new_ttl = rrset_ttl rr rr_sigs).
Proof.
  intros Ha Hmin Hmax Hbytes Ho Hwf Hlf Hcl Hty Hns Hn3 Hsr Hss Hw Hrank Hbog Hctx Hq
    Hn Ht Hc Hnow Hst Hnc Htr Hfloor written new_ttl.
  pose proof (check_rrtype_not_RRSIG _ Hty) as Hsig.
  destruct (stash_rrset_over keep_old other c qs rr rr_sigs now rank ls
              Ha Hmin Hmax Hbytes Ho Hwf Hsig Hns Hn3 Hsr Hss Hw)
    as (Hret & Hwr & Hst').
  fold written in Hret, Hwr, Hst'.
  split; [exact Hret|]. split.
  { intros Hc'. specialize (Hwr Hc'). by destruct Hret. }
  split.
  2:{ unfold new_ttl, clamp_ttl. lia. }
  intros Hne. destruct (Hst' Hne) as (Ha' & V & fl & Hdb & Hseek & Hb0 & Hb1).
  assert (Hnew : 0 <= new_ttl < 2 ^ 31) by (unfold new_ttl, clamp_ttl; lia).
  assert (Hd : Int.u32 (timestamp qry) - Int.u32 now = 0) by (rewrite Hnow; lia).
  rewrite (u8_id rank) in Hseek by done.
  destruct (cache_peek_seek keep_old other ctx pkt qry rr rr_sigs V (Int.u32 now)
              new_ttl rank fl ls) as [ctx' E]; try done.
  - by rewrite Hctx.
  - by rewrite Hctx.
  - apply u32_range.
  - rewrite Hd. lia.
  - rewrite Hd. lia.
  - exists ctx'. rewrite E, Hd. do 2 f_equal. lia.
Qed.

End RoundTrip.

Lemma wf_labels_ex_name :
  wf_labels [[101; 120; 97; 109; 112; 108; 101]; [99; 111; 109]].
Proof.
  split; [|vm_compute; discriminate].
  repeat constructor; unfold Bytes.is_byte; simpl; lia.
Qed.

Lemma storable_ex (ttl : Z) (rdata : list Z) :
  len rdata < 2 ^ 16 -> storable [{| rd_ttl := ttl; rd_data := rdata |}].
Proof. intros Hl. split; [vm_compute; reflexivity|]. by repeat constructor. Qed.

(** An overwrite: example.com. 600 IN A 192.0.2.7 of rank SECURE|AUTH is
    stashed at time 200 over the entry that [ex_cache_a] holds under the
    same key, and the peek at time 200 answers with it. *)
Lemma stash_peek_roundtrip_witness :
  is_Some (db ex_cache_a !! @exact_key little_endian_host ex_name 1)
  /\ exists ctx',
       @cache_peek _ little_endian_host spec_ranks ex_impl
         (ex_ctx (snd (@stash_rrset _ little_endian_host spec_ranks ex_impl ex_cache_a
                         None (ex_rrset 1 600 [192; 0; 2; 7]) None 200 6))
                 (ex_query 1 200))
         ex_pkt
       = (KR_STATE_DONE, ctx', answer_pkt (ex_rrset 1 600 [192; 0; 2; 7]) [] 600).
Proof.
  split; [vm_compute; eauto|].
  assert (Hmin : 0 <= ttl_min ex_cache_a < 2 ^ 31) by (vm_compute; split; [discriminate|reflexivity]).
  assert (Hmax : 0 <= ttl_max ex_cache_a < 2 ^ 31) by (vm_compute; split; [discriminate|reflexivity]).
  assert (Hold : forall v : list Z,
            db ex_cache_a
              !! @exact_key little_endian_host (owner (ex_rrset 1 600 [192; 0; 2; 7]))
                   (rr_type (ex_rrset 1 600 [192; 0; 2; 7])) = Some v ->
            Forall Bytes.is_byte v).
  { intros v Hv. vm_compute in Hv. injection Hv as <-.
    repeat constructor; unfold Bytes.is_byte; lia. }
  assert (Hns : rr_type (ex_rrset 1 600 [192; 0; 2; 7]) <> KNOT_RRTYPE_NSEC)
    by discriminate.
  assert (Hn3 : rr_type (ex_rrset 1 600 [192; 0; 2; 7]) <> KNOT_RRTYPE_NSEC3)
    by discriminate.
  assert (Hst : storable (rrs (ex_rrset 1 600 [192; 0; 2; 7])))
    by (apply storable_ex; vm_compute; reflexivity).
  assert (Hrank : 0 <= 6 < 2 ^ 8) by lia.
  assert (Hfloor : @get_lowest_rank _ spec_ranks ex_impl
                     (ctx_req (ex_ctx (snd (@stash_rrset _ little_endian_host
                        spec_ranks ex_impl ex_cache_a None
                        (ex_rrset 1 600 [192; 0; 2; 7]) None 200 6)) (ex_query 1 200)))
                     (ex_query 1 200) <= 6)
    by (vm_compute; discriminate).
  assert (Hwr : fst (@stash_rrset _ little_endian_host spec_ranks ex_impl ex_cache_a
                       None (ex_rrset 1 600 [192; 0; 2; 7]) None 200 6) <> 0)
    by (vm_compute; discriminate).
  exact (proj1 (proj2 (proj2
    (@stash_peek_roundtrip little_endian_host spec_ranks (fun _ _ _ => false) null_impl
       ex_cache_a None (ex_rrset 1 600 [192; 0; 2; 7]) None 200 6
       [[101; 120; 97; 109; 112; 108; 101]; [99; 111; 109]]
       (ex_ctx (snd (@stash_rrset _ little_endian_host spec_ranks ex_impl ex_cache_a
                       None (ex_rrset 1 600 [192; 0; 2; 7]) None 200 6))
               (ex_query 1 200))
       ex_pkt (ex_query 1 200)
       eq_refl Hmin Hmax Hold eq_refl wf_labels_ex_name eq_refl eq_refl eq_refl
       Hns Hn3 Hst I I Hrank eq_refl eq_refl eq_refl eq_refl eq_refl eq_refl eq_refl
       eq_refl eq_refl eq_refl Hfloor))) Hwr).
Defined.

(** C1, as stated, fails.  example.com. 1 IN A 192.0.2.1 of rank
    SECURE|AUTH is stashed at time 100 into the empty cache whose least TTL
    is 5 seconds; the peek at time 100 answers with the record, and its
    TTL is 5, not the 1 of the record stashed. *)
Lemma stash_peek_counterexample :
  (fun r => (fst (fst r), pkt_rr (snd r)))
    (@cache_peek _ little_endian_host spec_ranks ex_impl
       (ex_ctx (snd (@stash_rrset _ little_endian_host spec_ranks ex_impl ex_cache None
                       (ex_rrset 1 1 [192; 0; 2; 1]) None 100 6))
               (ex_query 1 100))
       ex_pkt)
  = (KR_STATE_DONE, [(KNOT_ANSWER, ex_rrset 1 5 [192; 0; 2; 1])])
  /\ rrs (ex_rrset 1 1 [192; 0; 2; 1]) <> rrs (ex_rrset 1 5 [192; 0; 2; 1]).
Proof. split; [vm_compute; reflexivity|discriminate]. Qed.

(** ** Instances of the theorems above *)

Lemma cache_peek_NSEC_witness :
  exists (ctx' : kr_layer_t store) (qry' : kr_query),
    @cache_peek _ little_endian_host spec_ranks ex_impl
      (ex_ctx ex_cache (ex_query KNOT_RRTYPE_NSEC 100)) ex_pkt
    = (KR_STATE_PRODUCE, ctx', ex_pkt)
    /\ oplog (ctx_cache (req_ctx (ctx_req ctx'))) = [EvSync]
    /\ current_query (ctx_req ctx') = Some qry'
    /\ CACHE_TRIED (flags qry') = true.
Proof.
  destruct (@cache_peek_NSEC _ little_endian_host spec_ranks ex_impl
              (ex_ctx ex_cache (ex_query KNOT_RRTYPE_NSEC 100)) ex_pkt
              (ex_query KNOT_RRTYPE_NSEC 100) eq_refl eq_refl)
    as (ctx' & E & _ & _ & Hq).
  vm_compute in Hq. destruct Hq as (qry' & Hc & Ht & _).
  exists ctx', qry'. split; [exact E|].
  vm_compute in E. injection E as <-. split; [reflexivity|]. split; [exact Hc|exact Ht].
Defined.

Lemma zero_in_label_C10_owner : zero_in_label C10_owner.
Proof.
  exists [[97; 0; 98]]. split; [reflexivity|]. split.
  - repeat constructor; unfold Bytes.is_byte; simpl; lia.
  - constructor. simpl. tauto.
Qed.

Lemma kr_cache_insert_rr_refused_witness :
  zero_in_label (owner C10_rrset)
  /\ @kr_cache_insert_rr _ little_endian_host spec_ranks ex_impl ex_cache
       (Some C10_rrset) None 6 100 = (kr_ok, ex_cache).
Proof.
  refine (conj zero_in_label_C10_owner _).
  apply (@kr_cache_insert_rr_refused _ little_endian_host spec_ranks ex_impl ex_cache
           (Some C10_rrset) None 6 100).
  right. exists C10_rrset. split; [reflexivity|].
  right. right. right. right. exact zero_in_label_C10_owner.
Defined.

(** An error inside the stash that the caller does not see: the record
    of the answer section has the class CH, [stash_rrarray_entry] fails
    with EINVAL, and [cache_stash] returns the state all the same. *)

Example cache_stash_swallows_error :
  fst (fst (fst (@stash_rrarray_entry _ little_endian_host spec_ranks ex_impl
                   (answ_selected (ctx_req C8_ctx)) 0 (ex_query 1 100) ex_cache 0)))
  = - EINVAL
  /\ fst (@cache_stash _ little_endian_host spec_ranks ex_impl C8_ctx ex_pkt)
     = KR_STATE_DONE.
Proof. split; vm_compute; reflexivity. Qed.

(** ** Direct access: [kr_cache_peek_exact] *)

Lemma kr_error_nonpos x : kr_error x <= 0.
Proof. unfold kr_error. destruct (Z.leb_spec x 0); lia. Qed.

Lemma kr_error_neg x : x <> 0 -> kr_error x < 0.
Proof. unfold kr_error. destruct (Z.leb_spec x 0); lia. Qed.

Section PeekExactFacts.
Context {DB : Type} {H : host} {R : kr_rank_enc} {I : cache_impl DB}.

Lemma cache_op_read_frame (c : kr_cache DB) (key : list Z) :
  let c' := snd (cache_op_read c key) in
  db c' = db c /\ api c' = api c /\ stats c' = stats c
  /\ ttl_min c' = ttl_min c /\ ttl_max c' = ttl_max c
  /\ oplog c' = oplog c ++ [EvRead key].
Proof. unfold cache_op_read. by destruct (cdb_read _ _ _). Qed.

(** [kr_cache_peek_exact] only reads.  Whatever the backend and the rest
    of the cache do, the store, the statistics and the TTL bounds are as
    before and the backend was asked for one read at most.  The code is 0
    or negative; when it is negative [*peek] is untouched, and when it is 0
    [*peek] describes an entry that [entry_h_consistent] accepts and that
    is not a packet, with the time, TTL and rank of its header. *)
Theorem kr_cache_peek_exact_reads_only (cache : kr_cache DB) (name : knot_dname_t)
    (type : Z) (peek : kr_cache_p) :
  let '(ret, peek', cache') := kr_cache_peek_exact cache name type peek in
  (db cache' = db cache /\ api cache' = api cache /\ stats cache' = stats cache
   /\ ttl_min cache' = ttl_min cache /\ ttl_max cache' = ttl_max cache)
  /\ (oplog cache' = oplog cache
      \/ exists key, oplog cache' = oplog cache ++ [EvRead key])
  /\ ret <= 0
  /\ (ret < 0 -> peek' = peek)
  /\ (ret = 0 ->
      let eh := entry_h_view (raw peek') in
      entry_h_consistent (raw peek') type = Some eh
      /\ is_packet eh = false
      /\ p_time peek' = eh_time eh /\ p_ttl peek' = eh_ttl eh
      /\ p_rank peek' = eh_rank eh).
Proof.
  unfold kr_cache_peek_exact, peek_exact_real.
  assert (Hno : kr_error ENOTSUP < 0 /\ kr_error ENOENT < 0) by (by vm_compute).
  destruct Hno as [Hsup Hent].
  destruct (negb (check_rrtype type) || negb (check_dname_for_lf name)).
  { repeat split; auto; lia. }
  destruct (kr_dname_lf _ _ _) as [ret b].
  destruct (Z.eqb_spec ret 0) as [->|Hret]; cbn [negb].
  2:{ pose proof (kr_error_neg ret Hret). repeat split; auto; lia. }
  destruct (key_exact_type _ _) as [key k].
  pose proof (cache_op_read_frame cache key) as Hfr.
  destruct (cache_op_read cache key) as [[ret val] cache']. cbn [snd] in Hfr.
  destruct Hfr as (Hdb & Hapi & Hst & Hmin & Hmax & Hlog).
  assert (Hframe :
    (db cache' = db cache /\ api cache' = api cache /\ stats cache' = stats cache
     /\ ttl_min cache' = ttl_min cache /\ ttl_max cache' = ttl_max cache)
    /\ (oplog cache' = oplog cache
        \/ exists key, oplog cache' = oplog cache ++ [EvRead key])).
  { split; [done|]. right. by exists key. }
  destruct Hframe as [Hf1 Hf2].
  destruct (if ret =? 0 then entry_h_seek val type else (ret, val)) as [ret' val'].
  destruct (Z.eqb_spec ret' 0) as [->|Hret']; cbn [negb].
  2:{ pose proof (kr_error_neg ret' Hret'). repeat split; auto; try tauto; lia. }
  destruct (entry_h_consistent val' type) as [eh|] eqn:Eeh.
  2:{ repeat split; auto; try tauto; lia. }
  destruct (is_packet eh) eqn:Epk.
  { repeat split; auto; try tauto; lia. }
  pose proof (entry_h_consistent_view _ _ _ Eeh) as ->.
  split; [done|]. split; [done|]. split; [by vm_compute|].
  split; [intros Hlt; by vm_compute in Hlt|]. intros _. cbn [raw p_time p_ttl p_rank].
  done.
Qed.

End PeekExactFacts.

Section PeekExactRefusals.
Context {DB : Type} {H : host} {R : kr_rank_enc} {I : cache_impl DB}.

(** [kr_cache_peek_exact] refuses a metatype, the type RRSIG and a name
    with a zero octet inside a label: the code is -ENOTSUP, [*peek] is
    untouched and the backend is not asked anything. *)
Theorem kr_cache_peek_exact_refuses (cache : kr_cache DB) (name : knot_dname_t)
    (type : Z) (peek : kr_cache_p) :
  knot_rrtype_is_metatype type = true \/ type = KNOT_RRTYPE_RRSIG
  \/ zero_in_label name ->
  kr_cache_peek_exact cache name type peek = (- ENOTSUP, peek, cache).
Proof.
  intros Hr. unfold kr_cache_peek_exact, peek_exact_real.
  replace (negb (check_rrtype type) || negb (check_dname_for_lf name)) with true; [done|].
  symmetry. unfold check_rrtype. destruct Hr as [E|[->|Hz]].
  - by rewrite E.
  - by rewrite Z.eqb_refl, andb_false_r.
  - rewrite (check_dname_for_lf_zero _ Hz). by rewrite orb_true_r.
Qed.

End PeekExactRefusals.

Lemma kr_cache_peek_exact_refuses_witness :
  zero_in_label C10_owner
  /\ @kr_cache_peek_exact _ little_endian_host spec_ranks ex_impl ex_cache C10_owner 1
       {| p_time := 0; p_ttl := 0; p_rank := 0; raw := [] |}
     = (- ENOTSUP, {| p_time := 0; p_ttl := 0; p_rank := 0; raw := [] |}, ex_cache).
Proof.
  refine (conj zero_in_label_C10_owner _).
  apply (@kr_cache_peek_exact_refuses _ little_endian_host spec_ranks ex_impl ex_cache
           C10_owner 1).
  right. right. exact zero_in_label_C10_owner.
Defined.

(** ** Names that the cache accepts: [check_dname_for_lf] *)

Lemma strlen_no_zero (a b : list Z) :
  Forall (fun c => c <> 0) a -> strlen (a ++ 0 :: b) = len a.
Proof.
  induction 1 as [|c a Hc _ IH]; [done|].
  simpl. rewrite len_cons, IH. by destruct (Z.eqb_spec c 0).
Qed.

Lemma labels_no_zero (ls : list (list Z)) :
  Forall wf_label ls -> Forall (fun l => ~ In 0 l) ls ->
  Forall (fun c => c <> 0) (concat (map (fun l => Z.of_nat (length l) :: l) ls)).
Proof.
  intros Hwf Hz. induction ls as [|l ls IH]; [constructor|].
  inversion Hwf as [|? ? [Hl _] Hwf']; inversion Hz as [|? ? Hl0 Hz']; subst.
  simpl. constructor; [lia|]. apply Forall_app. split; [|by apply IH].
  apply Forall_forall. intros c Hc ->. apply Hl0. by apply list_elem_of_In.
Qed.

(** [check_dname_for_lf] accepts a name with well-formed labels exactly
    when no label holds a zero octet. *)
Theorem check_dname_for_lf_iff (ls : list (list Z)) :
  Forall wf_label ls ->
  check_dname_for_lf (dname_of_labels ls) = true
  <-> Forall (fun l => ~ In 0 l) ls.
Proof.
  intros Hwf. split.
  - intros Hc. apply Forall_forall. intros l Hl H0.
    rewrite check_dname_for_lf_zero in Hc; [done|].
    exists ls. split; [done|]. split; [done|].
    apply Exists_exists. by exists l.
  - intros Hz. unfold check_dname_for_lf.
    rewrite knot_dname_size_labels by done.
    unfold dname_of_labels at 2.
    rewrite (strlen_no_zero _ []) by (by apply labels_no_zero).
    unfold dname_of_labels. rewrite len_app. change (len [0]) with 1.
    by apply Z.eqb_eq.
Qed.

Lemma check_dname_for_lf_iff_witness :
  Forall wf_label C2_com /\ check_dname_for_lf (dname_of_labels C2_com) = true.
Proof.
  assert (Hwf : Forall wf_label C2_com) by exact (proj1 wf_labels_C2_com).
  refine (conj Hwf _).
  apply (proj2 (check_dname_for_lf_iff C2_com Hwf)).
  repeat constructor; simpl; lia.
Defined.

(** ** The life cycle over the map backend: open, reopen, clear *)

Section LifecycleFacts.
Context {H : host}.

(** The version check over an empty store: one read, one count, the write
    of the version and one sync; nothing is cleared. *)
Lemma assert_right_version_empty (c : kr_cache store) :
  api c = cdb_map -> db c = ∅ ->
  assert_right_version c
  = (0, {| db := {[ version_key := version_val ]}; api := cdb_map; stats := stats c;
           ttl_min := ttl_min c; ttl_max := ttl_max c;
           oplog := oplog c ++ [EvRead version_key; EvCount;
                                EvWrite version_key version_val; EvSync] |}).
Proof.
  destruct c as [d a st tmin tmax log]. cbn [api db]. intros -> ->.
  unfold assert_right_version, cache_op_read. cbn [cdb_read cdb_map api db].
  rewrite lookup_empty. change (- ENOENT =? 0) with false. cbn [andb].
  unfold cache_op_count, cache_op_write, kr_cache_sync.
  cbn [set_db db api stats ttl_min ttl_max oplog cdb_count cdb_write cdb_sync cdb_map].
  rewrite map_size_empty. change (Z.of_nat 0 =? 0) with true.
  cbn [negb Z.eqb Z.of_nat set_db db api stats ttl_min ttl_max oplog cdb_count
       cdb_write cdb_sync cdb_map default].
  rewrite insert_empty. change (Z.of_nat 0 =? 0) with true.
  cbn [set_db db api stats ttl_min ttl_max oplog cdb_sync cdb_map id].
  unfold version_val, set_db. cbn [db api stats ttl_min ttl_max oplog].
  by rewrite <- !app_assoc.
Qed.

(** The first open of a store that holds nothing: the version is written
    (read, count, write, sync; no clear), the counters are zero and the TTL
    bounds are the defaults, 5 seconds and 6 days. *)
Theorem kr_cache_open_empty :
  kr_cache_open cdb_map ∅
  = (0, Some {| db := {[ version_key := version_val ]}; api := cdb_map;
                stats := {| stat_hit := 0; stat_miss := 0;
                            stat_insert := 0; stat_delete := 0 |};
                ttl_min := 5; ttl_max := 518400;
                oplog := [EvRead version_key; EvCount;
                          EvWrite version_key version_val; EvSync] |}).
Proof.
  unfold kr_cache_open. cbn [cdb_open cdb_map Z.eqb negb].
  by rewrite assert_right_version_empty.
Qed.

(** Opening a store that carries the current version keeps every entry:
    the store after the open is the store given, and the backend was asked
    for the read of the version key and a sync, no count, clear or
    write. *)
Theorem kr_cache_open_keeps (d : store) :
  d !! version_key = Some version_val ->
  exists c,
    kr_cache_open cdb_map d = (0, Some c)
    /\ db c = d
    /\ oplog c = [EvRead version_key; EvSync].
Proof.
  intros Hv. unfold kr_cache_open. cbn [cdb_open cdb_map Z.eqb negb].
  set (c0 := {| db := d |}).
  destruct (assert_right_version_match c0 eq_refl Hv) as (c' & E & Hdb & Hlog).
  rewrite E. by exists c'.
Qed.

(** [kr_cache_clear] over the map backend, as an equation. *)
Lemma kr_cache_clear_eq (c : kr_cache store) :
  api c = cdb_map ->
  kr_cache_clear c
  = (0, {| db := {[ version_key := version_val ]}; api := cdb_map;
           stats := {| stat_hit := stat_hit (stats c); stat_miss := stat_miss (stats c);
                       stat_insert := stat_insert (stats c);
                       stat_delete := Int.u32 (stat_delete (stats c) + 1) |};
           ttl_min := ttl_min c; ttl_max := ttl_max c;
           oplog := oplog c ++ [EvClear; EvRead version_key; EvCount;
                                EvWrite version_key version_val; EvSync] |}).
Proof.
  destruct c as [d a st tmin tmax log]. cbn [api]. intros ->.
  unfold kr_cache_clear, cache_clear, cache_op_clear.
  cbn [set_stats set_db db api stats ttl_min ttl_max oplog cdb_clear cdb_map Z.eqb].
  rewrite assert_right_version_empty by done.
  unfold set_db, set_stats. cbn [db api stats ttl_min ttl_max oplog].
  by rewrite <- app_assoc.
Qed.

(** [kr_cache_clear] over the map backend returns 0 and leaves the version
    entry and nothing else, whatever the store held.  The backend saw the
    clear, the read of the version key, a count, the write of the version
    and a sync; the counter of deletions went up by one (modulo 2^32) and
    the other counters and the TTL bounds are as before. *)
Theorem kr_cache_clear_map (c : kr_cache store) :
  api c = cdb_map ->
  let c' := snd (kr_cache_clear c) in
  fst (kr_cache_clear c) = 0
  /\ db c' !! version_key = Some version_val
  /\ (forall k, k <> version_key -> db c' !! k = None)
  /\ oplog c' = oplog c ++ [EvClear; EvRead version_key; EvCount;
                            EvWrite version_key version_val; EvSync]
  /\ stat_delete (stats c') = Int.u32 (stat_delete (stats c) + 1)
  /\ stat_insert (stats c') = stat_insert (stats c)
  /\ stat_hit (stats c') = stat_hit (stats c)
  /\ stat_miss (stats c') = stat_miss (stats c)
  /\ ttl_min c' = ttl_min c /\ ttl_max c' = ttl_max c.
Proof.
  intros Ha c'. unfold c'. rewrite (kr_cache_clear_eq c Ha).
  cbn [fst snd db stats oplog ttl_min ttl_max stat_delete stat_insert stat_hit stat_miss].
  repeat split; try done; try apply lookup_singleton_eq.
  intros k Hk. by apply lookup_singleton_ne.
Qed.

End LifecycleFacts.

Lemma kr_cache_open_keeps_witness :
  ({[ version_key := [3; 0]; [1; 97; 0; 69; 1; 0] := [1; 2; 3] ]} : store) !! version_key
  = Some (@version_val little_endian_host)
  /\ (fun c => db c) <$> snd (@kr_cache_open _ little_endian_host cdb_map
                               {[ version_key := [3; 0]; [1; 97; 0; 69; 1; 0] := [1; 2; 3] ]})
     = Some {[ version_key := [3; 0]; [1; 97; 0; 69; 1; 0] := [1; 2; 3] ]}.
Proof.
  assert (H1 : ({[ version_key := [3; 0]; [1; 97; 0; 69; 1; 0] := [1; 2; 3] ]} : store)
               !! version_key = Some (@version_val little_endian_host))
    by (by vm_compute).
  refine (conj H1 _).
  destruct (@kr_cache_open_keeps little_endian_host _ H1) as (c & E & Hdb & _).
  rewrite E. simpl. by rewrite Hdb.
Defined.

Lemma kr_cache_clear_map_witness :
  api ex_cache_cname = cdb_map
  /\ fst (@kr_cache_clear _ little_endian_host ex_cache_cname) = 0
  /\ db (snd (@kr_cache_clear _ little_endian_host ex_cache_cname)) !! version_key
     = Some [3; 0]
  /\ db (snd (@kr_cache_clear _ little_endian_host ex_cache_cname))
       !! @exact_key little_endian_host ex_name KNOT_RRTYPE_CNAME = None.
Proof.
  assert (H1 : api ex_cache_cname = cdb_map) by reflexivity.
  refine (conj H1 _).
  destruct (@kr_cache_clear_map little_endian_host ex_cache_cname H1)
    as (E & Hv & Hk & _).
  refine (conj E (conj Hv _)). apply Hk. by vm_compute.
Defined.

(** ** The layout of the key: [key_exact_type_maypkt] *)

Section KeyLayout.
Context {H : host}.

Lemma slice_length (off n : Z) (l : list Z) :
  0 <= off -> 0 <= n -> off + n <= len l -> len (Bytes.slice off n l) = n.
Proof.
  intros Ho Hn Hl. unfold Bytes.slice, len in *.
  rewrite length_take, length_drop. lia.
Qed.

Lemma take_slice (n : Z) (l : list Z) :
  0 <= n -> n + 1 <= len l ->
  take (Z.to_nat (n + 1)) l = [Bytes.byte_at l 0] ++ Bytes.slice 1 n l.
Proof.
  intros Hn Hl. destruct l as [|x l]; [unfold len in Hl; simpl in Hl; lia|].
  unfold Bytes.slice, Bytes.byte_at. simpl.
  replace (Z.to_nat (n + 1)) with (S (Z.to_nat n)) by lia. simpl.
  by rewrite drop_0.
Qed.

(** [key_exact_type_maypkt] as an equation, for a buffer with room for the
    key. *)
Lemma key_exact_type_maypkt_eq (k : key) (type : Z) :
  0 <= Bytes.byte_at (buf k) 0 ->
  Bytes.byte_at (buf k) 0 + 5 <= len (buf k) ->
  type <> KNOT_RRTYPE_RRSIG ->
  key_exact_type_maypkt k type
  = (Bytes.slice 1 (Bytes.byte_at (buf k) 0) (buf k)
       ++ [0; 69] ++ host_bytes 2 (key_type type),
     {| zname := zname k; zlf_len := zlf_len k; k_type := key_type type;
        buf := take (Z.to_nat (Bytes.byte_at (buf k) 0 + 1)) (buf k)
               ++ [0; 69] ++ host_bytes 2 (key_type type)
               ++ drop (Z.to_nat (Bytes.byte_at (buf k) 0 + 5)) (buf k) |}).
Proof.
  intros Hn Hl Ht. unfold key_exact_type_maypkt.
  destruct (Z.eqb_spec type KNOT_RRTYPE_RRSIG) as [|_]; [done|].
  fold (key_type type).
  set (n := Bytes.byte_at (buf k) 0) in *.
  pose proof (host_bytes_length 2 (key_type type)) as Hh.
  set (hb := host_bytes 2 (key_type type)) in *.
  assert (Hhb : len hb = 2) by (unfold len; lia).
  rewrite !poke_as_poke_all.
  replace (n + 2) with (n + 1 + len [0]) by (change (len [0]) with 1; lia).
  rewrite <- poke_all_app.
  replace (n + 3) with (n + 1 + len ([0] ++ [69]))
    by (change (len ([0] ++ [69])) with 2; lia).
  rewrite <- poke_all_app.
  rewrite poke_all_spec; [|lia|].
  2:{ rewrite !len_app, Hhb. change (len [0]) with 1. change (len [69]) with 1. lia. }
  replace (n + 1 + len (([0] ++ [69]) ++ hb)) with (n + 5)
    by (rewrite !len_app, Hhb; change (len [0]) with 1; change (len [69]) with 1; lia).
  set (tail := drop (Z.to_nat (n + 5)) (buf k)).
  unfold set_k_type, set_buf. cbn [zname zlf_len k_type buf].
  f_equal.
  rewrite take_slice by lia.
    set (m := Bytes.slice 1 n (buf k) ++ [0; 69] ++ hb).
    assert (Hm : len m = n + 4).
    { unfold m. rewrite !len_app, Hhb, slice_length by lia.
      change (len [0; 69]) with 2. lia. }
    rewrite <- Hm.
    replace (([Bytes.byte_at (buf k) 0] ++ Bytes.slice 1 n (buf k))
             ++ (([0] ++ [69]) ++ hb) ++ tail)
      with ([Bytes.byte_at (buf k) 0] ++ m ++ tail)
      by (unfold m; simpl; by rewrite <- !app_assoc).
    change 1 with (len [Bytes.byte_at (buf k) 0]) at 1.
    apply slice_app_mid.
Qed.


(** CACHE_KEY_DEF.  For a buffer that holds a name of [n = buf[0]] octets
    in label format and has room for the five octets after it,
    [key_exact_type_maypkt] gives the key
    [dname_lf ++ 0 ++ 'E' ++ RRTYPE] of [n + 4] octets, the type in the
    byte order of the host and with CNAME and DNAME lumped into NS.  In
    [*k] that type is recorded, the zone fields are as before, and the
    buffer keeps its length and its name part. *)
Theorem key_exact_type_maypkt_layout (k : key) (type : Z) :
  0 <= Bytes.byte_at (buf k) 0 ->
  Bytes.byte_at (buf k) 0 + 5 <= len (buf k) ->
  type <> KNOT_RRTYPE_RRSIG ->
  let n := Bytes.byte_at (buf k) 0 in
  let key := fst (key_exact_type_maypkt k type) in
  let k' := snd (key_exact_type_maypkt k type) in
  key = Bytes.slice 1 n (buf k) ++ [0; 69] ++ host_bytes 2 (key_type type)
  /\ len key = n + 4
  /\ k_type k' = key_type type /\ zname k' = zname k /\ zlf_len k' = zlf_len k
  /\ len (buf k') = len (buf k)
  /\ take (Z.to_nat (n + 1)) (buf k') = take (Z.to_nat (n + 1)) (buf k).
Proof.
  intros Hn Hl Ht n key k'. unfold key, k'.
  rewrite (key_exact_type_maypkt_eq k type Hn Hl Ht).
  cbn [fst snd k_type zname zlf_len buf]. fold n.
  pose proof (host_bytes_length 2 (key_type type)) as Hh.
  assert (Hhb : len (host_bytes 2 (key_type type)) = 2) by (unfold len; lia).
  repeat split; try done.
  - rewrite !len_app, Hhb, slice_length by (unfold n; lia).
    change (len [0; 69]) with 2. lia.
  - rewrite !len_app, Hhb. change (len [0; 69]) with 2.
    unfold len in *. rewrite length_take, length_drop. lia.
  - rewrite take_app_le by (rewrite length_take; unfold len in *; lia).
    rewrite take_take. f_equal. lia.
Qed.

Lemma key_exact_type_maypkt_not_version (k : key) (type : Z) :
  0 <= Bytes.byte_at (buf k) 0 ->
  Bytes.byte_at (buf k) 0 + 5 <= len (buf k) ->
  fst (key_exact_type_maypkt k type) <> version_key.
Proof.
  intros Hn Hl.
  destruct (Z.eq_dec type KNOT_RRTYPE_RRSIG) as [->|Ht]; [done|].
  rewrite (key_exact_type_maypkt_eq k type Hn Hl Ht). cbn [fst]. intros Ev.
  pose proof (f_equal len Ev) as El.
  rewrite !len_app, slice_length in El by lia.
  unfold len at 1 2 3 in El. rewrite host_bytes_length in El. simpl in El.
  assert (E0 : Bytes.byte_at (buf k) 0 = 0) by lia.
  rewrite E0 in Ev. unfold Bytes.slice in Ev. simpl in Ev.
  by injection Ev.
Qed.

Lemma key_exact_type_key_not_version (k : key) (type : Z) :
  0 <= Bytes.byte_at (buf k) 0 ->
  Bytes.byte_at (buf k) 0 + 5 <= len (buf k) ->
  fst (key_exact_type k type) <> version_key.
Proof.
  intros Hn Hl. unfold key_exact_type.
  destruct (_ || _); [done|]. by apply key_exact_type_maypkt_not_version.
Qed.

(** No key of a record is the key of the version: whatever the label
    format in the buffer and whatever the type, the key that
    [key_exact_type_maypkt] or [key_exact_type] gives (the NULL key
    included) differs from [version_key]. *)
Theorem key_exact_type_not_version (k : key) (type : Z) :
  0 <= Bytes.byte_at (buf k) 0 ->
  Bytes.byte_at (buf k) 0 + 5 <= len (buf k) ->
  fst (key_exact_type_maypkt k type) <> version_key
  /\ fst (key_exact_type k type) <> version_key.
Proof.
  intros Hn Hl. split.
  - by apply key_exact_type_maypkt_not_version.
  - by apply key_exact_type_key_not_version.
Qed.

End KeyLayout.

Lemma key_exact_type_maypkt_layout_witness :
  0 <= Bytes.byte_at (buf (ex_key ex_name)) 0
  /\ Bytes.byte_at (buf (ex_key ex_name)) 0 + 5 <= len (buf (ex_key ex_name))
  /\ KNOT_RRTYPE_CNAME <> KNOT_RRTYPE_RRSIG
  /\ fst (@key_exact_type_maypkt little_endian_host (ex_key ex_name) KNOT_RRTYPE_CNAME)
     = Bytes.slice 1 12 (buf (ex_key ex_name)) ++ [0; 69] ++ [2; 0].
Proof.
  assert (H1 : 0 <= Bytes.byte_at (buf (ex_key ex_name)) 0) by (by vm_compute).
  assert (H2 : Bytes.byte_at (buf (ex_key ex_name)) 0 + 5 <= len (buf (ex_key ex_name)))
    by (by vm_compute).
  assert (H3 : KNOT_RRTYPE_CNAME <> KNOT_RRTYPE_RRSIG) by discriminate.
  refine (conj H1 (conj H2 (conj H3 _))).
  exact (proj1 (@key_exact_type_maypkt_layout little_endian_host (ex_key ex_name)
                  KNOT_RRTYPE_CNAME H1 H2 H3)).
Defined.

Lemma key_exact_type_not_version_witness :
  0 <= Bytes.byte_at (buf k_storage) 0
  /\ Bytes.byte_at (buf k_storage) 0 + 5 <= len (buf k_storage)
  /\ fst (@key_exact_type little_endian_host k_storage 1) <> version_key.
Proof.
  assert (H1 : 0 <= Bytes.byte_at (buf k_storage) 0) by (by vm_compute).
  assert (H2 : Bytes.byte_at (buf k_storage) 0 + 5 <= len (buf k_storage))
    by (by vm_compute).
  refine (conj H1 (conj H2 _)).
  exact (proj2 (@key_exact_type_not_version little_endian_host k_storage 1 H1 H2)).
Defined.

(** ** Peeking into a store that does not hold the entry *)

Lemma poke_all_fresh (lf : list Z) :
  len lf <= KNOT_DNAME_MAXLEN ->
  Bytes.poke_all 0 (len lf :: lf) (buf k_storage)
  = (len lf :: lf) ++ replicate (259 - length lf) 0.
Proof.
  intros Hlen. change KNOT_DNAME_MAXLEN with 255 in Hlen.
  change (buf k_storage) with (replicate 260 0).
  rewrite poke_all_spec; [|lia|].
  2:{ rewrite len_cons. unfold len in *. rewrite length_replicate. lia. }
  rewrite take_0. cbn [app]. do 2 f_equal.
  rewrite drop_replicate. f_equal. rewrite len_cons. unfold len in *. lia.
Qed.

(** What [kr_dname_lf] leaves in a fresh key buffer when it succeeds: the
    length of the label format, at most 255, in [buf[0]], and a buffer of
    260 octets. *)
Lemma kr_dname_lf_spec_buf (src : knot_dname_t) (w : bool) :
  fst (kr_dname_lf_spec (buf k_storage) src w) = 0 ->
  0 <= Bytes.byte_at (snd (kr_dname_lf_spec (buf k_storage) src w)) 0
  /\ Bytes.byte_at (snd (kr_dname_lf_spec (buf k_storage) src w)) 0 + 5
     <= len (snd (kr_dname_lf_spec (buf k_storage) src w)).
Proof.
  unfold kr_dname_lf_spec.
  set (lf := lf_of_labels _ ++ _).
  destruct (Z.gtb_spec (len lf) KNOT_DNAME_MAXLEN) as [|Hle]; [done|].
  intros _. cbn [snd]. rewrite poke_all_fresh by done.
  change KNOT_DNAME_MAXLEN with 255 in Hle. pose proof (len_nonneg lf).
  split; [by unfold Bytes.byte_at|].
  unfold Bytes.byte_at. cbn [Z.ltb Z.to_nat lookup]. simpl.
  rewrite len_cons, len_app. unfold len at 3. rewrite length_replicate.
  unfold len in *. lia.
Qed.

Section PeekMiss.
Context {H : host} {R : kr_rank_enc}.

(** A read over the map backend of a key that the store does not hold. *)
Lemma cache_op_read_none (c : kr_cache store) (key : list Z) :
  api c = cdb_map -> db c !! key = None ->
  cache_op_read c key = (- ENOENT, [], set_db c (db c) [EvRead key]).
Proof.
  intros Ha Hk. unfold cache_op_read. rewrite Ha. cbn [cdb_read cdb_map].
  by rewrite Hk.
Qed.

(** [kr_cache_peek_exact] over the map backend, for a key that the store
    does not hold: the code is negative and [*peek] is untouched. *)
Lemma peek_exact_real_none (I : cache_impl store) (c : kr_cache store)
    (name : knot_dname_t) (type : Z) (peek : kr_cache_p) :
  api c = cdb_map ->
  (forall b, fst (@kr_dname_lf _ I (buf k_storage) name false) = 0 ->
     b = snd (@kr_dname_lf _ I (buf k_storage) name false) ->
     db c !! fst (key_exact_type (set_buf k_storage b) type) = None) ->
  exists ret c2,
    @peek_exact_real _ H R I c name type peek = (ret, peek, c2) /\ ret < 0
    /\ db c2 = db c.
Proof.
  intros Ha Hk. unfold peek_exact_real.
  destruct (negb (check_rrtype type) || negb (check_dname_for_lf name)).
  { exists (kr_error ENOTSUP), c. by vm_compute. }
  specialize (Hk (snd (kr_dname_lf (buf k_storage) name false))).
  destruct (kr_dname_lf (buf k_storage) name false) as [ret b]. cbn [fst snd] in Hk.
  destruct (Z.eqb_spec ret 0) as [->|Hret]; cbn [negb].
  2:{ exists (kr_error ret), c. split; [done|]. split; [by apply kr_error_neg|done]. }
  specialize (Hk eq_refl eq_refl).
  destruct (key_exact_type (set_buf k_storage b) type) as [key k]. cbn [fst] in Hk.
  rewrite (cache_op_read_none c key Ha Hk).
  change (- ENOENT =? 0) with false. cbn [negb].
  exists (kr_error (- ENOENT)), (set_db c (db c) [EvRead key]).
  split; [done|]. split; [by vm_compute|done].
Qed.

(** After [kr_cache_clear] nothing is found: whatever the cache held and
    whatever name and type are asked, [kr_cache_peek_exact] on the cleared
    cache gives a negative code and leaves [*peek] untouched. *)
Theorem kr_cache_clear_forgets (keep_old : entry_h -> Z -> Z -> bool)
    (other : cache_impl store) (c : kr_cache store) (name : knot_dname_t)
    (type : Z) (peek : kr_cache_p) :
  api c = cdb_map ->
  exists ret c2,
    @kr_cache_peek_exact _ H R (spec_impl keep_old other)
      (snd (kr_cache_clear c)) name type peek
    = (ret, peek, c2)
    /\ ret < 0.
Proof.
  intros Ha. rewrite (kr_cache_clear_eq c Ha). cbn [snd].
  unfold kr_cache_peek_exact.
  edestruct (peek_exact_real_none (spec_impl keep_old other)) as (ret & c2 & E & Hr & _);
    [| |exists ret, c2; split; [exact E|exact Hr]]; [done|].
  cbn [kr_dname_lf spec_impl db]. intros b Hret ->.
  apply lookup_singleton_ne. apply not_eq_sym.
  apply key_exact_type_key_not_version; cbn [set_buf buf];
    by apply kr_dname_lf_spec_buf.
Qed.

End PeekMiss.

Lemma kr_cache_clear_forgets_witness :
  api ex_cache_cname = cdb_map
  /\ fst (fst (@kr_cache_peek_exact _ little_endian_host spec_ranks ex_impl
                 (snd (@kr_cache_clear _ little_endian_host ex_cache_cname))
                 ex_name KNOT_RRTYPE_CNAME
                 {| p_time := 0; p_ttl := 0; p_rank := 0; raw := [] |})) < 0.
Proof.
  assert (H1 : api ex_cache_cname = cdb_map) by reflexivity.
  refine (conj H1 _).
  destruct (@kr_cache_clear_forgets little_endian_host spec_ranks (fun _ _ _ => false)
              null_impl ex_cache_cname ex_name KNOT_RRTYPE_CNAME
              {| p_time := 0; p_ttl := 0; p_rank := 0; raw := [] |} H1)
    as (ret & c2 & E & Hr).
  unfold ex_impl. rewrite E. exact Hr.
Defined.
Section PeekExactMiss.
Context {H : host} {R : kr_rank_enc}.

(** A missing key.  For an acceptable name and type whose key the store
    does not hold, [kr_cache_peek_exact] over the map backend gives
    -ENOENT after one read of that key; [*peek] and the store are
    untouched. *)
Theorem kr_cache_peek_exact_miss (keep_old : entry_h -> Z -> Z -> bool)
    (other : cache_impl store) (c : kr_cache store) (ls : list (list Z))
    (type : Z) (peek : kr_cache_p) :
  api c = cdb_map -> wf_labels ls ->
  check_dname_for_lf (dname_of_labels ls) = true ->
  check_rrtype type = true -> type <> KNOT_RRTYPE_NSEC -> type <> KNOT_RRTYPE_NSEC3 ->
  db c !! exact_key (dname_of_labels ls) type = None ->
  @kr_cache_peek_exact _ H R (spec_impl keep_old other) c (dname_of_labels ls) type peek
  = (- ENOENT, peek, set_db c (db c) [EvRead (exact_key (dname_of_labels ls) type)]).
Proof.
  intros Ha Hwf Hlf Hty Hns Hn3 Hk.
  pose proof (check_rrtype_not_RRSIG _ Hty) as Hsig.
  unfold kr_cache_peek_exact, peek_exact_real.
  rewrite Hty, Hlf. cbn [negb orb kr_dname_lf spec_impl].
  unfold exact_key in Hk |- *.
  rewrite kr_dname_lf_spec_labels in Hk |- * by done.
  change (0 =? 0) with true. cbn [negb].
  destruct (key_exact_type_k_type
              (set_buf k_storage
                 (Bytes.poke_all 0 (len (lf_of_labels ls) :: lf_of_labels ls)
                    (buf k_storage))) type Hsig Hns Hn3) as (-> & _ & _).
  destruct (key_exact_type_maypkt _ type) as [key k] eqn:Ekey.
  cbn [fst] in Hk |- *.
  by rewrite (cache_op_read_none c key Ha Hk).
Qed.

End PeekExactMiss.

Lemma kr_cache_peek_exact_miss_witness :
  fst (fst (@kr_cache_peek_exact _ little_endian_host spec_ranks ex_impl ex_cache
              (dname_of_labels C2_com) 1
              {| p_time := 0; p_ttl := 0; p_rank := 0; raw := [] |}))
  = - ENOENT.
Proof.
  assert (Ht1 : (1 : Z) <> KNOT_RRTYPE_NSEC) by discriminate.
  assert (Ht2 : (1 : Z) <> KNOT_RRTYPE_NSEC3) by discriminate.
  unfold ex_impl.
  rewrite (@kr_cache_peek_exact_miss little_endian_host spec_ranks (fun _ _ _ => false)
             null_impl ex_cache C2_com 1
             {| p_time := 0; p_ttl := 0; p_rank := 0; raw := [] |}
             eq_refl wf_labels_C2_com eq_refl eq_refl Ht1 Ht2 eq_refl).
  reflexivity.
Defined.

(** ** Round trip: [kr_cache_insert_rr], then [kr_cache_peek_exact] *)

(** Without a stale callback [get_new_ttl] is the residual TTL, negative
    once the entry has expired. *)
Lemma get_new_ttl_residual entry qry owner type now :
  Int.in_u32 (eh_time entry) -> 0 <= eh_ttl entry < 2 ^ 31 ->
  - 2 ^ 31 <= Int.u32 now - eh_time entry < 2 ^ 31 ->
  stale_cb qry = None ->
  get_new_ttl entry (Some qry) owner type now
  = eh_ttl entry - Z.max 0 (Int.u32 now - eh_time entry).
Proof.
  intros Ht Hl Hd Hcb. rewrite get_new_ttl_u32.
  unfold get_new_ttl. cbv zeta.
  rewrite (get_new_ttl_res entry (Int.u32 now) (u32_range now) Ht Hl Hd).
  rewrite Hcb. by destruct owner.
Qed.

Section InsertPeekExact.
Context {H : host} {R : kr_rank_enc}.

Lemma stash_rrset_precond_ok (rr : knot_rrset_t) :
  rclass rr = KNOT_CLASS_IN -> check_rrtype (rr_type rr) = true ->
  rr_type rr <> KNOT_RRTYPE_NSEC3 -> check_dname_for_lf (owner rr) = true ->
  stash_rrset_precond (Some rr) = 1.
Proof.
  intros Hc Ht Hn Hl. unfold stash_rrset_precond. rewrite Hc, Ht, Hl.
  change (KNOT_CLASS_IN =? KNOT_CLASS_IN) with true.
  by destruct (Z.eqb_spec (rr_type rr) KNOT_RRTYPE_NSEC3).
Qed.

(** [kr_cache_insert_rr] of a cacheable record set under a key that the
    store does not hold. *)
Lemma kr_cache_insert_rr_fresh (keep_old : entry_h -> Z -> Z -> bool)
    (other : cache_impl store) (c : kr_cache store) (rr : knot_rrset_t)
    (rr_sigs : option knot_rrset_t) (now rank : Z) (ls : list (list Z)) :
  api c = cdb_map ->
  owner rr = dname_of_labels ls -> wf_labels ls ->
  check_dname_for_lf (owner rr) = true -> rclass rr = KNOT_CLASS_IN ->
  check_rrtype (rr_type rr) = true ->
  rr_type rr <> KNOT_RRTYPE_NSEC -> rr_type rr <> KNOT_RRTYPE_NSEC3 ->
  not_wildcard rr rr_sigs ->
  db c !! exact_key (owner rr) (rr_type rr) = None ->
  @kr_cache_insert_rr _ H R (spec_impl keep_old other) c (Some rr) rr_sigs rank now
  = (kr_ok, stashed c rr rr_sigs now rank).
Proof.
  intros Ha Ho Hwf Hlf Hcl Hty Hns Hn3 Hw Hk.
  unfold kr_cache_insert_rr. rewrite stash_rrset_precond_ok by done.
  change (1 <=? 0) with false. cbv iota.
  rewrite (stash_rrset_fresh keep_old other c None rr rr_sigs now rank ls)
    by (done || by apply check_rrtype_not_RRSIG).
  pose proof (payload_len_nonneg rr rr_sigs).
  destruct (Z.geb_spec (ENTRY_H_DATA + len (rr_payload rr rr_sigs)) 0); [done|].
  unfold ENTRY_H_DATA in *. lia.
Qed.

(** [kr_cache_peek_exact] of an entry that holds one record set. *)
Lemma peek_exact_real_entry (keep_old : entry_h -> Z -> Z -> bool)
    (other : cache_impl store) (c : kr_cache store) (rr : knot_rrset_t)
    (rr_sigs : option knot_rrset_t) (time ttl rank : Z) (ls : list (list Z))
    (peek : kr_cache_p) :
  api c = cdb_map ->
  db c !! exact_key (owner rr) (rr_type rr)
  = Some (entry_bytes time ttl rank (presence_flags (rr_type rr)) (rr_payload rr rr_sigs)) ->
  owner rr = dname_of_labels ls -> wf_labels ls ->
  check_dname_for_lf (owner rr) = true ->
  check_rrtype (rr_type rr) = true ->
  rr_type rr <> KNOT_RRTYPE_NSEC -> rr_type rr <> KNOT_RRTYPE_NSEC3 ->
  storable (rrs rr) ->
  match rr_sigs with Some s => storable (rrs s) | None => True end ->
  Int.in_u32 time -> Int.in_u32 ttl ->
  kr_rank_test rank KR_RANK_BOGUS = false ->
  @peek_exact_real _ H R (spec_impl keep_old other) c (owner rr) (rr_type rr) peek
  = (kr_ok,
     {| p_time := time; p_ttl := ttl; p_rank := rank;
        raw := entry_bytes time ttl rank (presence_flags (rr_type rr))
                 (rr_payload rr rr_sigs) |},
     set_db c (db c) [EvRead (exact_key (owner rr) (rr_type rr))]).
Proof.
  intros Ha Hdb Ho Hwf Hlf Hty Hns Hn3 Hsr Hss Htime Httl Hbog.
  assert (Hss' : match rrs <$> rr_sigs with Some s => storable s | None => True end)
    by (by destruct rr_sigs).
  pose proof (check_rrtype_not_RRSIG _ Hty) as Hsig.
  unfold peek_exact_real. rewrite Hty, Hlf. cbn [negb orb kr_dname_lf spec_impl].
  unfold exact_key in Hdb |- *.
  rewrite Ho in Hdb |- *. rewrite kr_dname_lf_spec_labels in Hdb |- * by done.
  change (0 =? 0) with true. cbn [negb].
  destruct (key_exact_type_k_type
              (set_buf k_storage
                 (Bytes.poke_all 0 (len (lf_of_labels ls) :: lf_of_labels ls)
                    (buf k_storage))) (rr_type rr) Hsig Hns Hn3) as (-> & _ & _).
  destruct (key_exact_type_maypkt _ (rr_type rr)) as [key k] eqn:Ekey.
  cbn [fst] in Hdb |- *.
  unfold cache_op_read. rewrite Ha. cbn [cdb_read cdb_map]. rewrite Hdb.
  change (0 =? 0) with true. cbv iota. cbn [entry_h_seek spec_impl].
  unfold rr_payload.
  rewrite (entry_h_seek_spec_single time ttl rank (rr_type rr) (rrs rr) (rrs <$> rr_sigs))
    by done.
  change (0 =? 0) with true. cbn [negb].
  rewrite entry_h_consistent_bytes by done.
  rewrite entry_h_view_bytes by done. cbn [is_packet eh_time eh_ttl eh_rank].
  by destruct (presence_flags_bits (rr_type rr)) as (-> & _).
Qed.

(** Insert, then look up.  A cacheable record set (class IN, a type that
    [check_rrtype] accepts other than NSEC and NSEC3, a well-formed owner
    without zero octets, not the expansion of a wildcard) of a rank that is
    not BOGUS is inserted by [kr_cache_insert_rr] at time [now] under a key
    that the store does not hold.  Then [kr_cache_peek_exact] for its owner
    and type succeeds, at whatever time it is called: it reports the time
    [now], the rank given and the TTL of the set clamped to the bounds of
    the cache, and it changes nothing in the store.  [kr_cache_ttl] on the
    result gives, for a query without stale callback, that TTL less the
    seconds elapsed since [now], which is negative once the entry has
    expired. *)
Theorem kr_cache_insert_peek_exact (keep_old : entry_h -> Z -> Z -> bool)
    (other : cache_impl store) (c : kr_cache store) (rr : knot_rrset_t)
    (rr_sigs : option knot_rrset_t) (now rank : Z) (ls : list (list Z))
    (peek : kr_cache_p) :
  api c = cdb_map ->
  0 <= ttl_min c < 2 ^ 31 -> 0 <= ttl_max c < 2 ^ 31 ->
  db c !! exact_key (owner rr) (rr_type rr) = None ->
  owner rr = dname_of_labels ls -> wf_labels ls ->
  check_dname_for_lf (owner rr) = true -> rclass rr = KNOT_CLASS_IN ->
  check_rrtype (rr_type rr) = true ->
  rr_type rr <> KNOT_RRTYPE_NSEC -> rr_type rr <> KNOT_RRTYPE_NSEC3 ->
  storable (rrs rr) ->
  match rr_sigs with Some s => storable (rrs s) | None => True end ->
  not_wildcard rr rr_sigs ->
  0 <= rank < 2 ^ 8 -> kr_rank_test rank KR_RANK_BOGUS = false ->
  let ttl := clamp_ttl c (rrset_ttl rr rr_sigs) in
  exists (c1 c2 : kr_cache store) (p : kr_cache_p),
    @kr_cache_insert_rr _ H R (spec_impl keep_old other) c (Some rr) rr_sigs rank now
    = (kr_ok, c1)
    /\ @kr_cache_peek_exact _ H R (spec_impl keep_old other) c1 (owner rr) (rr_type rr)
         peek
       = (kr_ok, p, c2)
    /\ p_time p = Int.u32 now /\ p_ttl p = ttl /\ p_rank p = rank
    /\ db c2 = db c1
    /\ (forall (qry : kr_query) (name : option knot_dname_t),
          stale_cb qry = None ->
          - 2 ^ 31 <= Int.u32 (timestamp qry) - Int.u32 now < 2 ^ 31 ->
          kr_cache_ttl p qry name (rr_type rr)
          = ttl - Z.max 0 (Int.u32 (timestamp qry) - Int.u32 now)).
Proof.
  intros Ha Hmin Hmax Hk Ho Hwf Hlf Hcl Hty Hns Hn3 Hsr Hss Hw Hrank Hbog ttl.
  assert (Httl : 0 <= ttl < 2 ^ 31) by (unfold ttl, clamp_ttl; lia).
  assert (Httl' : Int.in_u32 ttl) by (unfold Int.in_u32; lia).
  eexists _, _, _.
  split; [by apply (kr_cache_insert_rr_fresh keep_old other c rr rr_sigs now rank ls)|].
  unfold kr_cache_peek_exact.
  split.
  { apply (peek_exact_real_entry keep_old other _ rr rr_sigs (Int.u32 now) ttl rank ls);
      try done.
    - unfold stashed. cbn [db]. rewrite lookup_insert_eq. by rewrite (u8_id rank).
    - apply u32_range. }
  cbn [p_time p_ttl p_rank raw]. repeat split; try done.
  intros qry name Hcb Hd. unfold kr_cache_ttl. cbn [raw].
  rewrite get_new_ttl_residual; rewrite ?entry_h_view_bytes;
    cbn [eh_time eh_ttl]; try done; apply u32_range.
Qed.

End InsertPeekExact.

Lemma kr_cache_insert_peek_exact_witness :
  exists (c1 c2 : kr_cache store) (p : kr_cache_p),
    @kr_cache_insert_rr _ little_endian_host spec_ranks ex_impl ex_cache
      (Some (ex_rrset 1 300 [192; 0; 2; 1])) None 5 100 = (kr_ok, c1)
    /\ @kr_cache_peek_exact _ little_endian_host spec_ranks ex_impl c1 ex_name 1
         {| p_time := 0; p_ttl := 0; p_rank := 0; raw := [] |} = (kr_ok, p, c2)
    /\ p_time p = 100 /\ p_ttl p = 300 /\ p_rank p = 5
    /\ kr_cache_ttl p (ex_query 1 500) (Some ex_name) 1 = -100.
Proof.
  assert (Hmin : 0 <= ttl_min ex_cache < 2 ^ 31) by (simpl; lia).
  assert (Hmax : 0 <= ttl_max ex_cache < 2 ^ 31) by (simpl; lia).
  assert (Hns : rr_type (ex_rrset 1 300 [192; 0; 2; 1]) <> KNOT_RRTYPE_NSEC)
    by discriminate.
  assert (Hn3 : rr_type (ex_rrset 1 300 [192; 0; 2; 1]) <> KNOT_RRTYPE_NSEC3)
    by discriminate.
  assert (Hst : storable (rrs (ex_rrset 1 300 [192; 0; 2; 1])))
    by (apply storable_ex; vm_compute; reflexivity).
  assert (Hrank : 0 <= 5 < 2 ^ 8) by lia.
  destruct (@kr_cache_insert_peek_exact little_endian_host spec_ranks (fun _ _ _ => false)
              null_impl ex_cache (ex_rrset 1 300 [192; 0; 2; 1]) None 100 5
              [[101; 120; 97; 109; 112; 108; 101]; [99; 111; 109]]
              {| p_time := 0; p_ttl := 0; p_rank := 0; raw := [] |}
              eq_refl Hmin Hmax eq_refl eq_refl wf_labels_ex_name eq_refl eq_refl
              eq_refl Hns Hn3 Hst I I Hrank eq_refl)
    as (c1 & c2 & p & E1 & E2 & Ht & Hl & Hr & _ & Httl).
  exists c1, c2, p.
  refine (conj E1 (conj E2 (conj Ht (conj Hl (conj Hr _))))).
  assert (Hd : - 2 ^ 31 <= Int.u32 (timestamp (ex_query 1 500)) - Int.u32 100 < 2 ^ 31)
    by (vm_compute; split; [discriminate|reflexivity]).
  exact (Httl (ex_query 1 500) (Some ex_name) eq_refl Hd).
Defined.

(** ** The state that [cache_peek] returns *)

Section PeekState.
Context {DB : Type} {H : host} {R : kr_rank_enc} {I : cache_impl DB}.

Ltac split_match :=
  match goal with
  | |- context [match ?x with _ => _ end] =>
      let E := fresh "E" in destruct x eqn:E
  | |- context [if ?x then _ else _] =>
      let E := fresh "E" in destruct x eqn:E
  end.

Lemma cache_peek_negative_state (ctx : kr_layer_t DB) (qry : kr_query)
    (pkt : knot_pkt_t) (cache : kr_cache DB) (k : key) (lowest_rank : Z) :
  fst (fst (fst (cache_peek_negative ctx qry pkt cache k lowest_rank))) = state ctx
  \/ fst (fst (fst (cache_peek_negative ctx qry pkt cache k lowest_rank))) = KR_STATE_DONE.
Proof.
  unfold cache_peek_negative. cbv zeta.
  repeat (split_match; cbn [fst snd]; try (by left); try (by right)).
Qed.

Lemma cache_peek_real_state (ctx : kr_layer_t DB) (qry : kr_query) (pkt : knot_pkt_t) :
  fst (fst (fst (cache_peek_real ctx qry pkt))) = state ctx
  \/ fst (fst (fst (cache_peek_real ctx qry pkt))) = KR_STATE_DONE.
Proof.
  unfold cache_peek_real. cbv zeta.
  repeat (split_match; cbn [fst snd]; try (by left); try (by right)).
  all: apply cache_peek_negative_state.
Qed.

(** [cache_peek] never fails the request: whatever the backend and the
    rest of the cache do, the state returned is the state the layer was
    called with or [KR_STATE_DONE].  Behind [ctx] only the current query
    and the cache may have changed: the state of the layer, the trust
    anchors and the selected records are as before. *)
Theorem cache_peek_state (ctx : kr_layer_t DB) (pkt : knot_pkt_t) :
  let '(ret, ctx', _) := cache_peek ctx pkt in
  (ret = state ctx \/ ret = KR_STATE_DONE)
  /\ state ctx' = state ctx
  /\ trust_anchors (req_ctx (ctx_req ctx')) = trust_anchors (req_ctx (ctx_req ctx))
  /\ answer_cd (ctx_req ctx') = answer_cd (ctx_req ctx)
  /\ answ_selected (ctx_req ctx') = answ_selected (ctx_req ctx)
  /\ auth_selected (ctx_req ctx') = auth_selected (ctx_req ctx)
  /\ add_selected (ctx_req ctx') = add_selected (ctx_req ctx).
Proof.
  unfold cache_peek.
  destruct (current_query (ctx_req ctx)) as [qry|]; [|by repeat split; auto].
  match goal with |- context [if ?c then _ else _] => destruct c end;
    [by repeat split; auto|].
  pose proof (cache_peek_real_state ctx qry pkt) as Hs.
  destruct (cache_peek_real ctx qry pkt) as [[[ret qry'] pkt'] cache'].
  destruct (kr_cache_sync cache') as [? cache'']. by cbn in *.
Qed.

End PeekState.

(** ** The search for the signatures: [find_rrsigs] *)

Lemma find_rrsigs_step (arr : list ranked_rr_array_entry_t) (qry : kr_query)
    (rr : knot_rrset_t) (n : nat) :
  find_rrsigs arr qry rr (S n)
  = if match arr !! n with Some e => is_rrsig_of qry rr e | None => false end
    then Some n else find_rrsigs arr qry rr n.
Proof. reflexivity. Qed.

(** The search for the signatures of [rr] among the first [n] entries gives
    the last entry that passes the test: an index below [n] (and inside the
    array) whose entry is an RRSIG set of the query, not cached, that
    covers the type of [rr] at its owner, with no such entry between it
    and [n]; and it gives nothing exactly when no entry below [n] passes. *)
Theorem find_rrsigs_last (arr : list ranked_rr_array_entry_t) (qry : kr_query)
    (rr : knot_rrset_t) (n : nat) :
  match find_rrsigs arr qry rr n with
  | Some j =>
      (j < n)%nat
      /\ (exists e, arr !! j = Some e /\ is_rrsig_of qry rr e = true)
      /\ (forall j' e, (j < j' < n)%nat -> arr !! j' = Some e ->
            is_rrsig_of qry rr e = false)
  | None =>
      forall j' e, (j' < n)%nat -> arr !! j' = Some e -> is_rrsig_of qry rr e = false
  end.
Proof.
  induction n as [|n IH]; [simpl; intros; lia|].
  rewrite find_rrsigs_step.
  destruct (arr !! n) as [e|] eqn:En.
  - destruct (is_rrsig_of qry rr e) eqn:Eok.
    + split; [lia|]. split; [by exists e|]. intros; lia.
    + destruct (find_rrsigs arr qry rr n) as [j|].
      * destruct IH as (Hj & He & Hlast). split; [lia|]. split; [done|].
        intros j' e' Hj' Ee'. destruct (decide (j' = n)) as [->|Hne].
        -- congruence.
        -- apply (Hlast j'); [lia|done].
      * intros j' e' Hj' Ee'. destruct (decide (j' = n)) as [->|Hne].
        -- congruence.
        -- apply (IH j'); [lia|done].
  - destruct (find_rrsigs arr qry rr n) as [j|].
    + destruct IH as (Hj & He & Hlast). split; [lia|]. split; [done|].
      intros j' e' Hj' Ee'. destruct (decide (j' = n)) as [->|Hne].
      * congruence.
      * apply (Hlast j'); [lia|done].
    + intros j' e' Hj' Ee'. destruct (decide (j' = n)) as [->|Hne].
      * congruence.
      * apply (IH j'); [lia|done].
Qed.
(** ** What the stash loops do to the selected records *)

Lemma find_rrsigs_found (arr : list ranked_rr_array_entry_t) (qry : kr_query)
    (rr : knot_rrset_t) (n j : nat) :
  find_rrsigs arr qry rr n = Some j ->
  exists e, arr !! j = Some e /\ qry_uid e = uid qry /\ cached e = false.
Proof.
  induction n as [|n IH]; [done|]. rewrite find_rrsigs_step.
  destruct (arr !! n) as [e|] eqn:En; [|exact IH].
  destruct (is_rrsig_of qry rr e) eqn:Eok; [|exact IH].
  intros [= <-]. exists e. split; [done|].
  unfold is_rrsig_of in Eok.
  apply andb_true_iff in Eok as [Eok _]. apply andb_true_iff in Eok as [Eu Ec].
  split; [by apply Z.eqb_eq|by apply negb_true_iff].
Qed.

Lemma set_cached_idemp (e : ranked_rr_array_entry_t) :
  set_cached (set_cached e) = set_cached e.
Proof. reflexivity. Qed.

Lemma marked_by_refl (qry : kr_query) (arr : list ranked_rr_array_entry_t) :
  Forall2 (marked_by qry) arr arr.
Proof. apply Forall2_same_length_lookup. split; [done|]. intros i x y ? ?. left. congruence. Qed.

Lemma marked_by_trans (qry : kr_query) (a b c : list ranked_rr_array_entry_t) :
  Forall2 (marked_by qry) a b -> Forall2 (marked_by qry) b c ->
  Forall2 (marked_by qry) a c.
Proof.
  apply Forall2_trans. intros x y z [->|(-> & Hu & Hc)] Hyz; [done|].
  destruct Hyz as [->|(-> & _ & Hc')]; [by right|]. by cbn in Hc'.
Qed.

(** Marking one entry of the query that was not cached, or marking again
    one that was marked. *)
Lemma marked_by_alter (qry : kr_query) (a b : list ranked_rr_array_entry_t) (i : nat)
    (e : ranked_rr_array_entry_t) :
  Forall2 (marked_by qry) a b ->
  a !! i = Some e -> qry_uid e = uid qry -> cached e = false ->
  Forall2 (marked_by qry) a (alter set_cached i b).
Proof.
  intros Hab Hi Hu Hc. apply Forall2_alter_r; [done|].
  intros x y Hx Hy Hxy. assert (x = e) as -> by congruence.
  destruct Hxy as [->|(-> & _ & _)]; right; by rewrite ?set_cached_idemp.
Qed.

Section StashMarks.
Context {DB : Type} {H : host} {R : kr_rank_enc} {I : cache_impl DB}.

Lemma stash_rrarray_entry_marks (arr : list ranked_rr_array_entry_t) (i : nat)
    (qry : kr_query) (cache : kr_cache DB) (cnt : Z) :
  (forall e, arr !! i = Some e -> qry_uid e = uid qry) ->
  let '(_, arr', _, cnt') := stash_rrarray_entry arr i qry cache cnt in
  Forall2 (marked_by qry) arr arr' /\ cnt <= cnt' <= cnt + 1.
Proof.
  intros Hu. unfold stash_rrarray_entry.
  pose proof (marked_by_refl qry arr) as Hrefl.
  destruct (arr !! i) as [entry|] eqn:Ei; [|split; [done|lia]].
  destruct (cached entry) eqn:Ec; [split; [done|lia]|].
  destruct (entry_rr entry) as [rr|]; [|split; [done|lia]].
  destruct (stash_rrset_precond (Some rr) <=? 0); [split; [done|lia]|].
  destruct (find_rrsigs arr qry rr (length arr)) as [j|] eqn:Ej.
  - destruct (find_rrsigs_found _ _ _ _ _ Ej) as (e & Ee & Heu & Hec).
    rewrite Ee.
    destruct (stash_rrset _ _ _ _ _ _) as [written cache'].
    destruct (written <? 0); [split; [done|lia]|].
    destruct (written >? 0); [|split; [done|lia]].
    split; [|destruct (_ && _); lia].
    apply (marked_by_alter qry arr _ j e); try done.
    apply (marked_by_alter qry arr _ i entry); try done. by apply Hu.
  - destruct (stash_rrset _ _ _ _ _ _) as [written cache'].
    destruct (written <? 0); [split; [done|lia]|].
    destruct (written >? 0); [|split; [done|lia]].
    split; [|destruct (_ && _); lia].
    apply (marked_by_alter qry arr _ i entry); try done. by apply Hu.
Qed.

Lemma stash_rrarray_marks (i : nat) : forall (arr : list ranked_rr_array_entry_t)
    (qry : kr_query) (cache : kr_cache DB) (cnt : Z),
  let '(_, arr', _, cnt') := stash_rrarray arr i qry cache cnt in
  Forall2 (marked_by qry) arr arr' /\ cnt <= cnt'.
Proof.
  induction i as [|i IH]; intros arr qry cache cnt.
  { simpl. split; [apply marked_by_refl|lia]. }
  cbn [stash_rrarray].
  destruct (arr !! i) as [entry|] eqn:Ei.
  2:{ apply IH. }
  destruct (Z.eqb_spec (qry_uid entry) (uid qry)) as [Eu|_]; cbn [negb].
  2:{ apply IH. }
  pose proof (stash_rrarray_entry_marks arr i qry cache cnt) as Hm.
  destruct (stash_rrarray_entry arr i qry cache cnt) as [[[ret arr1] cache1] cnt1].
  destruct Hm as [Hm Hc]; [intros e; rewrite Ei; congruence|].
  destruct (negb (ret =? 0)); [split; [done|lia]|].
  specialize (IH arr1 qry cache1 cnt1).
  destruct (stash_rrarray arr1 i qry cache1 cnt1) as [[[ret2 arr2] cache2] cnt2].
  destruct IH as [IH1 IH2]. split; [by apply (marked_by_trans qry arr arr1 arr2)|lia].
Qed.

(** The loops of [cache_stash] over the three sections only mark entries.
    In every section the array keeps its length and each entry is as it
    was, or it has [cached] set and was an entry of the query that was not
    cached: the records themselves, their ranks, the entries of other
    queries and the entries already cached are never changed.  The query,
    the CD bit and the trust anchors of the request are as before, and the
    count of non-authoritative sets does not go down.  This holds whatever
    the backend and the rest of the cache do, also when the loops stop at
    an error. *)
Theorem stash_sections_marks (req : kr_request DB) (qry : kr_query) (cnt : Z) :
  let '(_, req', cnt') :=
    stash_sections [KNOT_ANSWER; KNOT_AUTHORITY; KNOT_ADDITIONAL] req qry cnt in
  Forall2 (marked_by qry) (answ_selected req) (answ_selected req')
  /\ Forall2 (marked_by qry) (auth_selected req) (auth_selected req')
  /\ Forall2 (marked_by qry) (add_selected req) (add_selected req')
  /\ current_query req' = current_query req
  /\ answer_cd req' = answer_cd req
  /\ trust_anchors (req_ctx req') = trust_anchors (req_ctx req)
  /\ cnt <= cnt'.
Proof.
  cbn [stash_sections].
  change (selected req KNOT_ANSWER) with (answ_selected req).
  pose proof (stash_rrarray_marks (length (answ_selected req)) (answ_selected req) qry
                (ctx_cache (req_ctx req)) cnt) as H0.
  destruct (stash_rrarray (answ_selected req) _ qry _ cnt) as [[[ret0 arr0] c0] cnt0].
  destruct H0 as [H0 Hc0].
  pose proof (marked_by_refl qry (auth_selected req)) as Hr1.
  pose proof (marked_by_refl qry (add_selected req)) as Hr2.
  destruct (negb (ret0 =? 0)); [by cbn|].
  set (req0 := set_cache (set_selected req KNOT_ANSWER arr0) c0).
  change (selected req0 KNOT_AUTHORITY) with (auth_selected req).
  pose proof (stash_rrarray_marks (length (auth_selected req)) (auth_selected req) qry
                (ctx_cache (req_ctx req0)) cnt0) as H1.
  destruct (stash_rrarray (auth_selected req) _ qry _ cnt0) as [[[ret1 arr1] c1] cnt1].
  destruct H1 as [H1 Hc1].
  destruct (negb (ret1 =? 0)); [cbn; repeat split; try done; lia|].
  set (req1 := set_cache (set_selected req0 KNOT_AUTHORITY arr1) c1).
  change (selected req1 KNOT_ADDITIONAL) with (add_selected req).
  pose proof (stash_rrarray_marks (length (add_selected req)) (add_selected req) qry
                (ctx_cache (req_ctx req1)) cnt1) as H2.
  destruct (stash_rrarray (add_selected req) _ qry _ cnt1) as [[[ret2 arr2] c2] cnt2].
  destruct H2 as [H2 Hc2].
  destruct (negb (ret2 =? 0)); cbn; repeat split; try done; lia.
Qed.

End StashMarks.

(** ** NSEC records in [stash_rrset] *)

Section InsertNSEC.
Context {DB : Type} {H : host} {R : kr_rank_enc} {I : cache_impl DB}.

(** An NSEC record set goes into the cache only when its rank is SECURE
    and it comes with its signatures.  With a rank that is not SECURE
    [kr_cache_insert_rr] ignores it: the code is [kr_ok] and the cache is
    untouched.  With the rank SECURE and no signatures, for a class and an
    owner that pass the preconditions, the code is -EINVAL and the cache is
    untouched as well. *)
Theorem kr_cache_insert_rr_NSEC (cache : kr_cache DB) (rr : knot_rrset_t)
    (rrsig : option knot_rrset_t) (rank timestamp : Z) :
  rr_type rr = KNOT_RRTYPE_NSEC ->
  (kr_rank_test rank KR_RANK_SECURE = false ->
   kr_cache_insert_rr cache (Some rr) rrsig rank timestamp = (kr_ok, cache))
  /\ (kr_rank_test rank KR_RANK_SECURE = true ->
      rclass rr = KNOT_CLASS_IN -> check_dname_for_lf (owner rr) = true ->
      kr_cache_insert_rr cache (Some rr) None rank timestamp = (- EINVAL, cache)).
Proof.
  intros Ht. split.
  - intros Hs. unfold kr_cache_insert_rr.
    destruct (stash_rrset_precond (Some rr) <=? 0); [done|].
    unfold stash_rrset. cbv zeta.
    destruct (_ <? 0); [done|]. rewrite Ht, Hs.
    change (KNOT_RRTYPE_NSEC =? KNOT_RRTYPE_NSEC) with true. by cbn.
  - intros Hs Hc Hl. unfold kr_cache_insert_rr, stash_rrset_precond.
    rewrite Hc, Hl, Ht. cbn.
    unfold stash_rrset. cbv zeta. rewrite Ht, Hs.
    change (0 <? 0) with false.
    change (KNOT_RRTYPE_NSEC =? KNOT_RRTYPE_NSEC) with true. by cbn.
Qed.

End InsertNSEC.

Lemma kr_cache_insert_rr_NSEC_witness :
  rr_type (ex_rrset KNOT_RRTYPE_NSEC 300 [0; 0; 1; 64]) = KNOT_RRTYPE_NSEC
  /\ @kr_cache_insert_rr _ little_endian_host spec_ranks ex_impl ex_cache
       (Some (ex_rrset KNOT_RRTYPE_NSEC 300 [0; 0; 1; 64])) None 5 100
     = (kr_ok, ex_cache)
  /\ @kr_cache_insert_rr _ little_endian_host spec_ranks ex_impl ex_cache
       (Some (ex_rrset KNOT_RRTYPE_NSEC 300 [0; 0; 1; 64])) None 6 100
     = (- EINVAL, ex_cache).
Proof.
  refine (conj eq_refl _).
  destruct (@kr_cache_insert_rr_NSEC _ little_endian_host spec_ranks ex_impl ex_cache
              (ex_rrset KNOT_RRTYPE_NSEC 300 [0; 0; 1; 64]) None 5 100 eq_refl)
    as [H5 _].
  destruct (@kr_cache_insert_rr_NSEC _ little_endian_host spec_ranks ex_impl ex_cache
              (ex_rrset KNOT_RRTYPE_NSEC 300 [0; 0; 1; 64]) None 6 100 eq_refl)
    as [_ H6].
  exact (conj (H5 eq_refl) (H6 eq_refl eq_refl eq_refl)).
Defined.

(** ** [closest_NS] when no NS entry can be read *)

Section ClosestNSMiss.
Context {DB : Type} {H : host} {R : kr_rank_enc} {I : cache_impl DB}.

Lemma closest_NS_loop_miss (ls : list (list Z)) : forall (fuel : nat)
    (cache : kr_cache DB) (qry : kr_query) (k : key) (zl : Z) (em : bool)
    (trace : list (bool * list Z)),
  (forall key, fst (cdb_read (api cache) (db cache) key) = - ENOENT) ->
  zname k = dname_of_labels ls -> Forall wf_label ls -> (length ls < fuel)%nat ->
  exists (k' : key) (cache' : kr_cache DB),
    closest_NS_loop fuel cache qry k zl em trace
    = Some (None, k', cache', trace ++ (em, []) :: replicate (length ls) (false, []))
    /\ k_type k' = KNOT_RRTYPE_NS /\ zname k' = [0]
    /\ zlf_len k' = Int.u8 (zl - (len (dname_of_labels ls) - 1))
    /\ db cache' = db cache /\ api cache' = api cache
    /\ length (oplog cache') = (length (oplog cache) + S (length ls))%nat.
Proof.
  induction ls as [|l ls IH]; intros fuel cache qry k zl em trace Hmiss Hz Hwf Hf;
    (destruct fuel as [|fuel]; [simpl in Hf; lia|]); cbn [closest_NS_loop].
  - set (k0 := set_buf k _).
    pose proof (key_exact_type_zname k0 KNOT_RRTYPE_NS) as Hzn.
    destruct (key_exact_type k0 KNOT_RRTYPE_NS) as [key k1]. cbn [snd] in Hzn.
    assert (Hz1 : zname k1 = dname_of_labels []) by (rewrite Hzn; exact Hz).
    clearbody k0. clear Hzn.
    unfold cache_op_read. specialize (Hmiss key).
    destruct (cdb_read (api cache) (db cache) key) as [ret val]. cbn [fst] in Hmiss.
    subst ret. change (- ENOENT =? - Z.abs ENOENT) with true. cbn [fst snd].
    rewrite Hz1.
    change (Bytes.byte_at (dname_of_labels []) 0 =? 0) with true. cbv iota.
    eexists _, _. split; [reflexivity|].
    cbn [set_zlf_len set_k_type k_type zname zlf_len set_db db api oplog].
    rewrite Hz1.
    change (len (dname_of_labels []) - 1) with 0. rewrite Z.sub_0_r.
    rewrite length_app. by cbn.
  - inversion Hwf as [|? ? [Hl Hb] Hwf']; subst.
    set (k0 := set_buf k _).
    pose proof (key_exact_type_zname k0 KNOT_RRTYPE_NS) as Hzn.
    destruct (key_exact_type k0 KNOT_RRTYPE_NS) as [key k1]. cbn [snd] in Hzn.
    assert (Hz1 : zname k1 = dname_of_labels (l :: ls)) by (rewrite Hzn; exact Hz).
    clearbody k0. clear Hzn.
    unfold cache_op_read. pose proof (Hmiss key) as Hk.
    destruct (cdb_read (api cache) (db cache) key) as [ret val]. cbn [fst] in Hk.
    subst ret. change (- ENOENT =? - Z.abs ENOENT) with true. cbn [fst snd].
    rewrite Hz1. rewrite next_label_cons.
    assert (Hb0 : Bytes.byte_at (dname_of_labels (l :: ls)) 0 = len l)
      by (by rewrite dname_of_labels_cons).
    rewrite Hb0.
    destruct (Z.eqb_spec (len l) 0) as [E|_]; [unfold len in E; lia|].
    set (k2 := set_buf (set_zname k1 (dname_of_labels ls)) _).
    set (c1 := set_db cache (db cache) [EvRead key]).
    destruct (IH fuel c1 qry k2 (zl - (len l + 1)) false (trace ++ [(em, [])]))
      as (k' & cache' & E & Hkt & Hkz & Hzl & Hdb & Hapi & Hlog); try done.
    { simpl in Hf. lia. }
    exists k', cache'. split.
    { rewrite E. do 2 f_equal. rewrite <- app_assoc. reflexivity. }
    split; [done|]. split; [done|]. split.
    { rewrite Hzl. f_equal. rewrite dname_of_labels_cons, len_app, len_cons. lia. }
    split; [done|]. split; [done|].
    rewrite Hlog. unfold c1. cbn [set_db oplog]. rewrite length_app. simpl. lia.
Qed.

(** "We miss root NS in cache, but let's at least assume it exists."
    When the backend finds none of the keys that it is asked for,
    [closest_NS] for a well-formed name walks up to the root: it asks the
    backend once for the name and once for each of its ancestors, the
    root included, changes nothing in the store, and gives VAL_EMPTY with
    the type NS and [k->zname] at the root. *)
Theorem closest_NS_root (cache : kr_cache DB) (qry : kr_query) (k : key)
    (ls : list (list Z)) :
  (forall key, fst (cdb_read (api cache) (db cache) key) = - ENOENT) ->
  zname k = dname_of_labels ls -> Forall wf_label ls ->
  exists (k' : key) (cache' : kr_cache DB),
    closest_NS cache qry k
    = Some (None, k', cache', (true, []) :: replicate (length ls) (false, []))
    /\ k_type k' = KNOT_RRTYPE_NS /\ zname k' = [0]
    /\ db cache' = db cache
    /\ length (oplog cache') = (length (oplog cache) + S (length ls))%nat.
Proof.
  intros Hmiss Hz Hwf. unfold closest_NS.
  destruct (closest_NS_loop_miss ls (S (length (zname k))) cache qry k
              (Bytes.byte_at (buf k) 0) true [])
    as (k' & cache' & E & Hkt & Hkz & _ & Hdb & _ & Hlog); try done.
  { rewrite Hz. pose proof (labels_shorter ls). lia. }
  exists k', cache'. by rewrite E.
Qed.

End ClosestNSMiss.

Lemma closest_NS_root_witness :
  exists (k' : key) (cache' : kr_cache store),
    @closest_NS _ little_endian_host spec_ranks ex_impl ex_cache
      (ex_query 1 100) (ex_key ex_name)
    = Some (None, k', cache', [(true, []); (false, []); (false, [])])
    /\ k_type k' = KNOT_RRTYPE_NS /\ zname k' = [0].
Proof.
  destruct (@closest_NS_root _ little_endian_host spec_ranks ex_impl ex_cache
              (ex_query 1 100) (ex_key ex_name)
              [[101; 120; 97; 109; 112; 108; 101]; [99; 111; 109]])
    as (k' & cache' & E & Hkt & Hkz & _).
  - intros key. reflexivity.
  - reflexivity.
  - exact (proj1 wf_labels_ex_name).
  - exists k', cache'. exact (conj E (conj Hkt Hkz)).
Defined.

(** ** What a stash leaves alone *)

Section StashFrame.
Context {H : host} {R : kr_rank_enc}.

Lemma cache_op_write_frame (c : kr_cache store) (key v : list Z) :
  api c = cdb_map ->
  let c' := snd (cache_op_write c key v) in
  fst (cache_op_write c key v) = 0
  /\ api c' = cdb_map /\ ttl_min c' = ttl_min c /\ ttl_max c' = ttl_max c
  /\ (forall k', k' <> key -> db c' !! k' = db c !! k').
Proof.
  intros Ha. unfold cache_op_write. rewrite Ha. cbn [cdb_write cdb_map fst snd].
  unfold set_db. cbn [api db ttl_min ttl_max]. repeat split; try done.
  intros k' Hk. by rewrite lookup_insert_ne.
Qed.

(** [entry_h_splice] over the map backend touches the value under the key
    it is given and nothing else, and the room it hands out is under that
    key. *)
Lemma entry_h_splice_spec_frame (keep_old : entry_h -> Z -> Z -> bool)
    (n rank : Z) (key : list Z) (ktype type : Z) (owner : knot_dname_t)
    (qry : option kr_query) (c : kr_cache store) (now : Z) :
  api c = cdb_map ->
  let '(ret, eh, c') := entry_h_splice_spec keep_old n rank key ktype type owner qry c now in
  api c' = cdb_map /\ ttl_min c' = ttl_min c /\ ttl_max c' = ttl_max c
  /\ (forall k', k' <> key -> db c' !! k' = db c !! k')
  /\ (ret = 0 -> ref_key eh = key).
Proof.
  intros Ha. unfold entry_h_splice_spec.
  destruct (n <=? 0); [by repeat split|].
  pose proof (cache_op_read_frame c key) as Hr.
  destruct (cache_op_read c key) as [[ret val] c1]. cbn [snd] in Hr.
  destruct Hr as (Hdb & Hapi & _ & Hmin & Hmax & _).
  destruct (if (ktype =? KNOT_RRTYPE_NS) && (ret =? 0)
            then default ([], [], []) (entry_list_parse val)
            else ([], [], [])) as [[ns cn] dn].
  match goal with |- context [if ?s then (kr_error EEXIST, _, _) else _] => destruct s end.
  { rewrite Hdb, Hapi, Hmin, Hmax. by repeat split. }
  match goal with
  | |- context [if ktype =? KNOT_RRTYPE_NS then ?a else ?b] =>
      destruct (if ktype =? KNOT_RRTYPE_NS then a else b) as [newval off]
  end.
  rewrite Ha in Hapi.
  pose proof (cache_op_write_frame c1 key newval Hapi) as Hw.
  destruct (cache_op_write c1 key newval) as [ret' c2]. cbn [fst snd] in Hw.
  destruct Hw as (-> & Hapi2 & Hmin2 & Hmax2 & Hdb2).
  change (negb (0 =? 0)) with false. cbv iota.
  rewrite Hmin2, Hmax2, Hmin, Hmax. repeat split; try done.
  intros k' Hk. by rewrite Hdb2, Hdb.
Qed.

Lemma stash_rrset_frame_key (keep_old : entry_h -> Z -> Z -> bool)
    (other : cache_impl store) (c : kr_cache store) (qs : option kr_query)
    (rr : knot_rrset_t) (rr_sigs : option knot_rrset_t) (now rank : Z) :
  api c = cdb_map -> rr_type rr <> KNOT_RRTYPE_NSEC ->
  let c' := snd (@stash_rrset _ H R (spec_impl keep_old other) c qs rr rr_sigs now rank) in
  api c' = cdb_map /\ ttl_min c' = ttl_min c /\ ttl_max c' = ttl_max c
  /\ exists key, key <> version_key
       /\ forall k', k' <> key -> db c' !! k' = db c !! k'.
Proof.
  intros Ha Hns. unfold stash_rrset. cbv zeta.
  assert (Hsame : api c = cdb_map /\ ttl_min c = ttl_min c /\ ttl_max c = ttl_max c
                  /\ exists key, key <> version_key
                       /\ forall k', k' <> key -> db c !! k' = db c !! k').
  { repeat split; try done. by exists []. }
  destruct (_ <? 0); [done|].
  destruct (Z.eqb_spec (rr_type rr) KNOT_RRTYPE_NSEC) as [|_]; [done|].
  cbn [kr_dname_lf entry_h_splice rdataset_dematerialize_size rdataset_dematerialize
       spec_impl].
  set (encloser := Nat.iter _ _ _). set (w := negb _).
  pose proof (kr_dname_lf_spec_buf encloser w) as Hbuf.
  destruct (kr_dname_lf_spec (buf k_storage) encloser w) as [ret b].
  cbn [fst snd] in Hbuf.
  destruct (Z.eqb_spec ret 0) as [->|_]; cbn [negb]; [|done].
  destruct (Hbuf eq_refl) as [Hb0 Hb5].
  pose proof (key_exact_type_key_not_version (set_buf k_storage b) (rr_type rr) Hb0 Hb5)
    as Hkv.
  destruct (key_exact_type (set_buf k_storage b) (rr_type rr)) as [key k].
  cbn [fst] in Hkv.
  match goal with
  | |- context [entry_h_splice_spec keep_old ?n rank key ?kt ?t ?o qs c now] =>
      pose proof (entry_h_splice_spec_frame keep_old n rank key kt t o qs c now Ha) as Hs;
      destruct (entry_h_splice_spec keep_old n rank key kt t o qs c now)
        as [[ret eh] c1]
  end.
  destruct Hs as (Hapi & Hmin & Hmax & Hdb & Hkey).
  destruct (Z.eqb_spec ret 0) as [->|_]; cbn [negb].
  2:{ cbn [snd]. repeat split; try done. by exists key. }
  rewrite (Hkey eq_refl), Hapi. cbn [cdb_store cdb_map].
  destruct (rdataset_dematerialize_spec (Some (rrs rr))) as [ret1 bytes1].
  destruct (negb (ret1 =? 0)).
  - cbn [snd set_stats set_db api db ttl_min ttl_max]. repeat split; try done.
    exists key. split; [done|]. intros k' Hk.
    destruct (negb (ret1 =? 0)); rewrite ?lookup_alter_ne by done; by apply Hdb.
  - destruct (rdataset_dematerialize_spec (rrs <$> rr_sigs)) as [ret2 bytes2].
    cbn [snd set_stats set_db api db ttl_min ttl_max]. repeat split; try done.
    exists key. split; [done|]. intros k' Hk.
    destruct (negb (ret2 =? 0)); rewrite ?lookup_alter_ne by done; by apply Hdb.
Qed.

(** One stash, one key.  [stash_rrset] of a record set other than NSEC,
    over the map backend, changes the value under one key at most, and
    that key is not the key of the version: every other entry of the store
    and the version entry are as before, whatever the record set, its
    signatures, the rank and the outcome of the call.  The TTL bounds of
    the cache are as before. *)
Theorem stash_rrset_frame (keep_old : entry_h -> Z -> Z -> bool)
    (other : cache_impl store) (c : kr_cache store) (qs : option kr_query)
    (rr : knot_rrset_t) (rr_sigs : option knot_rrset_t) (now rank : Z) :
  api c = cdb_map -> rr_type rr <> KNOT_RRTYPE_NSEC ->
  let c' := snd (@stash_rrset _ H R (spec_impl keep_old other) c qs rr rr_sigs now rank) in
  db c' !! version_key = db c !! version_key
  /\ (exists key, forall k', k' <> key -> db c' !! k' = db c !! k')
  /\ api c' = cdb_map /\ ttl_min c' = ttl_min c /\ ttl_max c' = ttl_max c.
Proof.
  intros Ha Hns c'.
  destruct (stash_rrset_frame_key keep_old other c qs rr rr_sigs now rank Ha Hns)
    as (Hapi & Hmin & Hmax & key & Hkv & Hdb).
  fold c' in Hapi, Hmin, Hmax, Hdb.
  split; [by apply Hdb, not_eq_sym|]. split; [by exists key|done].
Qed.

End StashFrame.

Lemma stash_rrset_frame_witness :
  api ex_cache = cdb_map
  /\ rr_type (ex_rrset KNOT_RRTYPE_CNAME 300 [3; 119; 119; 119; 0]) <> KNOT_RRTYPE_NSEC
  /\ db ex_cache_cname !! version_key = None
  /\ api ex_cache_cname = cdb_map.
Proof.
  assert (Hns : rr_type (ex_rrset KNOT_RRTYPE_CNAME 300 [3; 119; 119; 119; 0])
                <> KNOT_RRTYPE_NSEC) by discriminate.
  refine (conj eq_refl (conj Hns _)).
  destruct (@stash_rrset_frame little_endian_host spec_ranks (fun _ _ _ => false)
              null_impl ex_cache None
              (ex_rrset KNOT_RRTYPE_CNAME 300 [3; 119; 119; 119; 0]) None 100 5
              eq_refl Hns) as (Hv & _ & Hapi & _).
  exact (conj Hv Hapi).
Defined.

(** ** The cache across a reopen *)

Section SetupFacts.
Context {DB : Type} {H : host}.

Lemma same_setup_refl (c : kr_cache DB) : same_setup c c.
Proof. by repeat split. Qed.

Lemma same_setup_trans (a b c : kr_cache DB) :
  same_setup a b -> same_setup b c -> same_setup a c.
Proof. intros (? & ? & ?) (? & ? & ?). repeat split; congruence. Qed.

Lemma same_setup_set_db (c : kr_cache DB) (d : DB) (ev : list cdb_event) :
  same_setup c (set_db c d ev).
Proof. by repeat split. Qed.

Lemma same_setup_read (c : kr_cache DB) (k : list Z) :
  same_setup c (snd (cache_op_read c k)).
Proof. unfold cache_op_read. destruct (cdb_read _ _ _). apply same_setup_set_db. Qed.

Lemma same_setup_count (c : kr_cache DB) : same_setup c (snd (cache_op_count c)).
Proof. apply same_setup_set_db. Qed.

Lemma same_setup_write (c : kr_cache DB) (k v : list Z) :
  same_setup c (snd (cache_op_write c k v)).
Proof. unfold cache_op_write. destruct (cdb_write _ _ _ _ _). apply same_setup_set_db. Qed.

Lemma same_setup_clear (c : kr_cache DB) : same_setup c (snd (cache_clear c)).
Proof.
  unfold cache_clear, cache_op_clear. cbv zeta.
  destruct (cdb_clear _ _). by repeat split.
Qed.

Lemma same_setup_sync (c : kr_cache DB) : same_setup c (snd (kr_cache_sync c)).
Proof.
  unfold kr_cache_sync. destruct (cdb_sync (api c)) as [sync|]; [|apply same_setup_refl].
  destruct (sync (db c)). apply same_setup_set_db.
Qed.

(** The version check leaves the backend vtable and the TTL bounds of the
    cache alone, whatever the backend does. *)
Lemma assert_right_version_setup (c : kr_cache DB) :
  same_setup c (snd (assert_right_version c)).
Proof.
  unfold assert_right_version.
  pose proof (same_setup_read c version_key) as H1.
  destruct (cache_op_read c version_key) as [[ret val] c1]. cbn [snd] in H1.
  assert (H2 : forall (r : Z) (c2 : kr_cache DB), same_setup c c2 ->
            same_setup c (snd (let '(_, c3) := kr_cache_sync c2 in (r, c3)))).
  { intros r c2 Hc2. pose proof (same_setup_sync c2) as Hs.
    destruct (kr_cache_sync c2) as [? c3]. by apply (same_setup_trans c c2 c3). }
  destruct (_ && _); [by apply H2|].
  pose proof (same_setup_count c1) as H3.
  destruct (cache_op_count c1) as [ret2 c2]. cbn [snd] in H3.
  assert (H12 : same_setup c c2) by (by apply (same_setup_trans c c1 c2)).
  destruct (negb (ret2 =? 0)).
  - pose proof (same_setup_clear c2) as H4.
    destruct (cache_clear c2) as [ret3 c3]. cbn [snd] in H4.
    assert (H13 : same_setup c c3) by (by apply (same_setup_trans c c2 c3)).
    destruct (ret3 =? 0); [|by apply H2].
    pose proof (same_setup_write c3 version_key (host_bytes 2 CACHE_VERSION)) as H5.
    destruct (cache_op_write c3 _ _) as [ret4 c4]. cbn [snd] in H5.
    apply H2. by apply (same_setup_trans c c3 c4).
  - destruct (ret2 =? 0); [|by apply H2].
    pose proof (same_setup_write c2 version_key (host_bytes 2 CACHE_VERSION)) as H5.
    destruct (cache_op_write c2 _ _) as [ret4 c4]. cbn [snd] in H5.
    apply H2. by apply (same_setup_trans c c2 c4).
Qed.

End SetupFacts.

Section Reopen.
Context {H : host} {R : kr_rank_enc}.

(** What [kr_cache_open] over the map backend gives: the vtable, the
    default TTL bounds and the version entry. *)
Lemma kr_cache_open_map (d : store) :
  exists c, kr_cache_open cdb_map d = (0, Some c)
    /\ api c = cdb_map /\ ttl_min c = 5 /\ ttl_max c = 518400
    /\ db c !! version_key = Some version_val
    /\ (d !! version_key = Some version_val -> db c = d).
Proof.
  unfold kr_cache_open. cbn [cdb_open cdb_map Z.eqb negb].
  set (c0 := {| db := d |}).
  pose proof (assert_right_version_setup c0) as (Hapi & Hmin & Hmax).
  destruct (decide (d !! version_key = Some version_val)) as [Hv|Hv].
  - destruct (assert_right_version_match c0 eq_refl Hv) as (c' & E & Hdb & _).
    rewrite E in Hapi, Hmin, Hmax |- *. cbn [snd] in Hapi, Hmin, Hmax.
    exists c'. rewrite Hdb. by repeat split.
  - destruct (assert_right_version_mismatch c0 eq_refl Hv)
      as (c' & E & Hdb & _).
    rewrite E in Hapi, Hmin, Hmax |- *. cbn [snd] in Hapi, Hmin, Hmax.
    exists c'. rewrite Hdb. by repeat split.
Qed.

(** The key of a record differs from the key of the version. *)
Lemma exact_key_not_version (name : knot_dname_t) (type : Z) :
  exact_key name type <> version_key.
Proof.
  unfold exact_key.
  pose proof (kr_dname_lf_spec_buf name false) as Hbuf.
  destruct (kr_dname_lf_spec (buf k_storage) name false) as [ret b] eqn:E.
  cbn [fst snd] in Hbuf.
  destruct (Z.eq_dec ret 0) as [->|Hret].
  - destruct (Hbuf eq_refl) as [H0 H5].
    by apply key_exact_type_maypkt_not_version.
  - unfold kr_dname_lf_spec in E.
    destruct (_ >? _); [|injection E as <-; done].
    injection E as _ <-.
    apply key_exact_type_maypkt_not_version; by vm_compute.
Qed.

(** A restart keeps the cache.  A cacheable record set is inserted into a
    cache that was opened over the map backend and holds nothing under its
    key.  When the store is opened again, nothing is purged: the store
    after the second open is the store the insert left, and
    [kr_cache_peek_exact] for the owner and the type finds the entry with
    the time, the rank and the clamped TTL of the insert. *)
Theorem kr_cache_reopen_keeps (keep_old : entry_h -> Z -> Z -> bool)
    (other : cache_impl store) (d : store) (c0 : kr_cache store)
    (rr : knot_rrset_t) (rr_sigs : option knot_rrset_t) (now rank : Z)
    (ls : list (list Z)) (peek : kr_cache_p) :
  kr_cache_open cdb_map d = (0, Some c0) ->
  db c0 !! exact_key (owner rr) (rr_type rr) = None ->
  owner rr = dname_of_labels ls -> wf_labels ls ->
  check_dname_for_lf (owner rr) = true -> rclass rr = KNOT_CLASS_IN ->
  check_rrtype (rr_type rr) = true ->
  rr_type rr <> KNOT_RRTYPE_NSEC -> rr_type rr <> KNOT_RRTYPE_NSEC3 ->
  storable (rrs rr) ->
  match rr_sigs with Some s => storable (rrs s) | None => True end ->
  not_wildcard rr rr_sigs ->
  0 <= rank < 2 ^ 8 -> kr_rank_test rank KR_RANK_BOGUS = false ->
  exists (c1 c2 c3 : kr_cache store) (p : kr_cache_p),
    @kr_cache_insert_rr _ H R (spec_impl keep_old other) c0 (Some rr) rr_sigs rank now
    = (kr_ok, c1)
    /\ kr_cache_open cdb_map (db c1) = (0, Some c2)
    /\ db c2 = db c1
    /\ @kr_cache_peek_exact _ H R (spec_impl keep_old other) c2 (owner rr) (rr_type rr)
         peek
       = (kr_ok, p, c3)
    /\ p_time p = Int.u32 now /\ p_rank p = rank
    /\ p_ttl p = Z.max (Z.min (rrset_ttl rr rr_sigs) 518400) 5.
Proof.
  intros Eopen Hk Ho Hwf Hlf Hcl Hty Hns Hn3 Hsr Hss Hw Hrank Hbog.
  destruct (kr_cache_open_map d) as (c0' & E0 & Ha & Hmin & Hmax & Hv & _).
  rewrite Eopen in E0. injection E0 as <-.
  pose proof (kr_cache_insert_rr_fresh keep_old other c0 rr rr_sigs now rank ls
                Ha Ho Hwf Hlf Hcl Hty Hns Hn3 Hw Hk) as E1.
  set (c1 := stashed c0 rr rr_sigs now rank) in *.
  assert (Hv1 : db c1 !! version_key = Some version_val).
  { unfold c1, stashed. cbn [db]. rewrite lookup_insert_ne; [done|].
    apply exact_key_not_version. }
  destruct (kr_cache_open_map (db c1)) as (c2 & E2 & Ha2 & _ & _ & _ & Hdb2).
  specialize (Hdb2 Hv1).
  set (ttl := clamp_ttl c0 (rrset_ttl rr rr_sigs)).
  assert (Httl : 0 <= ttl < 2 ^ 31) by (unfold ttl, clamp_ttl; lia).
  eexists c1, c2, _, _. split; [exact E1|]. split; [exact E2|]. split; [exact Hdb2|].
  split.
  { unfold kr_cache_peek_exact.
    apply (peek_exact_real_entry keep_old other c2 rr rr_sigs (Int.u32 now) ttl rank ls);
      try done.
    - rewrite Hdb2. unfold c1, stashed. cbn [db]. rewrite lookup_insert_eq.
      by rewrite (u8_id rank).
    - apply u32_range.
    - unfold Int.in_u32. lia. }
  cbn [p_time p_rank p_ttl]. repeat split.
  unfold ttl, clamp_ttl. by rewrite Hmin, Hmax.
Qed.

End Reopen.

Lemma kr_cache_reopen_keeps_witness :
  exists (c0 c1 c2 c3 : kr_cache store) (p : kr_cache_p),
    @kr_cache_open _ little_endian_host cdb_map ∅ = (0, Some c0)
    /\ @kr_cache_insert_rr _ little_endian_host spec_ranks ex_impl c0
         (Some (ex_rrset 1 300 [192; 0; 2; 1])) None 5 100 = (kr_ok, c1)
    /\ @kr_cache_open _ little_endian_host cdb_map (db c1) = (0, Some c2)
    /\ @kr_cache_peek_exact _ little_endian_host spec_ranks ex_impl c2 ex_name 1
         {| p_time := 0; p_ttl := 0; p_rank := 0; raw := [] |} = (kr_ok, p, c3)
    /\ p_ttl p = 300.
Proof.
  assert (Hns : rr_type (ex_rrset 1 300 [192; 0; 2; 1]) <> KNOT_RRTYPE_NSEC)
    by discriminate.
  assert (Hn3 : rr_type (ex_rrset 1 300 [192; 0; 2; 1]) <> KNOT_RRTYPE_NSEC3)
    by discriminate.
  assert (Hst : storable (rrs (ex_rrset 1 300 [192; 0; 2; 1])))
    by (apply storable_ex; vm_compute; reflexivity).
  assert (Hrank : 0 <= 5 < 2 ^ 8) by lia.
  destruct (@kr_cache_open_map little_endian_host ∅) as (c0 & E0 & _).
  assert (Hk : db c0 !! @exact_key little_endian_host
                 (owner (ex_rrset 1 300 [192; 0; 2; 1]))
                 (rr_type (ex_rrset 1 300 [192; 0; 2; 1])) = None).
  { vm_compute in E0. injection E0 as <-. by vm_compute. }
  destruct (@kr_cache_reopen_keeps little_endian_host spec_ranks (fun _ _ _ => false)
              null_impl ∅ c0 (ex_rrset 1 300 [192; 0; 2; 1]) None 100 5
              [[101; 120; 97; 109; 112; 108; 101]; [99; 111; 109]]
              {| p_time := 0; p_ttl := 0; p_rank := 0; raw := [] |}
              E0 Hk eq_refl
              wf_labels_ex_name eq_refl eq_refl eq_refl Hns Hn3 Hst I I Hrank eq_refl)
    as (c1 & c2 & c3 & p & E1 & E2 & _ & E3 & _ & _ & Hl).
  exists c0, c1, c2, c3, p.
  exact (conj E0 (conj E1 (conj E2 (conj E3 Hl)))).
Defined.

(** ** The answer from an entry, its TTL and the flags of the query *)

Section PeekServed.
Context {H : host} {R : kr_rank_enc}.

(** [found_exact_hit] on the entry of a record set of a rank at or above
    the floor, for whatever non-negative TTL [get_new_ttl] gives. *)
Lemma found_exact_hit_at (keep_old : entry_h -> Z -> Z -> bool)
    (other : cache_impl store) (ctx : kr_layer_t store) (pkt : knot_pkt_t)
    (qry : kr_query) (rr : knot_rrset_t) (rr_sigs : option knot_rrset_t)
    (time ttl rank lowest_rank new_ttl : Z) :
  sname qry = owner rr -> stype qry = rr_type rr ->
  rclass rr = KNOT_CLASS_IN ->
  storable (rrs rr) ->
  match rr_sigs with Some s => storable (rrs s) | None => True end ->
  Int.in_u32 time -> Int.in_u32 ttl ->
  kr_rank_test rank KR_RANK_BOGUS = false ->
  lowest_rank <= rank ->
  get_new_ttl
    (entry_h_view (entry_bytes time ttl rank (presence_flags (rr_type rr))
                     (rr_payload rr rr_sigs)))
    (Some qry) (Some (sname qry)) (stype qry) (timestamp qry) = new_ttl ->
  0 <= new_ttl < 2 ^ 31 ->
  @found_exact_hit _ H R (spec_impl keep_old other) ctx qry pkt
    (entry_bytes time ttl rank (presence_flags (rr_type rr)) (rr_payload rr rr_sigs))
    lowest_rank
  = (0, set_flags qry (served_flags (flags qry) rank (is_expiring_spec ttl new_ttl)),
     answer_pkt rr (default [] (rrs <$> rr_sigs)) new_ttl).
Proof.
  intros Hn Ht Hcl Hsr Hss Htime Httl Hbog Hrank Hget Hnew.
  assert (Hss' : match rrs <$> rr_sigs with Some s => storable s | None => True end)
    by (by destruct rr_sigs).
  unfold found_exact_hit. cbn [entry_h_seek spec_impl].
  unfold rr_payload in *. rewrite Ht in *.
  rewrite (entry_h_seek_spec_single time ttl rank (rr_type rr) (rrs rr) (rrs <$> rr_sigs))
    by done.
  change (0 =? 0) with true. cbn [negb].
  rewrite entry_h_consistent_bytes by done.
  rewrite Hget.
  rewrite entry_h_view_bytes by done. cbn [eh_ttl eh_time eh_rank is_packet].
  destruct (Z.ltb_spec new_ttl 0); [lia|].
  destruct (Z.ltb_spec rank lowest_rank); [lia|]. cbn [orb].
  destruct (presence_flags_bits (rr_type rr)) as (-> & _).
  unfold answer_simple_hit.
  cbn [pkt_renew entry2answer pkt_append is_expiring spec_impl].
  unfold pkt_renew_spec. change (0 <? 0) with false. cbv iota.
  unfold entry2answer_spec. rewrite entry_h_view_bytes by done.
  cbn [eh_data eh_rank eh_ttl].
  assert (Hu : Int.u32 new_ttl = new_ttl) by (apply u32_id; unfold Int.in_u32; lia).
  rewrite Hu.
  destruct (payload_materialize (rrs rr) (rrs <$> rr_sigs) new_ttl Hsr Hss') as [-> ->].
  change (0 <? 0) with false. cbv iota.
  unfold pkt_append_spec, slot, answer_zero, answer_pkt, served_flags. cbn.
  rewrite Hn, Ht, Hcl. reflexivity.
Qed.

(** [cache_peek] for the name and the type of an entry that holds a record
    set of a rank at or above the floor, for whatever non-negative TTL
    [get_new_ttl] gives: the answer, the query and the store it leaves. *)
Lemma cache_peek_at (keep_old : entry_h -> Z -> Z -> bool) (other : cache_impl store)
    (ctx : kr_layer_t store) (pkt : knot_pkt_t) (qry : kr_query)
    (rr : knot_rrset_t) (rr_sigs : option knot_rrset_t) (time ttl rank new_ttl : Z)
    (ls : list (list Z)) :
  current_query (ctx_req ctx) = Some qry ->
  api (ctx_cache (req_ctx (ctx_req ctx))) = cdb_map ->
  db (ctx_cache (req_ctx (ctx_req ctx))) !! exact_key (owner rr) (rr_type rr)
  = Some (entry_bytes time ttl rank (presence_flags (rr_type rr)) (rr_payload rr rr_sigs)) ->
  sname qry = owner rr -> stype qry = rr_type rr -> sclass qry = KNOT_CLASS_IN ->
  Z.land (state ctx) (Z.lor KR_STATE_FAIL KR_STATE_DONE) = 0 ->
  NO_CACHE (flags qry) = false ->
  CACHE_TRIED (flags qry) && negb (bool_decide (is_Some (stale_cb qry))) = false ->
  owner rr = dname_of_labels ls -> wf_labels ls ->
  check_dname_for_lf (owner rr) = true -> rclass rr = KNOT_CLASS_IN ->
  check_rrtype (rr_type rr) = true -> rr_type rr <> KNOT_RRTYPE_NSEC ->
  storable (rrs rr) ->
  match rr_sigs with Some s => storable (rrs s) | None => True end ->
  Int.in_u32 time -> Int.in_u32 ttl ->
  kr_rank_test rank KR_RANK_BOGUS = false ->
  @get_lowest_rank _ R (spec_impl keep_old other) (ctx_req ctx) qry <= rank ->
  get_new_ttl
    (entry_h_view (entry_bytes time ttl rank (presence_flags (rr_type rr))
                     (rr_payload rr rr_sigs)))
    (Some qry) (Some (sname qry)) (stype qry) (timestamp qry) = new_ttl ->
  0 <= new_ttl < 2 ^ 31 ->
  exists ctx',
    @cache_peek _ H R (spec_impl keep_old other) ctx pkt
    = (KR_STATE_DONE, ctx', answer_pkt rr (default [] (rrs <$> rr_sigs)) new_ttl)
    /\ current_query (ctx_req ctx')
       = Some (set_flags qry
                 (served_flags (flags (set_CACHE_TRIED qry)) rank
                    (is_expiring_spec ttl new_ttl)))
    /\ db (ctx_cache (req_ctx (ctx_req ctx'))) = db (ctx_cache (req_ctx (ctx_req ctx)))
    /\ state ctx' = state ctx.
Proof.
  intros Hq Ha Hdb Hn Ht Hc Hst Hnc Htr Ho Hwf Hlf Hcl Hty Hns Hsr Hss Htime Httl
    Hbog Hrank Hget Hnew.
  unfold cache_peek. rewrite Hq, Hst, Hnc, Htr, Hc, Ht, Hty.
  change (0 =? 0) with true. change (KNOT_CLASS_IN =? KNOT_CLASS_IN) with true.
  cbn [negb orb andb].
  unfold cache_peek_real.
  cbn [stype sname timestamp set_CACHE_TRIED set_flags].
  rewrite Ht, Hn, Hlf.
  destruct (Z.eqb_spec (rr_type rr) KNOT_RRTYPE_NSEC) as [|_]; [done|].
  cbn [negb kr_dname_lf spec_impl].
  pose proof Hdb as Hdb'. unfold exact_key in Hdb'.
  rewrite Ho in Hdb' |- *. rewrite kr_dname_lf_spec_labels in Hdb' |- * by done.
  change (0 =? 0) with true. cbn [negb].
  destruct (key_exact_type_maypkt _ (rr_type rr)) as [key k] eqn:Ekey.
  cbn [fst] in Hdb'.
  unfold cache_op_read. rewrite Ha. cbn [cdb_read cdb_map]. rewrite Hdb'.
  change (0 =? 0) with true. cbv iota.
  rewrite get_lowest_rank_tried.
  pose proof (found_exact_hit_at keep_old other ctx pkt (set_CACHE_TRIED qry) rr
                rr_sigs time ttl rank
                (@get_lowest_rank _ R (spec_impl keep_old other) (ctx_req ctx) qry)
                new_ttl) as Ehit.
  cbn [timestamp sname stype set_CACHE_TRIED set_flags] in Ehit.
  fold (set_CACHE_TRIED qry) in Ehit. rewrite Ehit by done.
  change (0 =? 0) with true. cbn [negb andb].
  unfold kr_cache_sync, set_db. rewrite Ha. cbn [api cdb_sync cdb_map db].
  eexists. split; [reflexivity|]. cbn. done.
Qed.

End PeekServed.
(** With a stale callback that accepts, [get_new_ttl] of an expired entry
    is the value of the callback. *)
Lemma get_new_ttl_stale entry qry owner type now cb :
  Int.in_u32 (eh_time entry) -> 0 <= eh_ttl entry < 2 ^ 31 ->
  - 2 ^ 31 <= Int.u32 now - eh_time entry < 2 ^ 31 ->
  eh_ttl entry - Z.max 0 (Int.u32 now - eh_time entry) < 0 ->
  stale_cb qry = Some cb ->
  0 <= cb (eh_ttl entry - Z.max 0 (Int.u32 now - eh_time entry)) owner type ->
  get_new_ttl entry (Some qry) (Some owner) type now
  = cb (eh_ttl entry - Z.max 0 (Int.u32 now - eh_time entry)) owner type.
Proof.
  intros Ht Hl Hd Hneg Hcb Hv. rewrite get_new_ttl_u32.
  unfold get_new_ttl. cbv zeta.
  rewrite (get_new_ttl_res entry (Int.u32 now) (u32_range now) Ht Hl Hd).
  rewrite Hcb.
  destruct (Z.ltb_spec (eh_ttl entry - Z.max 0 (Int.u32 now - eh_time entry)) 0); [|lia].
  by destruct (Z.geb_spec
                 (cb (eh_ttl entry - Z.max 0 (Int.u32 now - eh_time entry)) owner type) 0);
    [|lia].
Qed.

Section PeekStale.
Context {H : host} {R : kr_rank_enc}.

(** Serving stale.  The store holds, under the key of the name and type
    asked, the entry of a record set whose TTL has run out, and the query
    carries a stale callback that answers a non-negative value [v] for it.
    Then [cache_peek] answers with the record set (and its signatures),
    every record with the TTL [v], and returns [KR_STATE_DONE]; this also
    holds for a query that was already marked CACHE_TRIED. *)
Theorem cache_peek_serves_stale (keep_old : entry_h -> Z -> Z -> bool)
    (other : cache_impl store) (ctx : kr_layer_t store) (pkt : knot_pkt_t)
    (qry : kr_query) (rr : knot_rrset_t) (rr_sigs : option knot_rrset_t)
    (time ttl rank v : Z) (ls : list (list Z)) (cb : Z -> knot_dname_t -> Z -> Z) :
  current_query (ctx_req ctx) = Some qry ->
  api (ctx_cache (req_ctx (ctx_req ctx))) = cdb_map ->
  db (ctx_cache (req_ctx (ctx_req ctx))) !! exact_key (owner rr) (rr_type rr)
  = Some (entry_bytes time ttl rank (presence_flags (rr_type rr)) (rr_payload rr rr_sigs)) ->
  sname qry = owner rr -> stype qry = rr_type rr -> sclass qry = KNOT_CLASS_IN ->
  Z.land (state ctx) (Z.lor KR_STATE_FAIL KR_STATE_DONE) = 0 ->
  NO_CACHE (flags qry) = false ->
  owner rr = dname_of_labels ls -> wf_labels ls ->
  check_dname_for_lf (owner rr) = true -> rclass rr = KNOT_CLASS_IN ->
  check_rrtype (rr_type rr) = true -> rr_type rr <> KNOT_RRTYPE_NSEC ->
  storable (rrs rr) ->
  match rr_sigs with Some s => storable (rrs s) | None => True end ->
  Int.in_u32 time -> 0 <= ttl < 2 ^ 31 ->
  kr_rank_test rank KR_RANK_BOGUS = false ->
  @get_lowest_rank _ R (spec_impl keep_old other) (ctx_req ctx) qry <= rank ->
  - 2 ^ 31 <= Int.u32 (timestamp qry) - time < 2 ^ 31 ->
  ttl - Z.max 0 (Int.u32 (timestamp qry) - time) < 0 ->
  stale_cb qry = Some cb ->
  cb (ttl - Z.max 0 (Int.u32 (timestamp qry) - time)) (sname qry) (stype qry) = v ->
  0 <= v < 2 ^ 31 ->
  exists ctx',
    @cache_peek _ H R (spec_impl keep_old other) ctx pkt
    = (KR_STATE_DONE, ctx', answer_pkt rr (default [] (rrs <$> rr_sigs)) v).
Proof.
  intros Hq Ha Hdb Hn Ht Hc Hst Hnc Ho Hwf Hlf Hcl Hty Hns Hsr Hss Htime Httl
    Hbog Hrank Hd Hexp Hcb Hv Hvr.
  assert (Httl' : Int.in_u32 ttl) by (unfold Int.in_u32; lia).
  destruct (cache_peek_at keep_old other ctx pkt qry rr rr_sigs time ttl rank v ls)
    as (ctx' & E & _); try done.
  - rewrite Hcb. by rewrite andb_false_r.
  - rewrite get_new_ttl_stale with (cb := cb);
      rewrite ?entry_h_view_bytes by done; cbn [eh_time eh_ttl]; try done.
    rewrite Hv. lia.
  - by exists ctx'.
Qed.

(** An answer from the cache is not stashed again.  When [cache_peek]
    answers from the entry of a record set (fresh, of a rank at or above
    the floor), the query it leaves behind is marked CACHE_TRIED, CACHED
    and NO_MINIMIZE, its DNSSEC_INSECURE flag says whether the rank of the
    entry is INSECURE, and DNSSEC_WANT is off when it is; the store is as
    before.  A [cache_stash] that follows, whatever the packet, returns at
    once: the state and the context are untouched. *)
Theorem cache_peek_then_stash (keep_old : entry_h -> Z -> Z -> bool)
    (other : cache_impl store) (ctx : kr_layer_t store) (pkt : knot_pkt_t)
    (qry : kr_query) (rr : knot_rrset_t) (rr_sigs : option knot_rrset_t)
    (time ttl rank : Z) (ls : list (list Z)) :
  current_query (ctx_req ctx) = Some qry ->
  api (ctx_cache (req_ctx (ctx_req ctx))) = cdb_map ->
  db (ctx_cache (req_ctx (ctx_req ctx))) !! exact_key (owner rr) (rr_type rr)
  = Some (entry_bytes time ttl rank (presence_flags (rr_type rr)) (rr_payload rr rr_sigs)) ->
  sname qry = owner rr -> stype qry = rr_type rr -> sclass qry = KNOT_CLASS_IN ->
  Z.land (state ctx) (Z.lor KR_STATE_FAIL KR_STATE_DONE) = 0 ->
  NO_CACHE (flags qry) = false -> CACHE_TRIED (flags qry) = false ->
  owner rr = dname_of_labels ls -> wf_labels ls ->
  check_dname_for_lf (owner rr) = true -> rclass rr = KNOT_CLASS_IN ->
  check_rrtype (rr_type rr) = true -> rr_type rr <> KNOT_RRTYPE_NSEC ->
  storable (rrs rr) ->
  match rr_sigs with Some s => storable (rrs s) | None => True end ->
  Int.in_u32 time -> 0 <= ttl < 2 ^ 31 ->
  kr_rank_test rank KR_RANK_BOGUS = false ->
  @get_lowest_rank _ R (spec_impl keep_old other) (ctx_req ctx) qry <= rank ->
  - 2 ^ 31 <= Int.u32 (timestamp qry) - time < 2 ^ 31 ->
  Z.max 0 (Int.u32 (timestamp qry) - time) <= ttl ->
  exists (ctx' : kr_layer_t store) (pkt' : knot_pkt_t) (qry' : kr_query),
    @cache_peek _ H R (spec_impl keep_old other) ctx pkt = (KR_STATE_DONE, ctx', pkt')
    /\ current_query (ctx_req ctx') = Some qry'
    /\ CACHE_TRIED (flags qry') = true /\ CACHED (flags qry') = true
    /\ NO_MINIMIZE (flags qry') = true
    /\ DNSSEC_INSECURE (flags qry') = kr_rank_test rank KR_RANK_INSECURE
    /\ (kr_rank_test rank KR_RANK_INSECURE = true -> DNSSEC_WANT (flags qry') = false)
    /\ db (ctx_cache (req_ctx (ctx_req ctx'))) = db (ctx_cache (req_ctx (ctx_req ctx)))
    /\ (forall pkt2 : knot_pkt_t,
          @cache_stash _ H R (spec_impl keep_old other) ctx' pkt2 = (state ctx, ctx')).
Proof.
  intros Hq Ha Hdb Hn Ht Hc Hst Hnc Htr Ho Hwf Hlf Hcl Hty Hns Hsr Hss Htime Httl
    Hbog Hrank Hd Hfresh.
  assert (Httl' : Int.in_u32 ttl) by (unfold Int.in_u32; lia).
  destruct (cache_peek_at keep_old other ctx pkt qry rr rr_sigs time ttl rank
              (ttl - Z.max 0 (Int.u32 (timestamp qry) - time)) ls)
    as (ctx' & E & Hq' & Hdb' & Hst'); try done.
  - by rewrite Htr.
  - rewrite get_new_ttl_fresh; rewrite ?entry_h_view_bytes by done;
      cbn [eh_time eh_ttl]; done.
  - lia.
  - eexists ctx', _, _. split; [exact E|]. split; [exact Hq'|].
    cbn [flags set_flags served_flags CACHE_TRIED CACHED NO_MINIMIZE DNSSEC_INSECURE
         DNSSEC_WANT set_CACHE_TRIED].
    repeat split; try done.
    + by intros ->.
    + intros pkt2. unfold cache_stash. rewrite Hq'.
      cbn [flags set_flags served_flags CACHED orb]. by rewrite Hst'.
Qed.

End PeekStale.
Lemma ex_cache_a_entry :
  db ex_cache_a !! @exact_key little_endian_host ex_name 1
  = Some (entry_bytes 100 300 5 (presence_flags 1)
            (@rr_payload little_endian_host (ex_rrset 1 300 [192; 0; 2; 1]) None)).
Proof. by vm_compute. Qed.

Lemma cache_peek_serves_stale_witness :
  exists ctx',
    @cache_peek _ little_endian_host spec_ranks ex_impl
      (ex_ctx ex_cache_a (ex_query_stale 1 1000)) ex_pkt
    = (KR_STATE_DONE, ctx', answer_pkt (ex_rrset 1 300 [192; 0; 2; 1]) [] 30).
Proof.
  assert (Hns : rr_type (ex_rrset 1 300 [192; 0; 2; 1]) <> KNOT_RRTYPE_NSEC)
    by discriminate.
  assert (Hst : storable (rrs (ex_rrset 1 300 [192; 0; 2; 1])))
    by (apply storable_ex; vm_compute; reflexivity).
  assert (Htime : Int.in_u32 100) by (unfold Int.in_u32; lia).
  assert (Httl : 0 <= 300 < 2 ^ 31) by lia.
  assert (Hfloor : @get_lowest_rank _ spec_ranks ex_impl
                     (ctx_req (ex_ctx ex_cache_a (ex_query_stale 1 1000)))
                     (ex_query_stale 1 1000) <= 5)
    by (vm_compute; discriminate).
  assert (Hd : - 2 ^ 31 <= Int.u32 (timestamp (ex_query_stale 1 1000)) - 100 < 2 ^ 31)
    by (vm_compute; split; [discriminate|reflexivity]).
  assert (Hexp : 300 - Z.max 0 (Int.u32 (timestamp (ex_query_stale 1 1000)) - 100) < 0)
    by (vm_compute; reflexivity).
  assert (Hv : 0 <= 30 < 2 ^ 31) by lia.
  exact (@cache_peek_serves_stale little_endian_host spec_ranks (fun _ _ _ => false)
           null_impl (ex_ctx ex_cache_a (ex_query_stale 1 1000)) ex_pkt
           (ex_query_stale 1 1000) (ex_rrset 1 300 [192; 0; 2; 1]) None 100 300 5 30
           [[101; 120; 97; 109; 112; 108; 101]; [99; 111; 109]] (fun _ _ _ => 30)
           eq_refl eq_refl ex_cache_a_entry eq_refl eq_refl eq_refl eq_refl eq_refl
           eq_refl wf_labels_ex_name eq_refl eq_refl eq_refl Hns Hst I Htime Httl
           eq_refl Hfloor Hd Hexp eq_refl eq_refl Hv).
Defined.

Lemma cache_peek_then_stash_witness :
  exists (ctx' : kr_layer_t store) (pkt' : knot_pkt_t),
    @cache_peek _ little_endian_host spec_ranks ex_impl
      (ex_ctx ex_cache_a (ex_query 1 150)) ex_pkt
    = (KR_STATE_DONE, ctx', pkt')
    /\ @cache_stash _ little_endian_host spec_ranks ex_impl ctx' pkt'
       = (KR_STATE_PRODUCE, ctx').
Proof.
  assert (Hns : rr_type (ex_rrset 1 300 [192; 0; 2; 1]) <> KNOT_RRTYPE_NSEC)
    by discriminate.
  assert (Hst : storable (rrs (ex_rrset 1 300 [192; 0; 2; 1])))
    by (apply storable_ex; vm_compute; reflexivity).
  assert (Htime : Int.in_u32 100) by (unfold Int.in_u32; lia).
  assert (Httl : 0 <= 300 < 2 ^ 31) by lia.
  assert (Hfloor : @get_lowest_rank _ spec_ranks ex_impl
                     (ctx_req (ex_ctx ex_cache_a (ex_query 1 150)))
                     (ex_query 1 150) <= 5)
    by (vm_compute; discriminate).
  assert (Hd : - 2 ^ 31 <= Int.u32 (timestamp (ex_query 1 150)) - 100 < 2 ^ 31)
    by (vm_compute; split; [discriminate|reflexivity]).
  assert (Hfresh : Z.max 0 (Int.u32 (timestamp (ex_query 1 150)) - 100) <= 300)
    by (vm_compute; discriminate).
  destruct (@cache_peek_then_stash little_endian_host spec_ranks (fun _ _ _ => false)
              null_impl (ex_ctx ex_cache_a (ex_query 1 150)) ex_pkt
              (ex_query 1 150) (ex_rrset 1 300 [192; 0; 2; 1]) None 100 300 5
              [[101; 120; 97; 109; 112; 108; 101]; [99; 111; 109]]
              eq_refl eq_refl ex_cache_a_entry eq_refl eq_refl eq_refl eq_refl eq_refl
              eq_refl eq_refl wf_labels_ex_name eq_refl eq_refl eq_refl Hns Hst I Htime
              Httl eq_refl Hfloor Hd Hfresh)
    as (ctx' & pkt' & qry' & E & _ & _ & _ & _ & _ & _ & _ & Hstash).
  exists ctx', pkt'. exact (conj E (Hstash pkt')).
Defined.

(** ** An entry that is expired or ranked too low is not served *)



Section KeyBuffer.
Context {H : host}.

Lemma key_exact_type_maypkt_buf_length (k : key) (type : Z) :
  length (buf (snd (key_exact_type_maypkt k type))) = length (buf k).
Proof.
  unfold key_exact_type_maypkt. destruct (type =? KNOT_RRTYPE_RRSIG); [done|].
  cbn [snd set_k_type set_buf buf]. by rewrite poke_all_length, !poke_length.
Qed.


End KeyBuffer.

Section ClosestNSWalk.
Context {DB : Type} {H : host} {R : kr_rank_enc} {I : cache_impl DB}.


End ClosestNSWalk.
Section PeekUnfit.
Context {H : host} {R : kr_rank_enc}.





End PeekUnfit.




(** ** [closest_NS]: the walk towards the root *)

Lemma wf_labels_tail (l : list Z) (ls : list (list Z)) :
  wf_labels (l :: ls) -> wf_labels ls.
Proof.
  intros [Hwf Hlen]. split; [by inversion Hwf|].
  rewrite dname_of_labels_cons, len_app in Hlen. pose proof (len_nonneg (len l :: l)). lia.
Qed.

Lemma lf_of_labels_bound (ls : list (list Z)) :
  wf_labels ls -> 0 <= len (lf_of_labels ls) <= 254.
Proof.
  intros [_ Hlen]. rewrite lf_of_labels_length. pose proof (len_nonneg (lf_of_labels ls)).
  rewrite lf_of_labels_length in *. change KNOT_DNAME_MAXLEN with 255 in Hlen. lia.
Qed.

Section KeyInBuffer.
Context {H : host}.

(** [key_exact_type] for the type NS on a buffer that holds the label
    format [lf] from [buf[1]] on and its length in [buf[0]]. *)
Lemma key_exact_type_NS_in_buffer (k : key) (lf rest : list Z) :
  len lf <= 255 -> length (buf k) = 260%nat ->
  buf k = len lf :: lf ++ rest ->
  exists rest' : list Z,
    key_exact_type k KNOT_RRTYPE_NS
    = (lf ++ [0; 69] ++ host_bytes 2 KNOT_RRTYPE_NS,
       {| zname := zname k; zlf_len := zlf_len k; k_type := KNOT_RRTYPE_NS;
          buf := len lf :: lf ++ rest' |})
    /\ length (len lf :: lf ++ rest') = 260%nat.
Proof.
  intros Hlf Hlen Hbuf.
  assert (HNS : KNOT_RRTYPE_NS <> KNOT_RRTYPE_RRSIG) by discriminate.
  pose proof (len_nonneg lf) as Hnn.
  assert (Hb0 : Bytes.byte_at (buf k) 0 = len lf) by (by rewrite Hbuf).
  unfold key_exact_type. change (KNOT_RRTYPE_NS =? KNOT_RRTYPE_NSEC) with false.
  change (KNOT_RRTYPE_NS =? KNOT_RRTYPE_NSEC3) with false. cbn [orb].
  rewrite (key_exact_type_maypkt_eq k KNOT_RRTYPE_NS)
    by (rewrite ?Hb0; unfold len in *; lia || done).
  rewrite Hb0. change (key_type KNOT_RRTYPE_NS) with KNOT_RRTYPE_NS.
  exists ([0; 69] ++ host_bytes 2 KNOT_RRTYPE_NS
          ++ drop (Z.to_nat (len lf + 5)) (buf k)).
  assert (Ht : take (Z.to_nat (len lf + 1)) (buf k) = len lf :: lf).
  { rewrite Hbuf. change (len lf :: lf ++ rest) with ((len lf :: lf) ++ rest).
    apply take_len_app. rewrite len_cons. lia. }
  assert (Hs : Bytes.slice 1 (len lf) (buf k) = lf).
  { rewrite Hbuf. change (len lf :: lf ++ rest) with ([len lf] ++ lf ++ rest).
    change 1 with (len [len lf]) at 1. apply slice_app_mid. }
  rewrite Ht, Hs. split.
  - do 2 f_equal; simpl; by rewrite <- ?app_assoc.
  - cbn [length]. rewrite !length_app, host_bytes_length, length_drop.
    cbn [length]. unfold len in *. lia.
Qed.

End KeyInBuffer.

Lemma peek_key_at (ls : list (list Z)) :
  wf_labels ls ->
  key_at (peek_key (dname_of_labels ls)) (len (lf_of_labels ls)) ls
  /\ Bytes.byte_at (buf (peek_key (dname_of_labels ls))) 0 = len (lf_of_labels ls).
Proof.
  intros Hwf. unfold peek_key. cbn [set_zname zname buf set_buf].
  rewrite kr_dname_lf_spec_labels by done. cbn [snd].
  pose proof (lf_of_labels_bound ls Hwf) as Hb.
  rewrite poke_all_fresh by (change KNOT_DNAME_MAXLEN with 255; lia).
  split; [|done]. split; [done|]. split; [done|]. split.
  - simpl. rewrite length_app, length_replicate. unfold len in Hb. lia.
  - by eexists _, _.
Qed.

Section ClosestNSSteps.
Context {H : host} {R : kr_rank_enc} {I : cache_impl store}.

(** One round of the loop of [closest_NS] over the map backend when the
    store has nothing under the NS key of the name the walk is at: the
    walk goes on at the parent. *)
Lemma closest_NS_loop_up (fuel : nat) (cache : kr_cache store) (qry : kr_query)
    (k : key) (zl : Z) (em : bool) (trace : list (bool * list Z))
    (l : list Z) (ls : list (list Z)) :
  api cache = cdb_map -> wf_labels (l :: ls) -> key_at k zl (l :: ls) ->
  db cache !! exact_key (dname_of_labels (l :: ls)) KNOT_RRTYPE_NS = None ->
  exists (k' : key) (cache' : kr_cache store),
    closest_NS_loop (S fuel) cache qry k zl em trace
    = closest_NS_loop fuel cache' qry k' (len (lf_of_labels ls)) false
        (trace ++ [(em, [])])
    /\ key_at k' (len (lf_of_labels ls)) ls
    /\ api cache' = cdb_map /\ db cache' = db cache.
Proof.
  intros Ha Hwf (Hz & Hzl & Hlen & b0 & rest & Hbuf) Hnone.
  assert (HNS : KNOT_RRTYPE_NS <> KNOT_RRTYPE_RRSIG) by discriminate.
  pose proof (lf_of_labels_bound _ Hwf) as Hb.
  cbn [closest_NS_loop].
  assert (Hu8 : Int.u8 zl = zl) by (apply u8_id; lia).
  rewrite Hu8.
  set (k0 := set_buf k (Bytes.poke 0 zl (buf k))).
  assert (Hbuf0 : buf k0 = len (lf_of_labels (l :: ls)) :: lf_of_labels (l :: ls) ++ rest).
  { unfold k0. cbn [set_buf buf]. rewrite Hbuf, Hzl. reflexivity. }
  destruct (key_exact_type_NS_in_buffer k0 (lf_of_labels (l :: ls)) rest)
    as (rest1 & Ekey & Hlen1); [lia| |done|].
  { rewrite Hbuf0. rewrite Hbuf in Hlen. exact Hlen. }
  assert (Hz0 : zname k0 = dname_of_labels (l :: ls)) by exact Hz.
  clearbody k0.
  rewrite Ekey.
  rewrite <- (exact_key_bytes (l :: ls) KNOT_RRTYPE_NS Hwf HNS).
  rewrite (cache_op_read_none cache _ Ha Hnone).
  change (- ENOENT =? - Z.abs ENOENT) with true. cbn [fst snd zname].
  rewrite !Hz0, next_label_cons.
  assert (Hbl0 : Bytes.byte_at (dname_of_labels (l :: ls)) 0 = len l)
    by (by rewrite dname_of_labels_cons).
  rewrite Hbl0.
  destruct Hwf as [Hwfl Hwlen]. inversion Hwfl as [|? ? [Hl _] _]; subst.
  destruct (Z.eqb_spec (len l) 0) as [E|_]; [unfold len in E; lia|].
  assert (Hzl' : len (lf_of_labels (l :: ls)) - (len l + 1) = len (lf_of_labels ls)).
  { rewrite lf_of_labels_cons, len_app, len_cons. lia. }
  rewrite Hzl'.
  eexists _, _. split; [reflexivity|].
  split; [|by split].
  split; [done|]. split; [done|]. cbn [set_buf set_zname buf].
  split; [by rewrite poke_length|].
  rewrite lf_of_labels_cons, <- app_assoc.
  exists (len (lf_of_labels ls ++ len l :: l)), ((0 :: l) ++ rest1).
  rewrite poke_as_poke_all.
  change (len (lf_of_labels ls ++ len l :: l)
          :: lf_of_labels ls ++ (len l :: l) ++ rest1)
    with ((len (lf_of_labels ls ++ len l :: l) :: lf_of_labels ls)
          ++ [len l] ++ (l ++ rest1)).
  rewrite poke_all_at; [done| |done].
  rewrite len_cons. lia.
Qed.

End ClosestNSSteps.
Section ClosestNSFound.
Context {H : host} {R : kr_rank_enc}.

(** The scan of an entry that holds one record set, of the type NS or
    CNAME, that is fresh: the sub-entry is looked at and fits, unless the
    step is at the name asked and the type asked is DS (for NS), or the
    step is above the name asked or the rank is below INSECURE|AUTH (for
    CNAME). *)
Lemma closest_NS_types_single (keep_old : entry_h -> Z -> Z -> bool)
    (other : cache_impl store) (em : bool) (qry : kr_query) (zn : knot_dname_t)
    (type time ttl rank : Z) (rds : knot_rdataset_t) (sigs : option knot_rdataset_t) :
  type = KNOT_RRTYPE_NS \/ type = KNOT_RRTYPE_CNAME ->
  storable rds -> match sigs with Some s => storable s | None => True end ->
  Int.in_u32 time -> 0 <= ttl < 2 ^ 31 ->
  kr_rank_test rank KR_RANK_BOGUS = false ->
  - 2 ^ 31 <= Int.u32 (timestamp qry) - time < 2 ^ 31 ->
  Z.max 0 (Int.u32 (timestamp qry) - time) <= ttl ->
  (type = KNOT_RRTYPE_NS -> em && (stype qry =? KNOT_RRTYPE_DS) = false) ->
  (type = KNOT_RRTYPE_CNAME ->
   em = true /\ Z.lor KR_RANK_INSECURE KR_RANK_AUTH <= rank) ->
  let val := entry_bytes time ttl rank (presence_flags type)
               (snd (rdataset_dematerialize_spec (Some rds))
                ++ snd (rdataset_dematerialize_spec sigs)) in
  @closest_NS_types _ H R (spec_impl keep_old other) 3 0 em qry zn
    (entry_h_view val) val []
  = (ScanFound type val, [type]).
Proof.
  intros Hty Hsr Hss Htime Httl Hbog Hd Hfresh HNS HCN val.
  assert (Httl' : Int.in_u32 ttl) by (unfold Int.in_u32; lia).
  assert (Hseek : entry_h_seek_spec val type = (0, val))
    by (by apply entry_h_seek_spec_single).
  assert (Hcons : entry_h_consistent val type = Some (entry_h_view val))
    by (by apply entry_h_consistent_bytes).
  assert (Hview : entry_h_view val
                  = {| eh_time := time; eh_ttl := ttl; eh_rank := rank;
                       is_packet := Z.testbit (presence_flags type) 0;
                       has_optout := Z.testbit (presence_flags type) 1;
                       has_ns := Z.testbit (presence_flags type) 2;
                       has_cname := Z.testbit (presence_flags type) 3;
                       has_dname := Z.testbit (presence_flags type) 4;
                       has_nsec_params := Z.testbit (presence_flags type) 5;
                       eh_data := snd (rdataset_dematerialize_spec (Some rds))
                                  ++ snd (rdataset_dematerialize_spec sigs) |})
    by (by apply entry_h_view_bytes).
  assert (Hnew : forall o, 0 <= get_new_ttl (entry_h_view val) (Some qry) o type
                                  (timestamp qry)).
  { intros o. rewrite get_new_ttl_fresh; rewrite Hview; cbn [eh_time eh_ttl]; try done.
    lia. }
  clearbody val.
  destruct (presence_flags_bits type) as (Hb0 & _ & Hb2 & Hb3 & _).
  destruct Hty as [->| ->].
  - specialize (HNS eq_refl). cbn [closest_NS_types].
    change (0 =? KNOT_RRTYPE_DNAME) with false. change (0 =? 0) with true. cbv iota.
    rewrite Hview at 1. cbn [has_ns]. rewrite Hb2.
    change (KNOT_RRTYPE_NS =? KNOT_RRTYPE_NS) with true. cbn [negb orb]. rewrite HNS.
    cbn [entry_h_seek spec_impl app]. rewrite Hseek.
    change (0 =? 0) with true. cbv iota. rewrite Hcons.
    specialize (Hnew (Some zn)).
    destruct (Z.ltb_spec (get_new_ttl (entry_h_view val) (Some qry) (Some zn)
                            KNOT_RRTYPE_NS (timestamp qry)) 0); [lia|].
    rewrite Hview. cbn [is_packet eh_rank]. rewrite Hb0.
    change (KNOT_RRTYPE_NS =? KNOT_RRTYPE_NS) with true. by cbn.
  - destruct (HCN eq_refl) as [-> Hrank]. cbn [closest_NS_types].
    change (0 =? KNOT_RRTYPE_DNAME) with false. change (0 =? 0) with true. cbv iota.
    rewrite Hview at 1. cbn [has_ns]. rewrite Hb2.
    change (KNOT_RRTYPE_CNAME =? KNOT_RRTYPE_NS) with false. cbn [negb orb].
    change (KNOT_RRTYPE_NS =? KNOT_RRTYPE_DNAME) with false.
    change (KNOT_RRTYPE_NS =? 0) with false.
    change (KNOT_RRTYPE_NS =? KNOT_RRTYPE_NS) with true. cbv iota.
    rewrite Hview at 1. cbn [has_cname]. rewrite Hb3.
    change (KNOT_RRTYPE_CNAME =? KNOT_RRTYPE_NS) with false.
    change (KNOT_RRTYPE_CNAME =? KNOT_RRTYPE_CNAME) with true. cbn [negb orb andb].
    cbn [entry_h_seek spec_impl app]. rewrite Hseek.
    change (0 =? 0) with true. cbv iota. rewrite Hcons.
    specialize (Hnew (Some zn)).
    destruct (Z.ltb_spec (get_new_ttl (entry_h_view val) (Some qry) (Some zn)
                            KNOT_RRTYPE_CNAME (timestamp qry)) 0); [lia|].
    rewrite Hview. cbn [is_packet eh_rank]. rewrite Hb0.
    change (KNOT_RRTYPE_CNAME =? KNOT_RRTYPE_NS) with false.
    destruct (Z.ltb_spec rank (Z.lor KR_RANK_INSECURE KR_RANK_AUTH)); [lia|]. by cbn.
Qed.

(** One round of the loop when the store holds, under the NS key of the
    name the walk is at, an entry in which the scan finds a type. *)
Lemma closest_NS_loop_here (I : cache_impl store) (fuel : nat) (cache : kr_cache store)
    (qry : kr_query) (k : key) (zl : Z) (em : bool) (trace : list (bool * list Z))
    (ls : list (list Z)) (val found : list Z) (type : Z) (ex : list Z) :
  api cache = cdb_map -> wf_labels ls -> key_at k zl ls ->
  db cache !! exact_key (dname_of_labels ls) KNOT_RRTYPE_NS = Some val ->
  entry_h_consistent val KNOT_RRTYPE_NS = Some (entry_h_view val) ->
  @closest_NS_types _ H R I 3 0 em qry (dname_of_labels ls) (entry_h_view val) val []
  = (ScanFound type found, ex) ->
  exists (k' : key) (cache' : kr_cache store),
    @closest_NS_loop _ H R I (S fuel) cache qry k zl em trace
    = Some (Some found, k', cache', trace ++ [(em, ex)])
    /\ k_type k' = type /\ zname k' = dname_of_labels ls /\ zlf_len k' = zl
    /\ api cache' = cdb_map /\ db cache' = db cache.
Proof.
  intros Ha Hwf (Hz & Hzl & Hlen & b0 & rest & Hbuf) Hval Hcons Hscan.
  assert (HNS : KNOT_RRTYPE_NS <> KNOT_RRTYPE_RRSIG) by discriminate.
  pose proof (lf_of_labels_bound _ Hwf) as Hb.
  cbn [closest_NS_loop].
  assert (Hu8 : Int.u8 zl = zl) by (apply u8_id; lia).
  rewrite Hu8.
  set (k0 := set_buf k (Bytes.poke 0 zl (buf k))).
  assert (Hbuf0 : buf k0 = len (lf_of_labels ls) :: lf_of_labels ls ++ rest).
  { unfold k0. cbn [set_buf buf]. rewrite Hbuf, Hzl. reflexivity. }
  destruct (key_exact_type_NS_in_buffer k0 (lf_of_labels ls) rest)
    as (rest1 & Ekey & Hlen1); [lia| |done|].
  { rewrite Hbuf0. rewrite Hbuf in Hlen. exact Hlen. }
  assert (Hz0 : zname k0 = dname_of_labels ls) by exact Hz.
  clearbody k0.
  rewrite Ekey.
  rewrite <- (exact_key_bytes ls KNOT_RRTYPE_NS Hwf HNS).
  unfold cache_op_read. rewrite Ha. cbn [cdb_read cdb_map]. rewrite Hval.
  change (0 =? - Z.abs ENOENT) with false. change (0 =? 0) with true.
  cbn [negb zname]. rewrite Hcons, Hz0, Hscan. cbn [fst snd].
  eexists _, _. split; [reflexivity|].
  cbn [set_zlf_len set_k_type k_type zname zlf_len set_db api db]. by rewrite ?Hz0.
Qed.

End ClosestNSFound.

Section ClosestNSZone.
Context {H : host} {R : kr_rank_enc}.

(** The walk from a name down to the nearest ancestor that has an entry
    under its NS key, when the scan finds a type in that entry. *)
Lemma closest_NS_loop_zone (I : cache_impl store) (qry : kr_query)
    (zone : list (list Z)) (val found : list Z) (type : Z) :
  forall (pre : list (list Z)) (fuel : nat) (cache : kr_cache store) (k : key)
         (zl : Z) (em : bool) (trace : list (bool * list Z)) (ex : list Z),
  api cache = cdb_map -> wf_labels (pre ++ zone) -> key_at k zl (pre ++ zone) ->
  (forall i : nat, (i < length pre)%nat ->
     db cache !! exact_key (dname_of_labels (drop i (pre ++ zone))) KNOT_RRTYPE_NS
     = None) ->
  db cache !! exact_key (dname_of_labels zone) KNOT_RRTYPE_NS = Some val ->
  entry_h_consistent val KNOT_RRTYPE_NS = Some (entry_h_view val) ->
  @closest_NS_types _ H R I 3 0 (em && bool_decide (pre = [])) qry
    (dname_of_labels zone) (entry_h_view val) val []
  = (ScanFound type found, ex) ->
  (length pre < fuel)%nat ->
  exists (k' : key) (cache' : kr_cache store) (tr : list (bool * list Z)),
    @closest_NS_loop _ H R I fuel cache qry k zl em trace
    = Some (Some found, k', cache', trace ++ tr)
    /\ length tr = S (length pre)
    /\ k_type k' = type /\ zname k' = dname_of_labels zone
    /\ zlf_len k' = len (lf_of_labels zone)
    /\ api cache' = cdb_map /\ db cache' = db cache.
Proof.
  induction pre as [|l pre IH];
    intros fuel cache k zl em trace ex Ha Hwf Hk Hmiss Hval Hcons Hscan Hf;
    (destruct fuel as [|fuel]; [simpl in Hf; lia|]).
  - rewrite andb_true_r in Hscan. cbn [app] in Hwf, Hk.
    destruct (closest_NS_loop_here I fuel cache qry k zl em trace zone val found
                type ex Ha Hwf Hk Hval Hcons Hscan)
      as (k' & c' & E & Hty & Hz & Hzl & Ha' & Hdb).
    exists k', c', [(em, ex)]. rewrite E.
    destruct Hk as (_ & Hzl0 & _). by rewrite Hzl, Hzl0.
  - cbn [app] in Hwf, Hk.
    destruct (@closest_NS_loop_up H R I fuel cache qry k zl em trace l (pre ++ zone)
                Ha Hwf Hk (Hmiss 0%nat ltac:(simpl; lia)))
      as (k1 & c1 & E & Hk1 & Ha1 & Hdb1).
    rewrite andb_false_r in Hscan.
    destruct (IH fuel c1 k1 (len (lf_of_labels (pre ++ zone))) false
                (trace ++ [(em, [])]) ex Ha1 (wf_labels_tail _ _ Hwf) Hk1)
      as (k' & c' & tr & E' & Hlen & Hty & Hz & Hzl & Ha' & Hdb').
    + intros i Hi. rewrite Hdb1. apply (Hmiss (S i)). simpl. lia.
    + by rewrite Hdb1.
    + done.
    + done.
    + simpl in Hf. lia.
    + exists k', c', ((em, []) :: tr). cbn [app]. rewrite E, E', <- app_assoc.
      cbn [length]. rewrite Hlen, Hdb'. done.
Qed.

(** [closest_NS] finds the zone cut: when the store of the map backend has
    a fresh NS set that is not bogus under the name [zone], an ancestor of
    the name asked or the name itself, and nothing under the NS key of the
    names between, the entry of [zone] is the value found and the key is
    left at [zone] with the type NS.  At the name asked itself this needs a
    query for another type than DS. *)
Theorem closest_NS_zone_cut (keep_old : entry_h -> Z -> Z -> bool)
    (other : cache_impl store) (cache : kr_cache store) (qry : kr_query)
    (pre zone : list (list Z)) (rr : knot_rrset_t) (rr_sigs : option knot_rrset_t)
    (time ttl rank : Z) :
  api cache = cdb_map -> wf_labels (pre ++ zone) ->
  (forall i : nat, (i < length pre)%nat ->
     db cache !! exact_key (dname_of_labels (drop i (pre ++ zone))) KNOT_RRTYPE_NS
     = None) ->
  db cache !! exact_key (dname_of_labels zone) KNOT_RRTYPE_NS
  = Some (entry_bytes time ttl rank (presence_flags KNOT_RRTYPE_NS)
            (rr_payload rr rr_sigs)) ->
  storable (rrs rr) ->
  match rr_sigs with Some s => storable (rrs s) | None => True end ->
  Int.in_u32 time -> 0 <= ttl < 2 ^ 31 ->
  kr_rank_test rank KR_RANK_BOGUS = false ->
  - 2 ^ 31 <= Int.u32 (timestamp qry) - time < 2 ^ 31 ->
  Z.max 0 (Int.u32 (timestamp qry) - time) <= ttl ->
  (pre = [] -> stype qry <> KNOT_RRTYPE_DS) ->
  exists (k' : key) (cache' : kr_cache store) (trace : list (bool * list Z)),
    @closest_NS _ H R (spec_impl keep_old other) cache qry
      (peek_key (dname_of_labels (pre ++ zone)))
    = Some (Some (entry_bytes time ttl rank (presence_flags KNOT_RRTYPE_NS)
                    (rr_payload rr rr_sigs)),
            k', cache', trace)
    /\ length trace = S (length pre)
    /\ k_type k' = KNOT_RRTYPE_NS /\ zname k' = dname_of_labels zone
    /\ zlf_len k' = len (lf_of_labels zone)
    /\ db cache' = db cache.
Proof.
  intros Ha Hwf Hmiss Hval Hsr Hss Htime Httl Hbog Hd Hfresh HDS.
  destruct (peek_key_at (pre ++ zone) Hwf) as [Hk Hb0].
  unfold closest_NS. rewrite Hb0.
  assert (Hz : zname (peek_key (dname_of_labels (pre ++ zone)))
               = dname_of_labels (pre ++ zone)) by (by destruct Hk).
  rewrite Hz.
  assert (Httl' : Int.in_u32 ttl) by (unfold Int.in_u32; lia).
  assert (Hss' : match rrs <$> rr_sigs with Some s => storable s | None => True end)
    by (by destruct rr_sigs).
  edestruct (closest_NS_loop_zone (spec_impl keep_old other) qry zone
               (entry_bytes time ttl rank (presence_flags KNOT_RRTYPE_NS)
                  (rr_payload rr rr_sigs))
               (entry_bytes time ttl rank (presence_flags KNOT_RRTYPE_NS)
                  (rr_payload rr rr_sigs))
               KNOT_RRTYPE_NS pre (S (length (dname_of_labels (pre ++ zone)))) cache
               (peek_key (dname_of_labels (pre ++ zone)))
               (len (lf_of_labels (pre ++ zone))) true [] [KNOT_RRTYPE_NS])
    as (k' & c' & tr & E & Hlen & Hty & Hzn & Hzl & Ha' & Hdb); try done.
  - by apply entry_h_consistent_bytes.
  - apply (closest_NS_types_single keep_old other _ qry (dname_of_labels zone)
             KNOT_RRTYPE_NS time ttl rank (rrs rr) (rrs <$> rr_sigs)); try done.
    + by left.
    + intros _. cbn [andb]. case_bool_decide as Hp; [|done].
      cbn [andb]. apply Z.eqb_neq. by apply HDS.
  - pose proof (labels_shorter (pre ++ zone)) as Hl. rewrite length_app in Hl. lia.
  - exists k', c', tr. by rewrite E.
Qed.

End ClosestNSZone.

Lemma ex_cache_ns_db :
  db ex_cache_ns
  = {[ @exact_key little_endian_host (dname_of_labels [[99; 111; 109]]) KNOT_RRTYPE_NS
       := entry_bytes 100 300 5 (presence_flags KNOT_RRTYPE_NS)
            (@rr_payload little_endian_host ex_ns_rrset None) ]}.
Proof. by vm_compute. Qed.

Lemma closest_NS_zone_cut_witness :
  exists (k' : key) (cache' : kr_cache store) (trace : list (bool * list Z)),
    @closest_NS _ little_endian_host spec_ranks ex_impl ex_cache_ns (ex_query 1 200)
      (peek_key ex_name)
    = Some (Some (entry_bytes 100 300 5 (presence_flags KNOT_RRTYPE_NS)
                    (@rr_payload little_endian_host ex_ns_rrset None)),
            k', cache', trace)
    /\ length trace = 2%nat
    /\ k_type k' = KNOT_RRTYPE_NS /\ zname k' = ex_zone.
Proof.
  assert (Hwf : wf_labels ([[101; 120; 97; 109; 112; 108; 101]] ++ [[99; 111; 109]]))
    by exact wf_labels_ex_name.
  assert (Hst : storable (rrs ex_ns_rrset)) by (apply storable_ex; vm_compute; reflexivity).
  assert (Htime : Int.in_u32 100) by (unfold Int.in_u32; lia).
  assert (Httl : 0 <= 300 < 2 ^ 31) by lia.
  assert (Hd : - 2 ^ 31 <= Int.u32 (timestamp (ex_query 1 200)) - 100 < 2 ^ 31)
    by (vm_compute; split; [discriminate|reflexivity]).
  assert (Hfresh : Z.max 0 (Int.u32 (timestamp (ex_query 1 200)) - 100) <= 300)
    by (vm_compute; discriminate).
  assert (Hmiss : forall i : nat,
            (i < length [[101; 120; 97; 109; 112; 108; 101]])%nat ->
            db ex_cache_ns
              !! @exact_key little_endian_host
                   (dname_of_labels
                      (drop i ([[101; 120; 97; 109; 112; 108; 101]] ++ [[99; 111; 109]])))
                   KNOT_RRTYPE_NS
            = None).
  { intros [|i] Hi; [|simpl in Hi; lia]. rewrite ex_cache_ns_db.
    apply lookup_singleton_ne. by vm_compute. }
  assert (Hval : db ex_cache_ns
                   !! @exact_key little_endian_host (dname_of_labels [[99; 111; 109]])
                        KNOT_RRTYPE_NS
                 = Some (entry_bytes 100 300 5 (presence_flags KNOT_RRTYPE_NS)
                           (@rr_payload little_endian_host ex_ns_rrset None))).
  { rewrite ex_cache_ns_db. apply lookup_singleton_eq. }
  destruct (@closest_NS_zone_cut little_endian_host spec_ranks (fun _ _ _ => false)
              null_impl ex_cache_ns (ex_query 1 200)
              [[101; 120; 97; 109; 112; 108; 101]] [[99; 111; 109]] ex_ns_rrset None
              100 300 5 eq_refl Hwf Hmiss Hval Hst I Htime Httl eq_refl Hd Hfresh
              ltac:(discriminate))
    as (k' & c' & tr & E & Hlen & Hty & Hz & _).
  exists k', c', tr. done.
Defined.

Section PeekCname.
Context {H : host} {R : kr_rank_enc}.

(** The key with which [cache_peek_real] enters [closest_NS], whatever the
    buffer held before. *)
Lemma key_at_lf (k : key) (ls : list (list Z)) :
  wf_labels ls -> length (buf k) = 260%nat ->
  let k1 := set_zname k (dname_of_labels ls) in
  let k2 := set_buf k1 (snd (kr_dname_lf_spec (buf k1) (zname k1) false)) in
  key_at k2 (len (lf_of_labels ls)) ls
  /\ Bytes.byte_at (buf k2) 0 = len (lf_of_labels ls)
  /\ zname k2 = dname_of_labels ls.
Proof.
  intros Hwf Hlen. cbn [set_zname zname buf set_buf].
  rewrite kr_dname_lf_spec_labels by done. cbn [snd].
  pose proof (lf_of_labels_bound ls Hwf) as Hb.
  pose proof (len_nonneg (lf_of_labels ls)) as Hnn.
  rewrite poke_all_spec; [|lia|rewrite len_cons; unfold len in *; lia].
  cbn [Z.to_nat take app].
  split; [|done]. split; [done|]. split; [done|]. split.
  - rewrite len_cons. simpl. rewrite length_app, length_drop.
    unfold len in *. lia.
  - by eexists _, _.
Qed.

(** [answer_simple_hit] on the entry of a record set: the packet gets the
    question of the query and the record set, with its signatures, under
    the owner asked and the type given. *)
Lemma answer_simple_hit_entry (keep_old : entry_h -> Z -> Z -> bool)
    (other : cache_impl store) (ctx : kr_layer_t store) (pkt : knot_pkt_t)
    (qry : kr_query) (rr : knot_rrset_t) (rr_sigs : option knot_rrset_t)
    (time ttl rank fl new_ttl : Z) :
  sname qry = owner rr -> rclass rr = KNOT_CLASS_IN ->
  storable (rrs rr) ->
  match rr_sigs with Some s => storable (rrs s) | None => True end ->
  Int.in_u32 time -> Int.in_u32 ttl -> 0 <= new_ttl < 2 ^ 31 ->
  @answer_simple_hit _ R (spec_impl keep_old other) ctx qry pkt (rr_type rr)
    (entry_bytes time ttl rank fl (rr_payload rr rr_sigs)) new_ttl
  = (kr_ok, set_flags qry (served_flags (flags qry) rank (is_expiring_spec ttl new_ttl)),
     asked_for (stype qry) (answer_pkt rr (default [] (rrs <$> rr_sigs)) new_ttl)).
Proof.
  intros Hn Hcl Hsr Hss Htime Httl Hnew.
  assert (Hss' : match rrs <$> rr_sigs with Some s => storable s | None => True end)
    by (by destruct rr_sigs).
  unfold answer_simple_hit, rr_payload.
  cbn [pkt_renew entry2answer pkt_append is_expiring spec_impl].
  unfold pkt_renew_spec. change (0 <? 0) with false. cbv iota.
  unfold entry2answer_spec. rewrite entry_h_view_bytes by done.
  cbn [eh_data eh_rank eh_ttl].
  assert (Hu : Int.u32 new_ttl = new_ttl) by (apply u32_id; unfold Int.in_u32; lia).
  rewrite Hu.
  destruct (payload_materialize (rrs rr) (rrs <$> rr_sigs) new_ttl Hsr Hss') as [-> ->].
  change (0 <? 0) with false. cbv iota.
  unfold pkt_append_spec, slot, answer_zero, answer_pkt, served_flags, asked_for. cbn.
  rewrite Hn, Hcl. reflexivity.
Qed.

(** A CNAME at the name asked answers a query for another type.  The store
    of the map backend has nothing under the key of the name and type
    asked, and a fresh CNAME set [rr], not bogus and of a rank of at least
    INSECURE|AUTH, under the NS key of the name.  [cache_peek] then is
    DONE: the packet has the question of the query and the CNAME with its
    signatures, with the TTL that is left, and the query is flagged as
    served from the cache.  The rank floor of the request is not
    consulted. *)
Theorem cache_peek_cname (keep_old : entry_h -> Z -> Z -> bool)
    (other : cache_impl store) (ctx : kr_layer_t store) (pkt : knot_pkt_t)
    (qry : kr_query) (rr : knot_rrset_t) (rr_sigs : option knot_rrset_t)
    (time ttl rank : Z) (ls : list (list Z)) :
  current_query (ctx_req ctx) = Some qry ->
  api (ctx_cache (req_ctx (ctx_req ctx))) = cdb_map ->
  rr_type rr = KNOT_RRTYPE_CNAME -> rclass rr = KNOT_CLASS_IN ->
  owner rr = dname_of_labels ls -> wf_labels ls ->
  check_dname_for_lf (owner rr) = true ->
  db (ctx_cache (req_ctx (ctx_req ctx))) !! exact_key (owner rr) (stype qry) = None ->
  db (ctx_cache (req_ctx (ctx_req ctx))) !! exact_key (owner rr) KNOT_RRTYPE_CNAME
  = Some (entry_bytes time ttl rank (presence_flags KNOT_RRTYPE_CNAME)
            (rr_payload rr rr_sigs)) ->
  sname qry = owner rr -> sclass qry = KNOT_CLASS_IN ->
  check_rrtype (stype qry) = true -> stype qry <> KNOT_RRTYPE_NSEC ->
  Z.land (state ctx) (Z.lor KR_STATE_FAIL KR_STATE_DONE) = 0 ->
  NO_CACHE (flags qry) = false ->
  CACHE_TRIED (flags qry) && negb (bool_decide (is_Some (stale_cb qry))) = false ->
  storable (rrs rr) ->
  match rr_sigs with Some s => storable (rrs s) | None => True end ->
  Int.in_u32 time -> 0 <= ttl < 2 ^ 31 ->
  kr_rank_test rank KR_RANK_BOGUS = false ->
  Z.lor KR_RANK_INSECURE KR_RANK_AUTH <= rank ->
  - 2 ^ 31 <= Int.u32 (timestamp qry) - time < 2 ^ 31 ->
  Z.max 0 (Int.u32 (timestamp qry) - time) <= ttl ->
  let new_ttl := ttl - Z.max 0 (Int.u32 (timestamp qry) - time) in
  exists ctx',
    @cache_peek _ H R (spec_impl keep_old other) ctx pkt
    = (KR_STATE_DONE, ctx',
       asked_for (stype qry) (answer_pkt rr (default [] (rrs <$> rr_sigs)) new_ttl))
    /\ current_query (ctx_req ctx')
       = Some (set_flags qry
                 (served_flags (flags (set_CACHE_TRIED qry)) rank
                    (is_expiring_spec ttl new_ttl)))
    /\ db (ctx_cache (req_ctx (ctx_req ctx'))) = db (ctx_cache (req_ctx (ctx_req ctx))).
Proof.
  intros Hq Ha Hrt Hcl Ho Hwf Hlf Hmiss Hval Hn Hc Hty Hns Hst Hnc Htr Hsr Hss
    Htime Httl Hbog Hrank Hd Hfresh new_ttl.
  assert (Httl' : Int.in_u32 ttl) by (unfold Int.in_u32; lia).
  assert (Hss' : match rrs <$> rr_sigs with Some s => storable s | None => True end)
    by (by destruct rr_sigs).
  assert (HCN : KNOT_RRTYPE_CNAME <> KNOT_RRTYPE_RRSIG) by discriminate.
  assert (HNS : KNOT_RRTYPE_NS <> KNOT_RRTYPE_RRSIG) by discriminate.
  unfold cache_peek. rewrite Hq, Hst, Hnc, Htr, Hc, Hty.
  change (0 =? 0) with true. change (KNOT_CLASS_IN =? KNOT_CLASS_IN) with true.
  cbn [negb orb andb].
  unfold cache_peek_real.
  cbn [stype sname timestamp set_CACHE_TRIED set_flags].
  rewrite Hn, Hlf.
  destruct (Z.eqb_spec (stype qry) KNOT_RRTYPE_NSEC) as [|_]; [done|].
  cbn [negb kr_dname_lf spec_impl].
  unfold exact_key in Hmiss.
  rewrite Ho in Hmiss, Hval |- *. rewrite kr_dname_lf_spec_labels in Hmiss |- * by done.
  change (0 =? 0) with true. cbn [negb].
  set (b0 := Bytes.poke_all 0 (len (lf_of_labels ls) :: lf_of_labels ls) (buf k_storage))
    in *.
  pose proof (key_exact_type_maypkt_buf_length (set_buf k_storage b0) (stype qry)) as Hbl.
  destruct (key_exact_type_maypkt (set_buf k_storage b0) (stype qry)) as [key k] eqn:Ekey.
  cbn [fst snd set_buf buf] in Hmiss, Hbl.
  assert (Hb0 : length b0 = 260%nat) by (unfold b0; by rewrite poke_all_length).
  rewrite Hb0 in Hbl.
  rewrite (cache_op_read_none _ _ Ha Hmiss).
  change (- ENOENT =? 0) with false. change (- ENOENT =? - Z.abs ENOENT) with true.
  cbn [negb andb].
  cbn [sname set_CACHE_TRIED set_flags zname set_zname]. rewrite Hn, Ho.
  set (c1 := set_db (ctx_cache (req_ctx (ctx_req ctx))) _ _).
  destruct (key_at_lf k ls Hwf Hbl) as (Hk1 & Hbyte & Hz1).
  cbv zeta in Hk1, Hbyte, Hz1. cbn [set_zname zname buf] in Hk1, Hbyte, Hz1.
  set (k1 := set_buf (set_zname k (dname_of_labels ls)) _) in *.
  pose (qry1 := set_CACHE_TRIED qry).
  set (val := entry_bytes time ttl rank (presence_flags KNOT_RRTYPE_CNAME)
                (rr_payload rr rr_sigs)) in *.
  assert (Hval1 : db c1 !! exact_key (dname_of_labels ls) KNOT_RRTYPE_NS = Some val).
  { unfold c1. cbn [set_db db]. rewrite <- Hval.
    by rewrite !exact_key_bytes. }
  assert (Hcons : entry_h_consistent val KNOT_RRTYPE_NS = Some (entry_h_view val)).
  { rewrite entry_h_consistent_accepted,
      <- (entry_h_consistent_accepted val KNOT_RRTYPE_CNAME).
    by apply entry_h_consistent_bytes. }
  assert (Hscan : @closest_NS_types _ H R (spec_impl keep_old other) 3 0
                    (true && bool_decide (@nil (list Z) = [])) qry1
                    (dname_of_labels ls) (entry_h_view val) val []
                  = (ScanFound KNOT_RRTYPE_CNAME val, [KNOT_RRTYPE_CNAME])).
  { apply (closest_NS_types_single keep_old other true qry1 (dname_of_labels ls)
             KNOT_RRTYPE_CNAME time ttl rank (rrs rr) (rrs <$> rr_sigs)); try done.
    by right. }
  assert (Hmiss1 : forall i : nat, (i < length (@nil (list Z)))%nat ->
            db c1 !! exact_key (dname_of_labels (drop i ([] ++ ls))) KNOT_RRTYPE_NS = None)
    by (intros i Hi; simpl in Hi; lia).
  assert (Hfuel : (length (@nil (list Z)) < S (length (zname k1)))%nat)
    by (cbn [length]; lia).
  rewrite <- Hbyte in Hk1.
  destruct (closest_NS_loop_zone (spec_impl keep_old other) qry1 ls val val
              KNOT_RRTYPE_CNAME [] (S (length (zname k1))) c1 k1
              (Bytes.byte_at (buf k1) 0) true [] [KNOT_RRTYPE_CNAME]
              Ha Hwf Hk1 Hmiss1 Hval1 Hcons Hscan Hfuel)
    as (k' & c' & tr & E & _ & Hkt & _ & _ & Ha' & Hdb').
  unfold closest_NS. fold qry1. rewrite E, Hkt.
  change (KNOT_RRTYPE_CNAME =? KNOT_RRTYPE_CNAME) with true. cbv iota.
  change (- ENOENT =? 0) with false. change (- ENOENT =? - Z.abs ENOENT) with true.
  cbn [negb andb default from_option]. unfold id.
  change (timestamp qry1) with (timestamp qry).
  assert (Hget : get_new_ttl (entry_h_view val) (Some qry1) (Some (dname_of_labels ls))
                   KNOT_RRTYPE_CNAME (timestamp qry) = new_ttl).
  { rewrite get_new_ttl_fresh; unfold val; rewrite entry_h_view_bytes by done;
      cbn [eh_time eh_ttl]; done. }
  rewrite Hget.
  pose proof (answer_simple_hit_entry keep_old other ctx pkt qry1 rr rr_sigs time ttl
                rank (presence_flags KNOT_RRTYPE_CNAME) new_ttl) as Hans.
  rewrite Hrt in Hans. fold val in Hans.
  rewrite Hans by (try done; try exact Hn; unfold new_ttl; lia).
  change (kr_ok =? kr_ok) with true. cbv iota.
  unfold kr_cache_sync, set_db. rewrite Ha'. cbn [api cdb_sync cdb_map db].
  eexists. split; [reflexivity|].
  cbn [ctx_req set_req current_query set_cache set_current_query req_ctx ctx_cache db].
  split; [done|]. by rewrite Hdb'.
Qed.

End PeekCname.

Lemma ex_cache_cname_entry :
  db ex_cache_cname !! @exact_key little_endian_host ex_name 1 = None
  /\ db ex_cache_cname !! @exact_key little_endian_host ex_name KNOT_RRTYPE_CNAME
     = Some (entry_bytes 100 300 5 (presence_flags KNOT_RRTYPE_CNAME)
               (@rr_payload little_endian_host
                  (ex_rrset KNOT_RRTYPE_CNAME 300 [3; 119; 119; 119; 0]) None)).
Proof. by vm_compute. Qed.

Lemma cache_peek_cname_witness :
  exists ctx',
    @cache_peek _ little_endian_host spec_ranks ex_impl
      (ex_ctx ex_cache_cname (ex_query 1 200)) ex_pkt
    = (KR_STATE_DONE, ctx',
       asked_for 1
         (answer_pkt (ex_rrset KNOT_RRTYPE_CNAME 300 [3; 119; 119; 119; 0]) [] 200)).
Proof.
  assert (Hst : storable (rrs (ex_rrset KNOT_RRTYPE_CNAME 300 [3; 119; 119; 119; 0])))
    by (apply storable_ex; vm_compute; reflexivity).
  assert (Htime : Int.in_u32 100) by (unfold Int.in_u32; lia).
  assert (Httl : 0 <= 300 < 2 ^ 31) by lia.
  assert (Hrank : Z.lor (@KR_RANK_INSECURE spec_ranks) (@KR_RANK_AUTH spec_ranks) <= 5)
    by (vm_compute; discriminate).
  assert (Hd : - 2 ^ 31 <= Int.u32 (timestamp (ex_query 1 200)) - 100 < 2 ^ 31)
    by (vm_compute; split; [discriminate|reflexivity]).
  assert (Hfresh : Z.max 0 (Int.u32 (timestamp (ex_query 1 200)) - 100) <= 300)
    by (vm_compute; discriminate).
  assert (Hns : stype (ex_query 1 200) <> KNOT_RRTYPE_NSEC) by discriminate.
  destruct ex_cache_cname_entry as [Hmiss Hval].
  destruct (@cache_peek_cname little_endian_host spec_ranks (fun _ _ _ => false)
              null_impl (ex_ctx ex_cache_cname (ex_query 1 200)) ex_pkt
              (ex_query 1 200) (ex_rrset KNOT_RRTYPE_CNAME 300 [3; 119; 119; 119; 0])
              None 100 300 5 [[101; 120; 97; 109; 112; 108; 101]; [99; 111; 109]]
              eq_refl eq_refl eq_refl eq_refl eq_refl wf_labels_ex_name eq_refl
              Hmiss Hval eq_refl eq_refl eq_refl Hns eq_refl eq_refl eq_refl
              Hst I Htime Httl eq_refl Hrank Hd Hfresh)
    as (ctx' & E & _).
  exists ctx'. exact E.
Defined.

(** ** Wildcards: the key of an expansion *)

Lemma knot_dname_labels_of (ls : list (list Z)) :
  Forall wf_label ls -> knot_dname_labels (dname_of_labels ls) = Z.of_nat (length ls).
Proof.
  intros Hwf. unfold knot_dname_labels.
  rewrite dname_walk_labels by (done || apply labels_shorter).
  clear Hwf. induction ls as [|l ls IH]; [done|]. cbn [fold_right length]. lia.
Qed.

Lemma next_label_iter (pre encl : list (list Z)) :
  Nat.iter (length pre) knot_wire_next_label (dname_of_labels (pre ++ encl))
  = dname_of_labels encl.
Proof.
  induction pre as [|l pre IH]; [done|].
  cbn [length app]. rewrite Nat.iter_succ_r, next_label_cons. exact IH.
Qed.

(** The name of the wildcard under an encloser is not longer than a name
    under that encloser. *)
Lemma wf_labels_wild (pre encl : list (list Z)) :
  pre <> [] -> wf_labels (pre ++ encl) -> wf_labels ([42] :: encl).
Proof.
  intros Hp [Hwf Hlen]. destruct pre as [|l pre]; [done|].
  cbn [app] in Hwf, Hlen. inversion Hwf as [|? ? [Hl Hb] Hwf']; subst.
  apply Forall_app in Hwf' as [_ Hencl].
  split.
  - constructor; [|done]. split; [simpl; lia|].
    constructor; [unfold Bytes.is_byte; lia|constructor].
  - rewrite dname_of_labels_cons, len_app, len_cons in Hlen |- *.
    assert (Hle : len (dname_of_labels encl) <= len (dname_of_labels (pre ++ encl))).
    { clear. induction pre as [|p pre IH]; [done|].
      cbn [app]. rewrite dname_of_labels_cons, len_app, len_cons.
      unfold len in *. lia. }
    change (len [42]) with 1. unfold len in *. lia.
Qed.

(** [kr_dname_lf] with [add_wildcard] gives the label format of the name
    with the label [*] put before it. *)
Lemma kr_dname_lf_spec_wild (b : list Z) (ls : list (list Z)) :
  wf_labels ([42] :: ls) ->
  kr_dname_lf_spec b (dname_of_labels ls) true
  = (0, Bytes.poke_all 0 (len (lf_of_labels ([42] :: ls)) :: lf_of_labels ([42] :: ls)) b).
Proof.
  intros Hwf. rewrite <- (kr_dname_lf_spec_labels b ([42] :: ls) Hwf).
  destruct Hwf as [Hwf _]. inversion Hwf as [|? ? _ Hwf']; subst.
  unfold kr_dname_lf_spec.
  rewrite !dname_labels_of by (done || apply labels_shorter).
  by rewrite lf_of_labels_cons, app_nil_r.
Qed.

Section StashWild.
Context {H : host} {R : kr_rank_enc}.

(** The expansion of a wildcard is stored under the wildcard.  The
    signature of [rr] counts fewer labels than the owner has: the owner is
    [pre ++ encl] and the signature is over [encl] plus the wildcard.
    [stash_rrset] into a cache that has nothing under the key of
    [*.encl] and the type then writes the entry under that key and
    changes nothing else in the store. *)
Theorem stash_rrset_wildcard (keep_old : entry_h -> Z -> Z -> bool)
    (other : cache_impl store) (c : kr_cache store) (qs : option kr_query)
    (rr sigs : knot_rrset_t) (now rank : Z) (pre encl : list (list Z)) :
  api c = cdb_map ->
  owner rr = dname_of_labels (pre ++ encl) -> wf_labels (pre ++ encl) -> pre <> [] ->
  knot_rrsig_labels (rrs sigs) 0 = Z.of_nat (length encl) ->
  rr_type rr <> KNOT_RRTYPE_RRSIG -> rr_type rr <> KNOT_RRTYPE_NSEC ->
  rr_type rr <> KNOT_RRTYPE_NSEC3 ->
  db c !! exact_key (dname_of_labels ([42] :: encl)) (rr_type rr) = None ->
  exists c' : kr_cache store,
    @stash_rrset _ H R (spec_impl keep_old other) c qs rr (Some sigs) now rank
    = (ENTRY_H_DATA + len (rr_payload rr (Some sigs)), c')
    /\ db c'
       = <[exact_key (dname_of_labels ([42] :: encl)) (rr_type rr)
           := entry_bytes (Int.u32 now) (clamp_ttl c (rrset_ttl rr (Some sigs)))
                (Int.u8 rank) (presence_flags (rr_type rr))
                (rr_payload rr (Some sigs))]> (db c).
Proof.
  intros Ha Ho Hwf Hp Hsl Ht1 Ht2 Ht3 Hk.
  pose proof (wf_labels_wild pre encl Hp Hwf) as Hwild.
  unfold stash_rrset.
  assert (Hw : knot_dname_labels (owner rr) - knot_rrsig_labels (rrs sigs) 0
               = Z.of_nat (length pre)).
  { rewrite Ho, knot_dname_labels_of by (by destruct Hwf). rewrite Hsl, length_app. lia. }
  rewrite Hw. cbv zeta.
  destruct (Z.ltb_spec (Z.of_nat (length pre)) 0); [lia|].
  assert (Hnz : (Z.of_nat (length pre) =? 0) = false).
  { apply Z.eqb_neq. destruct pre; [done|]. cbn [length]. lia. }
  rewrite Hnz, Nat2Z.id, Ho, next_label_iter. cbn [negb].
  destruct (Z.eqb_spec (rr_type rr) KNOT_RRTYPE_NSEC) as [|_]; [done|].
  cbn [kr_dname_lf spec_impl].
  unfold exact_key in Hk.
  rewrite kr_dname_lf_spec_labels in Hk by done.
  rewrite kr_dname_lf_spec_wild by done.
  change (0 =? 0) with true. cbn [negb].
  set (lf := lf_of_labels ([42] :: encl)) in *.
  destruct (key_exact_type_k_type
              (set_buf k_storage (Bytes.poke_all 0 (len lf :: lf) (buf k_storage)))
              (rr_type rr) Ht1 Ht2 Ht3) as (-> & Hkt & _).
  destruct (key_exact_type_maypkt _ (rr_type rr)) as [key k] eqn:Ekey.
  cbn [fst snd] in Hk, Hkt. rewrite Hkt.
  cbn [entry_h_splice rdataset_dematerialize_size rdataset_dematerialize spec_impl].
  unfold rdataset_dematerialize_size_spec.
  set (p1 := snd (rdataset_dematerialize_spec (Some (rrs rr)))).
  set (p2 := snd (rdataset_dematerialize_spec (rrs <$> Some sigs))).
  rewrite entry_h_splice_spec_fresh;
    [|done|done|pose proof (len_nonneg p1); pose proof (len_nonneg p2);
                unfold ENTRY_H_DATA; lia].
  change (0 =? 0) with true.
  cbn [negb ref_key ref_off api db set_db stats set_stats oplog ttl_min ttl_max].
  subst p1 p2.
  pose proof (rdataset_dematerialize_ok (Some (rrs rr))) as Hr1.
  pose proof (rdataset_dematerialize_ok (rrs <$> Some sigs)) as Hr2.
  destruct (rdataset_dematerialize_spec (Some (rrs rr))) as [ret1 p1] eqn:E1.
  destruct (rdataset_dematerialize_spec (rrs <$> Some sigs)) as [ret2 p2] eqn:E2.
  cbn [fst snd] in Hr1, Hr2 |- *. subst ret1 ret2.
  change (0 =? 0) with true. cbn [negb].
  cbn [cdb_store cdb_map]. rewrite !alter_insert_eq.
  rewrite !Z.add_0_l.
  rewrite hole_filled by done.
  assert (Ep : exact_key (dname_of_labels ([42] :: encl)) (rr_type rr) = key).
  { unfold exact_key. rewrite kr_dname_lf_spec_labels by done. fold lf. by rewrite Ekey. }
  eexists. split.
  - unfold rr_payload. rewrite E1, E2. cbn [snd]. rewrite len_app, Z.add_assoc.
    reflexivity.
  - unfold set_stats, set_db. cbn [db].
    unfold rr_payload, clamp_ttl, rrset_ttl. rewrite Ep, E1, E2. cbn [snd].
    reflexivity.
Qed.

End StashWild.
Section TryWild.
Context {H : host} {R : kr_rank_enc}.

(** [key_exact_type] on a buffer that holds the label format [lf] from
    [buf[1]] on and its length in [buf[0]]. *)
Lemma key_exact_type_in_buffer (k : key) (lf rest : list Z) (type : Z) :
  type <> KNOT_RRTYPE_RRSIG -> type <> KNOT_RRTYPE_NSEC -> type <> KNOT_RRTYPE_NSEC3 ->
  len lf <= 255 -> length (buf k) = 260%nat ->
  buf k = len lf :: lf ++ rest ->
  fst (key_exact_type k type) = lf ++ [0; 69] ++ host_bytes 2 (key_type type).
Proof.
  intros Ht1 Ht2 Ht3 Hlf Hlen Hbuf.
  pose proof (len_nonneg lf) as Hnn.
  assert (Hb0 : Bytes.byte_at (buf k) 0 = len lf) by (by rewrite Hbuf).
  destruct (key_exact_type_k_type k type Ht1 Ht2 Ht3) as (-> & _).
  rewrite (key_exact_type_maypkt_eq k type)
    by (rewrite ?Hb0; unfold len in *; lia || done).
  rewrite Hb0. cbn [fst]. f_equal.
  rewrite Hbuf. change (len lf :: lf ++ rest) with ([len lf] ++ lf ++ rest).
  change 1 with (len [len lf]) at 1. apply slice_app_mid.
Qed.

(** [try_wild] finds the entry of the wildcard and expands it.  The key
    buffer is prepared as in [cache_peek_real], by [kr_dname_lf] of the
    encloser with the wildcard added.  When the store of the map backend
    has a fresh record set under the key of [*.encl] and the type, of a
    rank at or above the floor and not bogus, [try_wild] succeeds: the
    ANSWER slot gets the record set and its signatures under the name
    asked, with the TTL that is left, and the RCODE is NOERROR. *)
Theorem try_wild_expands (keep_old : entry_h -> Z -> Z -> bool)
    (other : cache_impl store) (k : key) (ans : answer) (cache : kr_cache store)
    (qry : kr_query) (rr : knot_rrset_t) (rr_sigs : option knot_rrset_t)
    (time ttl rank lowest_rank : Z) (encl : list (list Z)) :
  api cache = cdb_map -> wf_labels ([42] :: encl) -> length (buf k) = 260%nat ->
  db cache !! exact_key (dname_of_labels ([42] :: encl)) (rr_type rr)
  = Some (entry_bytes time ttl rank (presence_flags (rr_type rr))
            (rr_payload rr rr_sigs)) ->
  rr_type rr <> KNOT_RRTYPE_RRSIG -> rr_type rr <> KNOT_RRTYPE_NSEC ->
  rr_type rr <> KNOT_RRTYPE_NSEC3 ->
  storable (rrs rr) ->
  match rr_sigs with Some s => storable (rrs s) | None => True end ->
  Int.in_u32 time -> 0 <= ttl < 2 ^ 31 ->
  kr_rank_test rank KR_RANK_BOGUS = false ->
  lowest_rank <= rank ->
  - 2 ^ 31 <= Int.u32 (timestamp qry) - time < 2 ^ 31 ->
  Z.max 0 (Int.u32 (timestamp qry) - time) <= ttl ->
  let new_ttl := ttl - Z.max 0 (Int.u32 (timestamp qry) - time) in
  exists (k' : key) (cache' : kr_cache store),
    @try_wild _ H R (spec_impl keep_old other)
      (set_buf k (snd (kr_dname_lf_spec (buf k) (dname_of_labels encl) true)))
      ans (dname_of_labels encl) (rr_type rr) lowest_rank qry cache
    = (kr_ok, k',
       {| rcode := @PKT_NOERROR _ (spec_impl keep_old other); nsec_v := nsec_v ans;
          rrsets :=
            <[Z.to_nat AR_ANSWER :=
                {| set_rr := Some {| owner := sname qry; rr_type := rr_type rr;
                                     rclass := KNOT_CLASS_IN;
                                     rrs := with_ttl new_ttl (rrs rr) |};
                   set_rank := rank;
                   set_expiring := is_expiring_spec ttl new_ttl;
                   sig_rds := with_ttl new_ttl (default [] (rrs <$> rr_sigs)) |}]>
              (rrsets ans) |},
       cache')
    /\ db cache' = db cache.
Proof.
  intros Ha Hwf Hlen Hval Ht1 Ht2 Ht3 Hsr Hss Htime Httl Hbog Hrank Hd Hfresh new_ttl.
  assert (Httl' : Int.in_u32 ttl) by (unfold Int.in_u32; lia).
  assert (Hss' : match rrs <$> rr_sigs with Some s => storable s | None => True end)
    by (by destruct rr_sigs).
  rewrite kr_dname_lf_spec_wild by done. cbn [snd].
  set (lf := lf_of_labels ([42] :: encl)).
  pose proof (lf_of_labels_bound _ Hwf) as Hb. fold lf in Hb.
  assert (Hbuf : Bytes.poke_all 0 (len lf :: lf) (buf k)
                 = len lf :: lf ++ drop (Z.to_nat (0 + len (len lf :: lf))) (buf k)).
  { rewrite poke_all_spec; [done|lia|rewrite len_cons; unfold len in *; lia]. }
  set (k1 := set_buf k _).
  assert (Hlen1 : length (buf k1) = 260%nat)
    by (unfold k1; cbn [set_buf buf]; by rewrite poke_all_length).
  pose proof (key_exact_type_in_buffer k1 lf _ (rr_type rr) Ht1 Ht2 Ht3
                ltac:(lia) Hlen1 Hbuf) as Hkey.
  rewrite <- (exact_key_bytes ([42] :: encl) (rr_type rr) Hwf Ht1) in Hkey.
  clearbody k1.
  unfold try_wild.
  destruct (key_exact_type k1 (rr_type rr)) as [key k2]. cbn [fst] in Hkey. subst key.
  unfold cache_op_read. rewrite Ha. cbn [cdb_read cdb_map]. rewrite Hval.
  change (0 =? 0) with true. cbv iota.
  cbn [entry_h_seek spec_impl]. unfold rr_payload.
  rewrite (entry_h_seek_spec_single time ttl rank (rr_type rr) (rrs rr) (rrs <$> rr_sigs))
    by done.
  change (0 =? 0) with true. cbn [negb].
  rewrite entry_h_consistent_bytes by done.
  rewrite get_new_ttl_fresh
    by (rewrite entry_h_view_bytes by done; cbn [eh_time eh_ttl]; done).
  rewrite entry_h_view_bytes by done. cbn [eh_ttl eh_time eh_rank is_packet].
  fold new_ttl.
  destruct (Z.ltb_spec new_ttl 0); [unfold new_ttl in *; lia|].
  destruct (Z.ltb_spec rank lowest_rank); [lia|]. cbn [orb].
  destruct (presence_flags_bits (rr_type rr)) as (-> & _).
  cbn [entry2answer spec_impl]. unfold entry2answer_spec.
  rewrite entry_h_view_bytes by done. cbn [eh_data eh_rank eh_ttl].
  assert (Hu : Int.u32 new_ttl = new_ttl)
    by (apply u32_id; unfold Int.in_u32, new_ttl in *; lia).
  rewrite Hu.
  destruct (payload_materialize (rrs rr) (rrs <$> rr_sigs) new_ttl Hsr Hss') as [-> ->].
  change (0 =? 0) with true. cbn [negb rcode nsec_v rrsets].
  eexists _, _. split; [reflexivity|done].
Qed.

End TryWild.
Lemma stash_rrset_wildcard_witness :
  exists c' : kr_cache store,
    @stash_rrset _ little_endian_host spec_ranks ex_impl ex_cache None
      (ex_rrset 1 300 [192; 0; 2; 1]) (Some ex_wild_sigs) 100 5
    = (ENTRY_H_DATA
       + len (@rr_payload little_endian_host (ex_rrset 1 300 [192; 0; 2; 1])
                (Some ex_wild_sigs)), c')
    /\ db c'
       = <[@exact_key little_endian_host (dname_of_labels [[42]; [99; 111; 109]]) 1
           := entry_bytes (Int.u32 100)
                (clamp_ttl ex_cache
                   (rrset_ttl (ex_rrset 1 300 [192; 0; 2; 1]) (Some ex_wild_sigs)))
                (Int.u8 5) (presence_flags 1)
                (@rr_payload little_endian_host (ex_rrset 1 300 [192; 0; 2; 1])
                   (Some ex_wild_sigs))]> (db ex_cache).
Proof.
  assert (Hwf : wf_labels ([[101; 120; 97; 109; 112; 108; 101]] ++ [[99; 111; 109]]))
    by exact wf_labels_ex_name.
  assert (Hp : [[101; 120; 97; 109; 112; 108; 101]] <> @nil (list Z)) by discriminate.
  assert (H1 : rr_type (ex_rrset 1 300 [192; 0; 2; 1]) <> KNOT_RRTYPE_RRSIG)
    by discriminate.
  assert (H2 : rr_type (ex_rrset 1 300 [192; 0; 2; 1]) <> KNOT_RRTYPE_NSEC)
    by discriminate.
  assert (H3 : rr_type (ex_rrset 1 300 [192; 0; 2; 1]) <> KNOT_RRTYPE_NSEC3)
    by discriminate.
  exact (@stash_rrset_wildcard little_endian_host spec_ranks (fun _ _ _ => false)
           null_impl ex_cache None (ex_rrset 1 300 [192; 0; 2; 1]) ex_wild_sigs 100 5
           [[101; 120; 97; 109; 112; 108; 101]] [[99; 111; 109]]
           eq_refl eq_refl Hwf Hp eq_refl H1 H2 H3 eq_refl).
Defined.

Lemma ex_cache_wild_entry :
  db ex_cache_wild
     !! @exact_key little_endian_host (dname_of_labels [[42]; [99; 111; 109]]) 1
  = Some (entry_bytes 100 300 5 (presence_flags 1)
            (@rr_payload little_endian_host (ex_rrset 1 300 [192; 0; 2; 1])
               (Some ex_wild_sigs))).
Proof. by vm_compute. Qed.

Lemma wf_labels_ex_wild : wf_labels [[42]; [99; 111; 109]].
Proof.
  apply (wf_labels_wild [[101; 120; 97; 109; 112; 108; 101]] [[99; 111; 109]]);
    [discriminate|exact wf_labels_ex_name].
Qed.

Lemma try_wild_expands_witness :
  exists (k' : key) (cache' : kr_cache store),
    @try_wild _ little_endian_host spec_ranks ex_impl
      (set_buf k_storage
         (snd (kr_dname_lf_spec (buf k_storage) (dname_of_labels [[99; 111; 109]]) true)))
      answer_zero (dname_of_labels [[99; 111; 109]]) 1 1 (ex_query 1 200) ex_cache_wild
    = (kr_ok, k',
       {| rcode := @PKT_NOERROR _ ex_impl; nsec_v := 0;
          rrsets :=
            [{| set_rr := Some (ex_rrset 1 200 [192; 0; 2; 1]);
                set_rank := 5; set_expiring := false;
                sig_rds := [{| rd_ttl := 200; rd_data := [0; 1; 8; 1] |}] |};
             answer_slot_zero; answer_slot_zero] |},
       cache').
Proof.
  assert (H1 : rr_type (ex_rrset 1 300 [192; 0; 2; 1]) <> KNOT_RRTYPE_RRSIG)
    by discriminate.
  assert (H2 : rr_type (ex_rrset 1 300 [192; 0; 2; 1]) <> KNOT_RRTYPE_NSEC)
    by discriminate.
  assert (H3 : rr_type (ex_rrset 1 300 [192; 0; 2; 1]) <> KNOT_RRTYPE_NSEC3)
    by discriminate.
  assert (Hst : storable (rrs (ex_rrset 1 300 [192; 0; 2; 1])))
    by (apply storable_ex; vm_compute; reflexivity).
  assert (Hss : storable (rrs ex_wild_sigs))
    by (apply storable_ex; vm_compute; reflexivity).
  assert (Htime : Int.in_u32 100) by (unfold Int.in_u32; lia).
  assert (Httl : 0 <= 300 < 2 ^ 31) by lia.
  assert (Hrank : 1 <= 5) by lia.
  assert (Hd : - 2 ^ 31 <= Int.u32 (timestamp (ex_query 1 200)) - 100 < 2 ^ 31)
    by (vm_compute; split; [discriminate|reflexivity]).
  assert (Hfresh : Z.max 0 (Int.u32 (timestamp (ex_query 1 200)) - 100) <= 300)
    by (vm_compute; discriminate).
  destruct (@try_wild_expands little_endian_host spec_ranks (fun _ _ _ => false)
              null_impl k_storage answer_zero ex_cache_wild (ex_query 1 200)
              (ex_rrset 1 300 [192; 0; 2; 1]) (Some ex_wild_sigs) 100 300 5 1
              [[99; 111; 109]] eq_refl wf_labels_ex_wild eq_refl ex_cache_wild_entry
              H1 H2 H3 Hst Hss Htime Httl eq_refl Hrank Hd Hfresh)
    as (k' & c' & E & _).
  exists k', c'. exact E.
Defined.

Section StashLayer.
Context {H : host} {R : kr_rank_enc}.

(** [cache_stash] writes the record of the answer.  The request has
    selected one record set for the answer section, for the current query
    and not cached yet, and nothing for the other sections; the record set
    is cacheable, has no signature and the store of the map backend has
    nothing under its key; the packet cache takes nothing from the packet.
    [cache_stash] then returns the state it was called with, the store has
    gained the entry of the record set under the key of its owner and type,
    written at the time of the query with the rank of the selection, and
    the selection is marked as cached. *)
Theorem cache_stash_answer (keep_old : entry_h -> Z -> Z -> bool)
    (other : cache_impl store) (ctx : kr_layer_t store) (pkt : knot_pkt_t)
    (qry : kr_query) (e : ranked_rr_array_entry_t) (rr : knot_rrset_t)
    (ls : list (list Z)) :
  (forall req : kr_request store, @stash_pkt _ other pkt qry req = req) ->
  current_query (ctx_req ctx) = Some qry ->
  api (ctx_cache (req_ctx (ctx_req ctx))) = cdb_map ->
  answ_selected (ctx_req ctx) = [e] -> auth_selected (ctx_req ctx) = [] ->
  add_selected (ctx_req ctx) = [] ->
  entry_rr e = Some rr -> qry_uid e = uid qry -> cached e = false ->
  CACHED (flags qry) = false -> check_rrtype (knot_pkt_qtype pkt) = true ->
  sclass qry = KNOT_CLASS_IN -> knot_wire_get_tc pkt = false ->
  owner rr = dname_of_labels ls -> wf_labels ls ->
  check_dname_for_lf (owner rr) = true -> rclass rr = KNOT_CLASS_IN ->
  check_rrtype (rr_type rr) = true ->
  rr_type rr <> KNOT_RRTYPE_NSEC -> rr_type rr <> KNOT_RRTYPE_NSEC3 ->
  db (ctx_cache (req_ctx (ctx_req ctx))) !! exact_key (owner rr) (rr_type rr) = None ->
  exists ctx' : kr_layer_t store,
    @cache_stash _ H R (spec_impl keep_old other) ctx pkt = (state ctx, ctx')
    /\ answ_selected (ctx_req ctx') = [set_cached e]
    /\ db (ctx_cache (req_ctx (ctx_req ctx')))
       = <[exact_key (owner rr) (rr_type rr)
           := entry_bytes (Int.u32 (timestamp qry))
                (clamp_ttl (ctx_cache (req_ctx (ctx_req ctx))) (rrset_ttl rr None))
                (Int.u8 (e_rank e)) (presence_flags (rr_type rr))
                (rr_payload rr None)]>
            (db (ctx_cache (req_ctx (ctx_req ctx)))).
Proof.
  intros Hpkt Hq Ha Hans Hauth Hadd Hrr Huid Hcached Hfl Hqt Hc Htc Ho Hwf Hlf Hcl Hty
    Hns Hn3 Hk.
  pose proof (check_rrtype_not_RRSIG _ Hty) as Hsig.
  unfold cache_stash. rewrite Hq, Hfl, Hqt, Hc, Htc.
  change (KNOT_CLASS_IN =? KNOT_CLASS_IN) with true. cbn [negb orb].
  cbn [stash_sections].
  assert (Hsel : selected (ctx_req ctx) KNOT_ANSWER = [e]) by exact Hans.
  rewrite !Hsel. cbn [length stash_rrarray].
  change ([e] !! 0%nat) with (Some e). cbv iota.
  rewrite Huid, Z.eqb_refl. cbn [negb].
  unfold stash_rrarray_entry.
  change ([e] !! 0%nat) with (Some e). cbv iota. rewrite Hcached, Hrr.
  rewrite stash_rrset_precond_ok by done.
  change (1 <=? 0) with false. cbv iota.
  assert (Hfind : find_rrsigs [e] qry rr (length [e]) = None).
  { cbn [length find_rrsigs]. change ([e] !! 0%nat) with (Some e). cbv iota.
    rewrite Hrr.
    destruct (Z.eqb_spec (rr_type rr) KNOT_RRTYPE_RRSIG) as [|_]; [done|].
    by rewrite !andb_false_r. }
  rewrite Hfind.
  rewrite (stash_rrset_fresh keep_old other _ (Some qry) rr None (timestamp qry)
             (e_rank e) ls) by done.
  pose proof (payload_len_nonneg rr None) as Hp.
  destruct (Z.ltb_spec (ENTRY_H_DATA + len (rr_payload rr None)) 0);
    [unfold ENTRY_H_DATA in *; lia|].
  destruct (Z.gtb_spec (ENTRY_H_DATA + len (rr_payload rr None)) 0);
    [|unfold ENTRY_H_DATA in *; lia].
  cbn [alter list_alter]. change (kr_ok =? 0) with true. cbn [negb].
  unfold selected, set_selected.
  cbn [set_cache answ_selected auth_selected add_selected req_ctx ctx_cache
       current_query answer_cd trust_anchors].
  change (KNOT_AUTHORITY =? KNOT_ANSWER) with false.
  change (KNOT_AUTHORITY =? KNOT_AUTHORITY) with true.
  change (KNOT_ADDITIONAL =? KNOT_ANSWER) with false.
  change (KNOT_ADDITIONAL =? KNOT_AUTHORITY) with false.
  change (KNOT_ANSWER =? KNOT_ANSWER) with true.
  change (KNOT_ANSWER =? KNOT_AUTHORITY) with false.
  cbn [orb]. cbv iota. rewrite Hauth, Hadd.
  cbn [length stash_rrarray]. change (0 =? 0) with true. cbn [negb].
  cbn [stash_pkt spec_impl]. rewrite Hpkt.
  cbn [req_ctx ctx_cache].
  unfold kr_cache_sync, stashed, set_db. cbn [api cdb_sync cdb_map db].
  eexists. split; [reflexivity|].
  cbn [ctx_req set_req set_cache answ_selected req_ctx ctx_cache db]. done.
Qed.

End StashLayer.

Lemma cache_stash_answer_witness :
  exists ctx' : kr_layer_t store,
    @cache_stash _ little_endian_host spec_ranks ex_impl
      {| state := KR_STATE_DONE;
         ctx_req := {| req_ctx := {| ctx_cache := ex_cache; trust_anchors := [] |};
                       current_query := Some (ex_query 1 100); answer_cd := false;
                       answ_selected :=
                         [{| qry_uid := 1; e_rank := 5; cached := false;
                             entry_rr := Some (ex_rrset 1 300 [192; 0; 2; 1]) |}];
                       auth_selected := []; add_selected := [] |} |}
      ex_pkt
    = (KR_STATE_DONE, ctx')
    /\ answ_selected (ctx_req ctx')
       = [{| qry_uid := 1; e_rank := 5; cached := true;
             entry_rr := Some (ex_rrset 1 300 [192; 0; 2; 1]) |}]
    /\ db (ctx_cache (req_ctx (ctx_req ctx'))) = db ex_cache_a.
Proof.
  assert (Hns : rr_type (ex_rrset 1 300 [192; 0; 2; 1]) <> KNOT_RRTYPE_NSEC)
    by discriminate.
  assert (Hn3 : rr_type (ex_rrset 1 300 [192; 0; 2; 1]) <> KNOT_RRTYPE_NSEC3)
    by discriminate.
  destruct (@cache_stash_answer little_endian_host spec_ranks (fun _ _ _ => false)
              null_impl
              {| state := KR_STATE_DONE;
                 ctx_req := {| req_ctx := {| ctx_cache := ex_cache; trust_anchors := [] |};
                               current_query := Some (ex_query 1 100); answer_cd := false;
                               answ_selected :=
                                 [{| qry_uid := 1; e_rank := 5; cached := false;
                                     entry_rr := Some (ex_rrset 1 300 [192; 0; 2; 1]) |}];
                               auth_selected := []; add_selected := [] |} |}
              ex_pkt (ex_query 1 100)
              {| qry_uid := 1; e_rank := 5; cached := false;
                 entry_rr := Some (ex_rrset 1 300 [192; 0; 2; 1]) |}
              (ex_rrset 1 300 [192; 0; 2; 1])
              [[101; 120; 97; 109; 112; 108; 101]; [99; 111; 109]]
              (fun _ => eq_refl) eq_refl eq_refl eq_refl eq_refl eq_refl eq_refl eq_refl
              eq_refl eq_refl eq_refl eq_refl eq_refl eq_refl wf_labels_ex_name eq_refl
              eq_refl eq_refl Hns Hn3 eq_refl)
    as (ctx' & E & Hsel & Hdb).
  exists ctx'. split; [exact E|]. split; [exact Hsel|].
  rewrite Hdb. by vm_compute.
Defined.
